(** * Aaghaaz Tech LMS backend: authentication, authorization and registration

    A shallow embedding of the Express handlers of [routes/auth.mjs] and
    [routes/student.mjs], of the authorization gates of
    [middleware/auth.mjs] and [middleware/roleAuth.mjs], and of the
    Mongoose models they use; then of the handlers of
    [routes/course.mjs], of the two handlers of [routes/attendance.mjs]
    that record attendance, and of their models.

    Handlers are functions in a small state-and-exception monad over the
    document store.  Everything the handlers obtain from a package or from
    the platform (jsonwebtoken, bcrypt, speakeasy, cloudinary, jsPDF,
    qrcode, nodemailer, JSON.parse, the string functions of the schema
    setters, the clock, random numbers) is either modelled symbolically
    (signed tokens) or read from a record of oracles, so that every
    statement below holds for every behaviour of those services. *)

From Stdlib Require Import String Ascii List ZArith Bool Lia.
From Stdlib Require Import DecimalString.
Import ListNotations.

Local Open Scope string_scope.
Local Open Scope list_scope.

Infix "^^" := String.append (at level 60, right associativity).

Set Warnings "-register-all".

(** ** JavaScript values *)

Module Js.

(** Values that travel in request bodies, documents and response
    bodies.  [VNum z] is a whole number that JavaScript writes out in
    full (below 1e21 in absolute value); [VDate d] is a [Date] object
    at [d] seconds since the epoch. *)
Inductive value : Type :=
| VNull
| VBool (b : bool)
| VNum (z : Z)
| VStr (s : string)
| VDate (d : Z)
| VArr (l : list value)
| VObj (fields : list (string * value)).

(** A property read [o.k]; [None] is [undefined]. *)
Definition lookup {A : Type} (k : string) (o : list (string * A)) : option A :=
  match find (fun kv => String.eqb (fst kv) k) o with
  | Some kv => Some (snd kv)
  | None => None
  end.

(** An object literal; properties whose value is [undefined] are left
    out, as [JSON.stringify] does. *)
Fixpoint literal {A : Type} (fields : list (string * option A)) : list (string * A) :=
  match fields with
  | [] => []
  | (k, Some v) :: rest => (k, v) :: literal rest
  | (_, None) :: rest => literal rest
  end.

(** Truthiness of a string, and of a possibly undefined string. *)
Definition nonempty (s : string) : bool :=
  match s with EmptyString => false | String _ _ => true end.

Definition truthy_string (s : option string) : bool :=
  match s with Some s => nonempty s | None => false end.

(** Truthiness of a possibly undefined value. *)
Definition truthy (v : option value) : bool :=
  match v with
  | None | Some VNull => false
  | Some (VBool b) => b
  | Some (VNum z) => negb (Z.eqb z 0)
  | Some (VStr s) => nonempty s
  | Some (VDate _) | Some (VArr _) | Some (VObj _) => true
  end.

(** [a || b] on possibly undefined strings. *)
Definition or_string (a b : option string) : option string :=
  if truthy_string a then a else b.

Definition decimal (z : Z) : string := NilZero.string_of_int (Z.to_int z).

Fixpoint join (sep : string) (l : list string) : string :=
  match l with
  | [] => ""
  | [x] => x
  | x :: rest => x ^^ sep ^^ join sep rest
  end.

(** [v.toString()] for a value that has the method (not [null]). *)
Fixpoint toString (v : value) : string :=
  match v with
  | VNull => "null"
  | VBool true => "true"
  | VBool false => "false"
  | VNum z => decimal z
  | VStr s => s
  | VDate d => decimal d
  | VArr l =>
      join "," (map (fun x => match x with VNull => "" | _ => toString x end) l)
  | VObj _ => "[object Object]"
  end.

(** [Array.prototype.includes] on an array of strings. *)
Definition includes (l : list string) (s : string) : bool :=
  existsb (String.eqb s) l.

End Js.
Import Js.

(** A thrown [Error]: handlers read [error.name] and [error.message]. *)
Record js_error : Type := Error {
  name : string;
  message : string;
  http_code : option nat
}.

(** [new Error(msg)] *)
Definition plain_error (msg : string) : js_error := Error "Error" msg None.

(** ** Signed tokens (package jsonwebtoken, HS256) *)

Module Jwt.

(** Claims of a token payload. *)
Inductive claim : Type :=
| CNull
| CBool (b : bool)
| CNum (z : Z)
| CStr (s : string).

Definition payload := list (string * claim).

(** Symbolic model of a well-formed compact serialization: the payload
    it carries and the key its signature was computed with.  A
    signature verifies against exactly that key. *)
Record token : Type := Token { tok_payload : payload; tok_key : string }.

(** A JavaScript string in a position where tokens travel: either the
    compact serialization of a token, or a text that does not decode
    to one. *)
Inductive jsstr : Type :=
| Text (s : string)
| Compact (t : token).

Definition truthy_jsstr (s : option jsstr) : bool :=
  match s with
  | None => false
  | Some (Text s) => nonempty s
  | Some (Compact _) => true
  end.

Definition truthy_claim (c : option claim) : bool :=
  match c with
  | None | Some CNull => false
  | Some (CBool b) => b
  | Some (CNum z) => negb (Z.eqb z 0)
  | Some (CStr s) => nonempty s
  end.

(** [a || b] on claims. *)
Definition or_claim (a b : option claim) : option claim :=
  if truthy_claim a then a else b.

(** The claim names [sign] and [verify] give a meaning to. *)
Definition registered : list string := ["iat"; "exp"; "nbf"].

(** [jwt.sign(payload, key, { expiresIn })] at time [now] (seconds), for
    a payload without registered claims: the issue time and the expiry
    are added to the payload. *)
Definition sign (p : payload) (key : string) (expiresIn : Z) (now : Z) : token :=
  {| tok_payload := p ++ [("iat", CNum now); ("exp", CNum (now + expiresIn))];
     tok_key := key |}.

Definition JsonWebTokenError (msg : string) : js_error :=
  Error "JsonWebTokenError" msg None.
Definition TokenExpiredError : js_error :=
  Error "TokenExpiredError" "jwt expired" None.
Definition NotBeforeError : js_error :=
  Error "NotBeforeError" "jwt not active" None.

(** The expiry check of [verify]. *)
Definition check_exp (p : payload) (now : Z) : js_error + payload :=
  match lookup "exp" p with
  | None => inr p
  | Some (CNum exp) =>
      if (exp <=? now)%Z then inl TokenExpiredError else inr p
  | Some _ => inl (JsonWebTokenError "invalid exp value")
  end.

(** The length of [s.split('.')]. *)
Fixpoint parts (s : string) : nat :=
  match s with
  | EmptyString => 1
  | String c rest =>
      if Ascii.eqb c "." then S (parts rest) else parts rest
  end.

(** [jwt.verify(token, key)] at time [now]: structure, signature, then
    [nbf], then [exp]; the decoded payload is returned.  A text of
    three parts that does not decode is an invalid token. *)
Definition verify (s : jsstr) (key : string) (now : Z) : js_error + payload :=
  match s with
  | Text "" => inl (JsonWebTokenError "jwt must be provided")
  | Text s =>
      if Nat.eqb (parts s) 3
      then inl (JsonWebTokenError "invalid token")
      else inl (JsonWebTokenError "jwt malformed")
  | Compact t =>
      if negb (String.eqb (tok_key t) key)
      then inl (JsonWebTokenError "invalid signature")
      else
        let p := tok_payload t in
        match lookup "nbf" p with
        | None => check_exp p now
        | Some (CNum nbf) =>
            if (now <? nbf)%Z then inl NotBeforeError else check_exp p now
        | Some _ => inl (JsonWebTokenError "invalid nbf value")
        end
  end.

(** ['5m'] and ['24h'] in seconds. *)
Definition minutes5 : Z := 300.
Definition hours24 : Z := 86400.

End Jwt.
Import Jwt.

(** ** HTTP responses *)

(** A property of a response body: plain data or a signed token. *)
Inductive rvalue : Type :=
| Data (v : value)
| Tok (t : token).

Record response : Type := Response { status : nat; body : list (string * rvalue) }.

(** [res.status(code).json({ message })] *)
Definition message_only (code : nat) (msg : string) : response :=
  Response code [("message", Data (VStr msg))].

(** ** Configuration: [process.env] *)

Record config : Type := Config {
  JWT_SECRET : option string;
  SMTP_FROM : option string
}.

(** [process.env.JWT_SECRET || '121212'] *)
Definition secret_or_default (env : config) : string :=
  match or_string (JWT_SECRET env) (Some "121212") with
  | Some k => k
  | None => "121212"
  end.

(** ** Authorization gates *)

(** The identity a gate attaches to the request as [req.user]. *)
Record identity : Type := Identity {
  _id : option claim;
  role : option claim;
  email : option claim
}.

(** What a gate does with a request: answer it, or call [next()] with
    [req.user] set. *)
Inductive gate_result : Type :=
| Respond (r : response)
| Next (user : identity).

(** The credential of the [Authorization] header.  The header, when
    present, is taken to be of the form [Bearer c] with no blank and no
    further [Bearer ] in [c]; then both
    [req.header('Authorization')?.replace('Bearer ', '')] and
    [req.headers.authorization?.split(' ')[1]] are [c]. *)
Record headers : Type := Headers { authorization : option jsstr }.

Definition resolved (decoded : payload) : identity :=
  {| _id := or_claim (lookup "userId" decoded) (lookup "studentId" decoded);
     role := lookup "role" decoded;
     email := lookup "email" decoded |}.

Definition claim_is (c : option claim) (s : string) : bool :=
  match c with Some (CStr r) => String.eqb r s | _ => false end.

(** [roles.includes(decoded.role)] *)
Definition roles_include (roles : list string) (c : option claim) : bool :=
  match c with Some (CStr r) => includes roles r | _ => false end.

Module Middleware.

(** middleware/auth.mjs *)
Definition isAuthenticated (env : config) (now : Z) (req : headers) : gate_result :=
  match authorization req with
  | Some token =>
      if negb (truthy_jsstr (Some token))
      then Respond (message_only 401 "Authentication required")
      else
        match verify token (secret_or_default env) now with
        | inr decoded => Next (resolved decoded)
        | inl _ => Respond (message_only 401 "Invalid token")
        end
  | None => Respond (message_only 401 "Authentication required")
  end.

Definition isTeacher (env : config) (now : Z) (req : headers) : gate_result :=
  match authorization req with
  | Some token =>
      if negb (truthy_jsstr (Some token))
      then Respond (message_only 401 "Authentication required")
      else
        match verify token (secret_or_default env) now with
        | inr decoded =>
            if negb (claim_is (lookup "role" decoded) "teacher")
            then Respond (message_only 403 "Teacher access required")
            else Next (resolved decoded)
        | inl _ => Respond (message_only 401 "Invalid token")
        end
  | None => Respond (message_only 401 "Authentication required")
  end.

Definition isAdmin (env : config) (now : Z) (req : headers) : gate_result :=
  match authorization req with
  | Some token =>
      if negb (truthy_jsstr (Some token))
      then Respond (message_only 401 "Authentication required")
      else
        match verify token (secret_or_default env) now with
        | inr decoded =>
            if negb (claim_is (lookup "role" decoded) "admin")
            then Respond (message_only 403 "Admin access required")
            else Next (resolved decoded)
        | inl _ => Respond (message_only 401 "Invalid token")
        end
  | None => Respond (message_only 401 "Authentication required")
  end.

(** middleware/roleAuth.mjs *)
Definition checkRole (roles : list string)
           (env : config) (now : Z) (req : headers) : gate_result :=
  match authorization req with
  | Some token =>
      if negb (truthy_jsstr (Some token))
      then Respond (message_only 401 "Authentication required")
      else
        match verify token (secret_or_default env) now with
        | inr decoded =>
            if negb (roles_include roles (lookup "role" decoded))
            then Respond (message_only 403
                            ("Access denied. Required role: " ^^ join " or " roles))
            else Next (resolved decoded)
        | inl error =>
            if String.eqb (name error) "JsonWebTokenError"
            then Respond (message_only 401 "Invalid token")
            else if String.eqb (name error) "TokenExpiredError"
            then Respond (message_only 401 "Token expired")
            else Respond (message_only 500 "Internal server error")
        end
  | None => Respond (message_only 401 "Authentication required")
  end.

Definition adminOnly := checkRole ["admin"].
Definition maintenanceOfficeOnly := checkRole ["maintenance_office"].
Definition adminOrMaintenance := checkRole ["admin"; "maintenance_office"].

End Middleware.

(** ** Services outside the repository *)

(** A file received by multer's memory storage. *)
Record upload_file : Type := UploadFile {
  buffer : option string;
  mimetype : string
}.

(** Packages and platform services, as oracles.  Random sources are
    indexed by the number of draws made so far. *)
Record services : Type := Services {
  (** [Math.floor(Date.now() / 1000)] *)
  now : Z;
  (** [JSON.parse] *)
  JSON_parse : string -> js_error + value;
  (** Mongoose's cast of a string to a [Date]; [None] is a cast error. *)
  cast_date : string -> option Z;
  (** Mongoose's cast of a value to an [ObjectId]. *)
  cast_ObjectId : value -> option string;
  (** A fresh [ObjectId]. *)
  ObjectId : nat -> string;
  (** bcrypt *)
  genSalt : nat -> string;
  bcrypt_hash : string -> string -> string;
  bcrypt_compare : string -> string -> bool;
  (** [Math.floor(100000 + Math.random() * 900000).toString()] *)
  random_roll : nat -> string;
  (** How many draws the model follows the roll-id loop for. *)
  draws : nat;
  (** [speakeasy.totp.verify({ secret, encoding: 'base32', token, window: 6 })];
      the stored secret may be undefined. *)
  totp_verify : option string -> string -> js_error + bool;
  (** [speakeasy.generateSecret({ name })]: [base32] and [otpauth_url]. *)
  generateSecret : nat -> string -> string * string;
  (** [cloudinary.uploader.upload(dataURI, { folder, ... })]: the
      [secure_url] of the result, if it has one. *)
  cloudinary_upload : string -> upload_file -> js_error + option string;
  (** [fetch(imageUrl)], [arrayBuffer()] and the compressing upload of
      [compressImage]. *)
  cloudinary_compress : string -> js_error + option string;
  (** [String.prototype.toLowerCase] and [String.prototype.trim] *)
  toLowerCase : string -> string;
  trim : string -> string;
  (** [Number(s)] for a string; [None] is [NaN]. *)
  Number_of : string -> option Z
}.

(** ** Documents *)

Module Course.
Record t : Type := Make {
  _id : string;
  name : string
}.
End Course.

Module User.

Module Location.
Record t : Type := Make { city : option string; country : option string }.
End Location.

Module Notifications.
Record t : Type := Make { email : option bool; system : option bool }.
End Notifications.

Module Preferences.
Record t : Type := Make { darkMode : option bool; language : option string }.
End Preferences.

Record t : Type := Make {
  _id : string;
  firstName : option string;
  lastName : option string;
  email : option string;
  password : option string;
  cnic : option string;
  phoneNumber : option string;
  dateOfBirth : option Z;
  expertise : list string;
  profilePicture : string;
  location : Location.t;
  languages : list string;
  qualification : option string;
  role : string;
  isVerified : bool;
  twoFactorSecret : option string;
  twoFactorEnabled : bool;
  notifications : Notifications.t;
  preferences : Preferences.t;
  createdAt : Z;
  updatedAt : Z;
  (** Paths whose value could not be cast to the schema type. *)
  invalid : list string
}.

Definition roles : list string := ["user"; "admin"; "maintenance_office"].

End User.

Module Student.

Module Address.
Record t : Type := Make {
  street : option string;
  city : option string;
  state : option string;
  zipCode : option string;
  country : option string
}.
End Address.

Module Enrollment.
Record t : Type := Make {
  courseId : string;
  enrollmentDate : Z;
  status : string
}.
End Enrollment.

Record t : Type := Make {
  _id : string;
  firstName : option string;
  lastName : option string;
  email : option string;
  password : option string;
  cnic : option string;
  phoneNumber : option string;
  dateOfBirth : option Z;
  gender : option string;
  address : Address.t;
  guardianName : option string;
  guardianPhone : option string;
  guardianRelation : option string;
  enrolledCourses : list Enrollment.t;
  enrollmentDate : Z;
  status : string;
  profilePicture : string;
  isActive : bool;
  createdAt : Z;
  updatedAt : Z;
  rollId : option string;
  (** Paths whose value could not be cast to the schema type. *)
  invalid : list string
}.

Definition genders : list string :=
  ["male"; "Female"; "female"; "other"; "Other"; "Male"].
Definition statuses : list string :=
  ["Pending"; "Enrolled"; "Eliminated"; "Suspended"].
Definition enrollment_statuses : list string :=
  ["Active"; "Completed"; "Dropped"].

(** [studentSchema.methods.canAccessAccount] *)
Definition canAccessAccount (this : t) : bool :=
  includes ["Enrolled"] (status this).

End Student.

(** jsPDF and qrcode. *)
Record documents : Type := Documents {
  (** [new jsPDF(...)] and the [setFont], [setFontSize], [setTextColor]
      and [text] calls that lay the card out. *)
  jsPDF_layout : Student.t -> js_error + unit;
  (** [QRCode.toDataURL] *)
  QRCode_toDataURL : string -> js_error + string;
  (** [doc.addImage(qrCodeDataUrl, 'PNG', ...)] *)
  jsPDF_addImage : string -> js_error + unit;
  (** [doc.output('arraybuffer')], for the card with or without its
      code. *)
  jsPDF_output : Student.t -> option string -> js_error + string
}.

(** ** The store and the handler monad *)

Record mail : Type := Mail {
  mail_from : option string;
  mail_to : option string;
  subject : string;
  text : string;
  attachment : string
}.

(** nodemailer, for the transport made from the SMTP configuration. *)
Record mailer : Type := Mailer {
  transporter_verify : js_error + unit;
  transporter_sendMail : mail -> js_error + unit
}.

Inductive log_entry : Type :=
| console_error (label : string) (error : js_error)
| console_log (student : Student.t).

Record store : Type := Store {
  users : list User.t;
  students : list Student.t;
  courses : list Course.t;
  console : list log_entry;
  outbox : list mail;
  (** Number of random draws made so far. *)
  entropy : nat
}.

(** How a computation ends: with a value, with a thrown error, or not
    at all within the draws the model follows. *)
Inductive outcome (A : Type) : Type :=
| Val (a : A)
| Throw (e : js_error)
| Diverge.
Arguments Val {A} a.
Arguments Throw {A} e.
Arguments Diverge {A}.

Definition M (A : Type) : Type := store -> outcome A * store.

Definition ret {A} (a : A) : M A := fun st => (Val a, st).

Definition bind {A B} (m : M A) (k : A -> M B) : M B :=
  fun st =>
    match m st with
    | (Val a, st') => k a st'
    | (Throw e, st') => (Throw e, st')
    | (Diverge, st') => (Diverge, st')
    end.

Definition throw {A} (e : js_error) : M A := fun st => (Throw e, st).

(** [try { m } catch (error) { handler }] *)
Definition try_catch {A} (m : M A) (handler : js_error -> M A) : M A :=
  fun st =>
    match m st with
    | (Throw e, st') => handler e st'
    | r => r
    end.

Notation "x <- m ;; k" := (bind m (fun x => k))
  (at level 61, m at next level, right associativity).
Notation "m ;;; k" := (bind m (fun _ => k))
  (at level 61, right associativity).

Definition get : M store := fun st => (Val st, st).
Definition modify (f : store -> store) : M unit := fun st => (Val tt, f st).

(** A result of a service: thrown errors become exceptions. *)
Definition await {A} (r : js_error + A) : M A :=
  match r with inl e => throw e | inr a => ret a end.

Definition log (e : log_entry) : M unit :=
  modify (fun st => Store (users st) (students st) (courses st)
                          (console st ++ [e]) (outbox st) (entropy st)).

(** The next index into the random sources. *)
Definition draw : M nat :=
  fun st => (Val (entropy st),
             Store (users st) (students st) (courses st)
                   (console st) (outbox st) (S (entropy st))).

Definition set_users (l : list User.t) : M unit :=
  modify (fun st => Store l (students st) (courses st)
                          (console st) (outbox st) (entropy st)).

Definition set_students (l : list Student.t) : M unit :=
  modify (fun st => Store (users st) l (courses st)
                          (console st) (outbox st) (entropy st)).

Definition deliver (m : mail) : M unit :=
  modify (fun st => Store (users st) (students st) (courses st)
                          (console st) (outbox st ++ [m]) (entropy st)).

(** ** Mongoose: casting, validation, queries and writes

    The setters [trim] and [lowercase] of a string path run on the
    values given to [new], on assigned values and on the values of a
    query filter. *)

Definition ValidationError (model : string) : js_error :=
  Error "ValidationError" (model ^^ " validation failed") None.
Definition CastError (path : string) : js_error :=
  Error "CastError" ("Cast failed for path " ^^ path) None.
Definition DuplicateKey (path : string) : js_error :=
  Error "MongoServerError" ("E11000 duplicate key error: " ^^ path) None.

Definition option_eqb (a b : option string) : bool :=
  match a, b with
  | Some x, Some y => String.eqb x y
  | None, None => true
  | _, _ => false
  end.

(** The [required] validator of a string path. *)
Definition required (s : option string) : bool := truthy_string s.

(** The setters of the options [trim: true] and [lowercase: true]:
    [if (v) return v.trim(); return v;], and likewise with
    [toLowerCase]. *)
Definition trimmed (sv : services) (s : option string) : option string :=
  match s with
  | Some v => if nonempty v then Some (trim sv v) else Some v
  | None => None
  end.

Definition lowercased (sv : services) (s : option string) : option string :=
  match s with
  | Some v => if nonempty v then Some (toLowerCase sv v) else Some v
  | None => None
  end.

(** The setters of an [email] path, [trim: true, lowercase: true]: the
    setters of a path run from the last one to the first. *)
Definition normalised (sv : services) (s : option string) : option string :=
  trimmed sv (lowercased sv s).

Definition is_digit (c : ascii) : bool :=
  let n := nat_of_ascii c in (48 <=? n)%nat && (n <=? 57)%nat.

Fixpoint all_digits (s : string) : bool :=
  match s with
  | EmptyString => true
  | String c rest => is_digit c && all_digits rest
  end.

(** [/^\d{13}$/.test(v)] *)
Definition thirteen_digits (v : string) : bool :=
  (String.length v =? 13)%nat && all_digits v.

(** Mongoose's cast of a value to a [String] path: [None] is a cast
    error, [Some None] is [null]. *)
Definition cast_string (v : value) : option (option string) :=
  match v with
  | VNull => Some None
  | VBool true => Some (Some "true")
  | VBool false => Some (Some "false")
  | VNum z => Some (Some (decimal z))
  | VStr s => Some (Some s)
  | VDate _ | VArr _ | VObj _ => None
  end.

(** Mongoose's cast of a value to a [Number] path: [Some None] is
    [null]; [None] is a cast error, or [NaN], which the [min] validator
    of every [Number] path of these schemas refuses.  A [Date] gives
    its milliseconds; of an object its [_id] is cast, if it has one. *)
Definition castNumber (sv : services) (v : value) : option (option Z) :=
  match v with
  | VNull => Some None
  | VBool true => Some (Some 1%Z)
  | VBool false => Some (Some 0%Z)
  | VNum z => Some (Some z)
  | VStr s =>
      if nonempty s
      then match Number_of sv s with
           | Some z => Some (Some z)
           | None => None
           end
      else Some None
  | VDate d => Some (Some (1000 * d)%Z)
  | VArr _ | VObj _ => None
  end.

Definition cast_number (sv : services) (v : value) : option (option Z) :=
  match v with
  | VObj fields =>
      match lookup "_id" fields with
      | Some inner => castNumber sv inner
      | None => None
      end
  | other => castNumber sv other
  end.

(** The cast of one property of a nested path: its value and whether the
    cast failed. *)
Definition cast_property (k : string) (fields : list (string * value))
  : option string * bool :=
  match lookup k fields with
  | None => (None, false)
  | Some v =>
      match cast_string v with
      | Some s => (s, false)
      | None => (None, true)
      end
  end.

Definition failed (path : string) (r : option string * bool) : list string :=
  if snd r then [path] else [].

Module StudentModel.
Import Student.

(** The cast of the [address] given to [new Student]; a nested path
    is always an object, empty when nothing was given.  A value that
    is not an object is dropped. *)
Definition cast_address (v : option value) : Address.t * list string :=
  match v with
  | Some (VObj fields) =>
      let st := cast_property "street" fields in
      let ci := cast_property "city" fields in
      let sa := cast_property "state" fields in
      let zi := cast_property "zipCode" fields in
      let co := cast_property "country" fields in
      (Address.Make (fst st) (fst ci) (fst sa) (fst zi) (fst co),
       failed "address.street" st ++ failed "address.city" ci
         ++ failed "address.state" sa ++ failed "address.zipCode" zi
         ++ failed "address.country" co)
  | _ => (Address.Make None None None None None, [])
  end.

(** The assignment [student.address = v]: a boolean, a number or a
    string does not cast; of any object, also an array, the properties
    that the schema knows are cast. *)
Definition set_address (v : option value) : Address.t * list string :=
  match v with
  | Some (VBool _) | Some (VNum _) | Some (VStr _) =>
      (Address.Make None None None None None, ["address"])
  | _ => cast_address v
  end.

Definition cast_dateOfBirth (sv : services) (v : option string)
  : option Z * list string :=
  match v with
  | None => (None, [])
  | Some s =>
      match cast_date sv s with
      | Some d => (Some d, [])
      | None => (None, ["dateOfBirth"])
      end
  end.

(** The fields [routes/student.mjs] gives to [new Student] on
    registration. *)
Record fields : Type := Fields {
  f_firstName : option string;
  f_lastName : option string;
  f_email : option string;
  f_password : option string;
  f_cnic : option string;
  f_phoneNumber : option string;
  f_dateOfBirth : option string;
  f_gender : option string;
  f_address : option value;
  f_guardianName : option string;
  f_guardianPhone : option string;
  f_guardianRelation : option string;
  f_enrolledCourses : list Enrollment.t;
  f_profilePicture : option string;
  f_status : string
}.

(** [new Student({ ... })]: a fresh [_id], casts and schema defaults. *)
Definition new (sv : services) (f : fields) : M t :=
  i <- draw ;;
  let a := cast_address (f_address f) in
  let d := cast_dateOfBirth sv (f_dateOfBirth f) in
  ret {| _id := ObjectId sv i;
         firstName := trimmed sv (f_firstName f);
         lastName := trimmed sv (f_lastName f);
         email := normalised sv (f_email f);
         password := f_password f;
         cnic := f_cnic f;
         phoneNumber := trimmed sv (f_phoneNumber f);
         dateOfBirth := fst d;
         gender := f_gender f;
         address := fst a;
         guardianName := f_guardianName f;
         guardianPhone := f_guardianPhone f;
         guardianRelation := f_guardianRelation f;
         enrolledCourses := f_enrolledCourses f;
         enrollmentDate := now sv;
         status := f_status f;
         profilePicture := match f_profilePicture f with Some u => u | None => "" end;
         isActive := true;
         createdAt := now sv;
         updatedAt := now sv;
         rollId := None;
         invalid := snd a ++ snd d |}.

Definition min_length (n : nat) (s : option string) : bool :=
  match s with Some s => (n <=? String.length s)%nat | None => true end.

Definition valid_cnic (s : option string) : bool :=
  match s with Some v => thirteen_digits v | None => true end.

Definition in_enum (enum : list string) (s : option string) : bool :=
  match s with Some v => includes enum v | None => true end.

(** Validation against [studentSchema]. *)
Definition validate (this : t) : bool :=
  match invalid this with [] => true | _ => false end
  && required (firstName this) && required (lastName this)
  && required (email this)
  && required (password this) && min_length 6 (password this)
  && required (cnic this) && valid_cnic (cnic this)
  && required (phoneNumber this)
  && match dateOfBirth this with Some _ => true | None => false end
  && required (gender this) && in_enum genders (gender this)
  && required (guardianName this) && required (guardianPhone this)
  && required (guardianRelation this)
  && forallb (fun e => includes enrollment_statuses (Enrollment.status e))
             (enrolledCourses this)
  && includes statuses (status this).

(** [Student.findOne({ email })]; the query looks for the email as
    the setters of the path give it. *)
Definition findOne_email (sv : services) (e : option string) : M (option t) :=
  st <- get ;;
  ret (find (fun d => option_eqb (email d) (normalised sv e)) (students st)).

(** [Student.findOne({ $or: [{ email }, { cnic }] })] *)
Definition findOne_email_or_cnic (sv : services) (e c : option string)
  : M (option t) :=
  st <- get ;;
  ret (find (fun d => option_eqb (email d) (normalised sv e)
                      || option_eqb (cnic d) c)
            (students st)).

(** [this.constructor.findOne({ rollId })] *)
Definition findOne_rollId (r : string) : M (option t) :=
  st <- get ;;
  ret (find (fun d => option_eqb (rollId d) (Some r)) (students st)).

(** The loop of the [pre('save')] hook: draw six-digit numbers until
    one is not the roll id of a stored student. *)
Fixpoint unique_rollId (sv : services) (fuel : nat) : M string :=
  match fuel with
  | O => fun st => (Diverge, st)
  | S fuel' =>
      i <- draw ;;
      let rollId := random_roll sv i in
      existingStudent <- findOne_rollId rollId ;;
      match existingStudent with
      | None => ret rollId
      | Some _ => unique_rollId sv fuel'
      end
  end.

Definition with_rollId (this : t) (r : option string) (updated : Z) : t :=
  {| _id := _id this; firstName := firstName this; lastName := lastName this;
     email := email this; password := password this; cnic := cnic this;
     phoneNumber := phoneNumber this; dateOfBirth := dateOfBirth this;
     gender := gender this; address := address this;
     guardianName := guardianName this; guardianPhone := guardianPhone this;
     guardianRelation := guardianRelation this;
     enrolledCourses := enrolledCourses this;
     enrollmentDate := enrollmentDate this;
     status := status this; profilePicture := profilePicture this;
     isActive := isActive this; createdAt := createdAt this;
     updatedAt := updated; rollId := r; invalid := invalid this |}.

(** The unique indexes of the collection, against the other documents. *)
Definition duplicate_key (this : t) (stored : list t) : option string :=
  let others := filter (fun d => negb (String.eqb (_id d) (_id this))) stored in
  if existsb (fun d => option_eqb (email d) (email this)) others then Some "email"
  else if existsb (fun d => option_eqb (cnic d) (cnic this)) others then Some "cnic"
  else match rollId this with
       | Some r =>
           if existsb (fun d => option_eqb (rollId d) (Some r)) others
           then Some "rollId" else None
       | None => None
       end.

(** Insert the document, or replace the stored one with the same id. *)
Definition write (this : t) (stored : list t) : list t :=
  if existsb (fun d => String.eqb (_id d) (_id this)) stored
  then map (fun d => if String.eqb (_id d) (_id this) then this else d) stored
  else stored ++ [this].

(** [await student.save()]: validation, the [pre('save')] hook, then
    the write under the unique indexes.  The saved document is
    returned. *)
Definition save (sv : services) (this : t) : M t :=
  if negb (validate this) then throw (ValidationError "Student")
  else
    r <- (if truthy_string (rollId this) then ret (rollId this)
          else r <- unique_rollId sv (draws sv) ;; ret (Some r)) ;;
    let this := with_rollId this r (now sv) in
    st <- get ;;
    match duplicate_key this (students st) with
    | Some path => throw (DuplicateKey path)
    | None => set_students (write this (students st)) ;;; ret this
    end.

End StudentModel.

Module CourseModel.

Fixpoint cast_ids (sv : services) (l : list value) : option (list string) :=
  match l with
  | [] => Some []
  | v :: rest =>
      match cast_ObjectId sv v, cast_ids sv rest with
      | Some i, Some ids => Some (i :: ids)
      | _, _ => None
      end
  end.

(** [Course.find({ _id: { $in: courseIds } })]: the query casts every
    element to an [ObjectId], a value that is not an array as its one
    element. *)
Definition find_id_in (sv : services) (courseIds : value) : M (list Course.t) :=
  let candidates := match courseIds with VArr l => l | v => [v] end in
  match cast_ids sv candidates with
  | Some ids =>
      st <- get ;;
      ret (filter (fun c => includes ids (Course._id c)) (courses st))
  | None => throw (CastError "_id")
  end.

End CourseModel.

(** ** routes/student.mjs *)

Module StudentRoutes.

(** [String.prototype.includes] *)
Definition contains (s sub : string) : bool :=
  match String.index 0 sub s with Some _ => true | None => false end.

(** Helper function to upload image to Cloudinary. *)
Definition uploadToCloudinary (sv : services) (file : option upload_file) : M string :=
  try_catch
    (match file with
     | Some f =>
         match buffer f with
         | Some _ =>
             result <- await (cloudinary_upload sv "student_profiles" f) ;;
             if negb (truthy_string result)
             then throw (plain_error "Failed to get secure URL from Cloudinary")
             else ret (match result with Some u => u | None => "" end)
         | None => throw (plain_error "No file provided or invalid file format")
         end
     | None => throw (plain_error "No file provided or invalid file format")
     end)
    (fun error =>
       log (console_error "Cloudinary upload error:" error) ;;;
       if match http_code error with Some c => (c =? 499)%nat | None => false end
          || String.eqb (name error) "TimeoutError"
          || contains (message error) "timeout"
       then throw (plain_error
         "Image upload timed out. Please try with a smaller image or check your network connection.")
       else throw (plain_error
         ("Error uploading image to Cloudinary: " ^^ message error))).

(** Helper function to compress image. *)
Definition compressImage (sv : services) (imageUrl : string) : M (option string) :=
  try_catch
    (await (cloudinary_compress sv imageUrl))
    (fun error =>
       log (console_error "Error compressing image:" error) ;;;
       ret (Some imageUrl)).

(** The multipart body and file of [POST /register]. *)
Record register_request : Type := RegisterRequest {
  firstName : option string;
  lastName : option string;
  email : option string;
  password : option string;
  cnic : option string;
  phoneNumber : option string;
  dateOfBirth : option string;
  gender : option string;
  address : option value;
  guardianName : option string;
  guardianPhone : option string;
  guardianRelation : option string;
  enrolledCourses : option value;
  file : option upload_file
}.

Definition empty_address : value :=
  VObj [("street", VStr ""); ("city", VStr ""); ("state", VStr "");
        ("zipCode", VStr ""); ("country", VStr "")].

(** Parse address object if it's a string. *)
Definition parse_address (sv : services) (address : option value) : M (option value) :=
  match address with
  | Some (VStr s) =>
      try_catch
        (v <- await (JSON_parse sv s) ;; ret (Some v))
        (fun e =>
           log (console_error "Error parsing address:" e) ;;;
           ret (Some empty_address))
  | other => ret other
  end.

(** [courseIds.length]: [None] is [undefined]; [null] has no
    properties. *)
Definition length_of (courseIds : value) : M (option nat) :=
  match courseIds with
  | VNull =>
      throw (Error "TypeError" "Cannot read properties of null (reading 'length')"
                   None)
  | VArr l => ret (Some (List.length l))
  | VStr s => ret (Some (String.length s))
  | _ => ret None
  end.

Definition same_length (n : nat) (m : option nat) : bool :=
  match m with Some k => (n =? k)%nat | None => false end.

(** [courseIds.map(courseId => ({ courseId, enrollmentDate: new Date(),
    status: 'Active' }))], with the ids as [new Student] casts them. *)
Definition enrollments (sv : services) (ids : list string) : list Student.Enrollment.t :=
  map (fun courseId => Student.Enrollment.Make courseId (now sv) "Active") ids.

(** Parse and validate enrolled courses: a response that ends the
    request, or the parsed courses. *)
Definition parse_courses (sv : services) (enrolledCourses : option value)
  : M (response + list Student.Enrollment.t) :=
  if truthy enrolledCourses then
    try_catch
      (courseIds <- match enrolledCourses with
                    | Some (VStr s) => await (JSON_parse sv s)
                    | Some (VArr l) => ret (VArr l)
                    | _ => ret (VArr [])
                    end ;;
       validCourses <- CourseModel.find_id_in sv courseIds ;;
       length <- length_of courseIds ;;
       if negb (same_length (List.length validCourses) length)
       then ret (inl (message_only 400 "One or more selected courses do not exist"))
       else
         match courseIds with
         | VArr l =>
             match CourseModel.cast_ids sv l with
             | Some ids => ret (inr (enrollments sv ids))
             | None => throw (CastError "enrolledCourses")
             end
         | _ => throw (Error "TypeError" "courseIds.map is not a function" None)
         end)
      (fun e =>
         log (console_error "Error parsing enrolled courses:" e) ;;;
         ret (inl (message_only 400 "Invalid course selection format")))
  else ret (inr []).

Definition nl : string := String (ascii_of_nat 10) EmptyString.

Definition shown (s : option string) : string :=
  match s with Some x => x | None => "undefined" end.

(** [student._id && student.email ? `${student._id}|${student.email}` :
    'AaghaazTech']; [student._id] is an object, hence truthy. *)
Definition qrData (student : Student.t) : string :=
  if truthy_string (Student.email student)
  then Student._id student ^^ "|" ^^ shown (Student.email student)
  else "AaghaazTech".

(** The mail that carries the card. *)
Definition id_card_mail (env : config) (student : Student.t)
           (idCardPdfBuffer : string) : mail :=
  {| mail_from := SMTP_FROM env;
     mail_to := Student.email student;
     subject := "Welcome to Aaghaaz Tech - Your Student ID Card";
     text := "Dear " ^^ shown (Student.firstName student) ^^ "," ^^ nl ^^ nl
       ^^ "Welcome to Aaghaaz Tech! Your registration has been received and is pending approval."
       ^^ nl ^^ nl
       ^^ "Please find your student ID card attached. You will need this ID card for attendance and other purposes."
       ^^ nl ^^ nl ^^ "Best regards," ^^ nl ^^ "Aaghaaz Tech Team";
     attachment := idCardPdfBuffer |}.

(** Generate and send ID card: the [try] block after [student.save()]
    with its [catch]. *)
Definition sendIdCard (env : config) (docs : documents) (smtp : mailer)
           (student : Student.t) : M unit :=
  try_catch
    (await (jsPDF_layout docs student) ;;;
     qr <- try_catch
             (qrCodeDataUrl <- await (QRCode_toDataURL docs (qrData student)) ;;
              await (jsPDF_addImage docs qrCodeDataUrl) ;;;
              ret (Some qrCodeDataUrl))
             (fun error =>
                log (console_error "Error generating QR code:" error) ;;;
                ret None) ;;
     idCardPdfBuffer <- await (jsPDF_output docs student qr) ;;
     try_catch
       (await (transporter_verify smtp))
       (fun error =>
          log (console_error "SMTP connection verification failed:" error) ;;;
          throw (plain_error ("SMTP configuration error: " ^^ message error))) ;;;
     try_catch
       (let m := id_card_mail env student idCardPdfBuffer in
        await (transporter_sendMail smtp m) ;;;
        deliver m)
       (fun error =>
          log (console_error "Error sending email:" error) ;;;
          throw (plain_error ("Failed to send email: " ^^ message error))))
    (fun error =>
       log (console_error "Error generating/sending ID card:" error)).

Definition str (s : option string) : option value :=
  match s with Some x => Some (VStr x) | None => None end.

Definition address_value (a : Student.Address.t) : option value :=
  Some (VObj (literal [("street", str (Student.Address.street a));
                       ("city", str (Student.Address.city a));
                       ("state", str (Student.Address.state a));
                       ("zipCode", str (Student.Address.zipCode a));
                       ("country", str (Student.Address.country a))])).

(** The body of the 201 response. *)
Definition registered_body (student : Student.t) : list (string * rvalue) :=
  [("message", Data (VStr
      "Registered successfully. You are in pending approval. so please go to the campus office to get your card and verify!"));
   ("student", Data (VObj (literal
      [("id", Some (VStr (Student._id student)));
       ("firstName", str (Student.firstName student));
       ("lastName", str (Student.lastName student));
       ("email", str (Student.email student));
       ("cnic", str (Student.cnic student));
       ("phoneNumber", str (Student.phoneNumber student));
       ("gender", str (Student.gender student));
       ("address", address_value (Student.address student));
       ("guardianName", str (Student.guardianName student));
       ("guardianPhone", str (Student.guardianPhone student));
       ("guardianRelation", str (Student.guardianRelation student));
       ("status", Some (VStr (Student.status student)));
       ("profilePicture", Some (VStr (Student.profilePicture student)));
       ("rollId", str (Student.rollId student))])))].

(** [bcrypt.hash(password, salt)]; throws on an undefined password. *)
Definition hash (sv : services) (password : option string) : M string :=
  i <- draw ;;
  let salt := genSalt sv i in
  match password with
  | Some p => ret (bcrypt_hash sv p salt)
  | None => throw (plain_error "data and salt arguments required")
  end.

(** [POST /register] up to and including [await student.save()]: a
    response that ends the request, or the saved student. *)
Definition register_student (sv : services) (req : register_request)
  : M (response + Student.t) :=
  parsedAddress <- parse_address sv (address req) ;;
  parsed <- parse_courses sv (enrolledCourses req) ;;
  match parsed with
  | inl res => ret (inl res)
  | inr parsedCourses =>
      existingStudent <- StudentModel.findOne_email_or_cnic sv (email req) (cnic req) ;;
      match existingStudent with
      | Some existing =>
          ret (inl (message_only 400
                (if option_eqb (Student.email existing) (email req)
                 then "Email already registered"
                 else "CNIC already registered")))
      | None =>
          profilePictureUrl <- match file req with
                               | Some f => uploadToCloudinary sv (Some f)
                               | None => ret ""
                               end ;;
          compressedProfileUrl <- (if nonempty profilePictureUrl
                                   then compressImage sv profilePictureUrl
                                   else ret (Some profilePictureUrl)) ;;
          hashedPassword <- hash sv (password req) ;;
          student <- StudentModel.new sv
            {| StudentModel.f_firstName := firstName req;
               StudentModel.f_lastName := lastName req;
               StudentModel.f_email := email req;
               StudentModel.f_password := Some hashedPassword;
               StudentModel.f_cnic := cnic req;
               StudentModel.f_phoneNumber := phoneNumber req;
               StudentModel.f_dateOfBirth := dateOfBirth req;
               StudentModel.f_gender := gender req;
               StudentModel.f_address := parsedAddress;
               StudentModel.f_guardianName := guardianName req;
               StudentModel.f_guardianPhone := guardianPhone req;
               StudentModel.f_guardianRelation := guardianRelation req;
               StudentModel.f_enrolledCourses := parsedCourses;
               StudentModel.f_profilePicture := compressedProfileUrl;
               StudentModel.f_status := "Pending" |} ;;
          student <- StudentModel.save sv student ;;
          ret (inr student)
      end
  end.

(** Register new student: [router.post('/register', ...)]. *)
Definition register (env : config) (sv : services) (docs : documents) (smtp : mailer)
           (req : register_request) : M response :=
  try_catch
    (r <- register_student sv req ;;
     match r with
     | inl res => ret res
     | inr student =>
         sendIdCard env docs smtp student ;;;
         log (console_log student) ;;;
         ret (Response 201 (registered_body student))
     end)
    (fun error =>
       log (console_error "Error registering student:" error) ;;;
       ret (Response 500 [("message", Data (VStr "Error registering student"));
                          ("error", Data (VStr (message error)))])).

Record login_request : Type := LoginRequest {
  login_email : option string;
  login_password : option string
}.

(** [bcrypt.compare(password, student.password)] *)
Definition compare (sv : services) (password hashed : option string) : M bool :=
  match password, hashed with
  | Some p, Some h => ret (bcrypt_compare sv p h)
  | _, _ => throw (plain_error "data and hash arguments required")
  end.

Definition enrollment_value (e : Student.Enrollment.t) : value :=
  VObj [("courseId", VStr (Student.Enrollment.courseId e));
        ("enrollmentDate", VDate (Student.Enrollment.enrollmentDate e));
        ("status", VStr (Student.Enrollment.status e))].

(** Student login (Public): [router.post('/login', ...)]. *)
Definition login (env : config) (sv : services) (req : login_request) : M response :=
  try_catch
    (student <- StudentModel.findOne_email sv (login_email req) ;;
     match student with
     | None => ret (message_only 401 "Invalid credentials")
     | Some student =>
         isMatch <- compare sv (login_password req) (Student.password student) ;;
         if negb isMatch then ret (message_only 401 "Invalid credentials")
         else if negb (Student.canAccessAccount student)
         then ret (Response 403
                [("message", Data (VStr
                   "Your account is not active. Please contact the administration for more information."));
                 ("status", Data (VStr (Student.status student)))])
         else
           let token :=
             sign [("studentId", CStr (Student._id student)); ("role", CStr "student")]
                  (secret_or_default env) hours24 (now sv) in
           ret (Response 200
                [("message", Data (VStr "Login successful"));
                 ("token", Tok token);
                 ("student", Data (VObj (literal
                    [("id", Some (VStr (Student._id student)));
                     ("firstName", str (Student.firstName student));
                     ("lastName", str (Student.lastName student));
                     ("email", str (Student.email student));
                     ("status", Some (VStr (Student.status student)));
                     ("enrolledCourses",
                      Some (VArr (map enrollment_value
                                      (Student.enrolledCourses student))))])))])
     end)
    (fun error =>
       ret (Response 500 [("message", Data (VStr "Error logging in"));
                          ("error", Data (VStr (message error)))])).

End StudentRoutes.

Module UserModel.
Import User.

Fixpoint cast_each (l : list value) : list string * bool :=
  match l with
  | [] => ([], false)
  | v :: rest =>
      let r := cast_each rest in
      match cast_string v with
      | Some (Some s) => (s :: fst r, snd r)
      | Some None => (fst r, snd r)
      | None => (fst r, true)
      end
  end.

(** The setter [trim] on the elements of a [[String]] path. *)
Definition each_trimmed (sv : services) (l : list string) : list string :=
  map (fun v => if nonempty v then trim sv v else v) l.

(** The cast of a value to a [[String]] path: an array is cast
    element by element, any other value as a one-element array. *)
Definition cast_strings (v : option value) : list string * bool :=
  match v with
  | None | Some VNull => ([], false)
  | Some (VArr l) => cast_each l
  | Some v => cast_each [v]
  end.

(** The cast of the [location] given to [new User]; a value that is
    not an object is dropped. *)
Definition cast_location (v : option value) : Location.t * list string :=
  match v with
  | Some (VObj fields) =>
      let ci := cast_property "city" fields in
      let co := cast_property "country" fields in
      (Location.Make (fst ci) (fst co),
       failed "location.city" ci ++ failed "location.country" co)
  | _ => (Location.Make None None, [])
  end.

(** The assignment [user.location = v]: a boolean, a number or a
    string does not cast; of any object, also an array, the properties
    that the schema knows are cast. *)
Definition set_location (v : option value) : Location.t * list string :=
  match v with
  | Some (VBool _) | Some (VNum _) | Some (VStr _) =>
      (Location.Make None None, ["location"])
  | _ => cast_location v
  end.

Definition cast_dateOfBirth (sv : services) (v : option string)
  : option Z * list string :=
  match v with
  | None => (None, [])
  | Some s =>
      match cast_date sv s with
      | Some d => (Some d, [])
      | None => (None, ["dateOfBirth"])
      end
  end.

(** The fields [routes/auth.mjs] gives to [new User] on registration. *)
Record fields : Type := Fields {
  f_firstName : option string;
  f_lastName : option string;
  f_email : option string;
  f_password : option string;
  f_cnic : option string;
  f_phoneNumber : option string;
  f_dateOfBirth : option string;
  f_expertise : option value;
  f_profilePicture : string;
  f_location : option value;
  f_languages : option value;
  f_qualification : option string;
  f_role : option string
}.

(** [new User({ ... })]: a fresh [_id], casts and schema defaults. *)
Definition new (sv : services) (f : fields) : M t :=
  i <- draw ;;
  let d := cast_dateOfBirth sv (f_dateOfBirth f) in
  let ex := cast_strings (f_expertise f) in
  let lo := cast_location (f_location f) in
  let la := cast_strings (f_languages f) in
  ret {| _id := ObjectId sv i;
         firstName := trimmed sv (f_firstName f);
         lastName := trimmed sv (f_lastName f);
         email := normalised sv (f_email f);
         password := f_password f;
         cnic := trimmed sv (f_cnic f);
         phoneNumber := trimmed sv (f_phoneNumber f);
         dateOfBirth := fst d;
         expertise := each_trimmed sv (fst ex);
         profilePicture := f_profilePicture f;
         location := fst lo;
         languages := each_trimmed sv (fst la);
         qualification := trimmed sv (f_qualification f);
         role := match f_role f with Some r => r | None => "user" end;
         isVerified := false;
         twoFactorSecret := None;
         twoFactorEnabled := false;
         notifications := Notifications.Make (Some true) (Some true);
         preferences := Preferences.Make (Some false) (Some "en");
         createdAt := now sv;
         updatedAt := now sv;
         invalid := snd d ++ (if snd ex then ["expertise"] else [])
                     ++ snd lo ++ (if snd la then ["languages"] else []) |}.

(** Validation against [userSchema]. *)
Definition validate (this : t) : bool :=
  match invalid this with [] => true | _ => false end
  && required (firstName this) && required (lastName this)
  && required (email this) && required (password this)
  && required (cnic this) && required (phoneNumber this)
  && match dateOfBirth this with Some _ => true | None => false end
  && includes roles (role this).

(** Queries return the stored document.  The projections ([select])
    are not modelled: no handler reads a path it did not select. *)

(** [User.findOne({ email })]; the query looks for the email as the
    setters of the path give it. *)
Definition findOne_email (sv : services) (e : option string) : M (option t) :=
  st <- get ;;
  ret (find (fun d => option_eqb (email d) (normalised sv e)) (users st)).

(** [User.findOne({ $or: [{ email }, { cnic }] })] *)
Definition findOne_email_or_cnic (sv : services) (e c : option string)
  : M (option t) :=
  st <- get ;;
  ret (find (fun d => option_eqb (email d) (normalised sv e)
                      || option_eqb (cnic d) (trimmed sv c))
            (users st)).

Definition claim_value (c : claim) : value :=
  match c with
  | CNull => VNull
  | CBool b => VBool b
  | CNum z => VNum z
  | CStr s => VStr s
  end.

(** [User.findById(id)]: [undefined] and [null] find nothing, any
    other value is cast to an [ObjectId]. *)
Definition findById (sv : services) (id : option claim) : M (option t) :=
  match id with
  | None | Some CNull => ret None
  | Some c =>
      match cast_ObjectId sv (claim_value c) with
      | Some i =>
          st <- get ;;
          ret (find (fun d => String.eqb (_id d) i) (users st))
      | None => throw (CastError "_id")
      end
  end.

(** [User.findByIdAndDelete(id)] *)
Definition findByIdAndDelete (sv : services) (id : option claim) : M unit :=
  match id with
  | None | Some CNull => ret tt
  | Some c =>
      match cast_ObjectId sv (claim_value c) with
      | Some i =>
          st <- get ;;
          set_users (filter (fun d => negb (String.eqb (_id d) i)) (users st))
      | None => throw (CastError "_id")
      end
  end.

Definition with_password (this : t) (p : option string) (updated : Z) : t :=
  {| _id := _id this; firstName := firstName this; lastName := lastName this;
     email := email this; password := p; cnic := cnic this;
     phoneNumber := phoneNumber this; dateOfBirth := dateOfBirth this;
     expertise := expertise this; profilePicture := profilePicture this;
     location := location this; languages := languages this;
     qualification := qualification this; role := role this;
     isVerified := isVerified this; twoFactorSecret := twoFactorSecret this;
     twoFactorEnabled := twoFactorEnabled this;
     notifications := notifications this; preferences := preferences this;
     createdAt := createdAt this; updatedAt := updated;
     invalid := invalid this |}.

Definition with_twoFactor (this : t) (secret : option string) (enabled : bool) : t :=
  {| _id := _id this; firstName := firstName this; lastName := lastName this;
     email := email this; password := password this; cnic := cnic this;
     phoneNumber := phoneNumber this; dateOfBirth := dateOfBirth this;
     expertise := expertise this; profilePicture := profilePicture this;
     location := location this; languages := languages this;
     qualification := qualification this; role := role this;
     isVerified := isVerified this; twoFactorSecret := secret;
     twoFactorEnabled := enabled;
     notifications := notifications this; preferences := preferences this;
     createdAt := createdAt this; updatedAt := updatedAt this;
     invalid := invalid this |}.

(** [this.isModified('password')]: the document is new, or its
    password differs from the stored one. *)
Definition isModified_password (this : t) (stored : list t) : bool :=
  match find (fun d => String.eqb (_id d) (_id this)) stored with
  | Some old => negb (option_eqb (password old) (password this))
  | None => true
  end.

Definition duplicate_key (this : t) (stored : list t) : option string :=
  let others := filter (fun d => negb (String.eqb (_id d) (_id this))) stored in
  if existsb (fun d => option_eqb (email d) (email this)) others then Some "email"
  else if existsb (fun d => option_eqb (cnic d) (cnic this)) others then Some "cnic"
  else None.

Definition write (this : t) (stored : list t) : list t :=
  if existsb (fun d => String.eqb (_id d) (_id this)) stored
  then map (fun d => if String.eqb (_id d) (_id this) then this else d) stored
  else stored ++ [this].

(** [await user.save()]: validation, the two [pre('save')] hooks (the
    timestamp, then the hash of a modified password), then the write
    under the unique indexes.  The saved document is returned. *)
Definition save (sv : services) (this : t) : M t :=
  if negb (validate this) then throw (ValidationError "User")
  else
    st <- get ;;
    p <- (if isModified_password this (users st)
          then
            i <- draw ;;
            match password this with
            | Some p => ret (Some (bcrypt_hash sv p (genSalt sv i)))
            | None => throw (plain_error "Illegal arguments: undefined, string")
            end
          else ret (password this)) ;;
    let this := with_password this p (now sv) in
    match duplicate_key this (users st) with
    | Some path => throw (DuplicateKey path)
    | None => set_users (write this (users st)) ;;; ret this
    end.

(** [userSchema.methods.comparePassword] *)
Definition comparePassword (sv : services) (this : t)
           (candidatePassword : option string) : M bool :=
  match candidatePassword, password this with
  | Some p, Some h => ret (bcrypt_compare sv p h)
  | _, _ => throw (plain_error "Illegal arguments: undefined, string")
  end.

Definition str (s : option string) : option value :=
  match s with Some x => Some (VStr x) | None => None end.

Definition date (d : option Z) : option value :=
  match d with Some x => Some (VDate x) | None => None end.

Definition location_value (l : Location.t) : value :=
  VObj (literal [("city", str (Location.city l));
                 ("country", str (Location.country l))]).

(** A path that holds [null] is written as [null]. *)
Definition boolean (b : option bool) : value :=
  match b with Some x => VBool x | None => VNull end.

Definition text (s : option string) : value :=
  match s with Some x => VStr x | None => VNull end.

(** [toObject()] leaves out a nested object without properties
    (the schema option [minimize]). *)
Definition minimized (v : value) : option value :=
  match v with
  | VObj [] => None
  | other => Some other
  end.

(** [userSchema.methods.getPublicProfile]: the schema paths of the
    document as an object, without [password] and [twoFactorSecret].
    The version key [__v], which is no path of the schema, is not part
    of the documents of this model. *)
Definition getPublicProfile (this : t) : value :=
  VObj (literal
    [("_id", Some (VStr (_id this)));
     ("firstName", str (firstName this));
     ("lastName", str (lastName this));
     ("email", str (email this));
     ("cnic", str (cnic this));
     ("phoneNumber", str (phoneNumber this));
     ("dateOfBirth", date (dateOfBirth this));
     ("expertise", Some (VArr (map VStr (expertise this))));
     ("profilePicture", Some (VStr (profilePicture this)));
     ("location", minimized (location_value (location this)));
     ("languages", Some (VArr (map VStr (languages this))));
     ("qualification", str (qualification this));
     ("role", Some (VStr (role this)));
     ("isVerified", Some (VBool (isVerified this)));
     ("twoFactorEnabled", Some (VBool (twoFactorEnabled this)));
     ("notifications",
      Some (VObj [("email", boolean (Notifications.email (notifications this)));
                  ("system", boolean (Notifications.system (notifications this)))]));
     ("preferences",
      Some (VObj [("darkMode", boolean (Preferences.darkMode (preferences this)));
                  ("language", text (Preferences.language (preferences this)))]));
     ("createdAt", Some (VDate (createdAt this)));
     ("updatedAt", Some (VDate (updatedAt this)))]).

End UserModel.

(** ** routes/auth.mjs *)

Module AuthRoutes.

(** Helper function to upload image to Cloudinary. *)
Definition uploadToCloudinary (sv : services) (file : option upload_file) : M string :=
  try_catch
    (match file with
     | Some f =>
         match buffer f with
         | Some _ =>
             result <- await (cloudinary_upload sv "user_profiles" f) ;;
             if negb (truthy_string result)
             then throw (plain_error "Failed to get secure URL from Cloudinary")
             else ret (match result with Some u => u | None => "" end)
         | None => throw (plain_error "No file provided or invalid file format")
         end
     | None => throw (plain_error "No file provided or invalid file format")
     end)
    (fun error =>
       log (console_error "Cloudinary upload error:" error) ;;;
       throw (plain_error
         ("Error uploading image to Cloudinary: " ^^ message error))).

(** The multipart body and file of [POST /register]. *)
Record register_request : Type := RegisterRequest {
  firstName : option string;
  lastName : option string;
  email : option string;
  password : option string;
  cnic : option string;
  phoneNumber : option string;
  dateOfBirth : option string;
  expertise : option value;
  location : option value;
  languages : option value;
  qualification : option string;
  role : option string;
  file : option upload_file
}.

(** [typeof x === 'string' ? JSON.parse(x) : x] *)
Definition parse_if_string (sv : services) (x : option value) : M (option value) :=
  match x with
  | Some (VStr s) => v <- await (JSON_parse sv s) ;; ret (Some v)
  | other => ret other
  end.

(** The [user] object of the register and login responses. *)
Definition user_view (user : User.t) : rvalue :=
  Data (VObj (literal
    [("id", Some (VStr (User._id user)));
     ("firstName", UserModel.str (User.firstName user));
     ("lastName", UserModel.str (User.lastName user));
     ("email", UserModel.str (User.email user));
     ("cnic", UserModel.str (User.cnic user));
     ("phoneNumber", UserModel.str (User.phoneNumber user));
     ("dateOfBirth", UserModel.date (User.dateOfBirth user));
     ("expertise", Some (VArr (map VStr (User.expertise user))));
     ("profilePicture", Some (VStr (User.profilePicture user)));
     ("location", Some (UserModel.location_value (User.location user)));
     ("languages", Some (VArr (map VStr (User.languages user))));
     ("qualification", UserModel.str (User.qualification user));
     ("role", Some (VStr (User.role user)));
     ("isVerified", Some (VBool (User.isVerified user)))])).

Definition cstr (s : option string) : option claim :=
  match s with Some x => Some (CStr x) | None => None end.

(** The payload [{ userId: user._id, role: user.role, email: user.email }]. *)
Definition session_claims (user : User.t) : payload :=
  literal [("userId", Some (CStr (User._id user)));
           ("role", Some (CStr (User.role user)));
           ("email", cstr (User.email user))].

(** The payload of the temporary token of a login under 2FA. *)
Definition pending_claims (user : User.t) : payload :=
  literal [("userId", Some (CStr (User._id user)));
           ("role", Some (CStr (User.role user)));
           ("email", cstr (User.email user));
           ("requires2FA", Some (CBool true))].

Definition failure (msg : string) (error : js_error) : response :=
  Response 500 [("message", Data (VStr msg));
                ("error", Data (VStr (message error)))].

(** Register new user: [router.post('/register', ...)]. *)
Definition register (env : config) (sv : services) (req : register_request)
  : M response :=
  try_catch
    (parsedExpertise <- parse_if_string sv (expertise req) ;;
     parsedLanguages <- parse_if_string sv (languages req) ;;
     parsedLocation <- parse_if_string sv (location req) ;;
     existingUser <- UserModel.findOne_email_or_cnic sv (email req) (cnic req) ;;
     match existingUser with
     | Some existing =>
         ret (message_only 400
                (if option_eqb (User.email existing) (email req)
                 then "Email already registered"
                 else "CNIC already registered"))
     | None =>
         profilePictureUrl <- match file req with
                              | Some f => uploadToCloudinary sv (Some f)
                              | None => ret ""
                              end ;;
         user <- UserModel.new sv
           {| UserModel.f_firstName := firstName req;
              UserModel.f_lastName := lastName req;
              UserModel.f_email := email req;
              UserModel.f_password := password req;
              UserModel.f_cnic := cnic req;
              UserModel.f_phoneNumber := phoneNumber req;
              UserModel.f_dateOfBirth := dateOfBirth req;
              UserModel.f_expertise := parsedExpertise;
              UserModel.f_profilePicture := profilePictureUrl;
              UserModel.f_location := parsedLocation;
              UserModel.f_languages := parsedLanguages;
              UserModel.f_qualification := qualification req;
              UserModel.f_role := or_string (role req) (Some "user") |} ;;
         user <- UserModel.save sv user ;;
         let token := sign (session_claims user) (secret_or_default env)
                           hours24 (now sv) in
         ret (Response 201 [("message", Data (VStr "User registered successfully"));
                            ("token", Tok token);
                            ("user", user_view user)])
     end)
    (fun error => ret (failure "Error registering user" error)).

Record login_request : Type := LoginRequest {
  login_email : option string;
  login_password : option string
}.

(** Login user: [router.post('/login', ...)]. *)
Definition login (env : config) (sv : services) (req : login_request) : M response :=
  try_catch
    (user <- UserModel.findOne_email sv (login_email req) ;;
     match user with
     | None => ret (message_only 401 "Invalid credentials")
     | Some user =>
         isMatch <- UserModel.comparePassword sv user (login_password req) ;;
         if negb isMatch then ret (message_only 401 "Invalid credentials.")
         else if User.twoFactorEnabled user then
           let tempToken := sign (pending_claims user) (secret_or_default env)
                                 minutes5 (now sv) in
           ret (Response 200 [("message", Data (VStr "2FA verification required"));
                              ("requires2FA", Data (VBool true));
                              ("tempToken", Tok tempToken)])
         else
           let token := sign (session_claims user) (secret_or_default env)
                             hours24 (now sv) in
           ret (Response 200 [("message", Data (VStr "Login successful"));
                              ("token", Tok token);
                              ("user", user_view user)])
     end)
    (fun error => ret (failure "Error logging in" error)).

(** A body property in which a token is expected: a string, or a
    value of another type. *)
Inductive token_field : Type :=
| FString (s : jsstr)
| FValue (v : value).

Definition truthy_field (f : option token_field) : bool :=
  match f with
  | None => false
  | Some (FString s) => truthy_jsstr (Some s)
  | Some (FValue v) => truthy (Some v)
  end.

(** [jwt.verify] of a body property. *)
Definition verify_field (f : token_field) (key : string) (now : Z)
  : js_error + payload :=
  match f with
  | FString s => verify s key now
  | FValue (VStr s) => verify (Text s) key now
  | FValue _ => inl (JsonWebTokenError "jwt must be a string")
  end.

Record verify2fa_request : Type := Verify2faRequest {
  tempToken : option token_field;
  code : option value
}.

(** Verify 2FA during login: [router.post('/login/verify-2fa', ...)]. *)
Definition verify2fa (env : config) (sv : services) (req : verify2fa_request)
  : M response :=
  try_catch
    (match tempToken req, code req with
     | Some tempToken, Some code =>
         if negb (truthy_field (Some tempToken)) || negb (truthy (Some code))
         then ret (message_only 400 "Missing required fields")
         else
           decoded <- await (verify_field tempToken (secret_or_default env) (now sv)) ;;
           if negb (truthy_claim (lookup "requires2FA" decoded))
           then ret (message_only 400 "Invalid token")
           else
             user <- UserModel.findById sv (lookup "userId" decoded) ;;
             match user with
             | None => ret (message_only 404 "User not found")
             | Some user =>
                 verified <- await (totp_verify sv (User.twoFactorSecret user)
                                                (toString code)) ;;
                 if negb verified
                 then ret (message_only 400 "Invalid verification code")
                 else
                   let token := sign (session_claims user) (secret_or_default env)
                                     hours24 (now sv) in
                   ret (Response 200 [("message", Data (VStr "Login successful"));
                                      ("token", Tok token);
                                      ("user", user_view user)])
             end
     | _, _ => ret (message_only 400 "Missing required fields")
     end)
    (fun error => ret (failure "Error verifying 2FA" error)).

(** Fetch user profile: [router.get('/profile', ...)]. *)
Definition getProfile (env : config) (sv : services) (req : headers) : M response :=
  try_catch
    (match authorization req with
     | Some token =>
         if negb (truthy_jsstr (Some token))
         then ret (message_only 401 "No token provided")
         else
           decoded <- await (verify token (secret_or_default env) (now sv)) ;;
           user <- UserModel.findById sv (lookup "userId" decoded) ;;
           match user with
           | None => ret (message_only 404 "User not found")
           | Some user =>
               ret (Response 200
                      [("message", Data (VStr "Profile fetched successfully"));
                       ("user", Data (UserModel.getPublicProfile user))])
           end
     | None => ret (message_only 401 "No token provided")
     end)
    (fun error => ret (failure "Error fetching profile" error)).

(** Mongoose's cast of a value to a [Boolean] path. *)
Definition cast_boolean (v : value) : option (option bool) :=
  match v with
  | VBool b => Some (Some b)
  | VNum 1 => Some (Some true)
  | VNum 0 => Some (Some false)
  | VStr s =>
      if includes ["true"; "1"; "yes"] s then Some (Some true)
      else if includes ["false"; "0"; "no"] s then Some (Some false)
      else None
  | VNull => Some None
  | _ => None
  end.

(** A property of a spread [{ ...stored, ...given }] cast to a
    [Boolean] path: the value, and whether the cast failed. *)
Definition merged_boolean (k : string) (stored : option bool)
           (given : list (string * value)) : option bool * bool :=
  match lookup k given with
  | None => (stored, false)
  | Some v =>
      match cast_boolean v with
      | Some b => (b, false)
      | None => (stored, true)
      end
  end.

Definition merged_string (k : string) (stored : option string)
           (given : list (string * value)) : option string * bool :=
  match lookup k given with
  | None => (stored, false)
  | Some v =>
      match cast_string v with
      | Some s => (s, false)
      | None => (stored, true)
      end
  end.

Record profile_request : Type := ProfileRequest {
  p_headers : headers;
  p_firstName : option string;
  p_lastName : option string;
  p_email : option string;
  p_phoneNumber : option string;
  p_location : option value;
  p_languages : option value;
  p_qualification : option string;
  p_expertise : option value;
  p_cnic : option string;
  p_notifications : option (list (string * value));
  p_preferences : option (list (string * value));
  p_file : option upload_file
}.

Definition flag (path : string) (b : bool) : list string :=
  if b then [path] else [].

(** The assignments of [PUT /profile] to the loaded document. *)
Definition assign_profile (sv : services) (req : profile_request)
           (picture : string) (user : User.t) : User.t :=
  let lo := if truthy (p_location req)
            then UserModel.set_location (p_location req)
            else (User.location user, []) in
  let la := if truthy (p_languages req)
            then UserModel.cast_strings (p_languages req)
            else (User.languages user, false) in
  let ex := if truthy (p_expertise req)
            then UserModel.cast_strings (p_expertise req)
            else (User.expertise user, false) in
  let stored_n := User.notifications user in
  let ne := match p_notifications req with
            | Some n => merged_boolean "email" (User.Notifications.email stored_n) n
            | None => (User.Notifications.email stored_n, false)
            end in
  let ns := match p_notifications req with
            | Some n => merged_boolean "system" (User.Notifications.system stored_n) n
            | None => (User.Notifications.system stored_n, false)
            end in
  let stored_p := User.preferences user in
  let pd := match p_preferences req with
            | Some n => merged_boolean "darkMode" (User.Preferences.darkMode stored_p) n
            | None => (User.Preferences.darkMode stored_p, false)
            end in
  let pl := match p_preferences req with
            | Some n => merged_string "language" (User.Preferences.language stored_p) n
            | None => (User.Preferences.language stored_p, false)
            end in
  {| User._id := User._id user;
     User.firstName := trimmed sv (or_string (p_firstName req) (User.firstName user));
     User.lastName := trimmed sv (or_string (p_lastName req) (User.lastName user));
     User.email := normalised sv (or_string (p_email req) (User.email user));
     User.password := User.password user;
     User.cnic := trimmed sv (or_string (p_cnic req) (User.cnic user));
     User.phoneNumber :=
       trimmed sv (or_string (p_phoneNumber req) (User.phoneNumber user));
     User.dateOfBirth := User.dateOfBirth user;
     User.expertise := UserModel.each_trimmed sv (fst ex);
     User.profilePicture := picture;
     User.location := fst lo;
     User.languages := UserModel.each_trimmed sv (fst la);
     User.qualification :=
       trimmed sv (or_string (p_qualification req) (User.qualification user));
     User.role := User.role user;
     User.isVerified := User.isVerified user;
     User.twoFactorSecret := User.twoFactorSecret user;
     User.twoFactorEnabled := User.twoFactorEnabled user;
     User.notifications := User.Notifications.Make (fst ne) (fst ns);
     User.preferences := User.Preferences.Make (fst pd) (fst pl);
     User.createdAt := User.createdAt user;
     User.updatedAt := User.updatedAt user;
     User.invalid := User.invalid user ++ snd lo
                       ++ flag "languages" (snd la) ++ flag "expertise" (snd ex)
                       ++ flag "notifications.email" (snd ne)
                       ++ flag "notifications.system" (snd ns)
                       ++ flag "preferences.darkMode" (snd pd)
                       ++ flag "preferences.language" (snd pl) |}.

(** Update user profile: [router.put('/profile', ...)]. *)
Definition putProfile (env : config) (sv : services) (req : profile_request)
  : M response :=
  try_catch
    (match authorization (p_headers req) with
     | Some token =>
         if negb (truthy_jsstr (Some token))
         then ret (message_only 401 "No token provided")
         else
           decoded <- await (verify token (secret_or_default env) (now sv)) ;;
           user <- UserModel.findById sv (lookup "userId" decoded) ;;
           match user with
           | None => ret (message_only 404 "User not found")
           | Some user =>
               picture <- match p_file req with
                          | Some f => uploadToCloudinary sv (Some f)
                          | None => ret (User.profilePicture user)
                          end ;;
               user <- UserModel.save sv (assign_profile sv req picture user) ;;
               ret (Response 200
                      [("message", Data (VStr "Profile updated successfully"));
                       ("user", Data (UserModel.getPublicProfile user))])
           end
     | None => ret (message_only 401 "No token provided")
     end)
    (fun error => ret (failure "Error updating profile" error)).

Record password_request : Type := PasswordRequest {
  pw_headers : headers;
  currentPassword : option string;
  newPassword : option string
}.

(** Change password: [router.put('/change-password', ...)]. *)
Definition changePassword (env : config) (sv : services) (req : password_request)
  : M response :=
  try_catch
    (match authorization (pw_headers req) with
     | Some token =>
         if negb (truthy_jsstr (Some token))
         then ret (message_only 401 "No token provided")
         else
           decoded <- await (verify token (secret_or_default env) (now sv)) ;;
           user <- UserModel.findById sv (lookup "userId" decoded) ;;
           match user with
           | None => ret (message_only 404 "User not found")
           | Some user =>
               isMatch <- UserModel.comparePassword sv user (currentPassword req) ;;
               if negb isMatch
               then ret (message_only 400 "Current password is incorrect")
               else
                 i <- draw ;;
                 let salt := genSalt sv i in
                 hashed <- match newPassword req with
                           | Some p => ret (bcrypt_hash sv p salt)
                           | None => throw (plain_error
                                       "Illegal arguments: undefined, string")
                           end ;;
                 UserModel.save sv
                   (UserModel.with_password user (Some hashed) (User.updatedAt user)) ;;;
                 ret (message_only 200 "Password changed successfully")
           end
     | None => ret (message_only 401 "No token provided")
     end)
    (fun error => ret (failure "Error changing password" error)).

(** Setup two-factor authentication: [router.post('/2fa/setup', ...)]. *)
Definition twoFactorSetup (env : config) (sv : services) (docs : documents)
           (req : headers) : M response :=
  try_catch
    (match authorization req with
     | Some token =>
         if negb (truthy_jsstr (Some token))
         then ret (message_only 401 "No token provided")
         else
           decoded <- await (verify token (secret_or_default env) (now sv)) ;;
           user <- UserModel.findById sv (lookup "userId" decoded) ;;
           match user with
           | None => ret (message_only 404 "User not found")
           | Some user =>
               i <- draw ;;
               let secret :=
                 generateSecret sv i
                   ("AaghaazTech:" ^^ match User.email user with
                                      | Some e => e
                                      | None => "undefined"
                                      end) in
               UserModel.save sv
                 (UserModel.with_twoFactor user (Some (fst secret))
                                           (User.twoFactorEnabled user)) ;;;
               qrCode <- await (QRCode_toDataURL docs (snd secret)) ;;
               ret (Response 200 [("message", Data (VStr "2FA setup initiated"));
                                  ("secret", Data (VStr (fst secret)));
                                  ("qrCode", Data (VStr qrCode))])
           end
     | None => ret (message_only 401 "No token provided")
     end)
    (fun error => ret (failure "Error setting up 2FA" error)).

Record code_request : Type := CodeRequest {
  c_headers : headers;
  c_code : option value
}.

(** Verify and enable 2FA: [router.post('/2fa/verify', ...)].  The key
    of [jwt.verify] is the literal ['121212']. *)
Definition twoFactorVerify (env : config) (sv : services) (req : code_request)
  : M response :=
  try_catch
    (match authorization (c_headers req) with
     | Some token =>
         if negb (truthy_jsstr (Some token))
         then ret (message_only 401 "No token provided")
         else
           decoded <- await (verify token "121212" (now sv)) ;;
           user <- UserModel.findById sv (lookup "userId" decoded) ;;
           match user with
           | None => ret (message_only 404 "User not found")
           | Some user =>
               verificationToken <-
                 match c_code req with
                 | None | Some VNull =>
                     throw (Error "TypeError"
                              "Cannot read properties of undefined (reading 'toString')"
                              None)
                 | Some v => ret (toString v)
                 end ;;
               verified <- await (totp_verify sv (User.twoFactorSecret user)
                                              verificationToken) ;;
               if negb verified
               then ret (message_only 400 "Invalid verification code")
               else
                 UserModel.save sv
                   (UserModel.with_twoFactor user (User.twoFactorSecret user) true) ;;;
                 ret (message_only 200 "2FA enabled successfully")
           end
     | None => ret (message_only 401 "No token provided")
     end)
    (fun error => ret (failure "Error enabling 2FA" error)).

(** Disable 2FA: [router.post('/2fa/disable', ...)]. *)
Definition twoFactorDisable (env : config) (sv : services) (req : headers)
  : M response :=
  try_catch
    (match authorization req with
     | Some token =>
         if negb (truthy_jsstr (Some token))
         then ret (message_only 401 "No token provided")
         else
           decoded <- await (verify token (secret_or_default env) (now sv)) ;;
           user <- UserModel.findById sv (lookup "userId" decoded) ;;
           match user with
           | None => ret (message_only 404 "User not found")
           | Some user =>
               if negb (User.twoFactorEnabled user)
               then ret (message_only 400 "2FA is not enabled")
               else
                 UserModel.save sv (UserModel.with_twoFactor user None false) ;;;
                 ret (message_only 200 "2FA disabled successfully")
           end
     | None => ret (message_only 401 "No token provided")
     end)
    (fun error => ret (failure "Error disabling 2FA" error)).

Record delete_request : Type := DeleteRequest {
  d_headers : headers;
  d_password : option string
}.

(** Delete account: [router.delete('/account', ...)]. *)
Definition deleteAccount (env : config) (sv : services) (req : delete_request)
  : M response :=
  try_catch
    (match authorization (d_headers req) with
     | Some token =>
         if negb (truthy_jsstr (Some token))
         then ret (message_only 401 "No token provided")
         else
           decoded <- await (verify token (secret_or_default env) (now sv)) ;;
           user <- UserModel.findById sv (lookup "userId" decoded) ;;
           match user with
           | None => ret (message_only 404 "User not found")
           | Some user =>
               isMatch <- UserModel.comparePassword sv user (d_password req) ;;
               if negb isMatch
               then ret (message_only 400 "Password is incorrect")
               else
                 UserModel.findByIdAndDelete sv (lookup "userId" decoded) ;;;
                 ret (message_only 200 "Account deleted successfully")
           end
     | None => ret (message_only 401 "No token provided")
     end)
    (fun error => ret (failure "Error deleting account" error)).

End AuthRoutes.

(** ** A concrete world

    One instance of every oracle, a store with two users and two
    students, and a few requests, on which the handlers are run. *)

Module Sample.

Definition is_space (c : ascii) : bool :=
  let n := nat_of_ascii c in
  (n =? 32)%nat || (n =? 9)%nat || (n =? 10)%nat || (n =? 13)%nat.

Fixpoint skip_spaces (s : string) : string :=
  match s with
  | String c rest => if is_space c then skip_spaces rest else s
  | EmptyString => s
  end.

(** The characters of a string literal up to its closing quote
    (escapes are not read). *)
Fixpoint string_literal (s : string) : option (string * string) :=
  match s with
  | EmptyString => None
  | String c rest =>
      if (nat_of_ascii c =? 34)%nat then Some (EmptyString, rest)
      else match string_literal rest with
           | Some (lit, rest') => Some (String c lit, rest')
           | None => None
           end
  end.

Fixpoint digits (s : string) (acc : Z) : Z * string :=
  match s with
  | String c rest =>
      if is_digit c
      then digits rest (10 * acc + Z.of_nat (nat_of_ascii c - 48))%Z
      else (acc, s)
  | EmptyString => (acc, s)
  end.

(** A reader of JSON texts made of objects, arrays, string literals
    without escapes, natural numbers, [true], [false] and [null]. *)
Fixpoint read_value (fuel : nat) (s : string) : option (value * string) :=
  match fuel with
  | O => None
  | S fuel' =>
      match skip_spaces s with
      | String "{" rest =>
          match skip_spaces rest with
          | String "}" rest' => Some (VObj [], rest')
          | _ => read_members fuel' rest []
          end
      | String "[" rest =>
          match skip_spaces rest with
          | String "]" rest' => Some (VArr [], rest')
          | _ => read_elements fuel' rest []
          end
      | String (Ascii false true false false false true false false) rest =>
          match string_literal rest with
          | Some (lit, rest') => Some (VStr lit, rest')
          | None => None
          end
      | String "t" (String "r" (String "u" (String "e" rest))) =>
          Some (VBool true, rest)
      | String "f" (String "a" (String "l" (String "s" (String "e" rest)))) =>
          Some (VBool false, rest)
      | String "n" (String "u" (String "l" (String "l" rest))) =>
          Some (VNull, rest)
      | String c rest =>
          if is_digit c
          then let r := digits (String c rest) 0 in Some (VNum (fst r), snd r)
          else None
      | EmptyString => None
      end
  end
with read_elements (fuel : nat) (s : string) (acc : list value)
  : option (value * string) :=
  match fuel with
  | O => None
  | S fuel' =>
      match read_value fuel' s with
      | Some (v, rest) =>
          match skip_spaces rest with
          | String "," rest' => read_elements fuel' rest' (acc ++ [v])
          | String "]" rest' => Some (VArr (acc ++ [v]), rest')
          | _ => None
          end
      | None => None
      end
  end
with read_members (fuel : nat) (s : string) (acc : list (string * value))
  : option (value * string) :=
  match fuel with
  | O => None
  | S fuel' =>
      match skip_spaces s with
      | String (Ascii false true false false false true false false) rest =>
          match string_literal rest with
          | Some (k, rest1) =>
              match skip_spaces rest1 with
              | String ":" rest2 =>
                  match read_value fuel' rest2 with
                  | Some (v, rest3) =>
                      match skip_spaces rest3 with
                      | String "," rest4 => read_members fuel' rest4 (acc ++ [(k, v)])
                      | String "}" rest4 => Some (VObj (acc ++ [(k, v)]), rest4)
                      | _ => None
                      end
                  | None => None
                  end
              | _ => None
              end
          | None => None
          end
      | _ => None
      end
  end.

Definition SyntaxError : js_error :=
  Error "SyntaxError" "Unexpected token in JSON" None.

Definition parse (s : string) : js_error + value :=
  match read_value (S (String.length s)) s with
  | Some (v, rest) =>
      match skip_spaces rest with
      | EmptyString => inr v
      | _ => inl SyntaxError
      end
  | None => inl SyntaxError
  end.

(** The letters [A] to [Z] in lower case. *)
Fixpoint lowercase (s : string) : string :=
  match s with
  | EmptyString => EmptyString
  | String c rest =>
      let n := nat_of_ascii c in
      String (if (65 <=? n)%nat && (n <=? 90)%nat then ascii_of_nat (n + 32) else c)
             (lowercase rest)
  end.

Fixpoint strip_end (s : string) : string :=
  match s with
  | EmptyString => EmptyString
  | String c rest =>
      match strip_end rest with
      | EmptyString => if is_space c then EmptyString else String c EmptyString
      | kept => String c kept
      end
  end.

(** A text without the blanks at its ends. *)
Definition strip (s : string) : string := strip_end (skip_spaces s).

(** The number of a text of decimal digits. *)
Definition number (s : string) : option Z :=
  if all_digits s then Some (fst (digits s 0)) else None.

Definition world : services :=
  {| now := 1000;
     JSON_parse := parse;
     cast_date := fun s => if nonempty s then Some 0%Z else None;
     cast_ObjectId := fun v => match v with VStr s => Some s | _ => None end;
     ObjectId := fun n => "oid" ^^ decimal (Z.of_nat n);
     genSalt := fun _ => "salt";
     bcrypt_hash := fun p salt => "$2b$" ^^ salt ^^ "$" ^^ p;
     bcrypt_compare := fun p h => String.eqb h ("$2b$salt$" ^^ p);
     random_roll := fun n => decimal (100000 + Z.of_nat n);
     draws := 8;
     totp_verify := fun secret token =>
       match secret with
       | Some _ => inr (String.eqb token "123456")
       | None => inl (plain_error "secret is required")
       end;
     generateSecret := fun n label => ("JBSWY3DPEHPK3PXP", "otpauth://totp/" ^^ label);
     cloudinary_upload := fun folder f => inr (Some ("https://res.example/" ^^ folder));
     cloudinary_compress := fun url => inr (Some (url ^^ "/compressed"));
     toLowerCase := lowercase;
     trim := strip;
     Number_of := number |}.

(** The same world with an image store that times out. *)
Definition world_upload_down : services :=
  {| now := now world; JSON_parse := JSON_parse world; cast_date := cast_date world;
     cast_ObjectId := cast_ObjectId world; ObjectId := ObjectId world;
     genSalt := genSalt world; bcrypt_hash := bcrypt_hash world;
     bcrypt_compare := bcrypt_compare world; random_roll := random_roll world;
     draws := draws world; totp_verify := totp_verify world;
     generateSecret := generateSecret world;
     cloudinary_upload := fun _ _ => inl (Error "TimeoutError" "Request Timeout" (Some 499));
     cloudinary_compress := cloudinary_compress world;
     toLowerCase := toLowerCase world; trim := trim world;
     Number_of := Number_of world |}.

Definition printer : documents :=
  {| jsPDF_layout := fun _ => inr tt;
     QRCode_toDataURL := fun data => inr ("data:image/png;base64," ^^ data);
     jsPDF_addImage := fun _ => inr tt;
     jsPDF_output := fun s _ => inr ("%PDF " ^^ Student._id s) |}.

Definition smtp : mailer :=
  {| transporter_verify := inr tt;
     transporter_sendMail := fun _ => inr tt |}.

(** A mail adapter that throws. *)
Definition smtp_down : mailer :=
  {| transporter_verify := inl (plain_error "connect ECONNREFUSED");
     transporter_sendMail := fun _ => inl (plain_error "connect ECONNREFUSED") |}.

Definition unset : config := Config None None.
Definition production : config := Config (Some "prod-secret") (Some "lms@example.org").

Definition admin : User.t :=
  {| User._id := "u1"; User.firstName := Some "Ada"; User.lastName := Some "Khan";
     User.email := Some "ada@x.com"; User.password := Some "$2b$salt$secret1";
     User.cnic := Some "1111111111111"; User.phoneNumber := Some "0300";
     User.dateOfBirth := Some 0%Z; User.expertise := []; User.profilePicture := "";
     User.location := User.Location.Make None None; User.languages := [];
     User.qualification := None; User.role := "admin"; User.isVerified := false;
     User.twoFactorSecret := Some "JBSWY3DPEHPK3PXP"; User.twoFactorEnabled := true;
     User.notifications := User.Notifications.Make (Some true) (Some true);
     User.preferences := User.Preferences.Make (Some false) (Some "en");
     User.createdAt := 0; User.updatedAt := 0; User.invalid := [] |}.

Definition officer : User.t :=
  {| User._id := "u2"; User.firstName := Some "Bilal"; User.lastName := Some "Raza";
     User.email := Some "bilal@x.com"; User.password := Some "$2b$salt$secret2";
     User.cnic := Some "2222222222222"; User.phoneNumber := Some "0301";
     User.dateOfBirth := Some 0%Z; User.expertise := []; User.profilePicture := "";
     User.location := User.Location.Make None None; User.languages := [];
     User.qualification := None; User.role := "maintenance_office";
     User.isVerified := false;
     User.twoFactorSecret := None; User.twoFactorEnabled := false;
     User.notifications := User.Notifications.Make (Some true) (Some true);
     User.preferences := User.Preferences.Make (Some false) (Some "en");
     User.createdAt := 0; User.updatedAt := 0; User.invalid := [] |}.

Definition student (id mail nic status roll : string) : Student.t :=
  {| Student._id := id; Student.firstName := Some "Sana"; Student.lastName := Some "Ali";
     Student.email := Some mail; Student.password := Some "$2b$salt$secret3";
     Student.cnic := Some nic; Student.phoneNumber := Some "0302";
     Student.dateOfBirth := Some 0%Z; Student.gender := Some "female";
     Student.address := Student.Address.Make None None None None None;
     Student.guardianName := Some "G"; Student.guardianPhone := Some "0303";
     Student.guardianRelation := Some "mother"; Student.enrolledCourses := [];
     Student.enrollmentDate := 0; Student.status := status; Student.profilePicture := "";
     Student.isActive := true; Student.createdAt := 0; Student.updatedAt := 0;
     Student.rollId := Some roll; Student.invalid := [] |}.

Definition pending_student : Student.t :=
  student "s1" "a@x.com" "1234567890123" "Pending" "100000".
Definition enrolled_student : Student.t :=
  student "s2" "e@x.com" "3333333333333" "Enrolled" "100001".

Definition db : store :=
  {| users := [admin; officer];
     students := [pending_student; enrolled_student];
     courses := [Course.Make "c1" "Web"];
     console := []; outbox := []; entropy := 0 |}.

Definition no_students : store :=
  {| users := [admin; officer]; students := [];
     courses := [Course.Make "c1" "Web"];
     console := []; outbox := []; entropy := 0 |}.

Definition picture : upload_file := UploadFile (Some "89504e47") "image/png".

(** A student registration form. *)
Definition form (mail nic : string) (addr courses : option value)
           (pic : option upload_file) : StudentRoutes.register_request :=
  {| StudentRoutes.firstName := Some "Sana"; StudentRoutes.lastName := Some "Ali";
     StudentRoutes.email := Some mail; StudentRoutes.password := Some "secret3";
     StudentRoutes.cnic := Some nic; StudentRoutes.phoneNumber := Some "0302";
     StudentRoutes.dateOfBirth := Some "2001-02-03"; StudentRoutes.gender := Some "female";
     StudentRoutes.address := addr;
     StudentRoutes.guardianName := Some "G"; StudentRoutes.guardianPhone := Some "0303";
     StudentRoutes.guardianRelation := Some "mother";
     StudentRoutes.enrolledCourses := courses;
     StudentRoutes.file := pic |}.

(** A user registration form. *)
Definition user_form (mail nic : string) (skills : option value)
           (pic : option upload_file) : AuthRoutes.register_request :=
  {| AuthRoutes.firstName := Some "Omar"; AuthRoutes.lastName := Some "Zaid";
     AuthRoutes.email := Some mail; AuthRoutes.password := Some "secret4";
     AuthRoutes.cnic := Some nic; AuthRoutes.phoneNumber := Some "0304";
     AuthRoutes.dateOfBirth := Some "1990-01-01";
     AuthRoutes.expertise := skills; AuthRoutes.location := None;
     AuthRoutes.languages := None; AuthRoutes.qualification := None;
     AuthRoutes.role := None; AuthRoutes.file := pic |}.

End Sample.

(** ** Vocabulary of the statements *)

(** [names msg r]: the text [r] occurs in [msg]. *)
Definition names (msg r : string) : Prop :=
  exists before after, msg = before ^^ r ^^ after.

(** Claims that [sign] accepts with [expiresIn]: no registered claim
    of their own. *)
Definition valid_claims (p : payload) : Prop :=
  forall k, In k registered -> lookup k p = None.

(** [unchanged st st']: the collections of the store are the same. *)
Definition unchanged (st st' : store) : Prop :=
  users st' = users st /\ students st' = students st /\ courses st' = courses st.

(** A computation that reads the collections but writes none of them. *)
Definition reads {A : Type} (m : M A) : Prop :=
  forall st, unchanged st (snd (m st)).

(** A computation that ends with a value from every store. *)
Definition returns {A : Type} (m : M A) : Prop :=
  forall st, exists a st', m st = (Val a, st').

(** A computation that ends, with a value or an exception, from every
    store. *)
Definition halts {A : Type} (m : M A) : Prop :=
  forall st, fst (m st) <> Diverge.

(** The status of the response a handler ended with, if it ended. *)
Definition status_of (r : outcome response) : option nat :=
  match r with Val res => Some (status res) | _ => None end.

(** The store after [console.error(label, error)]. *)
Definition logged (st : store) (label : string) (error : js_error) : store :=
  Store (users st) (students st) (courses st)
        (console st ++ [console_error label error]) (outbox st) (entropy st).

(** A registration form with another [address]. *)
Definition with_address (req : StudentRoutes.register_request) (a : option value)
  : StudentRoutes.register_request :=
  {| StudentRoutes.firstName := StudentRoutes.firstName req;
     StudentRoutes.lastName := StudentRoutes.lastName req;
     StudentRoutes.email := StudentRoutes.email req;
     StudentRoutes.password := StudentRoutes.password req;
     StudentRoutes.cnic := StudentRoutes.cnic req;
     StudentRoutes.phoneNumber := StudentRoutes.phoneNumber req;
     StudentRoutes.dateOfBirth := StudentRoutes.dateOfBirth req;
     StudentRoutes.gender := StudentRoutes.gender req;
     StudentRoutes.address := a;
     StudentRoutes.guardianName := StudentRoutes.guardianName req;
     StudentRoutes.guardianPhone := StudentRoutes.guardianPhone req;
     StudentRoutes.guardianRelation := StudentRoutes.guardianRelation req;
     StudentRoutes.enrolledCourses := StudentRoutes.enrolledCourses req;
     StudentRoutes.file := StudentRoutes.file req |}.

(** The image upload adapter fails on a file: the file has no buffer,
    the upload throws, or its result has no [secure_url]. *)
Definition upload_fails (sv : services) (folder : string) (f : upload_file) : Prop :=
  buffer f = None
  \/ (exists e, cloudinary_upload sv folder f = inl e)
  \/ (exists r, cloudinary_upload sv folder f = inr r /\ truthy_string r = false).

(** Every step of the ID-card block succeeds. *)
Definition card_succeeds (env : config) (docs : documents) (smtp : mailer)
           (student : Student.t) : Prop :=
  exists url pdf,
    jsPDF_layout docs student = inr tt
    /\ QRCode_toDataURL docs (StudentRoutes.qrData student) = inr url
    /\ jsPDF_addImage docs url = inr tt
    /\ jsPDF_output docs student (Some url) = inr pdf
    /\ transporter_verify smtp = inr tt
    /\ transporter_sendMail smtp (StudentRoutes.id_card_mail env student pdf) = inr tt.

(** The tokens a response carries. *)
Definition tokens_of (res : response) : list token :=
  flat_map (fun kv => match snd kv with Tok t => [t] | Data _ => [] end) (body res).

(** ** Vocabulary of the account statements *)

(** The services at another reading of the clock. *)
Definition at_time (sv : services) (t : Z) : services :=
  {| now := t; JSON_parse := JSON_parse sv; cast_date := cast_date sv;
     cast_ObjectId := cast_ObjectId sv; ObjectId := ObjectId sv;
     genSalt := genSalt sv; bcrypt_hash := bcrypt_hash sv;
     bcrypt_compare := bcrypt_compare sv; random_roll := random_roll sv;
     draws := draws sv; totp_verify := totp_verify sv;
     generateSecret := generateSecret sv;
     cloudinary_upload := cloudinary_upload sv;
     cloudinary_compress := cloudinary_compress sv;
     toLowerCase := toLowerCase sv; trim := trim sv;
     Number_of := Number_of sv |}.

(** [signed_in key sv h st user]: the credential of the header verifies
    under [key], and the [userId] it carries finds [user] in the store. *)
Definition signed_in (key : string) (sv : services) (h : headers) (st : store)
           (user : User.t) : Prop :=
  exists token decoded,
    authorization h = Some token
    /\ verify token key (now sv) = inr decoded
    /\ UserModel.findById sv (lookup "userId" decoded) st = (Val (Some user), st).

(** The common frame of the account handlers of [routes/auth.mjs]: the
    credential, its verification and the lookup of the user, around a
    body, inside the handler's [try] and [catch]. *)
Definition guarded (key : string) (sv : services) (h : headers) (msg : string)
           (body : payload -> User.t -> M response) : M response :=
  try_catch
    (match authorization h with
     | Some token =>
         if negb (truthy_jsstr (Some token))
         then ret (message_only 401 "No token provided")
         else
           decoded <- await (verify token key (now sv)) ;;
           user <- UserModel.findById sv (lookup "userId" decoded) ;;
           match user with
           | None => ret (message_only 404 "User not found")
           | Some user => body decoded user
           end
     | None => ret (message_only 401 "No token provided")
     end)
    (fun error => ret (AuthRoutes.failure msg error)).

(** A stored user with other 2FA settings, as [user.save()] writes it
    at time [t]. *)
Definition with_settings (user : User.t) (secret : option string) (enabled : bool)
           (t : Z) : User.t :=
  UserModel.with_password (UserModel.with_twoFactor user secret enabled)
                          (User.password user) t.

(** The user can be written back as it is: it passes the validation of
    the schema, and no other stored user has its email or its CNIC. *)
Definition storable (user : User.t) (st : store) : Prop :=
  UserModel.validate user = true
  /\ UserModel.duplicate_key user (users st) = None.

(** ** Further sample data *)

Module Scenario.

(** The officer of the sample store after [POST /2fa/setup]. *)
Definition officer_after_setup : User.t :=
  UserModel.with_twoFactor Sample.officer (Some "JBSWY3DPEHPK3PXP") false.

Definition db_after_setup : store :=
  {| users := [Sample.admin; officer_after_setup];
     students := students Sample.db; courses := courses Sample.db;
     console := []; outbox := []; entropy := 0 |}.

(** A credential for a user, as the login issues it at time 1000. *)
Definition session (env : config) (user : User.t) : headers :=
  Headers (Some (Compact (sign (AuthRoutes.session_claims user)
                               (secret_or_default env) hours24 1000))).

End Scenario.


(** ** routes/student.mjs: the routes of the office

    The routes that create, count, update and delete students and that
    mail an ID card.  Body and route parameters are strings when they are
    present ([address] and [enrolledCourses] may be any value, as in the
    registration).  A body that holds a student document is sent as
    Mongoose serialises the document; the model keeps the document. *)

Module StudentAdmin.

(** A route behind a gate: the gate answers the request, or it calls
    [next()] and the handler runs with [req.user]. *)
Definition gated {A : Type} (gate : config -> Z -> headers -> gate_result)
           (env : config) (sv : services) (h : headers)
           (refuse : response -> A) (handler : identity -> M A) : M A :=
  match gate env (now sv) h with
  | Respond r => ret (refuse r)
  | Next user => handler user
  end.

(** What these routes send: a body of plain data, or
    [{ message, student }] with a document. *)
Inductive sent : Type :=
| Plain (r : response)
| WithStudent (code : nat) (message : string) (student : Student.t).

Definition code_of (s : sent) : nat :=
  match s with
  | Plain r => status r
  | WithStudent code _ _ => code
  end.

(** [res.status(500).json({ message, error: error.message })] *)
Definition failure (msg : string) (error : js_error) : sent :=
  Plain (Response 500 [("message", Data (VStr msg));
                       ("error", Data (VStr (message error)))]).

(** [Student.findById(id)]: [undefined] and [null] find nothing, any
    other value is cast to an [ObjectId]. *)
Definition findById (sv : services) (id : option value) : M (option Student.t) :=
  match id with
  | None | Some VNull => ret None
  | Some v =>
      match cast_ObjectId sv v with
      | Some i =>
          st <- get ;;
          ret (find (fun d => String.eqb (Student._id d) i) (students st))
      | None => throw (CastError "_id")
      end
  end.

(** [await student.deleteOne()] *)
Definition deleteOne (this : Student.t) : M unit :=
  st <- get ;;
  set_students (filter (fun d => negb (String.eqb (Student._id d) (Student._id this)))
                       (students st)).

(** [Student.countDocuments({ status })] *)
Definition countDocuments_status (s : string) : M nat :=
  st <- get ;;
  ret (List.length (filter (fun d => String.eqb (Student.status d) s) (students st))).

(** [Student.countDocuments()] *)
Definition countDocuments : M nat :=
  st <- get ;;
  ret (List.length (students st)).

(** The body of [POST /]. *)
Record create_request : Type := CreateRequest {
  c_firstName : option string;
  c_lastName : option string;
  c_email : option string;
  c_phoneNumber : option string;
  c_dateOfBirth : option string;
  c_address : option value;
  c_emergencyContact : option value;
  c_enrollmentDate : option string;
  (** [undefined] takes the default ['active'] of the destructuring. *)
  c_status : option string
}.

(** The cast of a string to the [Date] path [enrollmentDate], whose
    default is [Date.now]. *)
Definition cast_enrollmentDate (sv : services) (v : option string)
  : Z * list string :=
  match v with
  | None => (now sv, [])
  | Some s =>
      match cast_date sv s with
      | Some d => (d, [])
      | None => (now sv, ["enrollmentDate"])
      end
  end.

(** [new Student({ firstName, lastName, email, phoneNumber, dateOfBirth,
    address, emergencyContact, enrollmentDate, status })]: the paths that
    the route does not give are [undefined] or take their default, and
    [emergencyContact], which the schema does not have, is dropped. *)
Definition new (sv : services) (req : create_request) : M Student.t :=
  i <- draw ;;
  let a := StudentModel.cast_address (c_address req) in
  let d := StudentModel.cast_dateOfBirth sv (c_dateOfBirth req) in
  let e := cast_enrollmentDate sv (c_enrollmentDate req) in
  ret {| Student._id := ObjectId sv i;
         Student.firstName := trimmed sv (c_firstName req);
         Student.lastName := trimmed sv (c_lastName req);
         Student.email := normalised sv (c_email req);
         Student.password := None;
         Student.cnic := None;
         Student.phoneNumber := trimmed sv (c_phoneNumber req);
         Student.dateOfBirth := fst d;
         Student.gender := None;
         Student.address := fst a;
         Student.guardianName := None;
         Student.guardianPhone := None;
         Student.guardianRelation := None;
         Student.enrolledCourses := [];
         Student.enrollmentDate := fst e;
         Student.status := match c_status req with Some s => s | None => "active" end;
         Student.profilePicture := "";
         Student.isActive := true;
         Student.createdAt := now sv;
         Student.updatedAt := now sv;
         Student.rollId := None;
         Student.invalid := snd a ++ snd d ++ snd e |}.

(** Create a new student: [router.post('/', adminOrMaintenance, ...)]. *)
Definition create (env : config) (sv : services) (h : headers)
           (req : create_request) : M sent :=
  gated Middleware.adminOrMaintenance env sv h Plain
    (fun _ =>
       try_catch
         (existingStudent <- StudentModel.findOne_email sv (c_email req) ;;
          match existingStudent with
          | Some _ =>
              ret (Plain (message_only 400 "Student with this email already exists"))
          | None =>
              student <- new sv req ;;
              student <- StudentModel.save sv student ;;
              ret (WithStudent 201 "Student created successfully" student)
          end)
         (fun error => ret (failure "Error creating student" error))).

(** Get student counts for dashboard: [router.get('/count', ...)]. *)
Definition count : M response :=
  try_catch
    (totalStudents <- countDocuments ;;
     pendingStudents <- countDocuments_status "Pending" ;;
     enrolledStudents <- countDocuments_status "Enrolled" ;;
     suspendedStudents <- countDocuments_status "Suspended" ;;
     ret (Response 200 [("total", Data (VNum (Z.of_nat totalStudents)));
                        ("pending", Data (VNum (Z.of_nat pendingStudents)));
                        ("enrolled", Data (VNum (Z.of_nat enrolledStudents)));
                        ("suspended", Data (VNum (Z.of_nat suspendedStudents)))]))
    (fun error =>
       log (console_error "Error fetching student counts:" error) ;;;
       ret (message_only 500 "Error fetching student counts")).

(** The body and file of [PUT /:id]. *)
Record update_request : Type := UpdateRequest {
  u_firstName : option string;
  u_lastName : option string;
  u_email : option string;
  u_phoneNumber : option string;
  u_dateOfBirth : option string;
  u_address : option value;
  u_guardianName : option string;
  u_guardianPhone : option string;
  u_guardianRelation : option string;
  u_enrolledCourses : option value;
  u_status : option string;
  u_file : option upload_file
}.

(** [if (x) student.path = x] for a string path, and for a string path
    with setters. *)
Definition assigned (x stored : option string) : option string :=
  if truthy_string x then x else stored.

Definition assigned_through (setter : option string -> option string)
           (x stored : option string) : option string :=
  if truthy_string x then setter x else stored.

(** The assignments of [PUT /:id] to the loaded document.  A value that
    does not cast leaves the path as it was and makes the validation
    fail. *)
Definition assign (sv : services) (req : update_request)
           (parsedAddress : option value)
           (parsedCourses : list Student.Enrollment.t) (picture : string)
           (student : Student.t) : Student.t :=
  let d := if truthy_string (u_dateOfBirth req)
           then match StudentModel.cast_dateOfBirth sv (u_dateOfBirth req) with
                | (Some d, _) => (Some d, [])
                | (None, failed) => (Student.dateOfBirth student, failed)
                end
           else (Student.dateOfBirth student, []) in
  let a := if truthy parsedAddress
           then StudentModel.set_address parsedAddress
           else (Student.address student, []) in
  {| Student._id := Student._id student;
     Student.firstName :=
       assigned_through (trimmed sv) (u_firstName req) (Student.firstName student);
     Student.lastName :=
       assigned_through (trimmed sv) (u_lastName req) (Student.lastName student);
     Student.email :=
       assigned_through (normalised sv) (u_email req) (Student.email student);
     Student.password := Student.password student;
     Student.cnic := Student.cnic student;
     Student.phoneNumber :=
       assigned_through (trimmed sv) (u_phoneNumber req) (Student.phoneNumber student);
     Student.dateOfBirth := fst d;
     Student.gender := Student.gender student;
     Student.address := fst a;
     Student.guardianName := assigned (u_guardianName req) (Student.guardianName student);
     Student.guardianPhone := assigned (u_guardianPhone req) (Student.guardianPhone student);
     Student.guardianRelation := assigned (u_guardianRelation req) (Student.guardianRelation student);
     Student.enrolledCourses := match parsedCourses with
                        | [] => Student.enrolledCourses student
                        | _ => parsedCourses
                        end;
     Student.enrollmentDate := Student.enrollmentDate student;
     Student.status := match u_status req with
               | Some s => if nonempty s then s else Student.status student
               | None => Student.status student
               end;
     Student.profilePicture := picture;
     Student.isActive := Student.isActive student;
     Student.createdAt := Student.createdAt student;
     Student.updatedAt := Student.updatedAt student;
     Student.rollId := Student.rollId student;
     Student.invalid := Student.invalid student ++ snd d ++ snd a |}.

(** Update a student: [router.put('/:id', adminOrMaintenance,
    upload.single('profilePicture'), ...)]. *)
Definition update (env : config) (sv : services) (h : headers) (id : string)
           (req : update_request) : M sent :=
  gated Middleware.adminOrMaintenance env sv h Plain
    (fun _ =>
       try_catch
         (student <- findById sv (Some (VStr id)) ;;
          match student with
          | None => ret (Plain (message_only 404 "Student not found"))
          | Some student =>
              parsedAddress <- StudentRoutes.parse_address sv (u_address req) ;;
              parsed <- StudentRoutes.parse_courses sv (u_enrolledCourses req) ;;
              match parsed with
              | inl res => ret (Plain res)
              | inr parsedCourses =>
                  picture <- match u_file req with
                             | Some f => StudentRoutes.uploadToCloudinary sv (Some f)
                             | None => ret (Student.profilePicture student)
                             end ;;
                  student <- StudentModel.save sv
                               (assign sv req parsedAddress parsedCourses picture
                                       student) ;;
                  ret (WithStudent 200 "Student updated successfully" student)
              end
          end)
         (fun error =>
            log (console_error "Error updating student:" error) ;;;
            ret (failure "Error updating student" error))).

(** Delete a student: [router.delete('/:id', adminOrMaintenance, ...)]. *)
Definition remove (env : config) (sv : services) (h : headers) (id : string)
  : M sent :=
  gated Middleware.adminOrMaintenance env sv h Plain
    (fun _ =>
       try_catch
         (student <- findById sv (Some (VStr id)) ;;
          match student with
          | None => ret (Plain (message_only 404 "Student not found"))
          | Some student =>
              deleteOne student ;;;
              ret (Plain (message_only 200 "Student deleted successfully"))
          end)
         (fun error => ret (failure "Error deleting student" error))).

(** The body and file of [POST /send-id-card]. *)
Record card_request : Type := CardRequest {
  studentId : option string;
  pdf : option upload_file
}.

(** The mail of [POST /send-id-card]. *)
Definition card_mail (env : config) (student : Student.t) (pdfBuffer : option string) : mail :=
  {| mail_from := SMTP_FROM env;
     mail_to := Student.email student;
     subject := "Your Student ID Card";
     text := "Dear " ^^ StudentRoutes.shown (Student.firstName student) ^^ ","
       ^^ StudentRoutes.nl ^^ StudentRoutes.nl
       ^^ "Please find your student ID card attached."
       ^^ StudentRoutes.nl ^^ StudentRoutes.nl
       ^^ "Best regards," ^^ StudentRoutes.nl ^^ "Aaghaaz Tech";
     attachment := match pdfBuffer with Some b => b | None => "" end |}.

(** Route to send ID card via email: [router.post('/send-id-card',
    upload.single('pdf'), ...)]. *)
Definition sendIdCard (env : config) (sv : services) (smtp : mailer)
           (req : card_request) : M response :=
  try_catch
    (pdfBuffer <- match pdf req with
                  | Some f => ret (buffer f)
                  | None =>
                      throw (Error "TypeError"
                               "Cannot read properties of undefined (reading 'buffer')"
                               None)
                  end ;;
     student <- findById sv (match studentId req with
                             | Some s => Some (VStr s)
                             | None => None
                             end) ;;
     match student with
     | None => ret (message_only 404 "Student not found")
     | Some student =>
         let m := card_mail env student pdfBuffer in
         await (transporter_sendMail smtp m) ;;;
         deliver m ;;;
         ret (message_only 200 "ID card sent successfully")
     end)
    (fun error =>
       log (console_error "Error sending ID card:" error) ;;;
       ret (message_only 500 "Error sending ID card")).

End StudentAdmin.

(** ** Vocabulary of the office statements *)

(** The body of a [PUT /:id] that gives a status and nothing else. *)
Definition status_change (s : string) : StudentAdmin.update_request :=
  {| StudentAdmin.u_firstName := None; StudentAdmin.u_lastName := None;
     StudentAdmin.u_email := None; StudentAdmin.u_phoneNumber := None;
     StudentAdmin.u_dateOfBirth := None; StudentAdmin.u_address := None;
     StudentAdmin.u_guardianName := None; StudentAdmin.u_guardianPhone := None;
     StudentAdmin.u_guardianRelation := None;
     StudentAdmin.u_enrolledCourses := None;
     StudentAdmin.u_status := Some s; StudentAdmin.u_file := None |}.

(** The credential passed [checkRole roles]: it verified, and the role
    it carries is one of [roles]. *)
Definition let_through (roles : list string) (env : config) (sv : services)
           (h : headers) : Prop :=
  exists token decoded,
    authorization h = Some token
    /\ verify token (secret_or_default env) (now sv) = inr decoded
    /\ roles_include roles (lookup "role" decoded) = true.

(** The number of students with a status. *)
Definition with_status (s : string) (l : list Student.t) : nat :=
  List.length (filter (fun d => String.eqb (Student.status d) s) l).

(** [selects sv selection l]: the [enrolledCourses] of a form is the
    array [l], as an array or as a JSON text of it. *)
Definition selects (sv : services) (selection : option value) (l : list value)
  : Prop :=
  selection = Some (VArr l)
  \/ exists s, s <> "" /\ selection = Some (VStr s)
               /\ JSON_parse sv s = inr (VArr l).

(** ** models/Course.mjs

    The course collection with every path of [courseSchema].  Numbers
    are whole numbers, as everywhere in this model. *)

Module CourseSchema.

Module Timing.
Record t : Type := Make { startTime : option string; endTime : option string }.
End Timing.

Record t : Type := Make {
  _id : string;
  name : option string;
  days : list string;
  timing : Timing.t;
  (** Duration in weeks. *)
  duration : option Z;
  price : option Z;
  modeOfDelivery : option string;
  outline : string;
  requirements : string;
  poster : string;
  createdBy : option string;
  isActive : bool;
  createdAt : Z;
  updatedAt : Z;
  students : list string;
  startingDate : option Z;
  (** Paths whose value could not be cast. *)
  invalid : list string
}.

Definition weekdays : list string :=
  ["Monday"; "Tuesday"; "Wednesday"; "Thursday"; "Friday"; "Saturday"; "Sunday"].

Definition modes : list string := ["Online"; "Offline"; "Hybrid"; "Onsite"].

(** A character between two character codes. *)
Definition between (lo hi : nat) (c : ascii) : bool :=
  let n := nat_of_ascii c in (lo <=? n)%nat && (n <=? hi)%nat.

(** The validator of [timing.startTime] and [timing.endTime]:
    [/^([0-1]?[0-9]|2[0-3]):[0-5][0-9]$/.test(v)].  Codes 48 to 57 are
    the digits, 58 is the colon. *)
Definition time_format (v : string) : bool :=
  match list_ascii_of_string v with
  | [h; colon; m1; m2] =>
      between 48 57 h
      && between 58 58 colon && between 48 53 m1 && between 48 57 m2
  | [h1; h2; colon; m1; m2] =>
      ((between 48 49 h1 && between 48 57 h2)
       || (between 50 50 h1 && between 48 51 h2))
      && between 58 58 colon && between 48 53 m1 && between 48 57 m2
  | _ => false
  end.

Definition valid_time (s : option string) : bool :=
  match s with Some v => time_format v | None => true end.

Definition present {A : Type} (x : option A) : bool :=
  match x with Some _ => true | None => false end.

(** The [min] validator of a number path. *)
Definition at_least (n : Z) (x : option Z) : bool :=
  match x with Some v => (n <=? v)%Z | None => true end.

(** Validation against [courseSchema]. *)
Definition validate (this : t) : bool :=
  match invalid this with [] => true | _ => false end
  && required (name this)
  && forallb (fun d => nonempty d && includes weekdays d) (days this)
  && required (Timing.startTime (timing this))
  && valid_time (Timing.startTime (timing this))
  && required (Timing.endTime (timing this))
  && valid_time (Timing.endTime (timing this))
  && present (duration this) && at_least 1 (duration this)
  && present (price this) && at_least 0 (price this)
  && required (modeOfDelivery this)
  && StudentModel.in_enum modes (modeOfDelivery this)
  && present (startingDate this).

(** The [pre('save')] hook: [this.updatedAt = Date.now()]. *)
Definition touched (this : t) (updated : Z) : t :=
  {| _id := _id this; name := name this; days := days this;
     timing := timing this; duration := duration this; price := price this;
     modeOfDelivery := modeOfDelivery this; outline := outline this;
     requirements := requirements this; poster := poster this;
     createdBy := createdBy this; isActive := isActive this;
     createdAt := createdAt this; updatedAt := updated;
     students := students this; startingDate := startingDate this;
     invalid := invalid this |}.

(** Insert the document, or replace the stored one with the same id. *)
Definition write (this : t) (stored : list t) : list t :=
  if existsb (fun d => String.eqb (_id d) (_id this)) stored
  then map (fun d => if String.eqb (_id d) (_id this) then this else d) stored
  else stored ++ [this].

End CourseSchema.

(** ** models/Attendance.mjs *)

Module AttendanceSchema.

(** An element of [students]. *)
Module Entry.
Record t : Type := Make {
  studentId : option string;
  status : option string;
  remarks : option string
}.
End Entry.

Record t : Type := Make {
  _id : string;
  courseId : option string;
  date : option Z;
  students : list Entry.t;
  markedBy : option string;
  (** [timestamps: true]; set by the first [save]. *)
  createdAt : option Z;
  updatedAt : option Z;
  (** Paths whose value could not be cast. *)
  invalid : list string
}.

Definition statuses : list string := ["present"; "absent"; "late"].

Definition valid_entry (e : Entry.t) : bool :=
  CourseSchema.present (Entry.studentId e)
  && required (Entry.status e)
  && StudentModel.in_enum statuses (Entry.status e).

(** Validation against [attendanceSchema]. *)
Definition validate (this : t) : bool :=
  match invalid this with [] => true | _ => false end
  && CourseSchema.present (courseId this)
  && CourseSchema.present (date this)
  && forallb valid_entry (students this)
  && CourseSchema.present (markedBy this).

(** The timestamps of a [save] at time [at_]. *)
Definition stamped (this : t) (at_ : Z) : t :=
  {| _id := _id this; courseId := courseId this; date := date this;
     students := students this; markedBy := markedBy this;
     createdAt := match createdAt this with
                  | Some c => Some c
                  | None => Some at_
                  end;
     updatedAt := Some at_;
     invalid := invalid this |}.

Definition same_day (a b : t) : bool :=
  option_eqb (courseId a) (courseId b)
  && match date a, date b with
     | Some x, Some y => Z.eqb x y
     | None, None => true
     | _, _ => false
     end.

(** The unique index [{ courseId: 1, date: 1 }], against the other
    documents. *)
Definition duplicate_key (this : t) (stored : list t) : bool :=
  existsb (fun d => negb (String.eqb (_id d) (_id this)) && same_day d this) stored.

(** Insert the document, or replace the stored one with the same id. *)
Definition write (this : t) (stored : list t) : list t :=
  if existsb (fun d => String.eqb (_id d) (_id this)) stored
  then map (fun d => if String.eqb (_id d) (_id this) then this else d) stored
  else stored ++ [this].

End AttendanceSchema.

(** The course collection, the attendance collection, what was written
    to the console, and the number of identifiers made so far. *)
Module Campus.
Record t : Type := Make {
  courses : list CourseSchema.t;
  attendance : list AttendanceSchema.t;
  journal : list log_entry;
  minted : nat
}.

Definition with_courses (s : t) (l : list CourseSchema.t) : t :=
  Make l (attendance s) (journal s) (minted s).

Definition with_attendance (s : t) (l : list AttendanceSchema.t) : t :=
  Make (courses s) l (journal s) (minted s).

(** [console.error(label, error)] *)
Definition logged (s : t) (label : string) (error : js_error) : t :=
  Make (courses s) (attendance s) (journal s ++ [console_error label error])
       (minted s).

(** One more identifier was made. *)
Definition mint (s : t) : t :=
  Make (courses s) (attendance s) (journal s) (S (minted s)).
End Campus.

(** ** routes/course.mjs

    Body properties are of the type of their path when they are
    present: strings, an array of strings for [days], an object of two
    strings for [timing]; [duration], [price] and [isActive] may be any
    value. *)

Module CourseRoutes.

(** What these routes send: a body of plain data, or
    [{ message, course }] with a document. *)
Inductive sent : Type :=
| Plain (r : response)
| WithCourse (code : nat) (message : string) (course : CourseSchema.t).

Definition code_of (s : sent) : nat :=
  match s with
  | Plain r => status r
  | WithCourse code _ _ => code
  end.

(** [res.status(500).json({ message, error: error.message })] *)
Definition failure (msg : string) (error : js_error) : sent :=
  Plain (Response 500 [("message", Data (VStr msg));
                       ("error", Data (VStr (message error)))]).

(** The body of [POST /] and of [PUT /:id]; [POST /] does not read
    [isActive]. *)
Record course_request : Type := CourseRequest {
  r_name : option string;
  r_days : option (list string);
  r_timing : option CourseSchema.Timing.t;
  r_duration : option value;
  r_price : option value;
  r_modeOfDelivery : option string;
  r_isActive : option value;
  r_startingDate : option string;
  r_outline : option string;
  r_requirements : option string;
  r_poster : option string
}.

(** [req.user], the object that [checkRole] sets. *)
Definition req_user (user : identity) : payload :=
  literal [("_id", _id user); ("role", role user); ("email", email user)].

Definition value_of (c : claim) : value :=
  match c with
  | CNull => VNull
  | CBool b => VBool b
  | CNum z => VNum z
  | CStr s => VStr s
  end.

(** The cast of a value to the [ObjectId] path [createdBy]. *)
Definition cast_createdBy (sv : services) (c : option claim)
  : option string * list string :=
  match c with
  | None | Some CNull => (None, [])
  | Some c =>
      match cast_ObjectId sv (value_of c) with
      | Some i => (Some i, [])
      | None => (None, ["createdBy"])
      end
  end.

(** The cast of a string to the [Date] path [startingDate]. *)
Definition cast_startingDate (sv : services) (v : option string)
  : option Z * list string :=
  match v with
  | None => (None, [])
  | Some s =>
      match cast_date sv s with
      | Some d => (Some d, [])
      | None => (None, ["startingDate"])
      end
  end.

(** The cast of a value to the [Number] paths [duration] and [price]. *)
Definition cast_amount (sv : services) (path : string) (v : option value)
  : option Z * list string :=
  match v with
  | None => (None, [])
  | Some v =>
      match cast_number sv v with
      | Some n => (n, [])
      | None => (None, [path])
      end
  end.

Definition or_empty (s : option string) : string :=
  match s with Some s => s | None => "" end.

(** [new Course({ name, ..., poster, createdBy: req.user.userId })] with
    the [i]-th identifier: casts and schema defaults. *)
Definition new (sv : services) (user : identity) (req : course_request) (i : nat)
  : CourseSchema.t :=
  let d := cast_startingDate sv (r_startingDate req) in
  let by_ := cast_createdBy sv (lookup "userId" (req_user user)) in
  let du := cast_amount sv "duration" (r_duration req) in
  let pr := cast_amount sv "price" (r_price req) in
  {| CourseSchema._id := ObjectId sv i;
     CourseSchema.name := trimmed sv (r_name req);
     CourseSchema.days := match r_days req with Some l => l | None => [] end;
     CourseSchema.timing := match r_timing req with
                            | Some t => t
                            | None => CourseSchema.Timing.Make None None
                            end;
     CourseSchema.duration := fst du;
     CourseSchema.price := fst pr;
     CourseSchema.modeOfDelivery := r_modeOfDelivery req;
     CourseSchema.outline := or_empty (r_outline req);
     CourseSchema.requirements := or_empty (r_requirements req);
     CourseSchema.poster := or_empty (r_poster req);
     CourseSchema.createdBy := fst by_;
     CourseSchema.isActive := true;
     CourseSchema.createdAt := now sv;
     CourseSchema.updatedAt := now sv;
     CourseSchema.students := [];
     CourseSchema.startingDate := fst d;
     CourseSchema.invalid := snd d ++ snd by_ ++ snd du ++ snd pr |}.

(** [Course.findById(req.params.id)] *)
Definition findById (sv : services) (id : string) (s : Campus.t)
  : js_error + option CourseSchema.t :=
  match cast_ObjectId sv (VStr id) with
  | Some i =>
      inr (find (fun c => String.eqb (CourseSchema._id c) i) (Campus.courses s))
  | None => inl (CastError "_id")
  end.

(** [await course.save()]: validation, the [pre('save')] hook, then the
    write.  The saved document is returned. *)
Definition save (sv : services) (this : CourseSchema.t) (s : Campus.t)
  : js_error + CourseSchema.t * Campus.t :=
  if negb (CourseSchema.validate this) then inl (ValidationError "Course")
  else
    let this := CourseSchema.touched this (now sv) in
    inr (this, Campus.with_courses s (CourseSchema.write this (Campus.courses s))).

(** [await course.deleteOne()] *)
Definition deleteOne (this : CourseSchema.t) (s : Campus.t) : Campus.t :=
  Campus.with_courses s
    (filter (fun c => negb (String.eqb (CourseSchema._id c) (CourseSchema._id this)))
            (Campus.courses s)).

(** Create a new course: [router.post('/', maintenanceOfficeOnly, ...)]. *)
Definition create (env : config) (sv : services) (h : headers)
           (req : course_request) (s : Campus.t) : sent * Campus.t :=
  match Middleware.maintenanceOfficeOnly env (now sv) h with
  | Respond r => (Plain r, s)
  | Next user =>
      let course := new sv user req (Campus.minted s) in
      let s := Campus.mint s in
      match save sv course s with
      | inr (course, s') => (WithCourse 201 "Course created successfully" course, s')
      | inl error => (failure "Error creating course" error, s)
      end
  end.

(** The first [router.delete('/:id', maintenanceOfficeOnly, ...)]. *)
Definition deletePermanently (env : config) (sv : services) (h : headers)
           (id : string) (s : Campus.t) : sent * Campus.t :=
  match Middleware.maintenanceOfficeOnly env (now sv) h with
  | Respond r => (Plain r, s)
  | Next _ =>
      match findById sv id s with
      | inr None => (Plain (message_only 404 "Course not found"), s)
      | inr (Some course) =>
          (Plain (message_only 200 "Course permanently deleted"), deleteOne course s)
      | inl error => (failure "Error permanently deleting course" error, s)
      end
  end.

(** [if (x) course.path = x] for a string path and for a number path:
    the test is on the value of the body, the cast on the assignment.  A
    value that does not cast leaves the path as it was and makes the
    validation fail. *)
Definition assigned (x stored : option string) : option string :=
  if truthy_string x then x else stored.

Definition assigned_number (sv : services) (path : string) (x : option value)
           (stored : option Z) : option Z * list string :=
  if truthy x
  then match cast_amount sv path x with
       | (n, []) => (n, [])
       | (_, failed) => (stored, failed)
       end
  else (stored, []).

(** The assignments of [PUT /:id] to the loaded document.  A date that
    does not cast leaves the path as it was and makes the validation
    fail. *)
Definition assign (sv : services) (req : course_request) (course : CourseSchema.t)
  : CourseSchema.t :=
  let d := if truthy_string (r_startingDate req)
           then match cast_startingDate sv (r_startingDate req) with
                | (Some d, _) => (Some d, [])
                | (None, failed) => (CourseSchema.startingDate course, failed)
                end
           else (CourseSchema.startingDate course, []) in
  let du := assigned_number sv "duration" (r_duration req)
                            (CourseSchema.duration course) in
  let pr := assigned_number sv "price" (r_price req) (CourseSchema.price course) in
  {| CourseSchema._id := CourseSchema._id course;
     CourseSchema.name :=
       StudentAdmin.assigned_through (trimmed sv) (r_name req)
                                     (CourseSchema.name course);
     CourseSchema.days := match r_days req with
                          | Some l => l
                          | None => CourseSchema.days course
                          end;
     CourseSchema.timing := match r_timing req with
                            | Some t => t
                            | None => CourseSchema.timing course
                            end;
     CourseSchema.duration := fst du;
     CourseSchema.price := fst pr;
     CourseSchema.modeOfDelivery :=
       assigned (r_modeOfDelivery req) (CourseSchema.modeOfDelivery course);
     CourseSchema.outline := match r_outline req with
                             | Some s => s
                             | None => CourseSchema.outline course
                             end;
     CourseSchema.requirements := match r_requirements req with
                                  | Some s => s
                                  | None => CourseSchema.requirements course
                                  end;
     CourseSchema.poster := match r_poster req with
                            | Some s => s
                            | None => CourseSchema.poster course
                            end;
     CourseSchema.createdBy := CourseSchema.createdBy course;
     CourseSchema.isActive := match r_isActive req with
                              | Some (VBool b) => b
                              | _ => CourseSchema.isActive course
                              end;
     CourseSchema.createdAt := CourseSchema.createdAt course;
     CourseSchema.updatedAt := CourseSchema.updatedAt course;
     CourseSchema.students := CourseSchema.students course;
     CourseSchema.startingDate := fst d;
     CourseSchema.invalid := CourseSchema.invalid course ++ snd d ++ snd du ++ snd pr |}.

(** Update a course: [router.put('/:id', maintenanceOfficeOnly, ...)]. *)
Definition update (env : config) (sv : services) (h : headers) (id : string)
           (req : course_request) (s : Campus.t) : sent * Campus.t :=
  match Middleware.maintenanceOfficeOnly env (now sv) h with
  | Respond r => (Plain r, s)
  | Next _ =>
      match findById sv id s with
      | inr None => (Plain (message_only 404 "Course not found"), s)
      | inr (Some course) =>
          match save sv (assign sv req course) s with
          | inr (course, s') =>
              (WithCourse 200 "Course updated successfully" course, s')
          | inl error => (failure "Error updating course" error, s)
          end
      | inl error => (failure "Error updating course" error, s)
      end
  end.

(** [course.isActive = false] *)
Definition inactive (course : CourseSchema.t) : CourseSchema.t :=
  {| CourseSchema._id := CourseSchema._id course;
     CourseSchema.name := CourseSchema.name course;
     CourseSchema.days := CourseSchema.days course;
     CourseSchema.timing := CourseSchema.timing course;
     CourseSchema.duration := CourseSchema.duration course;
     CourseSchema.price := CourseSchema.price course;
     CourseSchema.modeOfDelivery := CourseSchema.modeOfDelivery course;
     CourseSchema.outline := CourseSchema.outline course;
     CourseSchema.requirements := CourseSchema.requirements course;
     CourseSchema.poster := CourseSchema.poster course;
     CourseSchema.createdBy := CourseSchema.createdBy course;
     CourseSchema.isActive := false;
     CourseSchema.createdAt := CourseSchema.createdAt course;
     CourseSchema.updatedAt := CourseSchema.updatedAt course;
     CourseSchema.students := CourseSchema.students course;
     CourseSchema.startingDate := CourseSchema.startingDate course;
     CourseSchema.invalid := CourseSchema.invalid course |}.

(** The second [router.delete('/:id', maintenanceOfficeOnly, ...)]: the
    soft delete. *)
Definition deactivate (env : config) (sv : services) (h : headers)
           (id : string) (s : Campus.t) : sent * Campus.t :=
  match Middleware.maintenanceOfficeOnly env (now sv) h with
  | Respond r => (Plain r, s)
  | Next _ =>
      match findById sv id s with
      | inr None => (Plain (message_only 404 "Course not found"), s)
      | inr (Some course) =>
          match save sv (inactive course) s with
          | inr (_, s') => (Plain (message_only 200 "Course deleted successfully"), s')
          | inl error => (failure "Error deleting course" error, s)
          end
      | inl error => (failure "Error deleting course" error, s)
      end
  end.

(** *** The router

    A request path is given below the mount point of the router, cut at
    its slashes into its segments, which are not empty. *)

Inductive verb : Type := GET | POST | PUT | DELETE.

Definition verb_eqb (a b : verb) : bool :=
  match a, b with
  | GET, GET | POST, POST | PUT, PUT | DELETE, DELETE => true
  | _, _ => false
  end.

(** A segment of a route path: a text, or a parameter [:name]. *)
Inductive segment : Type :=
| Lit (s : string)
| Param (name : string).

(** The handlers of the file. *)
Inductive endpoint : Type :=
| CreateCourse
| DeleteCoursePermanently
| CountCourses
| ListCourses
| ShowCourse
| UpdateCourse
| DeactivateCourse.

(** The routes in the order in which the file registers them. *)
Definition routes : list (verb * list segment * endpoint) :=
  [ (POST, [], CreateCourse);
    (DELETE, [Param "id"], DeleteCoursePermanently);
    (GET, [Lit "count"], CountCourses);
    (GET, [], ListCourses);
    (GET, [Param "id"], ShowCourse);
    (PUT, [Param "id"], UpdateCourse);
    (DELETE, [Param "id"], DeactivateCourse) ].

Definition lower (c : ascii) : ascii :=
  if CourseSchema.between 65 90 c then ascii_of_nat (nat_of_ascii c + 32) else c.

Fixpoint lowercase (s : string) : string :=
  match s with
  | EmptyString => EmptyString
  | String c rest => String (lower c) (lowercase rest)
  end.

(** The match of a route path against a request path: a text matches
    whatever the case of its letters, a parameter matches any segment
    and is bound to it. *)
Fixpoint params (pattern : list segment) (path : list string)
  : option (list (string * string)) :=
  match pattern, path with
  | [], [] => Some []
  | Lit s :: pattern', x :: path' =>
      if String.eqb (lowercase x) (lowercase s) then params pattern' path' else None
  | Param k :: pattern', x :: path' =>
      if nonempty x
      then match params pattern' path' with
           | Some bound => Some ((k, x) :: bound)
           | None => None
           end
      else None
  | _, _ => None
  end.

(** The first route of the table that matches the request.  No handler
    of the file calls [next()], so no later route is tried. *)
Fixpoint first_match (table : list (verb * list segment * endpoint))
         (v : verb) (path : list string)
  : option (endpoint * list (string * string)) :=
  match table with
  | [] => None
  | (v', pattern, e) :: rest =>
      if verb_eqb v v'
      then match params pattern path with
           | Some bound => Some (e, bound)
           | None => first_match rest v path
           end
      else first_match rest v path
  end.

Definition dispatch (v : verb) (path : list string)
  : option (endpoint * list (string * string)) :=
  first_match routes v path.

(** What the router does with a [DELETE] request; [None] when no route
    of the router takes it. *)
Definition delete (env : config) (sv : services) (h : headers)
           (path : list string) (s : Campus.t) : option (sent * Campus.t) :=
  match dispatch DELETE path with
  | Some (DeleteCoursePermanently, bound) =>
      match lookup "id" bound with
      | Some id => Some (deletePermanently env sv h id s)
      | None => None
      end
  | Some (DeactivateCourse, bound) =>
      match lookup "id" bound with
      | Some id => Some (deactivate env sv h id s)
      | None => None
      end
  | _ => None
  end.

End CourseRoutes.

(** ** Vocabulary of the course statements *)

(** The stored course that a route parameter names. *)
Definition names_course (sv : services) (id : string) (s : Campus.t)
           (course : CourseSchema.t) : Prop :=
  exists i, cast_ObjectId sv (VStr id) = Some i
            /\ find (fun c => String.eqb (CourseSchema._id c) i) (Campus.courses s)
               = Some course.

(** The hour and the minute in two digits, and the hour in one. *)
Definition digit (n : nat) : ascii := ascii_of_nat (48 + n).

Definition two_digits (n : nat) : string :=
  String (digit (n / 10)) (String (digit (n mod 10)) EmptyString).

Definition clock (hour : string) (m : nat) : string :=
  hour ^^ ":" ^^ two_digits m.

(** ** Sample courses *)

Module Term.

Definition web : CourseSchema.t :=
  {| CourseSchema._id := "c1"; CourseSchema.name := Some "Web";
     CourseSchema.days := ["Monday"; "Wednesday"];
     CourseSchema.timing := CourseSchema.Timing.Make (Some "18:00") (Some "20:00");
     CourseSchema.duration := Some 12%Z; CourseSchema.price := Some 15000%Z;
     CourseSchema.modeOfDelivery := Some "Onsite";
     CourseSchema.outline := ""; CourseSchema.requirements := "";
     CourseSchema.poster := ""; CourseSchema.createdBy := None;
     CourseSchema.isActive := true;
     CourseSchema.createdAt := 0; CourseSchema.updatedAt := 0;
     CourseSchema.students := []; CourseSchema.startingDate := Some 0%Z;
     CourseSchema.invalid := [] |}.

Definition campus : Campus.t := Campus.Make [web] [] [] 0.

(** A body that gives nothing. *)
Definition nothing : CourseRoutes.course_request :=
  CourseRoutes.CourseRequest None None None None None None None None None None None.

(** The body of a new evening course. *)
Definition evening (title : string) : CourseRoutes.course_request :=
  {| CourseRoutes.r_name := Some title;
     CourseRoutes.r_days := Some ["Tuesday"; "Thursday"];
     CourseRoutes.r_timing :=
       Some (CourseSchema.Timing.Make (Some "19:30") (Some "21:00"));
     CourseRoutes.r_duration := Some (VNum 8);
     CourseRoutes.r_price := Some (VNum 0);
     CourseRoutes.r_modeOfDelivery := Some "Online";
     CourseRoutes.r_isActive := None;
     CourseRoutes.r_startingDate := Some "2025-01-07";
     CourseRoutes.r_outline := None;
     CourseRoutes.r_requirements := None;
     CourseRoutes.r_poster := None |}.


End Term.

(** ** routes/attendance.mjs: the routes that record attendance

    [POST /] and [POST /mark].  The body properties [courseId], [date]
    and [students] may be any value. *)

Module AttendanceRoutes.

(** [mongoose.Types.ObjectId.isValid(v)], and [new Date(v)], for which
    [None] is an invalid date. *)
Record platform : Type := Platform {
  ObjectId_isValid : option value -> bool;
  Date_of : option value -> option Z
}.

(** What these routes send: a body of plain data, or
    [{ message, attendance }] with a document. *)
Inductive sent : Type :=
| Plain (r : response)
| WithAttendance (code : nat) (message : string) (attendance : AttendanceSchema.t).

Definition code_of (s : sent) : nat :=
  match s with
  | Plain r => status r
  | WithAttendance code _ _ => code
  end.

(** [res.status(500).json({ message, error: error.message })] *)
Definition failure (msg : string) (error : js_error) : sent :=
  Plain (Response 500 [("message", Data (VStr msg));
                       ("error", Data (VStr (message error)))]).

Definition TypeError (msg : string) : js_error := Error "TypeError" msg None.

(** The body of [POST /] and of [POST /mark]. *)
Record mark_request : Type := MarkRequest {
  m_courseId : option value;
  m_date : option value;
  m_students : option value
}.

(** [Course.findById(courseId)]: [undefined] and [null] find nothing,
    any other value is cast to an [ObjectId]. *)
Definition Course_findById (sv : services) (id : option value) (s : Campus.t)
  : js_error + option CourseSchema.t :=
  match id with
  | None | Some VNull => inr None
  | Some v =>
      match cast_ObjectId sv v with
      | Some i =>
          inr (find (fun c => String.eqb (CourseSchema._id c) i) (Campus.courses s))
      | None => inl (CastError "_id")
      end
  end.

(** The cast of a value to an [ObjectId] path. *)
Definition cast_reference (sv : services) (path : string) (v : option value)
  : option string * list string :=
  match v with
  | None | Some VNull => (None, [])
  | Some v =>
      match cast_ObjectId sv v with
      | Some i => (Some i, [])
      | None => (None, [path])
      end
  end.

Definition same_date (a b : option Z) : bool :=
  match a, b with
  | Some x, Some y => Z.eqb x y
  | None, None => true
  | _, _ => false
  end.

(** [Attendance.findOne({ courseId, date: new Date(date) })]; the query
    casts both values, and an invalid date does not cast. *)
Definition findOne (sv : services) (courseId : option value) (date : option Z)
           (s : Campus.t) : js_error + option AttendanceSchema.t :=
  match cast_reference sv "courseId" courseId, date with
  | (_, _ :: _), _ => inl (CastError "courseId")
  | (_, []), None => inl (CastError "date")
  | (i, []), Some d =>
      inr (find (fun a => option_eqb (AttendanceSchema.courseId a) i
                          && same_date (AttendanceSchema.date a) (Some d))
                (Campus.attendance s))
  end.

(** An element of [students.map(student => ({ studentId:
    student.studentId, status: student.status, remarks: student.remarks
    || '' }))] before the casts. *)
Record raw_entry : Type := RawEntry {
  e_studentId : option value;
  e_status : option value;
  e_remarks : value
}.

(** One call of the arrow function: reading a property of [null]
    throws, a value that is not an object has none of the three
    properties. *)
Definition entry (student : value) : js_error + raw_entry :=
  match student with
  | VNull =>
      inl (TypeError "Cannot read properties of null (reading 'studentId')")
  | VObj fields =>
      inr {| e_studentId := lookup "studentId" fields;
             e_status := lookup "status" fields;
             e_remarks := match lookup "remarks" fields with
                          | Some v => if truthy (Some v) then v else VStr ""
                          | None => VStr ""
                          end |}
  | _ => inr {| e_studentId := None; e_status := None; e_remarks := VStr "" |}
  end.

Fixpoint entries_of (l : list value) : js_error + list raw_entry :=
  match l with
  | [] => inr []
  | student :: rest =>
      match entry student with
      | inl error => inl error
      | inr e =>
          match entries_of rest with
          | inl error => inl error
          | inr es => inr (e :: es)
          end
      end
  end.

(** [students.map(...)]: only an array has the method. *)
Definition entries (students : option value) : js_error + list raw_entry :=
  match students with
  | Some (VArr l) => entries_of l
  | None =>
      inl (TypeError "Cannot read properties of undefined (reading 'map')")
  | Some VNull => inl (TypeError "Cannot read properties of null (reading 'map')")
  | Some _ => inl (TypeError "students.map is not a function")
  end.

(** The cast of a value to a [String] path of an element. *)
Definition cast_text (path : string) (v : option value)
  : option string * list string :=
  match v with
  | None => (None, [])
  | Some v =>
      match cast_string v with
      | Some s => (s, [])
      | None => (None, [path])
      end
  end.

Definition cast_entry (sv : services) (e : raw_entry)
  : AttendanceSchema.Entry.t * list string :=
  let i := cast_reference sv "students.studentId" (e_studentId e) in
  let st := cast_text "students.status" (e_status e) in
  let re := cast_text "students.remarks" (Some (e_remarks e)) in
  (AttendanceSchema.Entry.Make (fst i) (fst st) (fst re),
   snd i ++ snd st ++ snd re).

(** [new Attendance({ courseId, date: new Date(date), students,
    markedBy })] with the [i]-th identifier. *)
Definition new (sv : services) (courseId : option value) (date : option Z)
           (students : list raw_entry) (markedBy : option value) (i : nat)
  : AttendanceSchema.t :=
  let c := cast_reference sv "courseId" courseId in
  let m := cast_reference sv "markedBy" markedBy in
  let es := map (cast_entry sv) students in
  {| AttendanceSchema._id := ObjectId sv i;
     AttendanceSchema.courseId := fst c;
     AttendanceSchema.date := date;
     AttendanceSchema.students := map fst es;
     AttendanceSchema.markedBy := fst m;
     AttendanceSchema.createdAt := None;
     AttendanceSchema.updatedAt := None;
     AttendanceSchema.invalid :=
       snd c ++ match date with Some _ => [] | None => ["date"] end
             ++ concat (map snd es) ++ snd m |}.

(** [await attendance.save()]: validation, the timestamps, then the
    write under the unique index.  The saved document is returned. *)
Definition save (sv : services) (this : AttendanceSchema.t) (s : Campus.t)
  : js_error + AttendanceSchema.t * Campus.t :=
  if negb (AttendanceSchema.validate this) then inl (ValidationError "Attendance")
  else
    let this := AttendanceSchema.stamped this (now sv) in
    if AttendanceSchema.duplicate_key this (Campus.attendance s)
    then inl (DuplicateKey "courseId_1_date_1")
    else inr (this, Campus.with_attendance s
                      (AttendanceSchema.write this (Campus.attendance s))).

(** The [try] block of both routes; [markedBy] is what the route gives
    to [new Attendance] for that path. *)
Definition marking (sv : services) (pf : platform) (req : mark_request)
           (markedBy : option value) (s : Campus.t)
  : js_error + sent * Campus.t :=
  if negb (ObjectId_isValid pf (m_courseId req))
  then inr (Plain (message_only 400 "Invalid course ID format"), s)
  else
    match Course_findById sv (m_courseId req) s with
    | inl error => inl error
    | inr None => inr (Plain (message_only 404 "Course not found"), s)
    | inr (Some _) =>
        let date := Date_of pf (m_date req) in
        match findOne sv (m_courseId req) date s with
        | inl error => inl error
        | inr (Some _) =>
            inr (Plain (message_only 400 "Attendance already marked for this date"),
                 s)
        | inr None =>
            match entries (m_students req) with
            | inl error => inl error
            | inr students =>
                let attendance :=
                  new sv (m_courseId req) date students markedBy (Campus.minted s) in
                match save sv attendance (Campus.mint s) with
                | inl error => inl error
                | inr (attendance, s') =>
                    inr (WithAttendance 201 "Attendance marked successfully"
                                        attendance, s')
                end
            end
        end
    end.

(** The [catch] block of both routes. *)
Definition caught (s : Campus.t) (error : js_error) : sent * Campus.t :=
  (failure "Error marking attendance" error,
   Campus.logged s "Error marking attendance:" error).

(** Create new attendance record: [router.post('/',
    maintenanceOfficeOnly, ...)]; the route gives no [markedBy]. *)
Definition create (env : config) (sv : services) (pf : platform) (h : headers)
           (req : mark_request) (s : Campus.t) : sent * Campus.t :=
  match Middleware.maintenanceOfficeOnly env (now sv) h with
  | Respond r => (Plain r, s)
  | Next _ =>
      match marking sv pf req None s with
      | inr answer => answer
      | inl error => caught s error
      end
  end.

(** Mark attendance for a course: [router.post('/mark', isAuthenticated,
    isTeacher, ...)], with [markedBy: req.user._id]. *)
Definition mark (env : config) (sv : services) (pf : platform) (h : headers)
           (req : mark_request) (s : Campus.t) : sent * Campus.t :=
  match Middleware.isAuthenticated env (now sv) h with
  | Respond r => (Plain r, s)
  | Next _ =>
      match Middleware.isTeacher env (now sv) h with
      | Respond r => (Plain r, s)
      | Next user =>
          match marking sv pf req (option_map CourseRoutes.value_of (_id user)) s with
          | inr answer => answer
          | inl error => caught s error
          end
      end
  end.

End AttendanceRoutes.

(** ** routes/student.mjs: the students of a course *)

Module StudentLists.

(** What the two routes send: [{ students }], or [{ message }] with
    status 500. *)
Inductive sent : Type :=
| Students (students : list Student.t)
| Failed (r : response).

(** [.select('-password')] *)
Definition without_password (d : Student.t) : Student.t :=
  {| Student._id := Student._id d;
     Student.firstName := Student.firstName d;
     Student.lastName := Student.lastName d;
     Student.email := Student.email d;
     Student.password := None;
     Student.cnic := Student.cnic d;
     Student.phoneNumber := Student.phoneNumber d;
     Student.dateOfBirth := Student.dateOfBirth d;
     Student.gender := Student.gender d;
     Student.address := Student.address d;
     Student.guardianName := Student.guardianName d;
     Student.guardianPhone := Student.guardianPhone d;
     Student.guardianRelation := Student.guardianRelation d;
     Student.enrolledCourses := Student.enrolledCourses d;
     Student.enrollmentDate := Student.enrollmentDate d;
     Student.status := Student.status d;
     Student.profilePicture := Student.profilePicture d;
     Student.isActive := Student.isActive d;
     Student.createdAt := Student.createdAt d;
     Student.updatedAt := Student.updatedAt d;
     Student.rollId := Student.rollId d;
     Student.invalid := Student.invalid d |}.

(** The filter [{ 'enrolledCourses.courseId': id,
    'enrolledCourses.status': 'Active', status: 'Enrolled' }]: a
    condition on a path through the array holds when some element of
    the array meets it. *)
Definition selected (i : string) (d : Student.t) : bool :=
  existsb (fun e => String.eqb (Student.Enrollment.courseId e) i)
          (Student.enrolledCourses d)
  && existsb (fun e => String.eqb (Student.Enrollment.status e) "Active")
             (Student.enrolledCourses d)
  && String.eqb (Student.status d) "Enrolled".

(** [Student.find({ ... }).select('-password')]; the query casts the
    route parameter to an [ObjectId]. *)
Definition find_of_course (sv : services) (courseId : string) : M (list Student.t) :=
  match cast_ObjectId sv (VStr courseId) with
  | Some i =>
      st <- get ;;
      ret (map without_password (filter (selected i) (students st)))
  | None => throw (CastError "enrolledCourses.courseId")
  end.

(** [router.get('/course/:courseId', ...)] *)
Definition byCourse (sv : services) (courseId : string) : M sent :=
  try_catch
    (students <- find_of_course sv courseId ;;
     ret (Students students))
    (fun error => ret (Failed (message_only 500 (message error)))).

(** Alias for compatibility with frontend:
    [router.get('/enrolled/course/:courseId', ...)]. *)
Definition enrolledByCourse (sv : services) (courseId : string) : M sent :=
  try_catch
    (students <- find_of_course sv courseId ;;
     ret (Students students))
    (fun error => ret (Failed (message_only 500 (message error)))).

End StudentLists.

(** ** Further sample data: a register and a class *)

Module Roll.

(** The platform of the sample world: strings are identifiers, and
    non-empty strings are dates. *)
Definition runtime : AttendanceRoutes.platform :=
  {| AttendanceRoutes.ObjectId_isValid :=
       fun v => match v with Some (VStr s) => nonempty s | _ => false end;
     AttendanceRoutes.Date_of :=
       fun v => match v with
                | Some (VStr s) => if nonempty s then Some 86400%Z else None
                | _ => None
                end |}.

(** A credential with the role ['teacher'], signed with the key of the
    environment at time 1000. *)
Definition teacher (env : config) : headers :=
  Headers (Some (Compact (sign [("userId", CStr "t1"); ("role", CStr "teacher");
                                ("email", CStr "t@x.com")]
                               (secret_or_default env) hours24 1000))).

(** One student of the course [c1], present. *)
Definition sheet : AttendanceRoutes.mark_request :=
  {| AttendanceRoutes.m_courseId := Some (VStr "c1");
     AttendanceRoutes.m_date := Some (VStr "2025-01-07");
     AttendanceRoutes.m_students :=
       Some (VArr [VObj [("studentId", VStr "s2"); ("status", VStr "present")]]) |}.

(** An enrolled student who dropped the course [c1] and follows [c2]. *)
Definition moved : Student.t :=
  {| Student._id := "s3"; Student.firstName := Some "Hira";
     Student.lastName := Some "Khan";
     Student.email := Some "hira@x.com"; Student.password := Some "$2b$salt$secret4";
     Student.cnic := Some "4444444444444"; Student.phoneNumber := Some "0304";
     Student.dateOfBirth := Some 0%Z; Student.gender := Some "female";
     Student.address := Student.Address.Make None None None None None;
     Student.guardianName := Some "G"; Student.guardianPhone := Some "0305";
     Student.guardianRelation := Some "father";
     Student.enrolledCourses :=
       [Student.Enrollment.Make "c1" 0 "Dropped";
        Student.Enrollment.Make "c2" 0 "Active"];
     Student.enrollmentDate := 0; Student.status := "Enrolled";
     Student.profilePicture := "";
     Student.isActive := true; Student.createdAt := 0; Student.updatedAt := 0;
     Student.rollId := Some "100002"; Student.invalid := [] |}.

Definition classroom : store :=
  {| users := []; students := [moved]; courses := courses Sample.db;
     console := []; outbox := []; entropy := 0 |}.

End Roll.

(** * Properties *)

(** ** Strings and objects *)

Lemma append_assoc (a b c : string) : (a ^^ b) ^^ c = a ^^ b ^^ c.
Proof.
  induction a as [|ch a IH]; simpl; [reflexivity | now rewrite IH].
Qed.

Lemma names_prefixed (p msg r : string) : names msg r -> names (p ^^ msg) r.
Proof.
  intros (b & a & ->). exists (p ^^ b), a. now rewrite append_assoc.
Qed.

Lemma names_head (r rest : string) : names (r ^^ rest) r.
Proof. now exists "", rest. Qed.

Lemma append_empty (a : string) : a ^^ "" = a.
Proof. induction a; simpl; congruence. Qed.

Lemma join_names (sep : string) (roles : list string) (r : string) :
  In r roles -> names (join sep roles) r.
Proof.
  induction roles as [|x rest IH]; [intros [] |].
  intros [-> | Hin].
  - destruct rest as [|y rest]; simpl.
    + exists "", "". simpl. now rewrite append_empty.
    + apply names_head.
  - destruct rest as [|y rest]; [destruct Hin |].
    change (join sep (x :: y :: rest)) with (x ^^ sep ^^ join sep (y :: rest)).
    apply names_prefixed, names_prefixed, IH, Hin.
Qed.

Lemma lookup_app {A : Type} (k : string) (o extra : list (string * A)) :
  lookup k extra = None -> lookup k (o ++ extra) = lookup k o.
Proof.
  unfold lookup. intros Hx.
  induction o as [|[k' v] o IH]; simpl.
  - exact Hx.
  - destruct (String.eqb k' k); [reflexivity | exact IH].
Qed.

Lemma lookup_app_fresh {A : Type} (k : string) (o extra : list (string * A)) :
  lookup k o = None -> lookup k (o ++ extra) = lookup k extra.
Proof.
  unfold lookup. induction o as [|[k' v] o IH]; simpl; [reflexivity |].
  destruct (String.eqb k' k); [discriminate | exact IH].
Qed.

(** ** Tokens *)

Lemma verified_is_truthy (token : jsstr) (key : string) (now : Z) (decoded : payload) :
  verify token key now = inr decoded -> truthy_jsstr (Some token) = true.
Proof.
  destruct token as [[|c s]|t]; simpl;
    [discriminate | destruct (Nat.eqb _ 3); discriminate | reflexivity].
Qed.

Lemma verify_fresh (p : payload) (key : string) (ttl now : Z) :
  (0 < ttl)%Z -> valid_claims p ->
  verify (Compact (sign p key ttl now)) key now = inr (tok_payload (sign p key ttl now)).
Proof.
  intros Httl Hvalid. unfold verify, sign; simpl.
  rewrite String.eqb_refl; simpl.
  rewrite (lookup_app_fresh "nbf") by (apply Hvalid; simpl; auto).
  change (lookup "nbf" [("iat", CNum now); ("exp", CNum (now + ttl))])
    with (@None claim).
  unfold check_exp.
  rewrite (lookup_app_fresh "exp") by (apply Hvalid; simpl; auto).
  change (lookup "exp" [("iat", CNum now); ("exp", CNum (now + ttl))])
    with (Some (CNum (now + ttl))).
  cbv iota beta.
  destruct (now + ttl <=? now)%Z eqn:E; [apply Z.leb_le in E; lia | reflexivity].
Qed.

Lemma signed_claims_kept (p : payload) (key : string) (ttl now : Z) (k : string) :
  ~ In k registered ->
  lookup k (tok_payload (sign p key ttl now)) = lookup k p.
Proof.
  intros Hk. unfold sign; cbn [tok_payload]. apply lookup_app.
  unfold lookup; cbn [find fst snd].
  destruct (String.eqb "iat" k) eqn:Eiat.
  { apply String.eqb_eq in Eiat; subst k. exfalso; apply Hk; simpl; auto. }
  destruct (String.eqb "exp" k) eqn:Eexp.
  { apply String.eqb_eq in Eexp; subst k. exfalso; apply Hk; simpl; auto. }
  reflexivity.
Qed.

Lemma resolved_signed (p : payload) (key : string) (ttl now : Z) :
  resolved (tok_payload (sign p key ttl now)) = resolved p.
Proof.
  unfold resolved.
  rewrite !signed_claims_kept; [reflexivity | | | |];
    unfold registered; simpl; intuition discriminate.
Qed.

(** C6.  A token verified in the instant it was issued gives back the
    issued claims: for claims without registered names and a positive
    time to live, [verify] succeeds under the key the token was signed
    with, every issued claim (principal identifier, role, email, the
    [requires2FA] marker) reads as it was issued, and the gates attach
    the identity of the issued claims. *)
Theorem verify_after_sign_returns_claims :
  forall (env : config) (p : payload) (ttl now : Z),
    (0 < ttl)%Z ->
    valid_claims p ->
    let t := sign p (secret_or_default env) ttl now in
    exists decoded,
      verify (Compact t) (secret_or_default env) now = inr decoded
      /\ (forall k, ~ In k registered -> lookup k decoded = lookup k p)
      /\ Middleware.isAuthenticated env now (Headers (Some (Compact t)))
         = Next (resolved p)
      /\ (forall roles,
             roles_include roles (lookup "role" p) = true ->
             Middleware.checkRole roles env now (Headers (Some (Compact t)))
             = Next (resolved p)).
Proof.
  intros env p ttl now Httl Hvalid t.
  pose proof (verify_fresh p (secret_or_default env) ttl now Httl Hvalid) as Hv.
  exists (tok_payload t). repeat split.
  - exact Hv.
  - intros k Hk. apply signed_claims_kept, Hk.
  - unfold Middleware.isAuthenticated; simpl authorization; cbv iota beta.
    change (truthy_jsstr (Some (Compact t))) with true; simpl negb; cbv iota.
    unfold t. rewrite Hv. now rewrite resolved_signed.
  - intros roles Hrole.
    unfold Middleware.checkRole; simpl authorization; cbv iota beta.
    change (truthy_jsstr (Some (Compact t))) with true; simpl negb; cbv iota.
    unfold t. rewrite Hv.
    rewrite signed_claims_kept by (unfold registered; simpl; intuition discriminate).
    rewrite Hrole; simpl negb; cbv iota.
    now rewrite resolved_signed.
Qed.

Lemma verify_after_sign_returns_claims_witness :
  (0 < hours24)%Z /\ valid_claims (AuthRoutes.pending_claims Sample.admin)
  /\ exists decoded,
      verify (Compact (sign (AuthRoutes.pending_claims Sample.admin)
                            (secret_or_default Sample.production) hours24 1000))
             (secret_or_default Sample.production) 1000 = inr decoded
      /\ lookup "requires2FA" decoded = Some (CBool true)
      /\ lookup "userId" decoded = Some (CStr "u1").
Proof.
  assert (Hpos : (0 < hours24)%Z) by (unfold hours24; lia).
  assert (Hvalid : valid_claims (AuthRoutes.pending_claims Sample.admin)).
  { intros k [<-|[<-|[<-|[]]]]; reflexivity. }
  split; [exact Hpos | split; [exact Hvalid |]].
  destruct (verify_after_sign_returns_claims Sample.production
              (AuthRoutes.pending_claims Sample.admin) hours24 1000 Hpos Hvalid)
    as (decoded & Hv & Hkept & _).
  exists decoded. split; [exact Hv |].
  split; rewrite Hkept; try reflexivity;
    unfold registered; simpl; intuition discriminate.
Defined.

(** ** Authorization gates *)

(** C9.  A gate given a token that verifies: when the role of the token
    is not in the required set the answer is 403 with a message that
    names the acceptable roles; when it is, the request goes on with the
    identity [{_id, role, email}] read from the token.  [checkRole] lists
    its roles in the message; [isTeacher] and [isAdmin] have a fixed
    message for their one role. *)
Theorem gate_checks_role_of_verified_token :
  forall (roles : list string) (env : config) (now : Z) (req : headers)
         (token : jsstr) (decoded : payload),
    authorization req = Some token ->
    verify token (secret_or_default env) now = inr decoded ->
    let denied := "Access denied. Required role: " ^^ join " or " roles in
    let user := {| _id := or_claim (lookup "userId" decoded) (lookup "studentId" decoded);
                   role := lookup "role" decoded;
                   email := lookup "email" decoded |} in
    (roles_include roles (lookup "role" decoded) = false ->
       Middleware.checkRole roles env now req = Respond (message_only 403 denied)
       /\ forall r, In r roles -> names denied r)
    /\ (roles_include roles (lookup "role" decoded) = true ->
       Middleware.checkRole roles env now req = Next user)
    /\ (claim_is (lookup "role" decoded) "teacher" = false ->
       Middleware.isTeacher env now req
       = Respond (message_only 403 "Teacher access required"))
    /\ (claim_is (lookup "role" decoded) "teacher" = true ->
       Middleware.isTeacher env now req = Next user)
    /\ (claim_is (lookup "role" decoded) "admin" = false ->
       Middleware.isAdmin env now req
       = Respond (message_only 403 "Admin access required"))
    /\ (claim_is (lookup "role" decoded) "admin" = true ->
       Middleware.isAdmin env now req = Next user).
Proof.
  intros roles env now req token decoded Hreq Hv denied user.
  pose proof (verified_is_truthy _ _ _ _ Hv) as Ht.
  unfold Middleware.checkRole, Middleware.isTeacher, Middleware.isAdmin.
  rewrite Hreq, Ht, Hv; simpl negb; cbv iota.
  repeat split.
  - now rewrite H.
  - intros r Hr. apply names_prefixed, join_names, Hr.
  - intros ->; reflexivity.
  - intros ->; reflexivity.
  - intros ->; reflexivity.
  - intros ->; reflexivity.
  - intros ->; reflexivity.
Qed.

Lemma gate_checks_role_of_verified_token_witness :
  let token := Compact (sign (AuthRoutes.session_claims Sample.officer) "121212"
                             hours24 1000) in
  Middleware.adminOnly Sample.unset 1000 (Headers (Some token))
  = Respond (message_only 403 "Access denied. Required role: admin")
  /\ Middleware.adminOrMaintenance Sample.unset 1000 (Headers (Some token))
     = Next {| _id := Some (CStr "u2");
               role := Some (CStr "maintenance_office");
               email := Some (CStr "bilal@x.com") |}.
Proof.
  set (token := Compact (sign (AuthRoutes.session_claims Sample.officer) "121212"
                              hours24 1000)).
  assert (Hv : verify token (secret_or_default Sample.unset) 1000
               = inr (tok_payload (sign (AuthRoutes.session_claims Sample.officer)
                                        "121212" hours24 1000)))
    by reflexivity.
  split.
  - apply (gate_checks_role_of_verified_token ["admin"] Sample.unset 1000
             (Headers (Some token)) token _ eq_refl Hv).
    reflexivity.
  - apply (gate_checks_role_of_verified_token ["admin"; "maintenance_office"]
             Sample.unset 1000 (Headers (Some token)) token _ eq_refl Hv).
    reflexivity.
Defined.

(** C3.  A token that expired five minutes ago, at each gate:
    [jwt.verify] fails with [TokenExpiredError], and [checkRole] answers
    401 'Token expired', but [isAuthenticated], [isTeacher] and [isAdmin]
    answer 401 'Invalid token', the answer they also give to a malformed
    token. *)
Theorem expired_token_at_the_gates :
  let issued := 1000%Z in
  let now := (issued + minutes5 + 300)%Z in
  let expired :=
    Compact (sign (AuthRoutes.pending_claims Sample.admin)
                  (secret_or_default Sample.unset) minutes5 issued) in
  let malformed := Text "not.a.token" in
  verify expired (secret_or_default Sample.unset) now = inl TokenExpiredError
  /\ verify malformed (secret_or_default Sample.unset) now
     = inl (JsonWebTokenError "invalid token")
  /\ Middleware.checkRole ["admin"] Sample.unset now (Headers (Some expired))
     = Respond (message_only 401 "Token expired")
  /\ Middleware.checkRole ["admin"] Sample.unset now (Headers (Some malformed))
     = Respond (message_only 401 "Invalid token")
  /\ Middleware.isAuthenticated Sample.unset now (Headers (Some expired))
     = Respond (message_only 401 "Invalid token")
  /\ Middleware.isAuthenticated Sample.unset now (Headers (Some malformed))
     = Respond (message_only 401 "Invalid token")
  /\ Middleware.isTeacher Sample.unset now (Headers (Some expired))
     = Respond (message_only 401 "Invalid token")
  /\ Middleware.isAdmin Sample.unset now (Headers (Some expired))
     = Respond (message_only 401 "Invalid token").
Proof.
  repeat split; reflexivity.
Qed.

(** The two kinds of failure are told apart by [checkRole] for every
    token, and by no other gate for any token. *)
Lemma gates_on_verification_errors :
  forall (env : config) (now : Z) (token : jsstr) (error : js_error),
    truthy_jsstr (Some token) = true ->
    verify token (secret_or_default env) now = inl error ->
    Middleware.isAuthenticated env now (Headers (Some token))
    = Respond (message_only 401 "Invalid token")
    /\ Middleware.isTeacher env now (Headers (Some token))
       = Respond (message_only 401 "Invalid token")
    /\ Middleware.isAdmin env now (Headers (Some token))
       = Respond (message_only 401 "Invalid token")
    /\ (error = TokenExpiredError ->
        forall roles,
          Middleware.checkRole roles env now (Headers (Some token))
          = Respond (message_only 401 "Token expired")).
Proof.
  intros env now token error Ht Hv.
  unfold Middleware.isAuthenticated, Middleware.isTeacher, Middleware.isAdmin,
    Middleware.checkRole.
  cbn [authorization]. rewrite Ht, Hv; simpl negb; cbv iota.
  repeat split. intros -> roles. reflexivity.
Qed.

(** ** The handler monad *)

Lemma bind_Val {A B : Type} (m : M A) (k : A -> M B) (st st1 : store) (a : A) :
  m st = (Val a, st1) -> bind m k st = k a st1.
Proof. unfold bind. now intros ->. Qed.

Lemma bind_Throw {A B : Type} (m : M A) (k : A -> M B) (st st1 : store) (e : js_error) :
  m st = (Throw e, st1) -> bind m k st = (Throw e, st1).
Proof. unfold bind. now intros ->. Qed.

Lemma bind_Val_inv {A B : Type} (m : M A) (k : A -> M B) (st st' : store) (b : B) :
  bind m k st = (Val b, st') ->
  exists a st1, m st = (Val a, st1) /\ k a st1 = (Val b, st').
Proof.
  unfold bind. destruct (m st) as [[a|e|] st1]; intros H; try discriminate H.
  now exists a, st1.
Qed.

Lemma unchanged_refl (st : store) : unchanged st st.
Proof. now repeat split. Qed.

Lemma unchanged_trans (a b c : store) : unchanged a b -> unchanged b c -> unchanged a c.
Proof.
  intros (Hu & Hs & Hc) (Hu' & Hs' & Hc'). repeat split; congruence.
Qed.

Lemma reads_ret {A : Type} (a : A) : reads (ret a).
Proof. intros st. apply unchanged_refl. Qed.

Lemma reads_throw {A : Type} (e : js_error) : reads (@throw A e).
Proof. intros st. apply unchanged_refl. Qed.

Lemma reads_await {A : Type} (r : js_error + A) : reads (await r).
Proof. destruct r; [apply reads_throw | apply reads_ret]. Qed.

Lemma reads_get : reads get.
Proof. intros st. apply unchanged_refl. Qed.

Lemma reads_log (e : log_entry) : reads (log e).
Proof. intros st. now repeat split. Qed.

Lemma reads_draw : reads draw.
Proof. intros st. now repeat split. Qed.

Lemma reads_deliver (m : mail) : reads (deliver m).
Proof. intros st. now repeat split. Qed.

Lemma reads_bind {A B : Type} (m : M A) (k : A -> M B) :
  reads m -> (forall a, reads (k a)) -> reads (bind m k).
Proof.
  intros Hm Hk st. unfold bind. specialize (Hm st).
  destruct (m st) as [[a|e|] st1]; simpl in *; try exact Hm.
  eapply unchanged_trans; [exact Hm | apply Hk].
Qed.

Lemma reads_try_catch {A : Type} (m : M A) (h : js_error -> M A) :
  reads m -> (forall e, reads (h e)) -> reads (try_catch m h).
Proof.
  intros Hm Hh st. unfold try_catch. specialize (Hm st).
  destruct (m st) as [[a|e|] st1]; simpl in *; try exact Hm.
  eapply unchanged_trans; [exact Hm | apply Hh].
Qed.

Create HintDb reads.
#[local] Hint Resolve reads_ret reads_throw reads_await reads_get reads_log
  reads_draw reads_deliver : reads.

Ltac reads_step :=
  first [ apply reads_bind; [| intros ? ]
        | apply reads_try_catch; [| intros ? ]
        | solve [auto with reads]
        | match goal with
          | |- reads (match ?x with _ => _ end) => destruct x
          | |- reads (if ?b then _ else _) => destruct b
          end ].

Ltac reads_auto := repeat reads_step.

Lemma returns_reads {A : Type} (m : M A) (st : store) :
  returns m -> reads m -> exists a st', m st = (Val a, st') /\ unchanged st st'.
Proof.
  intros Hr Hm. destruct (Hr st) as (a & st' & H).
  exists a, st'. split; [exact H |]. specialize (Hm st). now rewrite H in Hm.
Qed.

(** ** Student registration *)

Lemma reads_student_upload (sv : services) (file : option upload_file) :
  reads (StudentRoutes.uploadToCloudinary sv file).
Proof. unfold StudentRoutes.uploadToCloudinary. reads_auto. Qed.

Lemma reads_compressImage (sv : services) (url : string) :
  reads (StudentRoutes.compressImage sv url).
Proof. unfold StudentRoutes.compressImage. reads_auto. Qed.

Lemma reads_parse_address (sv : services) (a : option value) :
  reads (StudentRoutes.parse_address sv a).
Proof. unfold StudentRoutes.parse_address. reads_auto. Qed.

Lemma reads_find_id_in (sv : services) (ids : value) :
  reads (CourseModel.find_id_in sv ids).
Proof. unfold CourseModel.find_id_in. reads_auto. Qed.

Lemma reads_parse_courses (sv : services) (c : option value) :
  reads (StudentRoutes.parse_courses sv c).
Proof.
  unfold StudentRoutes.parse_courses.
  destruct (truthy c); [| apply reads_ret].
  apply reads_try_catch; [| intros e; reads_auto].
  apply reads_bind; [reads_auto |].
  intros ids. apply reads_bind; [apply reads_find_id_in |].
  intros valid.
  apply reads_bind; [unfold StudentRoutes.length_of; reads_auto |].
  intros n. reads_auto.
Qed.

Lemma reads_sendIdCard (env : config) (docs : documents) (smtp : mailer)
      (student : Student.t) :
  reads (StudentRoutes.sendIdCard env docs smtp student).
Proof. unfold StudentRoutes.sendIdCard. reads_auto. Qed.

Ltac card_error :=
  intros Hreads; eexists; eexists; split; [reflexivity |];
  split; [exact Hreads |];
  split; [cbn; rewrite <- ?app_assoc; reflexivity |];
  right; eexists; eexists; cbn; left; reflexivity.

(** The steps of the block that follow the code: output, transport
    check, dispatch, after a failure of the code. *)
Ltac card_without_code docs smtp student :=
  destruct (jsPDF_output docs student None) as [?e|?pdf]; cbn; [card_error |];
  destruct (transporter_verify smtp) as [?e|[]]; cbn; [card_error |];
  destruct (transporter_sendMail smtp _) as [?e|[]]; cbn; card_error.

(** The block after [student.save()] ends without an exception for
    every behaviour of jsPDF, qrcode and nodemailer, and writes no
    collection.  Either every step succeeded, nothing was logged and the
    card is in the outbox; or an error is among the lines it logged. *)
Lemma sendIdCard_isolated (env : config) (docs : documents) (smtp : mailer)
      (student : Student.t) (st : store) :
  exists st' new,
    StudentRoutes.sendIdCard env docs smtp student st = (Val tt, st')
    /\ unchanged st st'
    /\ console st' = console st ++ new
    /\ ((new = []
         /\ card_succeeds env docs smtp student
         /\ exists pdf,
             outbox st' = outbox st ++ [StudentRoutes.id_card_mail env student pdf])
        \/ (exists label e, In (console_error label e) new)).
Proof.
  pose proof (reads_sendIdCard env docs smtp student st) as Hreads.
  revert Hreads.
  unfold StudentRoutes.sendIdCard, try_catch, bind, await, ret, throw, log,
    deliver, modify, card_succeeds.
  destruct (jsPDF_layout docs student) as [e|[]]; cbn; [card_error |].
  destruct (QRCode_toDataURL docs _) as [e|url]; cbn.
  { card_without_code docs smtp student. }
  destruct (jsPDF_addImage docs url) as [e|[]] eqn:Himage; cbn.
  { card_without_code docs smtp student. }
  destruct (jsPDF_output docs student (Some url)) as [e|pdf] eqn:Hout; cbn;
    [card_error |].
  destruct (transporter_verify smtp) as [e|[]]; cbn; [card_error |].
  destruct (transporter_sendMail smtp _) as [e|[]] eqn:Hsend; cbn; [card_error |].
  intros Hreads. eexists. exists []. split; [reflexivity |].
  split; [exact Hreads |]. split; [cbn; now rewrite app_nil_r |].
  left. split; [reflexivity |]. split.
  - exists url, pdf. now repeat split.
  - now exists pdf.
Qed.

Lemma write_In (this : Student.t) (stored : list Student.t) :
  In this (StudentModel.write this stored).
Proof.
  unfold StudentModel.write.
  destruct (existsb _ stored) eqn:E.
  - apply existsb_exists in E as (d & Hd & Heq).
    apply in_map_iff. exists d. now rewrite Heq.
  - apply in_or_app. right. now left.
Qed.

Lemma reads_unique_rollId (sv : services) (fuel : nat) :
  reads (StudentModel.unique_rollId sv fuel).
Proof.
  induction fuel as [|fuel IH]; simpl.
  - intros st. apply unchanged_refl.
  - apply reads_bind; [apply reads_draw |]. intros i.
    apply reads_bind; [unfold StudentModel.findOne_rollId; reads_auto |].
    intros [d|]; [exact IH | apply reads_ret].
Qed.

(** What [save] returns is in the collection, with the address it was
    given; the users are not written. *)
Lemma save_stored (sv : services) (this saved : Student.t) (st st' : store) :
  StudentModel.save sv this st = (Val saved, st') ->
  In saved (students st')
  /\ users st' = users st
  /\ Student.address saved = Student.address this
  /\ Student.status saved = Student.status this.
Proof.
  unfold StudentModel.save. destruct (negb (StudentModel.validate this)).
  { intros H; discriminate H. }
  intros H. apply bind_Val_inv in H as (r & s1 & Hr & H).
  assert (Hs1 : unchanged st s1).
  { destruct (truthy_string (Student.rollId this)).
    - injection Hr as _ <-. apply unchanged_refl.
    - pose proof (reads_bind _ (fun r => ret (Some r))
                    (reads_unique_rollId sv (draws sv))
                    (fun r => reads_ret (Some r)) st) as Hu.
      now rewrite Hr in Hu. }
  apply bind_Val_inv in H as (s2 & s3 & Hget & H).
  injection Hget as <- <-.
  destruct (StudentModel.duplicate_key _ _); [discriminate H |].
  apply bind_Val_inv in H as ([] & s4 & Hset & H).
  injection H as <- <-. injection Hset as <-. cbn.
  destruct Hs1 as (Hu & _ & _).
  repeat split; [apply write_In | exact Hu].
Qed.

Lemma reads_student_new (sv : services) (f : StudentModel.fields) :
  reads (StudentModel.new sv f).
Proof. unfold StudentModel.new. reads_auto. Qed.

Lemma reads_hash (sv : services) (p : option string) :
  reads (StudentRoutes.hash sv p).
Proof. unfold StudentRoutes.hash. reads_auto. Qed.

Lemma reads_student_findOne (sv : services) (e c : option string) :
  reads (StudentModel.findOne_email_or_cnic sv e c).
Proof. unfold StudentModel.findOne_email_or_cnic. reads_auto. Qed.

(** A registration that reaches the end of [student.save()]: the saved
    student is in the collection, with status [Pending] and the address
    cast from the parsed one. *)
Lemma register_student_saved (sv : services) (req : StudentRoutes.register_request)
      (st st' : store) (student : Student.t) :
  StudentRoutes.register_student sv req st = (Val (inr student), st') ->
  In student (students st')
  /\ users st' = users st
  /\ Student.status student = "Pending"
  /\ exists a st1,
      StudentRoutes.parse_address sv (StudentRoutes.address req) st = (Val a, st1)
      /\ Student.address student = fst (StudentModel.cast_address a).
Proof.
  unfold StudentRoutes.register_student. intros H.
  apply bind_Val_inv in H as (a & s1 & Ha & H).
  pose proof (reads_parse_address sv (StudentRoutes.address req) st) as R1.
  rewrite Ha in R1; cbn in R1.
  apply bind_Val_inv in H as (parsed & s2 & Hp & H).
  pose proof (reads_parse_courses sv (StudentRoutes.enrolledCourses req) s1) as R2.
  rewrite Hp in R2; cbn in R2.
  destruct parsed as [res|parsedCourses]; [discriminate H |].
  apply bind_Val_inv in H as (existing & s3 & He & H).
  pose proof (reads_student_findOne sv (StudentRoutes.email req)
                (StudentRoutes.cnic req) s2) as R3.
  rewrite He in R3; cbn in R3.
  destruct existing as [d|]; [discriminate H |].
  apply bind_Val_inv in H as (url & s4 & Hu & H).
  assert (R4 : unchanged s3 s4).
  { destruct (StudentRoutes.file req) as [f|].
    - pose proof (reads_student_upload sv (Some f) s3) as R. now rewrite Hu in R.
    - injection Hu as _ <-. apply unchanged_refl. }
  apply bind_Val_inv in H as (curl & s5 & Hc & H).
  assert (R5 : unchanged s4 s5).
  { destruct (nonempty url).
    - pose proof (reads_compressImage sv url s4) as R. now rewrite Hc in R.
    - injection Hc as _ <-. apply unchanged_refl. }
  apply bind_Val_inv in H as (hashed & s6 & Hh & H).
  pose proof (reads_hash sv (StudentRoutes.password req) s5) as R6.
  rewrite Hh in R6; cbn in R6.
  apply bind_Val_inv in H as (fresh & s7 & Hn & H).
  match type of Hn with
  | StudentModel.new _ ?f _ = _ => pose proof (reads_student_new sv f s6) as R7
  end.
  rewrite Hn in R7; cbn in R7.
  apply bind_Val_inv in H as (saved & s8 & Hs & H).
  injection H as <- <-.
  apply save_stored in Hs as (Hin & Husers & Haddr & Hstatus).
  unfold StudentModel.new in Hn.
  apply bind_Val_inv in Hn as (i & s6' & _ & Hn). injection Hn as <- _.
  cbn in Haddr, Hstatus.
  split; [exact Hin |]. split.
  { destruct R1 as (U1 & _), R2 as (U2 & _), R3 as (U3 & _), R4 as (U4 & _),
      R5 as (U5 & _), R6 as (U6 & _), R7 as (U7 & _). congruence. }
  split; [exact Hstatus |].
  exists a, s1. split; [exact Ha | exact Haddr].
Qed.

(** C1.  Once the student record is saved, the registration answers 201
    with the body made from the saved record, whatever jsPDF, qrcode
    and the SMTP transport do, and the record stays in the collection.
    Every failure of the ID-card block (page layout, code rendering, PDF
    output, SMTP verification, sending) is caught and logged: either all
    its steps succeeded, nothing was logged and the card is in the
    outbox, or an error is among the lines the block logged. *)
Theorem card_failure_does_not_change_registration :
  forall (env : config) (sv : services) (docs : documents) (smtp : mailer)
         (req : StudentRoutes.register_request) (st st1 : store)
         (student : Student.t),
    StudentRoutes.register_student sv req st = (Val (inr student), st1) ->
    exists st2 new,
      StudentRoutes.register env sv docs smtp req st
      = (Val (Response 201 (StudentRoutes.registered_body student)), st2)
      /\ students st2 = students st1
      /\ In student (students st2)
      /\ console st2 = console st1 ++ new ++ [console_log student]
      /\ ((new = []
           /\ card_succeeds env docs smtp student
           /\ exists pdf,
               outbox st2
               = outbox st1 ++ [StudentRoutes.id_card_mail env student pdf])
          \/ (exists label e, In (console_error label e) new)).
Proof.
  intros env sv docs smtp req st st1 student Hsaved.
  destruct (register_student_saved _ _ _ _ _ Hsaved) as (Hin & _).
  destruct (sendIdCard_isolated env docs smtp student st1)
    as (st2 & new & Hcard & (_ & Hstudents & _) & Hconsole & Hlogged).
  unfold StudentRoutes.register, try_catch.
  rewrite (bind_Val _ _ _ _ _ Hsaved).
  rewrite (bind_Val _ _ _ _ _ Hcard).
  eexists. exists new. split; [reflexivity |]. cbn.
  split; [exact Hstudents |]. split; [now rewrite Hstudents |].
  split; [now rewrite Hconsole, app_assoc | exact Hlogged].
Qed.

Lemma card_failure_does_not_change_registration_witness :
  let req := Sample.form "new@x.com" "9999999999999" None None (Some Sample.picture) in
  exists student st1 st2,
    StudentRoutes.register_student Sample.world req Sample.db
    = (Val (inr student), st1)
    /\ StudentRoutes.register Sample.production Sample.world Sample.printer
         Sample.smtp_down req Sample.db
       = (Val (Response 201 (StudentRoutes.registered_body student)), st2)
    /\ students st2 = Sample.pending_student :: Sample.enrolled_student :: [student]
    /\ outbox st2 = [].
Proof.
  intros req.
  assert (Hsaved : exists student st1,
             StudentRoutes.register_student Sample.world req Sample.db
             = (Val (inr student), st1)
             /\ students st1
                = Sample.pending_student :: Sample.enrolled_student :: [student]).
  { eexists. eexists. split; vm_compute; reflexivity. }
  destruct Hsaved as (student & st1 & Hsaved & Hstudents).
  destruct (card_failure_does_not_change_registration Sample.production Sample.world
              Sample.printer Sample.smtp_down req Sample.db st1 student Hsaved)
    as (st2 & new & Hres & Hsame & _).
  exists student, st1, st2.
  split; [exact Hsaved |]. split; [exact Hres |].
  split; [now rewrite Hsame |].
  pose proof (f_equal (fun r => outbox (snd r)) Hres) as Hout.
  cbn beta in Hout. cbn [snd] in Hout. rewrite <- Hout. vm_compute. reflexivity.
Defined.

(** C7.  A registration whose [address] is a string that [JSON.parse]
    rejects goes on exactly as the registration of the same form with
    the address object whose street, city, state, zipCode and country
    are empty strings; only the parse error is logged.  The student that
    is saved has these five empty strings as address. *)
Theorem unparseable_address_defaults_to_empty :
  forall (env : config) (sv : services) (docs : documents) (smtp : mailer)
         (req : StudentRoutes.register_request) (s : string) (e : js_error)
         (st : store),
    StudentRoutes.address req = Some (VStr s) ->
    JSON_parse sv s = inl e ->
    StudentRoutes.register env sv docs smtp req st
    = StudentRoutes.register env sv docs smtp
        (with_address req (Some StudentRoutes.empty_address))
        (logged st "Error parsing address:" e)
    /\ forall student st1,
        StudentRoutes.register_student sv req st = (Val (inr student), st1) ->
        Student.address student
        = Student.Address.Make (Some "") (Some "") (Some "") (Some "") (Some "").
Proof.
  intros env sv docs smtp req s e st Haddr Hparse.
  assert (Hp : StudentRoutes.parse_address sv (StudentRoutes.address req) st
               = (Val (Some StudentRoutes.empty_address),
                  logged st "Error parsing address:" e)).
  { rewrite Haddr. unfold StudentRoutes.parse_address, try_catch, bind, await.
    rewrite Hparse. reflexivity. }
  split.
  - assert (Heq : StudentRoutes.register_student sv req st
                  = StudentRoutes.register_student sv
                      (with_address req (Some StudentRoutes.empty_address))
                      (logged st "Error parsing address:" e)).
    { unfold StudentRoutes.register_student.
      rewrite (bind_Val _ _ _ _ _ Hp).
      cbn [with_address StudentRoutes.address StudentRoutes.parse_address
             StudentRoutes.empty_address].
      erewrite (bind_Val (ret _)); [| reflexivity].
      reflexivity. }
    unfold StudentRoutes.register, try_catch, bind. now rewrite Heq.
  - intros student st1 Hsaved.
    destruct (register_student_saved _ _ _ _ _ Hsaved)
      as (_ & _ & _ & a & st' & Ha & Hcast).
    rewrite Hp in Ha. injection Ha as <- _.
    rewrite Hcast. reflexivity.
Qed.

Lemma unparseable_address_defaults_to_empty_witness :
  let req := Sample.form "new@x.com" "9999999999999" (Some (VStr "{bad json"))
                         None None in
  StudentRoutes.address req = Some (VStr "{bad json")
  /\ JSON_parse Sample.world "{bad json" = inl Sample.SyntaxError
  /\ StudentRoutes.register Sample.production Sample.world Sample.printer
       Sample.smtp req Sample.db
     = StudentRoutes.register Sample.production Sample.world Sample.printer
         Sample.smtp (with_address req (Some StudentRoutes.empty_address))
         (logged Sample.db "Error parsing address:" Sample.SyntaxError)
  /\ status_of (fst (StudentRoutes.register Sample.production Sample.world
                       Sample.printer Sample.smtp req Sample.db)) = Some 201.
Proof.
  intros req.
  assert (Hparse : JSON_parse Sample.world "{bad json" = inl Sample.SyntaxError)
    by reflexivity.
  split; [reflexivity |]. split; [exact Hparse |]. split.
  - exact (proj1 (unparseable_address_defaults_to_empty Sample.production
                    Sample.world Sample.printer Sample.smtp req "{bad json"
                    Sample.SyntaxError Sample.db eq_refl Hparse)).
  - vm_compute. reflexivity.
Defined.

(** ** Computations that end *)

Lemma halts_ret {A : Type} (a : A) : halts (ret a).
Proof. intros st H; discriminate H. Qed.

Lemma halts_throw {A : Type} (e : js_error) : halts (@throw A e).
Proof. intros st H; discriminate H. Qed.

Lemma halts_await {A : Type} (r : js_error + A) : halts (await r).
Proof. destruct r; [apply halts_throw | apply halts_ret]. Qed.

Lemma halts_get : halts get.
Proof. intros st H; discriminate H. Qed.

Lemma halts_modify (f : store -> store) : halts (modify f).
Proof. intros st H; discriminate H. Qed.

Lemma halts_log (e : log_entry) : halts (log e).
Proof. apply halts_modify. Qed.

Lemma halts_draw : halts draw.
Proof. intros st H; discriminate H. Qed.

Lemma halts_bind {A B : Type} (m : M A) (k : A -> M B) :
  halts m -> (forall a, halts (k a)) -> halts (bind m k).
Proof.
  intros Hm Hk st. unfold bind. specialize (Hm st).
  destruct (m st) as [[a|e|] st1]; simpl in *;
    [apply Hk | discriminate | now contradiction Hm].
Qed.

Lemma halts_try_catch {A : Type} (m : M A) (h : js_error -> M A) :
  halts m -> (forall e, halts (h e)) -> halts (try_catch m h).
Proof.
  intros Hm Hh st. unfold try_catch. specialize (Hm st).
  destruct (m st) as [[a|e|] st1]; simpl in *;
    [discriminate | apply Hh | exact Hm].
Qed.

Create HintDb halts.
#[local] Hint Resolve halts_ret halts_throw halts_await halts_get halts_modify
  halts_log halts_draw : halts.

Ltac halts_step :=
  first [ apply halts_bind; [| intros ? ]
        | apply halts_try_catch; [| intros ? ]
        | solve [auto with halts]
        | match goal with
          | |- halts (match ?x with _ => _ end) => destruct x
          | |- halts (if ?b then _ else _) => destruct b
          end ].

Ltac halts_auto := repeat halts_step.

(** A handler whose [catch] answers: it ends with a response. *)
Lemma try_catch_returns {A : Type} (m : M A) (h : js_error -> M A) :
  halts m -> (forall e, returns (h e)) -> returns (try_catch m h).
Proof.
  intros Hm Hh st. unfold try_catch. specialize (Hm st).
  destruct (m st) as [[a|e|] st1]; simpl in *.
  - now exists a, st1.
  - apply Hh.
  - now contradiction Hm.
Qed.

Lemma halts_parse_address (sv : services) (a : option value) :
  halts (StudentRoutes.parse_address sv a).
Proof. unfold StudentRoutes.parse_address. halts_auto. Qed.

Lemma halts_find_id_in (sv : services) (ids : value) :
  halts (CourseModel.find_id_in sv ids).
Proof. unfold CourseModel.find_id_in. halts_auto. Qed.

Lemma halts_parse_courses (sv : services) (c : option value) :
  halts (StudentRoutes.parse_courses sv c).
Proof.
  unfold StudentRoutes.parse_courses.
  destruct (truthy c); [| apply halts_ret].
  apply halts_try_catch; [| intros e; halts_auto].
  apply halts_bind; [halts_auto |].
  intros ids. apply halts_bind; [apply halts_find_id_in |].
  intros valid.
  apply halts_bind; [unfold StudentRoutes.length_of; halts_auto |].
  intros n. halts_auto.
Qed.

Lemma halts_student_upload (sv : services) (file : option upload_file) :
  halts (StudentRoutes.uploadToCloudinary sv file).
Proof. unfold StudentRoutes.uploadToCloudinary. halts_auto. Qed.

(** The address step always gives an address. *)
Lemma parse_address_returns (sv : services) (a : option value) :
  returns (StudentRoutes.parse_address sv a).
Proof.
  unfold StudentRoutes.parse_address.
  destruct a as [[| | |s| | |]|]; try (intros st; now eexists; eexists).
  apply try_catch_returns; [halts_auto |].
  intros e st. now eexists; eexists.
Qed.

(** The course step gives the parsed courses or one of its two 400
    responses. *)
Lemma parse_courses_returns (sv : services) (c : option value) (st : store) :
  exists r st1,
    StudentRoutes.parse_courses sv c st = (Val r, st1)
    /\ unchanged st st1
    /\ forall res, r = inl res ->
         res = message_only 400 "One or more selected courses do not exist"
         \/ res = message_only 400 "Invalid course selection format".
Proof.
  pose proof (reads_parse_courses sv c st) as Hreads.
  pose proof (halts_parse_courses sv c st) as Hhalts.
  revert Hreads Hhalts.
  unfold StudentRoutes.parse_courses.
  destruct (truthy c).
  2:{ intros Hreads _. exists (inr []), st. repeat split; [exact Hreads .. |].
      intros res H; discriminate H. }
  unfold try_catch.
  match goal with
  | |- context [match ?m st with _ => _ end] =>
      destruct (m st) as [[r|e|] st1] eqn:E
  end; cbn [fst snd].
  - intros Hreads _. exists r, st1. split; [reflexivity |]. split; [exact Hreads |].
    intros res ->.
    apply bind_Val_inv in E as (ids & s1 & _ & E).
    apply bind_Val_inv in E as (valid & s2 & _ & E).
    apply bind_Val_inv in E as (n & s3 & _ & E).
    destruct (negb _).
    + injection E as <- _. now left.
    + destruct ids; try discriminate E.
      destruct (CourseModel.cast_ids sv l); discriminate E.
  - intros Hreads _. eexists. eexists. split; [reflexivity |].
    split; [exact Hreads |]. intros res H. injection H as <-. now right.
  - intros _ Hhalts. now contradiction Hhalts.
Qed.

Ltac upload_thrown :=
  cbn;
  repeat match goal with
         | |- context [if ?b then _ else _] => destruct b
         end;
  intros Hreads; eexists; eexists; (split; [reflexivity | exact Hreads]).

(** A failing adapter makes the helper throw. *)
Lemma student_upload_throws (sv : services) (f : upload_file) (st : store) :
  upload_fails sv "student_profiles" f ->
  exists e st1,
    StudentRoutes.uploadToCloudinary sv (Some f) st = (Throw e, st1)
    /\ unchanged st st1.
Proof.
  intros Hfail.
  pose proof (reads_student_upload sv (Some f) st) as Hreads. revert Hreads.
  unfold StudentRoutes.uploadToCloudinary, try_catch, bind, await, throw, ret, log,
    modify.
  destruct Hfail as [Hbuf | [(e & He) | (r & Hr & Hfalsy)]].
  - rewrite Hbuf. upload_thrown.
  - destruct (buffer f); rewrite ?He; upload_thrown.
  - destruct (buffer f); rewrite ?Hr, ?Hfalsy; upload_thrown.
Qed.

Lemma student_findOne_run {sv : services} (e c : option string) (st : store) :
  StudentModel.findOne_email_or_cnic sv e c st
  = (Val (find (fun d => option_eqb (Student.email d) (normalised sv e)
                           || option_eqb (Student.cnic d) c) (students st)), st).
Proof. reflexivity. Qed.

(** Student registration with a failing upload: what the steps up to
    [student.save()] come to. *)
Lemma register_student_upload_down (sv : services)
      (req : StudentRoutes.register_request) (st : store) (f : upload_file) :
  StudentRoutes.file req = Some f ->
  upload_fails sv "student_profiles" f ->
  exists st1,
    unchanged st st1
    /\ ((exists res, StudentRoutes.register_student sv req st = (Val (inl res), st1)
                     /\ status res = 400)
        \/ (exists e, StudentRoutes.register_student sv req st = (Throw e, st1))).
Proof.
  intros Hfile Hfail.
  destruct (returns_reads _ st (parse_address_returns sv (StudentRoutes.address req))
              (reads_parse_address sv (StudentRoutes.address req)))
    as (a & s1 & Ha & U1).
  destruct (parse_courses_returns sv (StudentRoutes.enrolledCourses req) s1)
    as (r & s2 & Hc & U2 & Hres).
  pose proof (unchanged_trans _ _ _ U1 U2) as U.
  unfold StudentRoutes.register_student.
  rewrite (bind_Val _ _ _ _ _ Ha), (bind_Val _ _ _ _ _ Hc).
  destruct r as [res|parsedCourses].
  { exists s2. split; [exact U |]. left. exists res. split; [reflexivity |].
    destruct (Hres res eq_refl) as [-> | ->]; reflexivity. }
  rewrite (bind_Val _ _ _ _ _ (student_findOne_run _ _ s2)).
  destruct (find _ (students s2)) as [existing|].
  { exists s2. split; [exact U |]. left. eexists. split; reflexivity. }
  rewrite Hfile.
  destruct (student_upload_throws sv f s2 Hfail) as (e & s3 & Hup & U3).
  rewrite (bind_Throw _ _ _ _ _ Hup).
  exists s3. split; [exact (unchanged_trans _ _ _ U U3) |]. right. now exists e.
Qed.

Lemma reads_auth_upload (sv : services) (file : option upload_file) :
  reads (AuthRoutes.uploadToCloudinary sv file).
Proof. unfold AuthRoutes.uploadToCloudinary. reads_auto. Qed.

Lemma auth_upload_throws (sv : services) (f : upload_file) (st : store) :
  upload_fails sv "user_profiles" f ->
  exists e st1,
    AuthRoutes.uploadToCloudinary sv (Some f) st = (Throw e, st1)
    /\ unchanged st st1.
Proof.
  intros Hfail.
  pose proof (reads_auth_upload sv (Some f) st) as Hreads. revert Hreads.
  unfold AuthRoutes.uploadToCloudinary, try_catch, bind, await, throw, ret, log,
    modify.
  destruct Hfail as [Hbuf | [(e & He) | (r & Hr & Hfalsy)]].
  - rewrite Hbuf. upload_thrown.
  - destruct (buffer f); rewrite ?He; upload_thrown.
  - destruct (buffer f); rewrite ?Hr, ?Hfalsy; upload_thrown.
Qed.

(** [typeof x === 'string' ? JSON.parse(x) : x] gives a value, or throws
    the error of [JSON.parse] on a string; the store is as it was. *)
Lemma parse_if_string_cases (sv : services) (x : option value) (st : store) :
  (exists v, AuthRoutes.parse_if_string sv x st = (Val v, st))
  \/ (exists s e, x = Some (VStr s) /\ JSON_parse sv s = inl e
                  /\ AuthRoutes.parse_if_string sv x st = (Throw e, st)).
Proof.
  unfold AuthRoutes.parse_if_string, bind, await.
  destruct x as [[| | |s| | |]|]; try (left; now eexists).
  destruct (JSON_parse sv s) as [e|v] eqn:E; [right | left].
  - exists s, e. now repeat split.
  - now eexists.
Qed.

Lemma user_findOne_run {sv : services} (e c : option string) (st : store) :
  UserModel.findOne_email_or_cnic sv e c st
  = (Val (find (fun d => option_eqb (User.email d) (normalised sv e)
                           || option_eqb (User.cnic d) (trimmed sv c)) (users st)), st).
Proof. reflexivity. Qed.

(** C8.  A registration that comes with an image fails when the image
    upload adapter fails: the answer is an error (400 from an earlier
    step, else 500), and the collection of principals is as it was: the
    upload comes before the record is made and saved.  For students and
    for users. *)
Theorem upload_failure_fails_registration :
  forall (env : config) (sv : services) (docs : documents) (smtp : mailer),
    (forall req st f,
        StudentRoutes.file req = Some f ->
        upload_fails sv "student_profiles" f ->
        exists res st',
          StudentRoutes.register env sv docs smtp req st = (Val res, st')
          /\ (status res = 400 \/ status res = 500)
          /\ students st' = students st)
    /\ (forall req st f,
           AuthRoutes.file req = Some f ->
           upload_fails sv "user_profiles" f ->
           exists res st',
             AuthRoutes.register env sv req st = (Val res, st')
             /\ (status res = 400 \/ status res = 500)
             /\ users st' = users st).
Proof.
  intros env sv docs smtp. split.
  - intros req st f Hfile Hfail.
    destruct (register_student_upload_down sv req st f Hfile Hfail)
      as (s1 & (_ & Hstudents & _) & [(res & Hrun & Hstatus) | (e & Hrun)]);
      unfold StudentRoutes.register, try_catch.
    + rewrite (bind_Val _ _ _ _ _ Hrun). exists res, s1. auto.
    + rewrite (bind_Throw _ _ _ _ _ Hrun). eexists. eexists.
      split; [reflexivity |]. split; [now right | exact Hstudents].
  - intros req st f Hfile Hfail.
    unfold AuthRoutes.register, try_catch.
    destruct (parse_if_string_cases sv (AuthRoutes.expertise req) st)
      as [(v1 & H1) | (s1 & e & _ & _ & H1)].
    2:{ rewrite (bind_Throw _ _ _ _ _ H1). eexists. eexists.
        split; [reflexivity |]. split; [now right | reflexivity]. }
    rewrite (bind_Val _ _ _ _ _ H1).
    destruct (parse_if_string_cases sv (AuthRoutes.languages req) st)
      as [(v2 & H2) | (s2 & e & _ & _ & H2)].
    2:{ rewrite (bind_Throw _ _ _ _ _ H2). eexists. eexists.
        split; [reflexivity |]. split; [now right | reflexivity]. }
    rewrite (bind_Val _ _ _ _ _ H2).
    destruct (parse_if_string_cases sv (AuthRoutes.location req) st)
      as [(v3 & H3) | (s3 & e & _ & _ & H3)].
    2:{ rewrite (bind_Throw _ _ _ _ _ H3). eexists. eexists.
        split; [reflexivity |]. split; [now right | reflexivity]. }
    rewrite (bind_Val _ _ _ _ _ H3).
    rewrite (bind_Val _ _ _ _ _ (user_findOne_run _ _ st)).
    destruct (find _ (users st)) as [existing|].
    { eexists. eexists. split; [reflexivity |]. split; [now left | reflexivity]. }
    rewrite Hfile.
    destruct (auth_upload_throws sv f st Hfail) as (e & s1 & Hup & (Husers & _)).
    rewrite (bind_Throw _ _ _ _ _ Hup). eexists. eexists.
    split; [reflexivity |]. split; [now right | exact Husers].
Qed.

Lemma upload_failure_fails_registration_witness :
  let req := Sample.form "new@x.com" "9999999999999" None None (Some Sample.picture) in
  StudentRoutes.file req = Some Sample.picture
  /\ upload_fails Sample.world_upload_down "student_profiles" Sample.picture
  /\ exists res st',
      StudentRoutes.register Sample.production Sample.world_upload_down
        Sample.printer Sample.smtp req Sample.db = (Val res, st')
      /\ (status res = 400 \/ status res = 500)
      /\ students st' = students Sample.db.
Proof.
  intros req.
  assert (Hfail : upload_fails Sample.world_upload_down "student_profiles"
                                Sample.picture).
  { right. left. eexists. reflexivity. }
  split; [reflexivity |]. split; [exact Hfail |].
  exact (proj1 (upload_failure_fails_registration Sample.production
                  Sample.world_upload_down Sample.printer Sample.smtp)
               req Sample.db Sample.picture eq_refl Hfail).
Defined.

(** ** Duplicate identities *)

Lemma option_eqb_eq (a b : option string) : option_eqb a b = true <-> a = b.
Proof.
  destruct a as [x|], b as [y|]; simpl; split; intros H;
    try discriminate H; try reflexivity.
  - apply String.eqb_eq in H. now subst.
  - injection H as ->. apply String.eqb_refl.
Qed.

Lemma find_first {A : Type} (f : A -> bool) (l : list A) (d : A) :
  In d l -> f d = true ->
  exists d', find f l = Some d' /\ In d' l /\ f d' = true.
Proof.
  intros Hin Hf. destruct (find f l) as [d'|] eqn:E.
  - exists d'. split; [reflexivity |]. exact (find_some _ _ E).
  - rewrite (find_none _ _ E d Hin) in Hf. discriminate Hf.
Qed.

(** [JSON.parse] succeeds on each of the values that is a string. *)
Lemma parse_if_string_parsed (sv : services) (x : option value) (st : store) :
  (forall s, x = Some (VStr s) -> exists v, JSON_parse sv s = inr v) ->
  exists v, AuthRoutes.parse_if_string sv x st = (Val v, st).
Proof.
  intros Hparse.
  destruct (parse_if_string_cases sv x st) as [H | (s & e & -> & He & _)];
    [exact H |].
  destruct (Hparse s eq_refl) as (v & Hv). congruence.
Qed.

(** The record the duplicate check finds is compared with the email as
    it was submitted. *)
Lemma found_by_written_email {A : Type} (mail nic : A -> option string)
      (written submitted c : option string) (l : list A) (d : A) :
  In d l -> mail d = written ->
  (forall x, In x l -> mail x <> submitted) ->
  exists d',
    find (fun x => option_eqb (mail x) written || option_eqb (nic x) c) l = Some d'
    /\ option_eqb (mail d') submitted = false.
Proof.
  intros Hin Hd Hraw.
  assert (Hmatch : (fun x => option_eqb (mail x) written || option_eqb (nic x) c) d
                   = true).
  { cbv beta. apply orb_true_iff. left. now apply option_eqb_eq. }
  destruct (find_first _ _ d Hin Hmatch) as (d' & Hfind & Hin' & _).
  exists d'. split; [exact Hfind |].
  destruct (option_eqb (mail d') submitted) eqn:E; [| reflexivity].
  apply option_eqb_eq in E. now destruct (Hraw d' Hin').
Qed.

(** C5.  The duplicate check looks the submitted email up as the schema
    writes it, trimmed and in lower case, and then compares the email
    of the record found with the email as it was submitted.  So when a
    stored principal holds the submitted email in its written form and
    the submitted spelling differs from every stored one, the
    registration is answered 400 'CNIC already registered', whether or
    not anyone holds the submitted CNIC; no record is created.  For a
    student form that selects no course, and for a user form whose
    [expertise], [languages] and [location] parse. *)
Theorem email_collision_is_reported_as_cnic :
  forall (env : config) (sv : services) (docs : documents) (smtp : mailer),
    (forall req st d,
        In d (students st) ->
        Student.email d = normalised sv (StudentRoutes.email req) ->
        (forall x, In x (students st) -> Student.email x <> StudentRoutes.email req) ->
        truthy (StudentRoutes.enrolledCourses req) = false ->
        exists st',
          StudentRoutes.register env sv docs smtp req st
          = (Val (message_only 400 "CNIC already registered"), st')
          /\ students st' = students st)
    /\ (forall req st d,
           In d (users st) ->
           User.email d = normalised sv (AuthRoutes.email req) ->
           (forall x, In x (users st) -> User.email x <> AuthRoutes.email req) ->
           (forall s, In (Some (VStr s))
                         [AuthRoutes.expertise req; AuthRoutes.languages req;
                          AuthRoutes.location req] ->
                      exists v, JSON_parse sv s = inr v) ->
           AuthRoutes.register env sv req st
           = (Val (message_only 400 "CNIC already registered"), st)).
Proof.
  intros env sv docs smtp. split.
  - intros req st d Hin Hd Hraw Hnone.
    destruct (returns_reads _ st (parse_address_returns sv (StudentRoutes.address req))
                (reads_parse_address sv (StudentRoutes.address req)))
      as (a & s1 & Ha & (Hu & Hstudents & Hcourses)).
    rewrite <- Hstudents in Hin, Hraw.
    destruct (found_by_written_email Student.email Student.cnic
                (normalised sv (StudentRoutes.email req)) (StudentRoutes.email req)
                (StudentRoutes.cnic req) (students s1) d Hin Hd Hraw)
      as (d' & Hfind & Hneq).
    assert (Hrun : StudentRoutes.register_student sv req st
                   = (Val (inl (message_only 400 "CNIC already registered")), s1)).
    { unfold StudentRoutes.register_student.
      rewrite (bind_Val _ _ _ _ _ Ha).
      unfold StudentRoutes.parse_courses. rewrite Hnone.
      unfold bind at 1. unfold ret at 1.
      rewrite (bind_Val _ _ _ _ _ (student_findOne_run _ _ s1)).
      rewrite Hfind, Hneq. reflexivity. }
    exists s1. split; [| exact Hstudents].
    unfold StudentRoutes.register, try_catch.
    now rewrite (bind_Val _ _ _ _ _ Hrun).
  - intros req st d Hin Hd Hraw Hparse.
    destruct (found_by_written_email User.email User.cnic
                (normalised sv (AuthRoutes.email req)) (AuthRoutes.email req)
                (trimmed sv (AuthRoutes.cnic req)) (users st) d Hin Hd Hraw)
      as (d' & Hfind & Hneq).
    destruct (parse_if_string_parsed sv (AuthRoutes.expertise req) st) as (v1 & H1).
    { intros s Hs. apply Hparse. rewrite <- Hs. now left. }
    destruct (parse_if_string_parsed sv (AuthRoutes.languages req) st) as (v2 & H2).
    { intros s Hs. apply Hparse. rewrite <- Hs. now right; left. }
    destruct (parse_if_string_parsed sv (AuthRoutes.location req) st) as (v3 & H3).
    { intros s Hs. apply Hparse. rewrite <- Hs. now right; right; left. }
    unfold AuthRoutes.register, try_catch.
    rewrite (bind_Val _ _ _ _ _ H1), (bind_Val _ _ _ _ _ H2), (bind_Val _ _ _ _ _ H3).
    rewrite (bind_Val _ _ _ _ _ (user_findOne_run _ _ st)).
    rewrite Hfind. cbn. rewrite Hneq. reflexivity.
Qed.

Lemma email_collision_is_reported_as_cnic_witness :
  let form := Sample.form "A@X.COM" "9999999999999" None None None in
  let user_form := Sample.user_form "Ada@X.com" "9999999999999" None None in
  (normalised Sample.world (StudentRoutes.email form)
   = Student.email Sample.pending_student
   /\ (forall x, In x (students Sample.db) ->
                 Student.cnic x <> StudentRoutes.cnic form)
   /\ exists st',
       StudentRoutes.register Sample.production Sample.world Sample.printer
         Sample.smtp form Sample.db
       = (Val (message_only 400 "CNIC already registered"), st')
       /\ students st' = students Sample.db)
  /\ (normalised Sample.world (AuthRoutes.email user_form)
      = User.email Sample.admin
      /\ (forall x, In x (users Sample.db) ->
                    User.cnic x <> trimmed Sample.world (AuthRoutes.cnic user_form))
      /\ AuthRoutes.register Sample.production Sample.world user_form Sample.db
         = (Val (message_only 400 "CNIC already registered"), Sample.db)).
Proof.
  intros form user_form. split.
  - split; [reflexivity |]. split.
    { intros x [<- | [<- | []]]; discriminate. }
    apply (proj1 (email_collision_is_reported_as_cnic Sample.production
                    Sample.world Sample.printer Sample.smtp)
                 form Sample.db Sample.pending_student).
    + now left.
    + reflexivity.
    + intros x [<- | [<- | []]]; discriminate.
    + reflexivity.
  - split; [reflexivity |]. split.
    { intros x [<- | [<- | []]]; discriminate. }
    apply (proj2 (email_collision_is_reported_as_cnic Sample.production
                    Sample.world Sample.printer Sample.smtp)
                 user_form Sample.db Sample.admin).
    + now left.
    + reflexivity.
    + intros x [<- | [<- | []]]; discriminate.
    + intros s [H | [H | [H | []]]]; discriminate H.
Defined.

(** ** Logins *)

Lemma canAccessAccount_enrolled (student : Student.t) :
  Student.canAccessAccount student = true <-> Student.status student = "Enrolled".
Proof.
  unfold Student.canAccessAccount, includes. cbn [existsb].
  rewrite orb_false_r. apply String.eqb_eq.
Qed.

Lemma student_findOne_email_run {sv : services} (e : option string) (st : store) :
  StudentModel.findOne_email sv e st
  = (Val (find (fun d => option_eqb (Student.email d) (normalised sv e))
               (students st)), st).
Proof. reflexivity. Qed.

(** C10.  For the student found by the submitted email: with the right
    password and a status other than [Enrolled] the login is answered
    403 and carries no token; and whenever the login answers with a
    token, the status is [Enrolled] and the token is the 24-hour
    student token. *)
Theorem student_login_requires_enrolled :
  forall (env : config) (sv : services) (req : StudentRoutes.login_request)
         (st : store) (student : Student.t),
    find (fun d => option_eqb (Student.email d)
                            (normalised sv (StudentRoutes.login_email req)))
         (students st) = Some student ->
    (forall p h,
        StudentRoutes.login_password req = Some p ->
        Student.password student = Some h ->
        bcrypt_compare sv p h = true ->
        Student.status student <> "Enrolled" ->
        exists res,
          StudentRoutes.login env sv req st = (Val res, st)
          /\ status res = 403
          /\ lookup "status" (body res) = Some (Data (VStr (Student.status student)))
          /\ tokens_of res = [])
    /\ (forall res st',
           StudentRoutes.login env sv req st = (Val res, st') ->
           tokens_of res <> [] ->
           Student.status student = "Enrolled"
           /\ tokens_of res
              = [sign [("studentId", CStr (Student._id student));
                       ("role", CStr "student")]
                      (secret_or_default env) hours24 (now sv)]).
Proof.
  intros env sv req st student Hfind.
  unfold StudentRoutes.login, try_catch.
  rewrite (bind_Val _ _ _ _ _ (student_findOne_email_run _ st)), Hfind.
  split.
  - intros p h Hp Hh Hmatch Hstatus.
    unfold StudentRoutes.compare. rewrite Hp, Hh.
    rewrite (bind_Val (ret _) _ st st (bcrypt_compare sv p h) eq_refl).
    rewrite Hmatch. cbn [negb].
    destruct (Student.canAccessAccount student) eqn:E.
    { apply canAccessAccount_enrolled in E. contradiction. }
    cbn [negb]. eexists. split; [reflexivity |]. now repeat split.
  - intros res st' Hrun Htokens.
    unfold StudentRoutes.compare in Hrun.
    destruct (StudentRoutes.login_password req) as [p|],
             (Student.password student) as [h|];
      try (injection Hrun as <- _; now contradiction Htokens).
    rewrite (bind_Val (ret _) _ st st (bcrypt_compare sv p h) eq_refl) in Hrun.
    destruct (bcrypt_compare sv p h); cbn [negb] in Hrun;
      [| injection Hrun as <- _; now contradiction Htokens].
    destruct (Student.canAccessAccount student) eqn:E; cbn [negb] in Hrun;
      [| injection Hrun as <- _; now contradiction Htokens].
    injection Hrun as <- _. split; [now apply canAccessAccount_enrolled |].
    reflexivity.
Qed.

Lemma student_login_requires_enrolled_witness :
  let req := StudentRoutes.LoginRequest (Some "a@x.com") (Some "secret3") in
  find (fun d => option_eqb (Student.email d)
                          (normalised Sample.world (StudentRoutes.login_email req)))
       (students Sample.db) = Some Sample.pending_student
  /\ bcrypt_compare Sample.world "secret3" "$2b$salt$secret3" = true
  /\ Student.status Sample.pending_student <> "Enrolled"
  /\ exists res,
      StudentRoutes.login Sample.production Sample.world req Sample.db
      = (Val res, Sample.db)
      /\ status res = 403
      /\ lookup "status" (body res) = Some (Data (VStr "Pending"))
      /\ tokens_of res = [].
Proof.
  intros req.
  assert (Hstatus : Student.status Sample.pending_student <> "Enrolled")
    by (intro H; discriminate H).
  split; [reflexivity |]. split; [reflexivity |]. split; [exact Hstatus |].
  exact (proj1 (student_login_requires_enrolled Sample.production Sample.world req
                  Sample.db Sample.pending_student eq_refl)
               "secret3" "$2b$salt$secret3" eq_refl eq_refl eq_refl Hstatus).
Defined.

Lemma user_findOne_email_run {sv : services} (e : option string) (st : store) :
  UserModel.findOne_email sv e st
  = (Val (find (fun d => option_eqb (User.email d) (normalised sv e))
               (users st)), st).
Proof. reflexivity. Qed.

(** [User.findById] finds or not, or throws on an id that does not cast;
    the store is as it was. *)
Lemma findById_cases (sv : services) (id : option claim) (st : store) :
  (exists u, UserModel.findById sv id st = (Val u, st))
  \/ (exists e, UserModel.findById sv id st = (Throw e, st)).
Proof.
  unfold UserModel.findById.
  destruct id as [[| | |]|]; try (left; now eexists);
    destruct (cast_ObjectId sv _); (left; now eexists) || (right; now eexists).
Qed.

(** What [POST /login/verify-2fa] answered: no token and 400, 404 or
    500, or the session token after every check. *)
Lemma verify2fa_cases (env : config) (sv : services)
      (req : AuthRoutes.verify2fa_request) (st st' : store) (res : response) :
  AuthRoutes.verify2fa env sv req st = (Val res, st') ->
  (tokens_of res = []
   /\ (status res = 400 \/ status res = 404 \/ status res = 500))
  \/ (exists tempToken code decoded user,
         AuthRoutes.tempToken req = Some tempToken
         /\ AuthRoutes.code req = Some code
         /\ AuthRoutes.verify_field tempToken (secret_or_default env) (now sv)
            = inr decoded
         /\ truthy_claim (lookup "requires2FA" decoded) = true
         /\ UserModel.findById sv (lookup "userId" decoded) st
            = (Val (Some user), st)
         /\ totp_verify sv (User.twoFactorSecret user) (toString code)
            = inr true
         /\ status res = 200
         /\ tokens_of res
            = [sign (AuthRoutes.session_claims user)
                    (secret_or_default env) hours24 (now sv)]).
Proof.
  intros Hrun.
  unfold AuthRoutes.verify2fa, try_catch in Hrun.
  destruct (AuthRoutes.tempToken req) as [tf|] eqn:Htf;
    [| injection Hrun as <- _; left; split; [reflexivity | now left]].
  destruct (AuthRoutes.code req) as [c|] eqn:Hcode;
    [| injection Hrun as <- _; left; split; [reflexivity | now left]].
  destruct (_ || _);
    [injection Hrun as <- _; left; split; [reflexivity | now left] |].
  unfold bind at 1 in Hrun. unfold await at 1 in Hrun.
  destruct (AuthRoutes.verify_field tf (secret_or_default env) (now sv))
    as [e|decoded] eqn:Hverify;
    [injection Hrun as <- _; left; split; [reflexivity | now right; right] |].
  cbn [ret] in Hrun.
  destruct (truthy_claim (lookup "requires2FA" decoded)) eqn:Hmarker;
    cbn [negb] in Hrun;
    [| injection Hrun as <- _; left; split; [reflexivity | now left]].
  unfold bind at 1 in Hrun.
  destruct (findById_cases sv (lookup "userId" decoded) st)
    as [(u & Hu) | (e & Hu)]; rewrite Hu in Hrun;
    [| injection Hrun as <- _; left; split; [reflexivity | now right; right]].
  destruct u as [user|];
    [| injection Hrun as <- _; left; split; [reflexivity | now right; left]].
  unfold bind at 1 in Hrun. unfold await at 1 in Hrun.
  destruct (totp_verify sv (User.twoFactorSecret user) (toString c))
    as [e|verified] eqn:Htotp;
    [injection Hrun as <- _; left; split; [reflexivity | now right; right] |].
  cbn [ret] in Hrun.
  destruct verified; cbn [negb] in Hrun;
    [| injection Hrun as <- _; left; split; [reflexivity | now left]].
  injection Hrun as <- _. right.
  exists tf, c, decoded, user. now repeat split.
Qed.

(** C2.  A login with the right password, for a user with
    [twoFactorEnabled], answers with one token only: the temporary token,
    which carries [requires2FA = true] and expires five minutes after it
    was issued; the response has no [token].  [POST /login/verify-2fa]
    always answers, and it answers with a token only when the temporary
    token verified, its claims carry [requires2FA], the user was found
    and the code verified against the stored secret: then the token is
    the 24-hour session token of that user.  In every other case the
    answer is 400, 404 or 500 and carries no token. *)
Theorem two_factor_login_issues_full_token_only_after_code :
  forall (env : config) (sv : services),
    (forall req st user p h,
        find (fun d => option_eqb (User.email d)
                                (normalised sv (AuthRoutes.login_email req)))
             (users st) = Some user ->
        User.twoFactorEnabled user = true ->
        AuthRoutes.login_password req = Some p ->
        User.password user = Some h ->
        bcrypt_compare sv p h = true ->
        let tempToken := sign (AuthRoutes.pending_claims user)
                              (secret_or_default env) minutes5 (now sv) in
        AuthRoutes.login env sv req st
        = (Val (Response 200 [("message", Data (VStr "2FA verification required"));
                              ("requires2FA", Data (VBool true));
                              ("tempToken", Tok tempToken)]), st)
        /\ lookup "requires2FA" (tok_payload tempToken) = Some (CBool true)
        /\ verify (Compact tempToken) (secret_or_default env)
                  (now sv + minutes5) = inl TokenExpiredError)
    /\ (forall req st,
           exists res st', AuthRoutes.verify2fa env sv req st = (Val res, st'))
    /\ (forall req st res st',
           AuthRoutes.verify2fa env sv req st = (Val res, st') ->
           (tokens_of res = []
            /\ (status res = 400 \/ status res = 404 \/ status res = 500))
           \/ (exists tempToken code decoded user,
                  AuthRoutes.tempToken req = Some tempToken
                  /\ AuthRoutes.code req = Some code
                  /\ AuthRoutes.verify_field tempToken (secret_or_default env) (now sv)
                     = inr decoded
                  /\ truthy_claim (lookup "requires2FA" decoded) = true
                  /\ UserModel.findById sv (lookup "userId" decoded) st
                     = (Val (Some user), st)
                  /\ totp_verify sv (User.twoFactorSecret user) (toString code)
                     = inr true
                  /\ status res = 200
                  /\ tokens_of res
                     = [sign (AuthRoutes.session_claims user)
                             (secret_or_default env) hours24 (now sv)])).
Proof.
  intros env sv. split; [| split].
  - intros req st user p h Hfind H2fa Hp Hh Hmatch tempToken.
    split; [| split].
    + unfold AuthRoutes.login, try_catch.
      rewrite (bind_Val _ _ _ _ _ (user_findOne_email_run _ st)), Hfind.
      unfold UserModel.comparePassword. rewrite Hp, Hh.
      rewrite (bind_Val (ret _) _ st st (bcrypt_compare sv p h) eq_refl).
      rewrite Hmatch, H2fa. reflexivity.
    + unfold tempToken, AuthRoutes.pending_claims, sign; cbn [tok_payload].
      destruct (User.email user); reflexivity.
    + assert (Hvalid : valid_claims (AuthRoutes.pending_claims user)).
      { intros k [<- | [<- | [<- | []]]];
          unfold AuthRoutes.pending_claims; destruct (User.email user); reflexivity. }
      unfold verify, tempToken, sign; cbn [tok_payload tok_key].
      rewrite String.eqb_refl; cbn [negb].
      rewrite (lookup_app_fresh "nbf") by (apply Hvalid; simpl; auto).
      change (lookup "nbf" [("iat", CNum (now sv));
                            ("exp", CNum (now sv + minutes5))])
        with (@None claim).
      unfold check_exp.
      rewrite (lookup_app_fresh "exp") by (apply Hvalid; simpl; auto).
      change (lookup "exp" [("iat", CNum (now sv));
                            ("exp", CNum (now sv + minutes5))])
        with (Some (CNum (now sv + minutes5))).
      cbv iota beta. now rewrite Z.leb_refl.
  - intros req st. unfold AuthRoutes.verify2fa.
    apply try_catch_returns; [| intros e st0; now eexists; eexists].
    destruct (AuthRoutes.tempToken req) as [tf|], (AuthRoutes.code req) as [c|];
      try apply halts_ret.
    destruct (_ || _); [apply halts_ret |].
    apply halts_bind; [apply halts_await |]. intros decoded.
    destruct (negb _); [apply halts_ret |].
    apply halts_bind.
    { intros st0 H. destruct (findById_cases sv (lookup "userId" decoded) st0)
        as [(u & Hu) | (e & Hu)]; rewrite Hu in H; discriminate H. }
    intros [user|]; [| apply halts_ret].
    apply halts_bind; [apply halts_await |]. intros verified.
    destruct (negb verified); apply halts_ret.
  - intros req st res st' Hrun. exact (verify2fa_cases env sv req st st' res Hrun).
Qed.

Lemma two_factor_login_issues_full_token_only_after_code_witness :
  let req := AuthRoutes.LoginRequest (Some "ada@x.com") (Some "secret1") in
  let tempToken := sign (AuthRoutes.pending_claims Sample.admin)
                        (secret_or_default Sample.production) minutes5 1000 in
  find (fun d => option_eqb (User.email d)
                          (normalised Sample.world (AuthRoutes.login_email req)))
       (users Sample.db) = Some Sample.admin
  /\ User.twoFactorEnabled Sample.admin = true
  /\ bcrypt_compare Sample.world "secret1" "$2b$salt$secret1" = true
  /\ AuthRoutes.login Sample.production Sample.world req Sample.db
     = (Val (Response 200 [("message", Data (VStr "2FA verification required"));
                           ("requires2FA", Data (VBool true));
                           ("tempToken", Tok tempToken)]), Sample.db)
  /\ tokens_of (Response 200 [("message", Data (VStr "2FA verification required"));
                              ("requires2FA", Data (VBool true));
                              ("tempToken", Tok tempToken)]) = [tempToken].
Proof.
  intros req tempToken.
  split; [reflexivity |]. split; [reflexivity |]. split; [reflexivity |].
  split; [| reflexivity].
  exact (proj1 (proj1 (two_factor_login_issues_full_token_only_after_code
                         Sample.production Sample.world)
                      req Sample.db Sample.admin "secret1" "$2b$salt$secret1"
                      eq_refl eq_refl eq_refl eq_refl eq_refl)).
Defined.

(** The two steps of a login under 2FA, run: the temporary token and the
    code give the session token; a wrong code gives none. *)
Example two_factor_login_run :
  let tempToken := sign (AuthRoutes.pending_claims Sample.admin)
                        (secret_or_default Sample.production) minutes5 1000 in
  let answer code :=
    fst (AuthRoutes.verify2fa Sample.production Sample.world
           (AuthRoutes.Verify2faRequest (Some (AuthRoutes.FString (Compact tempToken)))
                                        (Some (VStr code)))
           Sample.db) in
  option_map tokens_of (match answer "123456" with Val r => Some r | _ => None end)
  = Some [sign (AuthRoutes.session_claims Sample.admin)
               (secret_or_default Sample.production) hours24 1000]
  /\ answer "000000" = Val (message_only 400 "Invalid verification code").
Proof. split; reflexivity. Qed.

(** ** Issued tokens *)

Lemma no_tokens_in_message (code : nat) (msg : string) :
  tokens_of (message_only code msg) = [].
Proof. reflexivity. Qed.






(** ** Sessions reach the account handlers *)

Lemma verify_signed (p : payload) (key : string) (ttl issued t : Z) :
  valid_claims p ->
  verify (Compact (sign p key ttl issued)) key t
  = if (issued + ttl <=? t)%Z then inl TokenExpiredError
    else inr (tok_payload (sign p key ttl issued)).
Proof.
  intros Hvalid.
  unfold verify, sign; cbn [tok_payload tok_key].
  rewrite String.eqb_refl; cbn [negb].
  rewrite (lookup_app_fresh "nbf") by (apply Hvalid; simpl; auto).
  change (lookup "nbf" [("iat", CNum issued); ("exp", CNum (issued + ttl))])
    with (@None claim).
  unfold check_exp.
  rewrite (lookup_app_fresh "exp") by (apply Hvalid; simpl; auto).
  change (lookup "exp" [("iat", CNum issued); ("exp", CNum (issued + ttl))])
    with (Some (CNum (issued + ttl))).
  reflexivity.
Qed.

Lemma verify_payload (tk : token) (key : string) (t : Z) (decoded : payload) :
  verify (Compact tk) key t = inr decoded -> decoded = tok_payload tk.
Proof.
  unfold verify, check_exp.
  destruct (negb _); [discriminate |].
  destruct (lookup "nbf" (tok_payload tk)) as [[| |nbf|]|]; try discriminate;
    [destruct (t <? nbf)%Z; [discriminate |] |];
    (destruct (lookup "exp" (tok_payload tk)) as [[| |exp|]|]; try discriminate;
     [destruct (exp <=? t)%Z; [discriminate |] |]; now intros [= <-]).
Qed.

Lemma session_claims_valid (user : User.t) :
  valid_claims (AuthRoutes.session_claims user).
Proof.
  intros k [<- | [<- | [<- | []]]];
    unfold AuthRoutes.session_claims; destruct (User.email user); reflexivity.
Qed.

Lemma pending_claims_valid (user : User.t) :
  valid_claims (AuthRoutes.pending_claims user).
Proof.
  intros k [<- | [<- | [<- | []]]];
    unfold AuthRoutes.pending_claims; destruct (User.email user); reflexivity.
Qed.

Lemma guarded_no_token (key : string) (sv : services) (h : headers) (msg : string)
      (body : payload -> User.t -> M response) (st : store) :
  truthy_jsstr (authorization h) = false ->
  guarded key sv h msg body st = (Val (message_only 401 "No token provided"), st).
Proof.
  unfold guarded, try_catch.
  destruct (authorization h) as [token|]; [| reflexivity].
  now intros ->.
Qed.

Lemma guarded_rejected (key : string) (sv : services) (h : headers) (msg : string)
      (body : payload -> User.t -> M response) (st : store)
      (token : jsstr) (e : js_error) :
  authorization h = Some token ->
  truthy_jsstr (Some token) = true ->
  verify token key (now sv) = inl e ->
  guarded key sv h msg body st = (Val (AuthRoutes.failure msg e), st).
Proof.
  intros Hh Ht Hv. unfold guarded, try_catch. rewrite Hh, Ht. cbn [negb].
  unfold bind at 1. now rewrite Hv.
Qed.

Lemma guarded_signed_in (key : string) (sv : services) (h : headers) (msg : string)
      (body : payload -> User.t -> M response) (st : store) (user : User.t) :
  signed_in key sv h st user ->
  exists decoded,
    UserModel.findById sv (lookup "userId" decoded) st = (Val (Some user), st)
    /\ guarded key sv h msg body st
       = try_catch (body decoded user)
                   (fun error => ret (AuthRoutes.failure msg error)) st.
Proof.
  intros (token & decoded & Hh & Hv & Hu). exists decoded. split; [exact Hu |].
  unfold guarded, try_catch. rewrite Hh.
  rewrite (verified_is_truthy _ _ _ _ Hv). cbn [negb].
  unfold bind at 1. rewrite Hv. cbn [await ret].
  unfold bind at 1. now rewrite Hu.
Qed.

(** What a guarded handler answered: before its body, with the store as
    it was, or from its body for the user of the session. *)
Lemma guarded_inv (key : string) (sv : services) (h : headers) (msg : string)
      (body : payload -> User.t -> M response) (st st' : store) (res : response) :
  guarded key sv h msg body st = (Val res, st') ->
  (st' = st
   /\ (res = message_only 401 "No token provided"
       \/ res = message_only 404 "User not found"
       \/ exists e, res = AuthRoutes.failure msg e))
  \/ (exists decoded user,
         signed_in key sv h st user
         /\ UserModel.findById sv (lookup "userId" decoded) st
            = (Val (Some user), st)
         /\ try_catch (body decoded user)
                      (fun error => ret (AuthRoutes.failure msg error)) st
            = (Val res, st')).
Proof.
  unfold guarded. intros Hrun.
  destruct (authorization h) as [token|] eqn:Hh;
    [| injection Hrun as <- <-; left; auto].
  destruct (truthy_jsstr (Some token)) eqn:Ht; cbn [negb] in Hrun;
    [| injection Hrun as <- <-; left; auto].
  unfold try_catch in Hrun. unfold bind at 1 in Hrun. unfold await at 1 in Hrun.
  destruct (verify token key (now sv)) as [e|decoded] eqn:Hv;
    [injection Hrun as <- <-; left; split; [reflexivity | right; right; now exists e] |].
  cbn [ret] in Hrun. unfold bind at 1 in Hrun.
  destruct (findById_cases sv (lookup "userId" decoded) st)
    as [(u & Hu) | (e & Hu)]; rewrite Hu in Hrun;
    [| injection Hrun as <- <-; left; split; [reflexivity | right; right; now exists e]].
  destruct u as [user|]; [| injection Hrun as <- <-; left; auto].
  right. exists decoded, user. split; [now exists token, decoded |].
  split; [exact Hu |]. exact Hrun.
Qed.

(** Each account handler is its body in the common frame. *)
Lemma getProfile_guarded (env : config) (sv : services) (h : headers) :
  AuthRoutes.getProfile env sv h
  = guarded (secret_or_default env) sv h "Error fetching profile"
      (fun _ user =>
         ret (Response 200
                [("message", Data (VStr "Profile fetched successfully"));
                 ("user", Data (UserModel.getPublicProfile user))])).
Proof. reflexivity. Qed.

Lemma putProfile_guarded (env : config) (sv : services)
      (req : AuthRoutes.profile_request) :
  AuthRoutes.putProfile env sv req
  = guarded (secret_or_default env) sv (AuthRoutes.p_headers req)
      "Error updating profile"
      (fun _ user =>
         picture <- match AuthRoutes.p_file req with
                    | Some f => AuthRoutes.uploadToCloudinary sv (Some f)
                    | None => ret (User.profilePicture user)
                    end ;;
         user <- UserModel.save sv (AuthRoutes.assign_profile sv req picture user) ;;
         ret (Response 200
                [("message", Data (VStr "Profile updated successfully"));
                 ("user", Data (UserModel.getPublicProfile user))])).
Proof. reflexivity. Qed.

Lemma changePassword_guarded (env : config) (sv : services)
      (req : AuthRoutes.password_request) :
  AuthRoutes.changePassword env sv req
  = guarded (secret_or_default env) sv (AuthRoutes.pw_headers req)
      "Error changing password"
      (fun _ user =>
         isMatch <- UserModel.comparePassword sv user (AuthRoutes.currentPassword req) ;;
         if negb isMatch
         then ret (message_only 400 "Current password is incorrect")
         else
           i <- draw ;;
           let salt := genSalt sv i in
           hashed <- match AuthRoutes.newPassword req with
                     | Some p => ret (bcrypt_hash sv p salt)
                     | None => throw (plain_error
                                 "Illegal arguments: undefined, string")
                     end ;;
           UserModel.save sv
             (UserModel.with_password user (Some hashed) (User.updatedAt user)) ;;;
           ret (message_only 200 "Password changed successfully")).
Proof. reflexivity. Qed.

Lemma twoFactorSetup_guarded (env : config) (sv : services) (docs : documents)
      (h : headers) :
  AuthRoutes.twoFactorSetup env sv docs h
  = guarded (secret_or_default env) sv h "Error setting up 2FA"
      (fun _ user =>
         i <- draw ;;
         let secret :=
           generateSecret sv i
             ("AaghaazTech:" ^^ match User.email user with
                                | Some e => e
                                | None => "undefined"
                                end) in
         UserModel.save sv
           (UserModel.with_twoFactor user (Some (fst secret))
                                     (User.twoFactorEnabled user)) ;;;
         qrCode <- await (QRCode_toDataURL docs (snd secret)) ;;
         ret (Response 200 [("message", Data (VStr "2FA setup initiated"));
                            ("secret", Data (VStr (fst secret)));
                            ("qrCode", Data (VStr qrCode))])).
Proof. reflexivity. Qed.

Lemma twoFactorVerify_guarded (env : config) (sv : services)
      (req : AuthRoutes.code_request) :
  AuthRoutes.twoFactorVerify env sv req
  = guarded "121212" sv (AuthRoutes.c_headers req) "Error enabling 2FA"
      (fun _ user =>
         verificationToken <-
           match AuthRoutes.c_code req with
           | None | Some VNull =>
               throw (Error "TypeError"
                        "Cannot read properties of undefined (reading 'toString')"
                        None)
           | Some v => ret (toString v)
           end ;;
         verified <- await (totp_verify sv (User.twoFactorSecret user)
                                        verificationToken) ;;
         if negb verified
         then ret (message_only 400 "Invalid verification code")
         else
           UserModel.save sv
             (UserModel.with_twoFactor user (User.twoFactorSecret user) true) ;;;
           ret (message_only 200 "2FA enabled successfully")).
Proof. reflexivity. Qed.

Lemma twoFactorDisable_guarded (env : config) (sv : services) (h : headers) :
  AuthRoutes.twoFactorDisable env sv h
  = guarded (secret_or_default env) sv h "Error disabling 2FA"
      (fun _ user =>
         if negb (User.twoFactorEnabled user)
         then ret (message_only 400 "2FA is not enabled")
         else
           UserModel.save sv (UserModel.with_twoFactor user None false) ;;;
           ret (message_only 200 "2FA disabled successfully")).
Proof. reflexivity. Qed.

Lemma deleteAccount_guarded (env : config) (sv : services)
      (req : AuthRoutes.delete_request) :
  AuthRoutes.deleteAccount env sv req
  = guarded (secret_or_default env) sv (AuthRoutes.d_headers req)
      "Error deleting account"
      (fun decoded user =>
         isMatch <- UserModel.comparePassword sv user (AuthRoutes.d_password req) ;;
         if negb isMatch
         then ret (message_only 400 "Password is incorrect")
         else
           UserModel.findByIdAndDelete sv (lookup "userId" decoded) ;;;
           ret (message_only 200 "Account deleted successfully")).
Proof. reflexivity. Qed.

(** ** The user collection *)

Lemma findById_found (sv : services) (id : option claim) (st st' : store)
      (user : User.t) :
  UserModel.findById sv id st = (Val (Some user), st') ->
  st' = st
  /\ In user (users st)
  /\ find (fun d => String.eqb (User._id d) (User._id user)) (users st) = Some user
  /\ exists c, id = Some c /\ c <> CNull
               /\ cast_ObjectId sv (UserModel.claim_value c) = Some (User._id user).
Proof.
  unfold UserModel.findById.
  destruct id as [c|]; [| discriminate].
  assert (Hc : match cast_ObjectId sv (UserModel.claim_value c) with
               | Some i => st0 <- get ;;
                           ret (find (fun d => String.eqb (User._id d) i) (users st0))
               | None => throw (CastError "_id")
               end st = (Val (Some user), st') ->
               st' = st /\ In user (users st)
               /\ find (fun d => String.eqb (User._id d) (User._id user)) (users st)
                  = Some user
               /\ cast_ObjectId sv (UserModel.claim_value c) = Some (User._id user)).
  { destruct (cast_ObjectId sv (UserModel.claim_value c)) as [i|]; [| discriminate].
    intros [= Hfind <-].
    destruct (find_some _ _ Hfind) as [Hin Heq]. apply String.eqb_eq in Heq.
    subst i. repeat split; auto. }
  destruct c; try discriminate; intros H; destruct (Hc H) as (? & ? & ? & ?);
    repeat split; auto; eexists; repeat split; eauto; discriminate.
Qed.

(** [User.findByIdAndDelete] of an identifier that casts. *)
Lemma findByIdAndDelete_run (sv : services) (c : claim) (i : string) (st : store) :
  c <> CNull ->
  cast_ObjectId sv (UserModel.claim_value c) = Some i ->
  UserModel.findByIdAndDelete sv (Some c) st
  = (Val tt,
     Store (filter (fun d => negb (String.eqb (User._id d) i)) (users st))
           (students st) (courses st) (console st) (outbox st) (entropy st)).
Proof.
  intros Hc Hcast. unfold UserModel.findByIdAndDelete.
  destruct c; try (now exfalso); rewrite Hcast; reflexivity.
Qed.

Lemma user_write_In (this : User.t) (stored : list User.t) :
  In this (UserModel.write this stored).
Proof.
  unfold UserModel.write.
  destruct (existsb _ stored) eqn:E.
  - apply existsb_exists in E as (d & Hin & Hid).
    apply in_map_iff. exists d. now rewrite Hid.
  - apply in_or_app. right. now left.
Qed.


(** A query that found [old] finds the document written in its place,
    when that document matches too. *)
Lemma user_find_write (p : User.t -> bool) (this old : User.t)
      (stored : list User.t) :
  find p stored = Some old ->
  User._id this = User._id old ->
  p this = true ->
  find p (UserModel.write this stored) = Some this.
Proof.
  intros Hfind Hid Hp.
  destruct (find_some _ _ Hfind) as [Hin _].
  unfold UserModel.write.
  assert (E : existsb (fun d => String.eqb (User._id d) (User._id this)) stored = true).
  { apply existsb_exists. exists old. split; [exact Hin |].
    apply String.eqb_eq. now symmetry. }
  rewrite E. clear E Hin.
  induction stored as [|d rest IH]; [discriminate |].
  cbn [find map] in *.
  destruct (String.eqb (User._id d) (User._id this)) eqn:Ed.
  - now rewrite Hp.
  - destruct (p d) eqn:Epd.
    + injection Hfind as ->. apply String.eqb_neq in Ed. now symmetry in Hid.
    + now apply IH.
Qed.

(** A query that found nothing finds the new document, when it matches. *)
Lemma user_find_write_new (p : User.t -> bool) (this : User.t)
      (stored : list User.t) :
  find p stored = None ->
  p this = true ->
  find p (UserModel.write this stored) = Some this.
Proof.
  intros Hfind Hp. unfold UserModel.write.
  destruct (existsb _ stored) eqn:E.
  - induction stored as [|d rest IH]; [discriminate |].
    cbn [find map existsb] in *.
    destruct (p d) eqn:Epd; [discriminate |].
    destruct (String.eqb (User._id d) (User._id this)).
    + now rewrite Hp.
    + rewrite Epd. now apply IH.
  - clear E. induction stored as [|d rest IH]; cbn [find app] in *.
    + now rewrite Hp.
    + destruct (p d); [discriminate |]. now apply IH.
Qed.

Lemma user_save_inv (sv : services) (this saved : User.t) (st st' : store) :
  UserModel.save sv this st = (Val saved, st') ->
  UserModel.validate this = true
  /\ UserModel.duplicate_key this (users st) = None
  /\ users st' = UserModel.write saved (users st)
  /\ students st' = students st
  /\ courses st' = courses st
  /\ ((UserModel.isModified_password this (users st) = false
       /\ saved = UserModel.with_password this (User.password this) (now sv))
      \/ (UserModel.isModified_password this (users st) = true
          /\ exists q,
              User.password this = Some q
              /\ saved = UserModel.with_password this
                           (Some (bcrypt_hash sv q (genSalt sv (entropy st))))
                           (now sv))).
Proof.
  unfold UserModel.save.
  destruct (UserModel.validate this); cbn [negb]; [| discriminate].
  unfold bind at 1. cbn [get].
  destruct (UserModel.isModified_password this (users st)) eqn:Hmod.
  - unfold bind at 1. unfold bind at 1. cbn [draw].
    destruct (User.password this) as [q|] eqn:Hq; [| discriminate].
    cbn [ret].
    change (UserModel.duplicate_key (UserModel.with_password this ?p ?t) ?l)
      with (UserModel.duplicate_key this l).
    destruct (UserModel.duplicate_key this (users st)); [discriminate |].
    intros [= <- <-]. repeat split; auto.
    right. split; [reflexivity |]. now exists q.
  - unfold bind at 1. cbn [ret].
    change (UserModel.duplicate_key (UserModel.with_password this ?p ?t) ?l)
      with (UserModel.duplicate_key this l).
    destruct (UserModel.duplicate_key this (users st)); [discriminate |].
    intros [= <- <-]. repeat split; auto.
Qed.

Lemma user_save_unmodified (sv : services) (this : User.t) (st : store) :
  UserModel.validate this = true ->
  UserModel.isModified_password this (users st) = false ->
  UserModel.duplicate_key this (users st) = None ->
  let saved := UserModel.with_password this (User.password this) (now sv) in
  UserModel.save sv this st
  = (Val saved,
     Store (UserModel.write saved (users st)) (students st) (courses st)
           (console st) (outbox st) (entropy st)).
Proof.
  intros Hv Hm Hd saved. unfold UserModel.save.
  rewrite Hv. cbn [negb]. unfold bind at 1. cbn [get]. rewrite Hm.
  unfold bind at 1. cbn [ret].
  change (UserModel.duplicate_key (UserModel.with_password this ?p ?t) ?l)
    with (UserModel.duplicate_key this l).
  now rewrite Hd.
Qed.

(** The password of a loaded user with other 2FA settings is the
    stored one. *)
Lemma settings_keep_password (user : User.t) (secret : option string)
      (enabled : bool) (stored : list User.t) :
  find (fun d => String.eqb (User._id d) (User._id user)) stored = Some user ->
  UserModel.isModified_password (UserModel.with_twoFactor user secret enabled) stored
  = false.
Proof.
  intros Hfind. unfold UserModel.isModified_password.
  cbn [UserModel.with_twoFactor User._id User.password]. rewrite Hfind.
  destruct (User.password user); cbn [option_eqb negb];
    [now rewrite String.eqb_refl | reflexivity].
Qed.

(** ** Credentials at the gates and at the account handlers *)

(** X1.  A token that a handler issued opens the gates until its
    expiry and not after: at every instant before [iat + expiresIn]
    [isAuthenticated] attaches the identity of the issued claims, and so
    does [checkRole] when the role is one of its roles; from that
    instant on [isAuthenticated] answers 401 'Invalid token' and
    [checkRole] 401 'Token expired'. *)
Theorem issued_token_opens_gates_until_expiry :
  forall (env : config) (p : payload) (ttl issued t : Z),
    valid_claims p ->
    let h := Headers (Some (Compact (sign p (secret_or_default env) ttl issued))) in
    ((t < issued + ttl)%Z ->
       Middleware.isAuthenticated env t h = Next (resolved p)
       /\ forall roles,
            roles_include roles (lookup "role" p) = true ->
            Middleware.checkRole roles env t h = Next (resolved p))
    /\ ((issued + ttl <= t)%Z ->
       Middleware.isAuthenticated env t h
       = Respond (message_only 401 "Invalid token")
       /\ forall roles,
            Middleware.checkRole roles env t h
            = Respond (message_only 401 "Token expired")).
Proof.
  intros env p ttl issued t Hvalid h.
  unfold Middleware.isAuthenticated, Middleware.checkRole, h.
  cbn [authorization truthy_jsstr negb].
  rewrite (verify_signed p _ ttl issued t Hvalid).
  split; intros Ht.
  - apply Z.leb_gt in Ht. rewrite Ht. rewrite resolved_signed.
    split; [reflexivity |]. intros roles Hrole.
    rewrite signed_claims_kept by (simpl; intuition discriminate).
    now rewrite Hrole.
  - apply Z.leb_le in Ht. rewrite Ht. split; reflexivity.
Qed.

Lemma issued_token_opens_gates_until_expiry_witness :
  let h := Headers (Some (Compact (sign (AuthRoutes.session_claims Sample.officer)
                                        (secret_or_default Sample.production)
                                        hours24 1000))) in
  valid_claims (AuthRoutes.session_claims Sample.officer)
  /\ Middleware.maintenanceOfficeOnly Sample.production 87399 h
     = Next {| _id := Some (CStr "u2");
               role := Some (CStr "maintenance_office");
               email := Some (CStr "bilal@x.com") |}
  /\ Middleware.maintenanceOfficeOnly Sample.production 87400 h
     = Respond (message_only 401 "Token expired").
Proof.
  intros h. split; [apply session_claims_valid |].
  split.
  - exact (proj2 (proj1 (issued_token_opens_gates_until_expiry
                           Sample.production
                           (AuthRoutes.session_claims Sample.officer)
                           hours24 1000 87399
                           (session_claims_valid Sample.officer))
                        eq_refl)
                 ["maintenance_office"] eq_refl).
  - exact (proj2 (proj2 (issued_token_opens_gates_until_expiry
                           Sample.production
                           (AuthRoutes.session_claims Sample.officer)
                           hours24 1000 87400
                           (session_claims_valid Sample.officer))
                        (fun H => match H with eq_refl => I end))
                 ["maintenance_office"]).
Defined.

(** ** What the issuing handlers answer *)

Lemma parse_if_string_state (sv : services) (x : option value) (st st' : store)
      (v : option value) :
  AuthRoutes.parse_if_string sv x st = (Val v, st') -> st' = st.
Proof.
  destruct (parse_if_string_cases sv x st) as [(w & H) | (s & e & _ & _ & H)];
    rewrite H; now intros [= _ <-].
Qed.

Lemma user_new_inv (sv : services) (f : UserModel.fields) (st st' : store)
      (fresh : User.t) :
  UserModel.new sv f st = (Val fresh, st') ->
  users st' = users st /\ students st' = students st
  /\ entropy st' = S (entropy st)
  /\ User._id fresh = ObjectId sv (entropy st)
  /\ User.email fresh = normalised sv (UserModel.f_email f)
  /\ User.cnic fresh = trimmed sv (UserModel.f_cnic f)
  /\ User.password fresh = UserModel.f_password f
  /\ User.role fresh = match UserModel.f_role f with Some r => r | None => "user" end
  /\ User.twoFactorEnabled fresh = false
  /\ User.twoFactorSecret fresh = None
  /\ User.isVerified fresh = false.
Proof.
  unfold UserModel.new, bind, draw, ret. intros [= <- <-]. now repeat split.
Qed.

(** A 201 of [POST /register]: the document made from the form was
    valid, no stored user had its email or its CNIC, and the document was
    written with its password hashed by the [pre('save')] hook. *)
Lemma auth_register_created (env : config) (sv : services)
      (req : AuthRoutes.register_request) (st st' : store) (res : response) :
  AuthRoutes.register env sv req st = (Val res, st') ->
  status res = 201 ->
  exists fresh saved s,
    find (fun d => option_eqb (User.email d) (normalised sv (AuthRoutes.email req))
                   || option_eqb (User.cnic d) (trimmed sv (AuthRoutes.cnic req))) (users st)
    = None
    /\ UserModel.validate fresh = true
    /\ User._id fresh = ObjectId sv (entropy st)
    /\ User.email fresh = normalised sv (AuthRoutes.email req)
    /\ User.cnic fresh = trimmed sv (AuthRoutes.cnic req)
    /\ User.password fresh = AuthRoutes.password req
    /\ User.role fresh
       = match or_string (AuthRoutes.role req) (Some "user") with
         | Some r => r
         | None => "user"
         end
    /\ User.twoFactorEnabled fresh = false
    /\ UserModel.save sv fresh s = (Val saved, st')
    /\ users s = users st /\ students s = students st
    /\ entropy s = S (entropy st)
    /\ res = Response 201
               [("message", Data (VStr "User registered successfully"));
                ("token", Tok (sign (AuthRoutes.session_claims saved)
                                    (secret_or_default env) hours24 (now sv)));
                ("user", AuthRoutes.user_view saved)].
Proof.
  unfold AuthRoutes.register, try_catch.
  match goal with
  | |- context [match ?m st with _ => _ end] =>
      destruct (m st) as [[r|e|] s] eqn:E
  end; intros Hrun Hstatus;
    [| injection Hrun as <- _; discriminate Hstatus | discriminate Hrun].
  injection Hrun as <- <-.
  apply bind_Val_inv in E as (v1 & s1 & H1 & E).
  apply parse_if_string_state in H1 as ->.
  apply bind_Val_inv in E as (v2 & s2 & H2 & E).
  apply parse_if_string_state in H2 as ->.
  apply bind_Val_inv in E as (v3 & s3 & H3 & E).
  apply parse_if_string_state in H3 as ->.
  apply bind_Val_inv in E as (existing & s4 & H4 & E).
  rewrite user_findOne_run in H4. injection H4 as <- <-.
  destruct (find _ (users st)) as [d|] eqn:Hfind;
    [injection E as <- _; discriminate Hstatus |].
  apply bind_Val_inv in E as (url & s5 & H5 & E).
  assert (Hs5 : unchanged st s5 /\ entropy s5 = entropy st).
  { destruct (AuthRoutes.file req) as [f|].
    - split; [pose proof (reads_auth_upload sv (Some f) st) as Hr;
              now rewrite H5 in Hr |].
      clear - H5. unfold AuthRoutes.uploadToCloudinary, try_catch in H5.
      destruct f as [[b|] mt]; cbn [buffer] in H5.
      + unfold bind at 1 in H5. unfold await at 1 in H5.
        destruct (cloudinary_upload sv "user_profiles" _) as [e|r];
          cbn [throw ret bind log modify] in H5; [discriminate |].
        destruct (negb (truthy_string r)); cbn [throw ret bind log modify] in H5;
          [discriminate | now injection H5 as _ <-].
      + cbn [throw ret bind log modify] in H5. discriminate.
    - injection H5 as _ <-. split; [apply unchanged_refl | reflexivity]. }
  destruct Hs5 as [(Hu5 & Hst5 & _) He5].
  apply bind_Val_inv in E as (fresh & s6 & H6 & E).
  apply user_new_inv in H6
    as (Hu6 & Hst6 & He6 & Hid & Hemail & Hcnic & Hpw & Hrole & H2fa & _).
  apply bind_Val_inv in E as (saved & s7 & H7 & E).
  injection E as <- <-.
  exists fresh, saved, s6.
  destruct (user_save_inv _ _ _ _ _ H7) as (Hvalid & _).
  cbn [UserModel.f_email UserModel.f_cnic UserModel.f_password UserModel.f_role]
    in Hemail, Hcnic, Hpw, Hrole.
  repeat split; try assumption; try congruence.
Qed.

Lemma comparePassword_inv (sv : services) (user : User.t) (candidate : option string)
      (st st' : store) (isMatch : bool) :
  UserModel.comparePassword sv user candidate st = (Val isMatch, st') ->
  st' = st
  /\ exists p h, candidate = Some p /\ User.password user = Some h
                 /\ isMatch = bcrypt_compare sv p h.
Proof.
  unfold UserModel.comparePassword.
  destruct candidate as [p|], (User.password user) as [h|]; try discriminate.
  intros [= <- <-]. split; [reflexivity |]. now exists p, h.
Qed.

(** What [POST /login] answered: 401 or 500 without a token, or, for the
    user found by email and the right password, the temporary token
    under 2FA and the session token otherwise.  The store is as it
    was. *)
Lemma auth_login_inv (env : config) (sv : services) (req : AuthRoutes.login_request)
      (st st' : store) (res : response) :
  AuthRoutes.login env sv req st = (Val res, st') ->
  st' = st
  /\ ((tokens_of res = [] /\ (status res = 401 \/ status res = 500))
      \/ exists user p h,
          find (fun d => option_eqb (User.email d)
                                  (normalised sv (AuthRoutes.login_email req)))
               (users st) = Some user
          /\ AuthRoutes.login_password req = Some p
          /\ User.password user = Some h
          /\ bcrypt_compare sv p h = true
          /\ res = if User.twoFactorEnabled user
                   then Response 200
                          [("message", Data (VStr "2FA verification required"));
                           ("requires2FA", Data (VBool true));
                           ("tempToken",
                            Tok (sign (AuthRoutes.pending_claims user)
                                      (secret_or_default env) minutes5 (now sv)))]
                   else Response 200
                          [("message", Data (VStr "Login successful"));
                           ("token",
                            Tok (sign (AuthRoutes.session_claims user)
                                      (secret_or_default env) hours24 (now sv)));
                           ("user", AuthRoutes.user_view user)]).
Proof.
  unfold AuthRoutes.login, try_catch.
  rewrite (bind_Val _ _ _ _ _ (user_findOne_email_run _ st)).
  destruct (find _ (users st)) as [user|] eqn:Hfind;
    [| intros [= <- <-]; split; [reflexivity | left; split; [reflexivity | now left]]].
  unfold bind at 1.
  destruct (UserModel.comparePassword sv user (AuthRoutes.login_password req) st)
    as [[isMatch|e|] s] eqn:Hcmp;
    [| intros [= <- <-]; split;
       [unfold UserModel.comparePassword in Hcmp;
        destruct (AuthRoutes.login_password req), (User.password user);
        now injection Hcmp as _ <-
       | left; split; [reflexivity | now right]]
     | unfold UserModel.comparePassword in Hcmp;
       destruct (AuthRoutes.login_password req), (User.password user);
       discriminate Hcmp].
  apply comparePassword_inv in Hcmp as (-> & p & h & Hp & Hh & ->).
  destruct (bcrypt_compare sv p h) eqn:Hmatch; cbn [negb];
    [| intros [= <- <-]; split; [reflexivity | left; split; [reflexivity | now left]]].
  intros Hrun. split.
  - destruct (User.twoFactorEnabled user); now injection Hrun as _ <-.
  - right. exists user, p, h. repeat split; try assumption.
    destruct (User.twoFactorEnabled user); now injection Hrun as <- _.
Qed.

(** What the student login answered. *)
Lemma student_login_inv (env : config) (sv : services)
      (req : StudentRoutes.login_request) (st st' : store) (res : response) :
  StudentRoutes.login env sv req st = (Val res, st') ->
  st' = st
  /\ ((tokens_of res = []
       /\ (status res = 401 \/ status res = 403 \/ status res = 500))
      \/ exists student p h,
          find (fun d => option_eqb (Student.email d)
                                  (normalised sv (StudentRoutes.login_email req)))
               (students st) = Some student
          /\ StudentRoutes.login_password req = Some p
          /\ Student.password student = Some h
          /\ bcrypt_compare sv p h = true
          /\ Student.status student = "Enrolled"
          /\ status res = 200
          /\ tokens_of res
             = [sign [("studentId", CStr (Student._id student));
                      ("role", CStr "student")]
                     (secret_or_default env) hours24 (now sv)]).
Proof.
  unfold StudentRoutes.login, try_catch.
  rewrite (bind_Val _ _ _ _ _ (student_findOne_email_run _ st)).
  destruct (find _ (students st)) as [student|] eqn:Hfind;
    [| intros [= <- <-]; split; [reflexivity | left; split; [reflexivity | now left]]].
  unfold bind at 1. unfold StudentRoutes.compare.
  destruct (StudentRoutes.login_password req) as [p|] eqn:Hp;
    [| intros [= <- <-]; split;
       [reflexivity | left; split; [reflexivity | now right; right]]].
  destruct (Student.password student) as [h|] eqn:Hh;
    [| intros [= <- <-]; split;
       [reflexivity | left; split; [reflexivity | now right; right]]].
  cbn [ret].
  destruct (bcrypt_compare sv p h) eqn:Hmatch; cbn [negb];
    [| intros [= <- <-]; split; [reflexivity | left; split; [reflexivity | now left]]].
  destruct (Student.canAccessAccount student) eqn:Hcan; cbn [negb];
    [| intros [= <- <-]; split;
       [reflexivity | left; split; [reflexivity | now right; left]]].
  intros [= <- <-]. split; [reflexivity |]. right.
  exists student, p, h. repeat split; try assumption.
  now apply canAccessAccount_enrolled.
Qed.

(** The role claim of every token a handler answers with: the role of
    a stored or validated user, or ['student']. *)
Lemma issued_role_claim (env : config) (sv : services) (st st' : store)
      (res : response) (tk : token) :
  (exists req, AuthRoutes.register env sv req st = (Val res, st'))
  \/ (exists req, AuthRoutes.login env sv req st = (Val res, st'))
  \/ (exists req, AuthRoutes.verify2fa env sv req st = (Val res, st'))
  \/ (exists req, StudentRoutes.login env sv req st = (Val res, st')) ->
  In tk (tokens_of res) ->
  tok_key tk = secret_or_default env
  /\ exists r,
      lookup "role" (tok_payload tk) = Some (CStr r)
      /\ (r = "student"
          \/ includes User.roles r = true
          \/ exists user, In user (users st) /\ r = User.role user).
Proof.
  intros [(req & Hrun) | [(req & Hrun) | [(req & Hrun) | (req & Hrun)]]] Hin.
  - destruct (Nat.eq_dec (status res) 201) as [H201|Hother].
    + destruct (auth_register_created _ _ _ _ _ _ Hrun H201)
        as (fresh & saved & s & _ & Hvalid & _ & _ & _ & _ & _ & _ & Hsave & _ & _ & _ & ->).
      destruct Hin as [<- | []]. split; [reflexivity |].
      exists (User.role saved). split.
      * rewrite signed_claims_kept by (simpl; intuition discriminate).
        unfold AuthRoutes.session_claims. reflexivity.
      * right; left.
        destruct (user_save_inv _ _ _ _ _ Hsave)
          as (_ & _ & _ & _ & _ & [(_ & ->) | (_ & q & _ & ->)]);
          cbn [UserModel.with_password User.role];
          unfold UserModel.validate in Hvalid;
          repeat (apply andb_true_iff in Hvalid as [Hvalid ?]); assumption.
    + exfalso. revert Hrun Hin.
      unfold AuthRoutes.register, try_catch.
      match goal with
      | |- context [match ?m st with _ => _ end] =>
          destruct (m st) as [[r|e|] s] eqn:E
      end; intros Hrun Hin;
        [| injection Hrun as <- _; exact Hin | discriminate Hrun].
      injection Hrun as <- _.
      apply bind_Val_inv in E as (v1 & s1 & _ & E).
      apply bind_Val_inv in E as (v2 & s2 & _ & E).
      apply bind_Val_inv in E as (v3 & s3 & _ & E).
      apply bind_Val_inv in E as (existing & s4 & _ & E).
      destruct existing as [d|]; [injection E as <- _; exact Hin |].
      apply bind_Val_inv in E as (url & s5 & _ & E).
      apply bind_Val_inv in E as (fresh & s6 & _ & E).
      apply bind_Val_inv in E as (user & s7 & _ & E).
      injection E as <- _. now apply Hother.
  - destruct (auth_login_inv _ _ _ _ _ _ Hrun)
      as (_ & [(Hnone & _) | (user & p & h & Hfind & _ & _ & _ & ->)]);
      [rewrite Hnone in Hin; destruct Hin |].
    destruct (find_some _ _ Hfind) as [Huser _].
    destruct (User.twoFactorEnabled user); destruct Hin as [<- | []];
      (split; [reflexivity |]); exists (User.role user);
      (split; [rewrite signed_claims_kept by (simpl; intuition discriminate);
               reflexivity
              | right; right; now exists user]).
  - destruct (verify2fa_cases _ _ _ _ _ _ Hrun)
      as [(Hnone & _) | (tf & c & decoded & user & _ & _ & _ & _ & Hu & _ & _ & Htok)];
      [rewrite Hnone in Hin; destruct Hin |].
    rewrite Htok in Hin. destruct Hin as [<- | []]. split; [reflexivity |].
    destruct (findById_found _ _ _ _ _ Hu) as (_ & Huser & _).
    exists (User.role user). split.
    + rewrite signed_claims_kept by (simpl; intuition discriminate). reflexivity.
    + right; right; now exists user.
  - destruct (student_login_inv _ _ _ _ _ _ Hrun)
      as (_ & [(Hnone & _) | (s & p & h & _ & _ & _ & _ & _ & _ & Htok)]);
      [rewrite Hnone in Hin; destruct Hin |].
    rewrite Htok in Hin. destruct Hin as [<- | []]. split; [reflexivity |].
    exists "student". split; [reflexivity | now left].
Qed.

(** X2.  No token that this server issues passes [isTeacher].  When no
    stored user has the role ['teacher'] (the schema's [enum] allows
    ['user'], ['admin'] and ['maintenance_office']), every token in an
    answer of the user registration, the user login, the 2FA
    verification or the student login is answered by [isTeacher] with
    403 'Teacher access required', or with 401 'Invalid token' once it
    has expired; [next()] is never called. *)
Theorem no_issued_token_passes_isTeacher :
  forall (env : config) (sv : services) (st st' : store) (res : response)
         (tk : token) (t : Z),
    (forall user, In user (users st) -> User.role user <> "teacher") ->
    (exists req, AuthRoutes.register env sv req st = (Val res, st'))
    \/ (exists req, AuthRoutes.login env sv req st = (Val res, st'))
    \/ (exists req, AuthRoutes.verify2fa env sv req st = (Val res, st'))
    \/ (exists req, StudentRoutes.login env sv req st = (Val res, st')) ->
    In tk (tokens_of res) ->
    Middleware.isTeacher env t (Headers (Some (Compact tk)))
    = Respond (message_only 403 "Teacher access required")
    \/ Middleware.isTeacher env t (Headers (Some (Compact tk)))
       = Respond (message_only 401 "Invalid token").
Proof.
  intros env sv st st' res tk t Hroles Hrun Hin.
  destruct (issued_role_claim env sv st st' res tk Hrun Hin)
    as (Hkey & r & Hrole & Hr).
  assert (Hnot : String.eqb r "teacher" = false).
  { apply String.eqb_neq. destruct Hr as [-> | [Hr | (user & Huser & ->)]].
    - discriminate.
    - intros ->. discriminate Hr.
    - now apply Hroles. }
  unfold Middleware.isTeacher. cbn [authorization truthy_jsstr negb].
  destruct (verify (Compact tk) (secret_or_default env) t) as [e|decoded] eqn:Hv;
    [now right |].
  apply verify_payload in Hv as ->. rewrite Hrole. cbn [claim_is].
  rewrite Hnot. now left.
Qed.

Lemma no_issued_token_passes_isTeacher_witness :
  let req := AuthRoutes.LoginRequest (Some "bilal@x.com") (Some "secret2") in
  let tk := sign (AuthRoutes.session_claims Sample.officer)
                 (secret_or_default Sample.production) hours24 1000 in
  (forall user, In user (users Sample.db) -> User.role user <> "teacher")
  /\ tokens_of (match fst (AuthRoutes.login Sample.production Sample.world req Sample.db)
                with Val res => res | _ => message_only 500 "" end) = [tk]
  /\ (Middleware.isTeacher Sample.production 2000 (Headers (Some (Compact tk)))
      = Respond (message_only 403 "Teacher access required")
      \/ Middleware.isTeacher Sample.production 2000 (Headers (Some (Compact tk)))
         = Respond (message_only 401 "Invalid token")).
Proof.
  intros req tk.
  assert (Hroles : forall user, In user (users Sample.db) ->
                                User.role user <> "teacher").
  { intros user [<- | [<- | []]]; discriminate. }
  split; [exact Hroles |]. split; [reflexivity |].
  apply (no_issued_token_passes_isTeacher Sample.production Sample.world
           Sample.db Sample.db
           (Response 200
              [("message", Data (VStr "Login successful"));
               ("token", Tok tk);
               ("user", AuthRoutes.user_view Sample.officer)])
           tk 2000 Hroles).
  - right; left. exists req. reflexivity.
  - now left.
Defined.

(** ** Account handlers *)

(** X3.  The seven account handlers of [routes/auth.mjs] treat a
    credential alike.  Without a credential (no header, or an empty
    one) each answers 401 'No token provided'.  With a credential that
    [jwt.verify] rejects (malformed, signed with another key, expired)
    each answers 500 with its own message and the message of the
    jsonwebtoken error, not 401.  In both cases the store is as it
    was.  [POST /2fa/verify] verifies with the key ['121212']. *)
Theorem account_handlers_refuse_bad_credentials :
  forall (env : config) (sv : services) (docs : documents) (h : headers)
         (st : store),
    let refused (key msg : string) (answer : outcome response * store) :=
      (truthy_jsstr (authorization h) = false ->
         answer = (Val (message_only 401 "No token provided"), st))
      /\ (forall token e,
             authorization h = Some token ->
             truthy_jsstr (Some token) = true ->
             verify token key (now sv) = inl e ->
             answer = (Val (Response 500 [("message", Data (VStr msg));
                                          ("error", Data (VStr (message e)))]), st)) in
    let key := secret_or_default env in
    refused key "Error fetching profile" (AuthRoutes.getProfile env sv h st)
    /\ (forall req, AuthRoutes.p_headers req = h ->
          refused key "Error updating profile" (AuthRoutes.putProfile env sv req st))
    /\ (forall req, AuthRoutes.pw_headers req = h ->
          refused key "Error changing password"
                  (AuthRoutes.changePassword env sv req st))
    /\ refused key "Error setting up 2FA" (AuthRoutes.twoFactorSetup env sv docs h st)
    /\ (forall req, AuthRoutes.c_headers req = h ->
          refused "121212" "Error enabling 2FA"
                  (AuthRoutes.twoFactorVerify env sv req st))
    /\ refused key "Error disabling 2FA" (AuthRoutes.twoFactorDisable env sv h st)
    /\ (forall req, AuthRoutes.d_headers req = h ->
          refused key "Error deleting account"
                  (AuthRoutes.deleteAccount env sv req st)).
Proof.
  intros env sv docs h st refused key.
  assert (Hframe : forall k msg body, refused k msg (guarded k sv h msg body st)).
  { intros k msg body. split.
    - apply guarded_no_token.
    - intros token e Hh Ht Hv. exact (guarded_rejected _ _ _ _ _ _ _ _ Hh Ht Hv). }
  split; [rewrite getProfile_guarded; apply Hframe |].
  split; [intros req Hh; rewrite putProfile_guarded, Hh; apply Hframe |].
  split; [intros req Hh; rewrite changePassword_guarded, Hh; apply Hframe |].
  split; [rewrite twoFactorSetup_guarded; apply Hframe |].
  split; [intros req Hh; rewrite twoFactorVerify_guarded, Hh; apply Hframe |].
  split; [rewrite twoFactorDisable_guarded; apply Hframe |].
  intros req Hh; rewrite deleteAccount_guarded, Hh; apply Hframe.
Qed.

Lemma lookup_literal_miss {A : Type} (k k' : string) (v : option A)
      (rest : list (string * option A)) :
  String.eqb k' k = false ->
  lookup k (literal ((k', v) :: rest)) = lookup k (literal rest).
Proof.
  intros Hk. destruct v as [x|]; cbn [literal]; [| reflexivity].
  unfold lookup. cbn [find fst]. now rewrite Hk.
Qed.

Lemma lookup_literal_hit {A : Type} (k : string) (x : A)
      (rest : list (string * option A)) :
  lookup k (literal ((k, Some x) :: rest)) = Some x.
Proof.
  cbn [literal]. unfold lookup. cbn [find fst]. now rewrite String.eqb_refl.
Qed.

(** X4.  [GET /profile] with a credential that verifies and names a
    stored user answers 200 with that user's public profile and leaves
    the store as it was.  The profile carries the identifier, the email
    and the role of the user, and it has no [password] and no
    [twoFactorSecret]. *)
Theorem profile_shows_public_fields_only :
  forall (env : config) (sv : services) (h : headers) (st : store) (user : User.t),
    signed_in (secret_or_default env) sv h st user ->
    AuthRoutes.getProfile env sv h st
    = (Val (Response 200
              [("message", Data (VStr "Profile fetched successfully"));
               ("user", Data (UserModel.getPublicProfile user))]), st)
    /\ exists fields,
        UserModel.getPublicProfile user = VObj fields
        /\ lookup "_id" fields = Some (VStr (User._id user))
        /\ lookup "email" fields = UserModel.str (User.email user)
        /\ lookup "role" fields = Some (VStr (User.role user))
        /\ lookup "twoFactorEnabled" fields = Some (VBool (User.twoFactorEnabled user))
        /\ lookup "password" fields = None
        /\ lookup "twoFactorSecret" fields = None.
Proof.
  intros env sv h st user Hin.
  rewrite getProfile_guarded.
  destruct (guarded_signed_in _ _ _ "Error fetching profile"
              (fun _ u =>
                 ret (Response 200
                        [("message", Data (VStr "Profile fetched successfully"));
                         ("user", Data (UserModel.getPublicProfile u))]))
              st user Hin) as (decoded & _ & ->).
  split; [reflexivity |].
  eexists. split; [reflexivity |].
  split; [apply lookup_literal_hit |].
  split.
  { repeat (rewrite lookup_literal_miss by reflexivity).
    destruct (User.email user) as [e|]; cbn [UserModel.str].
    - apply lookup_literal_hit.
    - change (literal (("email", @None value) :: ?r)) with (literal r).
      now repeat (rewrite lookup_literal_miss by reflexivity). }
  split.
  { repeat (rewrite lookup_literal_miss by reflexivity). apply lookup_literal_hit. }
  split.
  { repeat (rewrite lookup_literal_miss by reflexivity). apply lookup_literal_hit. }
  split; now repeat (rewrite lookup_literal_miss by reflexivity).
Qed.

Lemma profile_shows_public_fields_only_witness :
  let h := Headers (Some (Compact (sign (AuthRoutes.session_claims Sample.admin)
                                        (secret_or_default Sample.production)
                                        hours24 1000))) in
  signed_in (secret_or_default Sample.production) Sample.world h Sample.db Sample.admin
  /\ status_of (fst (AuthRoutes.getProfile Sample.production Sample.world h Sample.db))
     = Some 200.
Proof.
  intros h.
  assert (Hin : signed_in (secret_or_default Sample.production) Sample.world h
                          Sample.db Sample.admin).
  { eexists; eexists. repeat split. }
  split; [exact Hin |].
  now rewrite (proj1 (profile_shows_public_fields_only
                        Sample.production Sample.world h Sample.db Sample.admin Hin)).
Defined.

Lemma failure_status (msg : string) (e : js_error) :
  status (AuthRoutes.failure msg e) = 500.
Proof. reflexivity. Qed.

(** An answer of a guarded handler with a status that the frame does
    not give comes from the body, which returned it. *)
Lemma guarded_body (key : string) (sv : services) (h : headers) (msg : string)
      (body : payload -> User.t -> M response) (st st' : store) (res : response) :
  guarded key sv h msg body st = (Val res, st') ->
  status res <> 401 -> status res <> 404 -> status res <> 500 ->
  exists decoded user,
    signed_in key sv h st user
    /\ UserModel.findById sv (lookup "userId" decoded) st = (Val (Some user), st)
    /\ body decoded user st = (Val res, st').
Proof.
  intros Hrun H401 H404 H500.
  destruct (guarded_inv _ _ _ _ _ _ _ _ Hrun)
    as [(_ & [-> | [-> | (e & ->)]]) | (decoded & user & Hin & Hu & Hbody)];
    try (now exfalso; auto).
  exists decoded, user. split; [exact Hin |]. split; [exact Hu |].
  unfold try_catch in Hbody.
  destruct (body decoded user st) as [[r|e|] s]; [exact Hbody | | discriminate Hbody].
  injection Hbody as <- _. now exfalso.
Qed.

(** X5.  [PUT /change-password] stores the hash of a hash.  Whenever the
    handler answers 200, the current password matched the stored hash,
    and the password written for the user is the bcrypt hash, made by
    the [pre('save')] hook, of the bcrypt hash that the handler made of
    the new password; it is the handler's hash itself only when that
    hash equals the stored one ([isModified('password')] is then
    false). *)
Theorem changed_password_is_hashed_twice :
  forall (env : config) (sv : services) (req : AuthRoutes.password_request)
         (st st' : store) (res : response),
    AuthRoutes.changePassword env sv req st = (Val res, st') ->
    status res = 200 ->
    exists user current stored new saved,
      signed_in (secret_or_default env) sv (AuthRoutes.pw_headers req) st user
      /\ AuthRoutes.currentPassword req = Some current
      /\ User.password user = Some stored
      /\ bcrypt_compare sv current stored = true
      /\ AuthRoutes.newPassword req = Some new
      /\ users st' = UserModel.write saved (users st)
      /\ User._id saved = User._id user
      /\ let once := bcrypt_hash sv new (genSalt sv (entropy st)) in
         User.password saved
         = if String.eqb stored once then Some once
           else Some (bcrypt_hash sv once (genSalt sv (S (entropy st)))).
Proof.
  intros env sv req st st' res Hrun Hstatus.
  rewrite changePassword_guarded in Hrun.
  apply guarded_body in Hrun as (decoded & user & Hin & Hu & E);
    try (rewrite Hstatus; discriminate).
  destruct (findById_found _ _ _ _ _ Hu) as (_ & _ & Hfind & _).
  apply bind_Val_inv in E as (isMatch & s1 & Hcmp & E).
  apply comparePassword_inv in Hcmp as (-> & current & stored & Hc & Hs & ->).
  destruct (bcrypt_compare sv current stored) eqn:Hmatch; cbn [negb] in E;
    [| injection E as <- _; discriminate Hstatus].
  apply bind_Val_inv in E as (i & s2 & Hdraw & E).
  unfold draw in Hdraw. injection Hdraw as <- <-.
  apply bind_Val_inv in E as (hashed & s3 & Hhash & E).
  destruct (AuthRoutes.newPassword req) as [new|] eqn:Hnew; [| discriminate Hhash].
  injection Hhash as <- <-.
  apply bind_Val_inv in E as (saved & s4 & Hsave & E).
  injection E as _ <-.
  destruct (user_save_inv _ _ _ _ _ Hsave)
    as (_ & _ & Hwrite & _ & _ & Hmod).
  cbn [users entropy] in Hwrite, Hmod.
  exists user, current, stored, new, saved.
  repeat split; try assumption.
  - destruct Hmod as [(_ & ->) | (_ & q & _ & ->)]; reflexivity.
  - unfold UserModel.isModified_password in Hmod.
    cbn [UserModel.with_password User._id User.password] in Hmod.
    rewrite Hfind, Hs in Hmod. cbn [option_eqb] in Hmod. cbv zeta.
    destruct (String.eqb stored _) eqn:Heq; cbn [negb] in Hmod;
      destruct Hmod as [(Hm & ->) | (Hm & q & Hq & ->)]; try discriminate Hm.
    + reflexivity.
    + cbn [UserModel.with_password User.password] in *. now injection Hq as <-.
Qed.

Lemma changed_password_is_hashed_twice_witness :
  let h := Headers (Some (Compact (sign (AuthRoutes.session_claims Sample.officer)
                                        (secret_or_default Sample.production)
                                        hours24 1000))) in
  let req := AuthRoutes.PasswordRequest h (Some "secret2") (Some "hunter22") in
  exists st' saved,
    AuthRoutes.changePassword Sample.production Sample.world req Sample.db
    = (Val (message_only 200 "Password changed successfully"), st')
    /\ users st' = UserModel.write saved (users Sample.db)
    /\ User.password saved = Some "$2b$salt$$2b$salt$hunter22"
    /\ bcrypt_compare Sample.world "hunter22" "$2b$salt$$2b$salt$hunter22" = false.
Proof.
  intros h req.
  destruct (changed_password_is_hashed_twice
              Sample.production Sample.world req Sample.db
              (snd (AuthRoutes.changePassword Sample.production Sample.world req
                      Sample.db))
              (message_only 200 "Password changed successfully")
              eq_refl eq_refl)
    as (user & current & stored & new & saved & Hin & Hc & Hs & Hm & Hn & Hw & Hid & Hp).
  eexists. exists saved. split; [reflexivity |]. split; [exact Hw |].
  destruct Hin as (token & decoded & Hh & Hv & Hu).
  injection Hh as <-. injection Hv as <-.
  injection Hu as <-. injection Hn as <-. injection Hs as <-.
  split; [exact Hp | reflexivity].
Defined.

(** X6.  [DELETE /account] removes the user of the session and nobody
    else, and only for the right password.  Whenever the handler
    answers 200, the password of the request matched the stored hash,
    the users afterwards are the users before without the one whose
    identifier the credential carries, in the same order, and [GET
    /profile] with the same credential answers 404 'User not found'.
    With any other answer the users are as they were.  Students and
    courses are never touched. *)
Theorem account_deletion_removes_the_user_only :
  forall (env : config) (sv : services) (req : AuthRoutes.delete_request)
         (st st' : store) (res : response),
    AuthRoutes.deleteAccount env sv req st = (Val res, st') ->
    students st' = students st
    /\ courses st' = courses st
    /\ (status res <> 200 -> users st' = users st)
    /\ (status res = 200 ->
        exists user p h,
          signed_in (secret_or_default env) sv (AuthRoutes.d_headers req) st user
          /\ AuthRoutes.d_password req = Some p
          /\ User.password user = Some h
          /\ bcrypt_compare sv p h = true
          /\ users st'
             = filter (fun d => negb (String.eqb (User._id d) (User._id user)))
                      (users st)
          /\ AuthRoutes.getProfile env sv (AuthRoutes.d_headers req) st'
             = (Val (message_only 404 "User not found"), st')).
Proof.
  intros env sv req st st' res Hrun.
  rewrite deleteAccount_guarded in Hrun.
  destruct (guarded_inv _ _ _ _ _ _ _ _ Hrun)
    as [(-> & Hres) | (decoded & user & Hin & Hu & Hbody)].
  { repeat split; try reflexivity. intros H200. exfalso.
    destruct Hres as [-> | [-> | (e & ->)]]; discriminate H200. }
  clear Hrun. unfold try_catch in Hbody.
  destruct (findById_found _ _ _ _ _ Hu) as (_ & _ & _ & c & Hc & Hnn & Hcast).
  unfold bind at 1 in Hbody.
  destruct (UserModel.comparePassword sv user (AuthRoutes.d_password req) st)
    as [[isMatch|e|] s1] eqn:Hcmp.
  - apply comparePassword_inv in Hcmp as (-> & p & h & Hp & Hh & ->).
    destruct (bcrypt_compare sv p h) eqn:Hmatch; cbn [negb] in Hbody.
    + rewrite Hc in Hbody.
      rewrite (bind_Val _ _ _ _ _ (findByIdAndDelete_run sv c _ st Hnn Hcast))
        in Hbody.
      injection Hbody as <- <-.
      repeat split; [intros H; now exfalso |].
      intros _. exists user, p, h. repeat split; try assumption.
      destruct Hin as (token & decoded' & Hcred & Hv & Hu').
      unfold AuthRoutes.getProfile, try_catch. rewrite Hcred.
      rewrite (verified_is_truthy _ _ _ _ Hv). cbn [negb].
      unfold bind at 1. rewrite Hv. cbn [await ret].
      destruct (findById_found _ _ _ _ _ Hu') as (_ & _ & _ & c' & Hc' & Hnn' & Hcast').
      unfold bind at 1. rewrite Hc'. unfold UserModel.findById.
      assert (Hgone : find (fun d => String.eqb (User._id d) (User._id user))
                           (filter (fun d => negb (String.eqb (User._id d)
                                                              (User._id user)))
                                   (users st)) = None).
      { induction (users st) as [|d l IH]; [reflexivity |].
        cbn [filter]. destruct (String.eqb (User._id d) (User._id user)) eqn:Hd;
          cbn [negb find]; [exact IH | now rewrite Hd]. }
      destruct c'; try (now exfalso); rewrite Hcast';
        cbn [bind get ret users]; now rewrite Hgone.
    + injection Hbody as <- <-. repeat split; try reflexivity.
      intros H; discriminate H.
  - injection Hbody as <- Hs.
    unfold UserModel.comparePassword in Hcmp.
    destruct (AuthRoutes.d_password req), (User.password user);
      try discriminate Hcmp; injection Hcmp as _ <-; subst st';
      repeat split; try reflexivity; intros H; discriminate H.
  - discriminate Hbody.
Qed.

Lemma account_deletion_removes_the_user_only_witness :
  let h := Headers (Some (Compact (sign (AuthRoutes.session_claims Sample.officer)
                                        (secret_or_default Sample.production)
                                        hours24 1000))) in
  let answer p := AuthRoutes.deleteAccount Sample.production Sample.world
                    (AuthRoutes.DeleteRequest h (Some p)) Sample.db in
  fst (answer "secret2") = Val (message_only 200 "Account deleted successfully")
  /\ users (snd (answer "secret2")) = [Sample.admin]
  /\ students (snd (answer "secret2")) = students Sample.db
  /\ fst (answer "guess") = Val (message_only 400 "Password is incorrect")
  /\ users (snd (answer "guess")) = users Sample.db
  /\ fst (AuthRoutes.getProfile Sample.production Sample.world h
            (snd (answer "secret2")))
     = Val (message_only 404 "User not found").
Proof.
  intros h answer.
  split; [reflexivity |]. split; [reflexivity |].
  split.
  - exact (proj1 (account_deletion_removes_the_user_only
                    Sample.production Sample.world
                    (AuthRoutes.DeleteRequest h (Some "secret2")) Sample.db
                    (snd (answer "secret2"))
                    (message_only 200 "Account deleted successfully") eq_refl)).
  - split; [reflexivity |]. split; [| reflexivity].
    refine (proj1 (proj2 (proj2 (account_deletion_removes_the_user_only
                    Sample.production Sample.world
                    (AuthRoutes.DeleteRequest h (Some "guess")) Sample.db
                    (snd (answer "guess"))
                    (message_only 400 "Password is incorrect") eq_refl))) _).
    discriminate.
Defined.

Lemma option_eqb_refl (a : option string) : option_eqb a a = true.
Proof. now apply option_eqb_eq. Qed.

(** The login of a user whose document has been written back with the
    same identifier, email and password. *)
Lemma login_after_write (env : config) (sv : services)
      (req : AuthRoutes.login_request) (st st' : store) (user saved : User.t)
      (p stored : string) :
  find (fun d => option_eqb (User.email d)
                          (normalised sv (AuthRoutes.login_email req))) (users st)
  = Some user ->
  users st' = UserModel.write saved (users st) ->
  User._id saved = User._id user ->
  User.email saved = User.email user ->
  User.password saved = User.password user ->
  AuthRoutes.login_password req = Some p ->
  User.password user = Some stored ->
  bcrypt_compare sv p stored = true ->
  AuthRoutes.login env sv req st'
  = (Val (if User.twoFactorEnabled saved
          then Response 200
                 [("message", Data (VStr "2FA verification required"));
                  ("requires2FA", Data (VBool true));
                  ("tempToken",
                   Tok (sign (AuthRoutes.pending_claims saved)
                             (secret_or_default env) minutes5 (now sv)))]
          else Response 200
                 [("message", Data (VStr "Login successful"));
                  ("token",
                   Tok (sign (AuthRoutes.session_claims saved)
                             (secret_or_default env) hours24 (now sv)));
                  ("user", AuthRoutes.user_view saved)]), st').
Proof.
  intros Hfind Hwrite Hid Hemail Hpw Hp Hstored Hmatch.
  unfold AuthRoutes.login, try_catch.
  rewrite (bind_Val _ _ _ _ _ (user_findOne_email_run _ st')), Hwrite.
  rewrite (user_find_write _ saved user (users st) Hfind Hid).
  2:{ rewrite Hemail. now destruct (find_some _ _ Hfind). }
  unfold UserModel.comparePassword. rewrite Hp, Hpw, Hstored.
  rewrite (bind_Val (ret _) _ st' st' (bcrypt_compare sv p stored) eq_refl).
  rewrite Hmatch. cbn [negb]. now destruct (User.twoFactorEnabled saved).
Qed.

(** A loaded user with other 2FA settings is saved as such, with the
    time of the save. *)
Lemma save_settings_inv (sv : services) (user saved : User.t)
      (secret : option string) (enabled : bool) (st s st' : store) :
  find (fun d => String.eqb (User._id d) (User._id user)) (users st) = Some user ->
  users s = users st ->
  UserModel.save sv (UserModel.with_twoFactor user secret enabled) s = (Val saved, st') ->
  saved = with_settings user secret enabled (now sv)
  /\ users st' = UserModel.write saved (users st)
  /\ students st' = students s.
Proof.
  intros Hfind Hs Hsave.
  destruct (user_save_inv _ _ _ _ _ Hsave) as (_ & _ & Hwrite & Hst & _ & Hmod).
  rewrite Hs in Hwrite, Hmod.
  rewrite (settings_keep_password user secret enabled _ Hfind) in Hmod.
  destruct Hmod as [(_ & ->) | (Hm & _)]; [| discriminate Hm].
  repeat split; assumption.
Qed.

(** X7.  [POST /2fa/disable] clears the flag and the stored secret
    together.  Whenever the handler answers 200, the user of the session
    had 2FA enabled, and the user is written back with
    [twoFactorEnabled = false] and no [twoFactorSecret], its identifier,
    email, password and role unchanged; the students are as they were.
    The next login of that user with the right password is answered with
    the session token at once, without a temporary token. *)
Theorem disabling_2fa_clears_flag_and_secret :
  forall (env : config) (sv : services) (h : headers) (st st' : store)
         (res : response),
    AuthRoutes.twoFactorDisable env sv h st = (Val res, st') ->
    status res = 200 ->
    exists user saved,
      signed_in (secret_or_default env) sv h st user
      /\ User.twoFactorEnabled user = true
      /\ users st' = UserModel.write saved (users st)
      /\ students st' = students st
      /\ User.twoFactorEnabled saved = false
      /\ User.twoFactorSecret saved = None
      /\ User._id saved = User._id user
      /\ User.email saved = User.email user
      /\ User.password saved = User.password user
      /\ User.role saved = User.role user
      /\ forall env' sv' req p stored,
           find (fun d => option_eqb (User.email d)
                                   (normalised sv' (AuthRoutes.login_email req)))
                (users st) = Some user ->
           AuthRoutes.login_password req = Some p ->
           User.password user = Some stored ->
           bcrypt_compare sv' p stored = true ->
           AuthRoutes.login env' sv' req st'
           = (Val (Response 200
                     [("message", Data (VStr "Login successful"));
                      ("token",
                       Tok (sign (AuthRoutes.session_claims saved)
                                 (secret_or_default env') hours24 (now sv')));
                      ("user", AuthRoutes.user_view saved)]), st').
Proof.
  intros env sv h st st' res Hrun Hstatus.
  rewrite twoFactorDisable_guarded in Hrun.
  apply guarded_body in Hrun as (decoded & user & Hin & Hu & E);
    try (rewrite Hstatus; discriminate).
  destruct (findById_found _ _ _ _ _ Hu) as (_ & _ & Hfind & _).
  destruct (User.twoFactorEnabled user) eqn:Hon; cbn [negb] in E;
    [| injection E as <- _; discriminate Hstatus].
  apply bind_Val_inv in E as (saved & s1 & Hsave & E).
  injection E as _ <-.
  destruct (save_settings_inv _ _ _ _ _ _ _ _ Hfind eq_refl Hsave)
    as (-> & Hwrite & Hst).
  exists user, (with_settings user None false (now sv)).
  repeat split; try assumption.
  intros env' sv' req p stored Hlogin Hp Hstored Hmatch.
  exact (login_after_write env' sv' req st s1 user _ p stored
           Hlogin Hwrite eq_refl eq_refl eq_refl Hp Hstored Hmatch).
Qed.

Lemma disabling_2fa_clears_flag_and_secret_witness :
  let h := Headers (Some (Compact (sign (AuthRoutes.session_claims Sample.admin)
                                        (secret_or_default Sample.production)
                                        hours24 1000))) in
  let after := snd (AuthRoutes.twoFactorDisable Sample.production Sample.world h
                      Sample.db) in
  AuthRoutes.twoFactorDisable Sample.production Sample.world h Sample.db
  = (Val (message_only 200 "2FA disabled successfully"), after)
  /\ exists saved,
      users after = [saved; Sample.officer]
      /\ User.twoFactorEnabled saved = false
      /\ User.twoFactorSecret saved = None
      /\ tokens_of
           (match fst (AuthRoutes.login Sample.production Sample.world
                         (AuthRoutes.LoginRequest (Some "ada@x.com") (Some "secret1"))
                         after)
            with Val r => r | _ => message_only 500 "" end)
         = [sign (AuthRoutes.session_claims saved)
                 (secret_or_default Sample.production) hours24 1000].
Proof.
  intros h after. split; [reflexivity |].
  destruct (disabling_2fa_clears_flag_and_secret
              Sample.production Sample.world h Sample.db after
              (message_only 200 "2FA disabled successfully") eq_refl eq_refl)
    as (user & saved & Hin & Hon & Hw & Hst & Hoff & Hsecret & Hid & He & Hp & Hr & Hlogin).
  destruct Hin as (token & decoded & Hh & Hv & Hu).
  injection Hh as <-. injection Hv as <-. injection Hu as <-.
  exists saved. split; [| split; [exact Hoff | split; [exact Hsecret |]]].
  - rewrite Hw. unfold UserModel.write. cbn [users Sample.db existsb map].
    rewrite Hid. reflexivity.
  - now rewrite (Hlogin Sample.production Sample.world
                   (AuthRoutes.LoginRequest (Some "ada@x.com") (Some "secret1"))
                   "secret1" "$2b$salt$secret1" eq_refl eq_refl eq_refl eq_refl).
Defined.

(** X8.  [POST /2fa/verify] turns 2FA on for the stored secret.
    Whenever the handler answers 200, the code of the request verified
    against the stored secret of the session's user, and the user is
    written back with [twoFactorEnabled = true] and the same secret.
    The next login of that user with the right password is answered
    with the five-minute temporary token only. *)
Theorem verified_code_enables_2fa :
  forall (env : config) (sv : services) (req : AuthRoutes.code_request)
         (st st' : store) (res : response),
    AuthRoutes.twoFactorVerify env sv req st = (Val res, st') ->
    status res = 200 ->
    exists user code saved,
      signed_in "121212" sv (AuthRoutes.c_headers req) st user
      /\ AuthRoutes.c_code req = Some code
      /\ totp_verify sv (User.twoFactorSecret user) (toString code) = inr true
      /\ users st' = UserModel.write saved (users st)
      /\ students st' = students st
      /\ User.twoFactorEnabled saved = true
      /\ User.twoFactorSecret saved = User.twoFactorSecret user
      /\ User._id saved = User._id user
      /\ forall env' sv' lreq p stored,
           find (fun d => option_eqb (User.email d)
                                   (normalised sv' (AuthRoutes.login_email lreq)))
                (users st) = Some user ->
           AuthRoutes.login_password lreq = Some p ->
           User.password user = Some stored ->
           bcrypt_compare sv' p stored = true ->
           AuthRoutes.login env' sv' lreq st'
           = (Val (Response 200
                     [("message", Data (VStr "2FA verification required"));
                      ("requires2FA", Data (VBool true));
                      ("tempToken",
                       Tok (sign (AuthRoutes.pending_claims saved)
                                 (secret_or_default env') minutes5 (now sv')))]), st').
Proof.
  intros env sv req st st' res Hrun Hstatus.
  rewrite twoFactorVerify_guarded in Hrun.
  apply guarded_body in Hrun as (decoded & user & Hin & Hu & E);
    try (rewrite Hstatus; discriminate).
  destruct (findById_found _ _ _ _ _ Hu) as (_ & _ & Hfind & _).
  apply bind_Val_inv in E as (verificationToken & s1 & Hcode & E).
  destruct (AuthRoutes.c_code req) as [code|] eqn:Hc; [| discriminate Hcode].
  assert (Hs1 : s1 = st /\ verificationToken = toString code).
  { destruct code; try discriminate Hcode; now injection Hcode as <- <-. }
  destruct Hs1 as [-> ->].
  apply bind_Val_inv in E as (verified & s2 & Htotp & E).
  unfold await in Htotp.
  destruct (totp_verify sv (User.twoFactorSecret user) (toString code))
    as [e|v] eqn:Hverified; [discriminate Htotp |].
  injection Htotp as <- <-.
  destruct v; cbn [negb] in E; [| injection E as <- _; discriminate Hstatus].
  apply bind_Val_inv in E as (saved & s3 & Hsave & E).
  injection E as _ <-.
  destruct (save_settings_inv _ _ _ _ _ _ _ _ Hfind eq_refl Hsave)
    as (-> & Hwrite & Hst).
  exists user, code, (with_settings user (User.twoFactorSecret user) true (now sv)).
  repeat split; try assumption.
  intros env' sv' lreq p stored Hlogin Hp Hstored Hmatch.
  exact (login_after_write env' sv' lreq st s3 user _ p stored
           Hlogin Hwrite eq_refl eq_refl eq_refl Hp Hstored Hmatch).
Qed.

Lemma verified_code_enables_2fa_witness :
  let req := AuthRoutes.CodeRequest (Scenario.session Sample.unset Sample.officer)
                                    (Some (VStr "123456")) in
  let after := snd (AuthRoutes.twoFactorVerify Sample.unset Sample.world req
                      Scenario.db_after_setup) in
  AuthRoutes.twoFactorVerify Sample.unset Sample.world req Scenario.db_after_setup
  = (Val (message_only 200 "2FA enabled successfully"), after)
  /\ exists saved,
      users after = [Sample.admin; saved]
      /\ User.twoFactorEnabled saved = true
      /\ User.twoFactorSecret saved = Some "JBSWY3DPEHPK3PXP".
Proof.
  intros req after. split; [reflexivity |].
  destruct (verified_code_enables_2fa
              Sample.unset Sample.world req Scenario.db_after_setup after
              (message_only 200 "2FA enabled successfully") eq_refl eq_refl)
    as (user & code & saved & Hin & _ & _ & Hw & _ & Hon & Hsecret & Hid & _).
  destruct Hin as (token & decoded & Hh & Hv & Hu).
  injection Hh as <-. injection Hv as <-. injection Hu as <-.
  exists saved. split; [| split; [exact Hon | exact Hsecret]].
  rewrite Hw. unfold UserModel.write.
  cbn [users Scenario.db_after_setup existsb map]. rewrite Hid. reflexivity.
Defined.

Lemma validate_settings (user : User.t) (secret : option string) (enabled : bool) :
  UserModel.validate (UserModel.with_twoFactor user secret enabled)
  = UserModel.validate user.
Proof. reflexivity. Qed.

Lemma duplicate_key_settings (user : User.t) (secret : option string)
      (enabled : bool) (stored : list User.t) :
  UserModel.duplicate_key (UserModel.with_twoFactor user secret enabled) stored
  = UserModel.duplicate_key user stored.
Proof. reflexivity. Qed.

(** Saving a loaded, storable user with other 2FA settings succeeds. *)
Lemma save_settings_run (sv : services) (user : User.t) (secret : option string)
      (enabled : bool) (st s : store) :
  find (fun d => String.eqb (User._id d) (User._id user)) (users st) = Some user ->
  storable user st ->
  users s = users st ->
  let saved := with_settings user secret enabled (now sv) in
  UserModel.save sv (UserModel.with_twoFactor user secret enabled) s
  = (Val saved,
     Store (UserModel.write saved (users st)) (students s) (courses s)
           (console s) (outbox s) (entropy s)).
Proof.
  intros Hfind [Hvalid Hdup] Hs saved.
  rewrite user_save_unmodified; rewrite ?Hs;
    [reflexivity | exact Hvalid | now apply settings_keep_password | exact Hdup].
Qed.

(** X9.  [POST /2fa/setup] replaces the stored secret and keeps the
    flag, and it has done so before the QR code is made.  For a
    credential that verifies and names a stored user who can be written
    back, the handler stores the generated secret as the user's
    [twoFactorSecret] and leaves [twoFactorEnabled] as it was, also for
    a user whose 2FA is on.  It answers 200 with the secret and the QR
    code when [QRCode.toDataURL] succeeds; when that call throws it
    answers 500, and the new secret is stored all the same. *)
Theorem setup_2fa_replaces_the_secret :
  forall (env : config) (sv : services) (docs : documents) (h : headers)
         (st : store) (user : User.t),
    signed_in (secret_or_default env) sv h st user ->
    storable user st ->
    let secret :=
      generateSecret sv (entropy st)
        ("AaghaazTech:" ^^ match User.email user with
                           | Some e => e
                           | None => "undefined"
                           end) in
    exists st' saved,
      AuthRoutes.twoFactorSetup env sv docs h st
      = (Val (match QRCode_toDataURL docs (snd secret) with
              | inr qrCode =>
                  Response 200 [("message", Data (VStr "2FA setup initiated"));
                                ("secret", Data (VStr (fst secret)));
                                ("qrCode", Data (VStr qrCode))]
              | inl e =>
                  Response 500 [("message", Data (VStr "Error setting up 2FA"));
                                ("error", Data (VStr (message e)))]
              end), st')
      /\ users st' = UserModel.write saved (users st)
      /\ students st' = students st
      /\ User._id saved = User._id user
      /\ User.twoFactorSecret saved = Some (fst secret)
      /\ User.twoFactorEnabled saved = User.twoFactorEnabled user
      /\ User.password saved = User.password user.
Proof.
  intros env sv docs h st user Hin Hstorable secret.
  rewrite twoFactorSetup_guarded.
  destruct (guarded_signed_in _ _ _ "Error setting up 2FA"
              (fun _ user =>
                 i <- draw ;;
                 let secret :=
                   generateSecret sv i
                     ("AaghaazTech:" ^^ match User.email user with
                                        | Some e => e
                                        | None => "undefined"
                                        end) in
                 UserModel.save sv
                   (UserModel.with_twoFactor user (Some (fst secret))
                                             (User.twoFactorEnabled user)) ;;;
                 qrCode <- await (QRCode_toDataURL docs (snd secret)) ;;
                 ret (Response 200 [("message", Data (VStr "2FA setup initiated"));
                                    ("secret", Data (VStr (fst secret)));
                                    ("qrCode", Data (VStr qrCode))]))
              st user Hin) as (decoded & Hu & ->).
  destruct (findById_found _ _ _ _ _ Hu) as (_ & _ & Hfind & _).
  unfold try_catch. unfold bind at 1. cbn [draw]. fold secret.
  unfold bind at 1.
  rewrite (save_settings_run sv user (Some (fst secret)) (User.twoFactorEnabled user)
             st (Store (users st) (students st) (courses st) (console st)
                       (outbox st) (S (entropy st)))
             Hfind Hstorable eq_refl).
  cbn [students courses console outbox entropy users].
  unfold bind at 1.
  destruct (QRCode_toDataURL docs (snd secret)) as [e|qrCode];
    cbn [await throw ret]; eexists; eexists; (split; [reflexivity |]); now repeat split.
Qed.

Lemma setup_2fa_replaces_the_secret_witness :
  let h := Scenario.session Sample.production Sample.admin in
  let broken := {| jsPDF_layout := jsPDF_layout Sample.printer;
                   QRCode_toDataURL := fun _ => inl (plain_error "no canvas");
                   jsPDF_addImage := jsPDF_addImage Sample.printer;
                   jsPDF_output := jsPDF_output Sample.printer |} in
  let answer := AuthRoutes.twoFactorSetup Sample.production Sample.world broken h
                  Sample.db in
  signed_in (secret_or_default Sample.production) Sample.world h Sample.db Sample.admin
  /\ storable Sample.admin Sample.db
  /\ status_of (fst answer) = Some 500
  /\ exists saved,
      users (snd answer) = [saved; Sample.officer]
      /\ User.twoFactorSecret saved = Some "JBSWY3DPEHPK3PXP"
      /\ User.twoFactorEnabled saved = true.
Proof.
  intros h broken answer.
  assert (Hin : signed_in (secret_or_default Sample.production) Sample.world h
                          Sample.db Sample.admin).
  { eexists; eexists. repeat split. }
  assert (Hstorable : storable Sample.admin Sample.db) by (split; reflexivity).
  split; [exact Hin |]. split; [exact Hstorable |]. split; [reflexivity |].
  destruct (setup_2fa_replaces_the_secret Sample.production Sample.world broken h
              Sample.db Sample.admin Hin Hstorable)
    as (st' & saved & Hrun & Hw & _ & Hid & Hsecret & Hon & _).
  exists saved. split; [| split; [exact Hsecret | exact Hon]].
  unfold answer. rewrite Hrun. cbn [snd]. rewrite Hw.
  unfold UserModel.write. cbn [users Sample.db existsb map]. rewrite Hid. reflexivity.
Defined.

(** The login of the user found by email, with the right password. *)
Lemma login_found (env : config) (sv : services) (req : AuthRoutes.login_request)
      (st : store) (user : User.t) (p stored : string) :
  find (fun d => option_eqb (User.email d)
                          (normalised sv (AuthRoutes.login_email req))) (users st)
  = Some user ->
  AuthRoutes.login_password req = Some p ->
  User.password user = Some stored ->
  bcrypt_compare sv p stored = true ->
  AuthRoutes.login env sv req st
  = (Val (if User.twoFactorEnabled user
          then Response 200
                 [("message", Data (VStr "2FA verification required"));
                  ("requires2FA", Data (VBool true));
                  ("tempToken",
                   Tok (sign (AuthRoutes.pending_claims user)
                             (secret_or_default env) minutes5 (now sv)))]
          else Response 200
                 [("message", Data (VStr "Login successful"));
                  ("token",
                   Tok (sign (AuthRoutes.session_claims user)
                             (secret_or_default env) hours24 (now sv)));
                  ("user", AuthRoutes.user_view user)]), st).
Proof.
  intros Hfind Hp Hstored Hmatch.
  unfold AuthRoutes.login, try_catch.
  rewrite (bind_Val _ _ _ _ _ (user_findOne_email_run _ st)), Hfind.
  unfold UserModel.comparePassword. rewrite Hp, Hstored.
  rewrite (bind_Val (ret _) _ st st (bcrypt_compare sv p stored) eq_refl).
  rewrite Hmatch. cbn [negb]. now destruct (User.twoFactorEnabled user).
Qed.

(** ** The signing key *)




Lemma findById_at_time (sv : services) (t : Z) (id : option claim) :
  UserModel.findById (at_time sv t) id = UserModel.findById sv id.
Proof. reflexivity. Qed.

(** X10.  The temporary token of a login under 2FA is a session at
    [POST /2fa/disable].  For a user with 2FA on, found by the login and
    by its identifier, whose document can be written back: the login
    with the right password answers with the temporary token; within
    its five minutes [POST /2fa/disable] with that token as credential
    answers 200 and writes the user back with [twoFactorEnabled =
    false]; and the login repeated after that answers with the 24-hour
    session token.  No code of the second factor is asked for on the
    way. *)
Theorem pending_token_turns_2fa_off :
  forall (env : config) (sv : services) (req : AuthRoutes.login_request)
         (st : store) (user : User.t) (p stored : string) (t : Z),
    find (fun d => option_eqb (User.email d)
                            (normalised sv (AuthRoutes.login_email req))) (users st)
    = Some user ->
    AuthRoutes.login_password req = Some p ->
    User.password user = Some stored ->
    bcrypt_compare sv p stored = true ->
    User.twoFactorEnabled user = true ->
    UserModel.findById sv (Some (CStr (User._id user))) st = (Val (Some user), st) ->
    storable user st ->
    (t < now sv + minutes5)%Z ->
    let tempToken := sign (AuthRoutes.pending_claims user)
                          (secret_or_default env) minutes5 (now sv) in
    let later := at_time sv t in
    exists st' saved,
      AuthRoutes.login env sv req st
      = (Val (Response 200
                [("message", Data (VStr "2FA verification required"));
                 ("requires2FA", Data (VBool true));
                 ("tempToken", Tok tempToken)]), st)
      /\ AuthRoutes.twoFactorDisable env later (Headers (Some (Compact tempToken))) st
         = (Val (message_only 200 "2FA disabled successfully"), st')
      /\ users st' = UserModel.write saved (users st)
      /\ User._id saved = User._id user
      /\ User.twoFactorEnabled saved = false
      /\ User.twoFactorSecret saved = None
      /\ AuthRoutes.login env later req st'
         = (Val (Response 200
                   [("message", Data (VStr "Login successful"));
                    ("token",
                     Tok (sign (AuthRoutes.session_claims saved)
                               (secret_or_default env) hours24 t));
                    ("user", AuthRoutes.user_view saved)]), st').
Proof.
  intros env sv req st user p stored t Hfind Hp Hstored Hmatch Hon Hid Hstorable Ht
         tempToken later.
  destruct (findById_found _ _ _ _ _ Hid) as (_ & _ & Hbyid & _).
  assert (Hin : signed_in (secret_or_default env) later
                          (Headers (Some (Compact tempToken))) st user).
  { exists (Compact tempToken), (tok_payload tempToken). split; [reflexivity |].
    split.
    - unfold tempToken. rewrite verify_signed by apply pending_claims_valid.
      apply Z.leb_gt in Ht. cbn [now later at_time]. now rewrite Ht.
    - unfold tempToken.
      rewrite signed_claims_kept by (simpl; intuition discriminate).
      unfold later. rewrite findById_at_time. exact Hid. }
  pose (saved := with_settings user None false t).
  eexists. exists saved.
  split.
  { rewrite (login_found env sv req st user p stored Hfind Hp Hstored Hmatch).
    now rewrite Hon. }
  split.
  { rewrite twoFactorDisable_guarded.
    destruct (guarded_signed_in _ _ _ "Error disabling 2FA"
                (fun _ user =>
                   if negb (User.twoFactorEnabled user)
                   then ret (message_only 400 "2FA is not enabled")
                   else
                     UserModel.save later (UserModel.with_twoFactor user None false) ;;;
                     ret (message_only 200 "2FA disabled successfully"))
                st user Hin) as (decoded & _ & ->).
    unfold try_catch. rewrite Hon. cbn [negb]. unfold bind at 1.
    rewrite (save_settings_run later user None false st st Hbyid Hstorable eq_refl).
    reflexivity. }
  cbn [users].
  split; [reflexivity |]. split; [reflexivity |]. split; [reflexivity |].
  split; [reflexivity |].
  apply (login_after_write env later req st _ user saved p stored);
    try assumption; reflexivity.
Qed.

Lemma pending_token_turns_2fa_off_witness :
  let req := AuthRoutes.LoginRequest (Some "ada@x.com") (Some "secret1") in
  let tempToken := sign (AuthRoutes.pending_claims Sample.admin)
                        (secret_or_default Sample.production) minutes5 1000 in
  let later := at_time Sample.world 1299 in
  exists st' saved,
    fst (AuthRoutes.login Sample.production Sample.world req Sample.db)
    = Val (Response 200
             [("message", Data (VStr "2FA verification required"));
              ("requires2FA", Data (VBool true));
              ("tempToken", Tok tempToken)])
    /\ AuthRoutes.twoFactorDisable Sample.production later
         (Headers (Some (Compact tempToken))) Sample.db
       = (Val (message_only 200 "2FA disabled successfully"), st')
    /\ tokens_of (match fst (AuthRoutes.login Sample.production later req st')
                  with Val r => r | _ => message_only 500 "" end)
       = [sign (AuthRoutes.session_claims saved)
               (secret_or_default Sample.production) hours24 1299].
Proof.
  intros req tempToken later.
  destruct (pending_token_turns_2fa_off
              Sample.production Sample.world req Sample.db Sample.admin
              "secret1" "$2b$salt$secret1" 1299
              eq_refl eq_refl eq_refl eq_refl eq_refl eq_refl
              (conj eq_refl eq_refl) eq_refl)
    as (st' & saved & Hlogin & Hdisable & _ & _ & _ & _ & Hagain).
  exists st', saved. split; [now rewrite Hlogin |]. split; [exact Hdisable |].
  fold later in Hagain. fold req in Hagain. now rewrite Hagain.
Defined.




(** ** Registration of users *)

Lemma validate_role (user : User.t) :
  UserModel.validate user = true -> includes User.roles (User.role user) = true.
Proof.
  unfold UserModel.validate. intros H.
  now repeat (apply andb_true_iff in H as [H ?]).
Qed.

Lemma saved_role (sv : services) (this saved : User.t) (st st' : store) :
  UserModel.save sv this st = (Val saved, st') ->
  User.role saved = User.role this
  /\ User.email saved = User.email this
  /\ User._id saved = User._id this
  /\ User.twoFactorEnabled saved = User.twoFactorEnabled this
  /\ In saved (users st').
Proof.
  intros H. destruct (user_save_inv _ _ _ _ _ H)
    as (_ & _ & Hw & _ & _ & [(_ & Hs) | (_ & q & _ & Hs)]);
    rewrite Hw; subst saved; repeat split; apply user_write_In.
Qed.

(** X12.  [POST /register] of [routes/auth.mjs] gives the role that
    the request names.  Whenever the handler answers 201, the stored
    user has the [role] of the request body when that is a non-empty
    string, and ['user'] otherwise; the role is one of ['user'],
    ['admin'] and ['maintenance_office']; the response carries one
    token, the 24-hour session token of that user, whose role claim is
    that role; and until it expires the token passes every [checkRole]
    gate that lists the role. *)
Theorem registration_grants_requested_role :
  forall (env : config) (sv : services) (req : AuthRoutes.register_request)
         (st st' : store) (res : response),
    AuthRoutes.register env sv req st = (Val res, st') ->
    status res = 201 ->
    exists user,
      In user (users st')
      /\ (forall r, AuthRoutes.role req = Some r -> r <> "" -> User.role user = r)
      /\ (truthy_string (AuthRoutes.role req) = false -> User.role user = "user")
      /\ includes User.roles (User.role user) = true
      /\ tokens_of res
         = [sign (AuthRoutes.session_claims user) (secret_or_default env)
                 hours24 (now sv)]
      /\ lookup "role" (AuthRoutes.session_claims user) = Some (CStr (User.role user))
      /\ forall roles t,
           includes roles (User.role user) = true ->
           (t < now sv + hours24)%Z ->
           Middleware.checkRole roles env t
             (Headers (Some (Compact (sign (AuthRoutes.session_claims user)
                                           (secret_or_default env) hours24 (now sv)))))
           = Next (resolved (AuthRoutes.session_claims user)).
Proof.
  intros env sv req st st' res Hrun Hstatus.
  destruct (auth_register_created _ _ _ _ _ _ Hrun Hstatus)
    as (fresh & saved & s & _ & Hvalid & _ & _ & _ & _ & Hrole & _ & Hsave & _ & _
        & _ & ->).
  destruct (saved_role _ _ _ _ _ Hsave) as (Hr & _ & _ & _ & Hin).
  exists saved. split; [exact Hin |].
  split.
  { intros r Hreq Hne. rewrite Hr, Hrole, Hreq. unfold or_string.
    cbn [truthy_string]. destruct r; [now exfalso | reflexivity]. }
  split.
  { intros Hfalsy. rewrite Hr, Hrole. unfold or_string. now rewrite Hfalsy. }
  split; [rewrite Hr; now apply validate_role |].
  split; [reflexivity |]. split; [reflexivity |].
  intros roles t Hroles Ht.
  unfold Middleware.checkRole. cbn [authorization truthy_jsstr negb].
  rewrite verify_signed by apply session_claims_valid.
  apply Z.leb_gt in Ht. rewrite Ht.
  rewrite signed_claims_kept by (simpl; intuition discriminate).
  change (lookup "role" (AuthRoutes.session_claims saved))
    with (Some (CStr (User.role saved))).
  cbn [roles_include]. rewrite Hroles. cbn [negb]. now rewrite resolved_signed.
Qed.

Lemma registration_grants_requested_role_witness :
  let req :=
    {| AuthRoutes.firstName := Some "Eve"; AuthRoutes.lastName := Some "Noor";
       AuthRoutes.email := Some "eve@x.com"; AuthRoutes.password := Some "secret9";
       AuthRoutes.cnic := Some "9999999999999"; AuthRoutes.phoneNumber := Some "0309";
       AuthRoutes.dateOfBirth := Some "1999-09-09";
       AuthRoutes.expertise := None; AuthRoutes.location := None;
       AuthRoutes.languages := None; AuthRoutes.qualification := None;
       AuthRoutes.role := Some "admin"; AuthRoutes.file := None |} in
  let answer := AuthRoutes.register Sample.production Sample.world req Sample.db in
  status_of (fst answer) = Some 201
  /\ exists user,
      In user (users (snd answer))
      /\ User.role user = "admin"
      /\ Middleware.adminOnly Sample.production 2000
           (Headers (Some (Compact (sign (AuthRoutes.session_claims user)
                                         (secret_or_default Sample.production)
                                         hours24 1000))))
         = Next (resolved (AuthRoutes.session_claims user)).
Proof.
  intros req answer. split; [reflexivity |].
  destruct (registration_grants_requested_role
              Sample.production Sample.world req Sample.db (snd answer)
              (match fst answer with Val r => r | _ => message_only 500 "" end)
              eq_refl eq_refl)
    as (user & Hin & Hrole & _ & _ & _ & _ & Hgate).
  exists user. split; [exact Hin |].
  assert (Hadmin : User.role user = "admin")
    by (apply Hrole; [reflexivity | discriminate]).
  split; [exact Hadmin |].
  apply (Hgate ["admin"] 2000%Z); [now rewrite Hadmin | reflexivity].
Defined.

Lemma user_write_fresh (this : User.t) (stored : list User.t) :
  (forall d, In d stored -> User._id d <> User._id this) ->
  UserModel.write this stored = stored ++ [this]
  /\ find (fun d => String.eqb (User._id d) (User._id this)) stored = None.
Proof.
  intros Hfresh.
  assert (E : existsb (fun d => String.eqb (User._id d) (User._id this)) stored = false).
  { apply not_true_is_false. intros H. apply existsb_exists in H as (d & Hin & Hd).
    apply String.eqb_eq in Hd. exact (Hfresh d Hin Hd). }
  unfold UserModel.write. rewrite E. split; [reflexivity |].
  destruct (find _ stored) as [d|] eqn:Hfind; [| reflexivity].
  destruct (find_some _ _ Hfind) as [Hin Hd]. apply String.eqb_eq in Hd.
  now destruct (Hfresh d Hin).
Qed.

(** X13.  A registered user is stored with the bcrypt hash of the
    submitted password and can log in with it.  Whenever [POST
    /register] answers 201 (the generated identifier being one that no
    stored user has), the users afterwards are the users before followed
    by the new one; the new user has the email of the request as the
    schema writes it (trimmed, in lower case), 2FA off, and as password
    the hash that the [pre('save')] hook made of the submitted password;
    and a login with any spelling of the email that the schema writes
    alike, and any password that bcrypt accepts against that hash, is
    answered 200 with the session token of the new user. *)
Theorem registered_user_can_log_in :
  forall (env : config) (sv : services) (req : AuthRoutes.register_request)
         (st st' : store) (res : response),
    AuthRoutes.register env sv req st = (Val res, st') ->
    status res = 201 ->
    (forall d, In d (users st) -> User._id d <> ObjectId sv (entropy st)) ->
    exists user p,
      users st' = users st ++ [user]
      /\ User.email user = normalised sv (AuthRoutes.email req)
      /\ AuthRoutes.password req = Some p
      /\ User.password user
         = Some (bcrypt_hash sv p (genSalt sv (S (entropy st))))
      /\ User.twoFactorEnabled user = false
      /\ forall env' sv' spelling candidate,
           normalised sv' spelling = normalised sv (AuthRoutes.email req) ->
           bcrypt_compare sv' candidate
                          (bcrypt_hash sv p (genSalt sv (S (entropy st)))) = true ->
           AuthRoutes.login env' sv'
             (AuthRoutes.LoginRequest spelling (Some candidate)) st'
           = (Val (Response 200
                     [("message", Data (VStr "Login successful"));
                      ("token",
                       Tok (sign (AuthRoutes.session_claims user)
                                 (secret_or_default env') hours24 (now sv')));
                      ("user", AuthRoutes.user_view user)]), st').
Proof.
  intros env sv req st st' res Hrun Hstatus Hfresh.
  destruct (auth_register_created _ _ _ _ _ _ Hrun Hstatus)
    as (fresh & saved & s & Hnone & _ & Hid & Hemail & _ & Hpw & _ & H2fa & Hsave
        & Hus & _ & Hen & _).
  destruct (user_save_inv _ _ _ _ _ Hsave) as (_ & _ & Hw & _ & _ & Hmod).
  rewrite Hus in Hw, Hmod. rewrite Hen in Hmod.
  assert (Hfresh' : forall d, In d (users st) -> User._id d <> User._id fresh)
    by (now rewrite Hid).
  destruct (user_write_fresh fresh (users st) Hfresh') as (_ & Hnew).
  assert (Hm : UserModel.isModified_password fresh (users st) = true)
    by (unfold UserModel.isModified_password; now rewrite Hnew).
  rewrite Hm in Hmod. destruct Hmod as [(Hx & _) | (_ & q & Hq & ->)];
    [discriminate Hx |].
  rewrite Hpw in Hq.
  set (saved := UserModel.with_password fresh _ _) in *.
  assert (Happend : UserModel.write saved (users st) = users st ++ [saved])
    by (apply (user_write_fresh saved); exact Hfresh').
  exists saved, q.
  split; [now rewrite Hw, Happend |].
  repeat split; try assumption.
  intros env' sv' spelling candidate Hspelling Hmatch.
  assert (Hfind : find (fun d => option_eqb (User.email d)
                                          (normalised sv (AuthRoutes.email req)))
                       (users st') = Some saved).
  { rewrite Hw. apply user_find_write_new.
    - destruct (find (fun d => option_eqb (User.email d)
                                        (normalised sv (AuthRoutes.email req)))
                     (users st)) as [d|] eqn:Hd; [| reflexivity].
      destruct (find_some _ _ Hd) as [Hin He].
      assert (Hor : (fun d => option_eqb (User.email d)
                                       (normalised sv (AuthRoutes.email req))
                              || option_eqb (User.cnic d) (trimmed sv (AuthRoutes.cnic req))) d
                    = true) by (cbv beta; now rewrite He).
      destruct (find_first _ _ d Hin Hor) as (d' & Hd' & _). congruence.
    - cbn [saved UserModel.with_password User.email]. rewrite Hemail.
      apply option_eqb_refl. }
  rewrite <- Hspelling in Hfind.
  rewrite (login_found env' sv'
             (AuthRoutes.LoginRequest spelling (Some candidate))
             st' saved candidate _ Hfind eq_refl eq_refl Hmatch).
  cbn [saved UserModel.with_password User.twoFactorEnabled]. now rewrite H2fa.
Qed.

Lemma registered_user_can_log_in_witness :
  let req := Sample.user_form " Omar@X.com" "8888888888888" None None in
  let answer := AuthRoutes.register Sample.production Sample.world req Sample.db in
  status_of (fst answer) = Some 201
  /\ (forall d, In d (users Sample.db) -> User._id d <> ObjectId Sample.world 0)
  /\ exists user,
      users (snd answer) = [Sample.admin; Sample.officer; user]
      /\ User.email user = Some "omar@x.com"
      /\ User.password user = Some "$2b$salt$secret4"
      /\ status_of (fst (AuthRoutes.login Sample.production Sample.world
                           (AuthRoutes.LoginRequest (Some "OMAR@x.com ")
                                                    (Some "secret4"))
                           (snd answer))) = Some 200.
Proof.
  intros req answer. split; [reflexivity |].
  assert (Hfresh : forall d, In d (users Sample.db) ->
                             User._id d <> ObjectId Sample.world 0).
  { intros d [<- | [<- | []]]; discriminate. }
  split; [exact Hfresh |].
  destruct (registered_user_can_log_in
              Sample.production Sample.world req Sample.db (snd answer)
              (match fst answer with Val r => r | _ => message_only 500 "" end)
              eq_refl eq_refl Hfresh)
    as (user & p & Hw & Hmail & Hp & Hhash & _ & Hlogin).
  injection Hp as <-.
  exists user. split; [exact Hw |]. split; [exact Hmail |]. split; [exact Hhash |].
  now rewrite (Hlogin Sample.production Sample.world (Some "OMAR@x.com ") "secret4"
                 eq_refl eq_refl).
Defined.

(** ** Registration and approval of students *)

Lemma unique_rollId_inv (sv : services) (fuel : nat) (st st' : store) (r : string) :
  StudentModel.unique_rollId sv fuel st = (Val r, st') ->
  unchanged st st'
  /\ exists i,
      (entropy st <= i)%nat
      /\ entropy st' = S i
      /\ r = random_roll sv i
      /\ (forall d, In d (students st) -> Student.rollId d <> Some r)
      /\ forall j, (entropy st <= j < i)%nat ->
           exists d, In d (students st)
                     /\ Student.rollId d = Some (random_roll sv j).
Proof.
  revert st. induction fuel as [|fuel IH]; intros st; cbn [StudentModel.unique_rollId];
    [discriminate |].
  unfold bind at 1. cbn [draw].
  unfold bind at 1. unfold StudentModel.findOne_rollId at 1.
  cbn [bind get ret students].
  destruct (find _ (students st)) as [d|] eqn:Hfind.
  - intros H. apply IH in H as (Hun & i & Hle & Hen & Hr & Hfree & Htaken).
    cbn [entropy students] in *.
    split; [exact Hun |].
    exists i. repeat split; try assumption; try lia.
    intros j [Hj1 Hj2].
    destruct (Nat.eq_dec j (entropy st)) as [-> | Hne].
    + destruct (find_some _ _ Hfind) as [Hin Hd].
      exists d. split; [exact Hin |]. now apply option_eqb_eq in Hd.
    + apply Htaken. lia.
  - intros [= <- <-]. split; [now repeat split |].
    exists (entropy st). cbn [entropy students].
    repeat split; try lia.
    intros d Hin Hd.
    assert (Hp : (fun d => option_eqb (Student.rollId d)
                                      (Some (random_roll sv (entropy st)))) d = true)
      by (cbv beta; now apply option_eqb_eq).
    destruct (find_first _ _ d Hin Hp) as (d' & Hd' & _). congruence.
Qed.

Lemma student_save_inv (sv : services) (this saved : Student.t) (st st' : store) :
  StudentModel.save sv this st = (Val saved, st') ->
  StudentModel.validate this = true
  /\ users st' = users st
  /\ courses st' = courses st
  /\ students st' = StudentModel.write saved (students st)
  /\ StudentModel.duplicate_key saved (students st) = None
  /\ ((truthy_string (Student.rollId this) = true
       /\ saved = StudentModel.with_rollId this (Student.rollId this) (now sv)
       /\ entropy st' = entropy st)
      \/ (truthy_string (Student.rollId this) = false
          /\ exists i,
              (entropy st <= i)%nat
              /\ entropy st' = S i
              /\ saved = StudentModel.with_rollId this (Some (random_roll sv i)) (now sv)
              /\ (forall d, In d (students st) ->
                            Student.rollId d <> Some (random_roll sv i))
              /\ forall j, (entropy st <= j < i)%nat ->
                   exists d, In d (students st)
                             /\ Student.rollId d = Some (random_roll sv j))).
Proof.
  unfold StudentModel.save.
  destruct (StudentModel.validate this); cbn [negb]; [| discriminate].
  intros H. apply bind_Val_inv in H as (r & s1 & Hr & H).
  apply bind_Val_inv in H as (s2 & s3 & Hget & H).
  injection Hget as <- <-.
  destruct (StudentModel.duplicate_key _ (students s1)) eqn:Hdup; [discriminate H |].
  apply bind_Val_inv in H as ([] & s4 & Hset & H).
  injection H as <- <-. injection Hset as <-. cbn [users courses students entropy].
  destruct (truthy_string (Student.rollId this)) eqn:Htruthy.
  - injection Hr as <- <-. repeat split; try assumption. left. now repeat split.
  - apply bind_Val_inv in Hr as (x & s5 & Hx & Hr). injection Hr as <- <-.
    apply unique_rollId_inv in Hx
      as ((Hu & Hs & Hc) & i & Hle & Hen & -> & Hfree & Htaken).
    rewrite Hs in *. repeat split; try assumption.
    right. split; [reflexivity |]. exists i. now repeat split.
Qed.

Lemma student_write_new (p : Student.t -> bool) (this : Student.t)
      (stored : list Student.t) :
  find p stored = None ->
  p this = true ->
  find p (StudentModel.write this stored) = Some this.
Proof.
  intros Hfind Hp. unfold StudentModel.write.
  destruct (existsb _ stored) eqn:E.
  - induction stored as [|d rest IH]; [discriminate |].
    cbn [find map existsb] in *.
    destruct (p d) eqn:Epd; [discriminate |].
    destruct (String.eqb (Student._id d) (Student._id this)).
    + now rewrite Hp.
    + rewrite Epd. now apply IH.
  - clear E. induction stored as [|d rest IH]; cbn [find app] in *.
    + now rewrite Hp.
    + destruct (p d); [discriminate |]. now apply IH.
Qed.

Lemma hash_inv (sv : services) (password : option string) (st st' : store)
      (hashed : string) :
  StudentRoutes.hash sv password st = (Val hashed, st') ->
  unchanged st st'
  /\ exists p, password = Some p
               /\ hashed = bcrypt_hash sv p (genSalt sv (entropy st)).
Proof.
  unfold StudentRoutes.hash. unfold bind at 1. cbn [draw].
  destruct password as [p|]; [| discriminate].
  intros [= <- <-]. split; [now repeat split |]. now exists p.
Qed.

(** A registration that reaches the end of [student.save()], in full:
    nobody held the email or the CNIC, and the document made from the
    form, with the hashed password and status [Pending], was saved. *)
Lemma register_student_inv (sv : services) (req : StudentRoutes.register_request)
      (st st' : store) (student : Student.t) :
  StudentRoutes.register_student sv req st = (Val (inr student), st') ->
  exists fresh s p salt,
    find (fun d => option_eqb (Student.email d)
                            (normalised sv (StudentRoutes.email req))
                   || option_eqb (Student.cnic d) (StudentRoutes.cnic req))
         (students st) = None
    /\ unchanged st s
    /\ StudentModel.save sv fresh s = (Val student, st')
    /\ StudentRoutes.password req = Some p
    /\ Student.password fresh = Some (bcrypt_hash sv p salt)
    /\ Student.firstName fresh = trimmed sv (StudentRoutes.firstName req)
    /\ Student.lastName fresh = trimmed sv (StudentRoutes.lastName req)
    /\ Student.email fresh = normalised sv (StudentRoutes.email req)
    /\ Student.cnic fresh = StudentRoutes.cnic req
    /\ Student.phoneNumber fresh = trimmed sv (StudentRoutes.phoneNumber req)
    /\ Student.gender fresh = StudentRoutes.gender req
    /\ Student.guardianName fresh = StudentRoutes.guardianName req
    /\ Student.guardianPhone fresh = StudentRoutes.guardianPhone req
    /\ Student.guardianRelation fresh = StudentRoutes.guardianRelation req
    /\ Student.dateOfBirth fresh
       = fst (StudentModel.cast_dateOfBirth sv (StudentRoutes.dateOfBirth req))
    /\ Student.status fresh = "Pending"
    /\ Student.rollId fresh = None.
Proof.
  unfold StudentRoutes.register_student. intros H.
  apply bind_Val_inv in H as (a & s1 & Ha & H).
  pose proof (reads_parse_address sv (StudentRoutes.address req) st) as R1.
  rewrite Ha in R1; cbn [snd] in R1.
  apply bind_Val_inv in H as (parsed & s2 & Hp & H).
  pose proof (reads_parse_courses sv (StudentRoutes.enrolledCourses req) s1) as R2.
  rewrite Hp in R2; cbn [snd] in R2.
  destruct parsed as [res|parsedCourses]; [discriminate H |].
  apply bind_Val_inv in H as (existing & s3 & He & H).
  rewrite student_findOne_run in He. injection He as <- <-.
  destruct (find _ (students s2)) as [d|] eqn:Hnone; [discriminate H |].
  apply bind_Val_inv in H as (url & s4 & Hu & H).
  assert (R4 : unchanged s2 s4).
  { destruct (StudentRoutes.file req) as [f|].
    - pose proof (reads_student_upload sv (Some f) s2) as R. now rewrite Hu in R.
    - injection Hu as _ <-. apply unchanged_refl. }
  apply bind_Val_inv in H as (curl & s5 & Hc & H).
  assert (R5 : unchanged s4 s5).
  { destruct (nonempty url).
    - pose proof (reads_compressImage sv url s4) as R. now rewrite Hc in R.
    - injection Hc as _ <-. apply unchanged_refl. }
  apply bind_Val_inv in H as (hashed & s6 & Hh & H).
  apply hash_inv in Hh as (R6 & p & Hpw & ->).
  apply bind_Val_inv in H as (fresh & s7 & Hn & H).
  match type of Hn with
  | StudentModel.new _ ?f _ = _ => pose proof (reads_student_new sv f s6) as R7
  end.
  rewrite Hn in R7; cbn [snd] in R7.
  apply bind_Val_inv in H as (saved & s8 & Hs & H).
  injection H as <- <-.
  unfold StudentModel.new in Hn.
  apply bind_Val_inv in Hn as (i & s6' & _ & Hn). injection Hn as <- _.
  assert (R' : unchanged st s2) by exact (unchanged_trans _ _ _ R1 R2).
  assert (R : unchanged st s7).
  { apply (unchanged_trans _ _ _ R'), (unchanged_trans _ _ _ R4),
      (unchanged_trans _ _ _ R5), (unchanged_trans _ _ _ R6), R7. }
  destruct R' as (_ & Hst2 & _). rewrite Hst2 in Hnone.
  eexists. exists s7, p, (genSalt sv (entropy s5)).
  split; [exact Hnone |]. split; [exact R |]. split; [exact Hs |].
  split; [exact Hpw |]. now repeat split.
Qed.

(** What [POST /register] of [routes/student.mjs] answered with 201. *)
Lemma student_register_created (env : config) (sv : services) (docs : documents)
      (smtp : mailer) (req : StudentRoutes.register_request) (st st' : store)
      (res : response) :
  StudentRoutes.register env sv docs smtp req st = (Val res, st') ->
  status res = 201 ->
  exists student s,
    StudentRoutes.register_student sv req st = (Val (inr student), s)
    /\ unchanged s st'
    /\ res = Response 201 (StudentRoutes.registered_body student).
Proof.
  unfold StudentRoutes.register, try_catch. unfold bind at 1.
  destruct (StudentRoutes.register_student sv req st) as [[[r|student]|e|] s] eqn:E.
  - intros [= <- <-] Hstatus. exfalso. revert E Hstatus.
    unfold StudentRoutes.register_student. intros H.
    apply bind_Val_inv in H as (a & s1 & _ & H).
    apply bind_Val_inv in H as (parsed & s2 & Hp & H).
    destruct parsed as [res|parsedCourses].
    + injection H as <- _.
      destruct (parse_courses_returns sv (StudentRoutes.enrolledCourses req) s1)
        as (r0 & s0 & Hr0 & _ & Hres).
      rewrite Hp in Hr0. injection Hr0 as <- _.
      destruct (Hres res eq_refl) as [-> | ->]; discriminate.
    + apply bind_Val_inv in H as (existing & s3 & _ & H).
      destruct existing as [d|]; [injection H as <- _; discriminate |].
      apply bind_Val_inv in H as (url & s4 & _ & H).
      apply bind_Val_inv in H as (curl & s5 & _ & H).
      apply bind_Val_inv in H as (hashed & s6 & _ & H).
      apply bind_Val_inv in H as (fresh & s7 & _ & H).
      apply bind_Val_inv in H as (saved & s8 & _ & H).
      discriminate H.
  - destruct (sendIdCard_isolated env docs smtp student s)
      as (s1 & new & Hcard & Hun & _).
    unfold bind at 1. rewrite Hcard. cbn [bind log modify ret].
    intros [= <- <-] _. exists student, s. split; [reflexivity |].
    split; [| reflexivity]. destruct Hun as (? & ? & ?). now repeat split.
  - cbn [bind log modify ret]. intros [= <- _] H. discriminate H.
  - discriminate.
Qed.

(** X14.  A registered student waits for approval.  Whenever [POST
    /register] of [routes/student.mjs] answers 201, the student is in the
    collection with the email of the request as the schema writes it
    (trimmed, in lower case) and status ['Pending'], and the student
    login for any spelling of the email that the schema writes alike is
    answered without a token whatever the password: 401, 403 or 500,
    and with the right password 403 with the status ['Pending']. *)
Theorem registered_student_waits_for_approval :
  forall (env : config) (sv : services) (docs : documents) (smtp : mailer)
         (req : StudentRoutes.register_request) (st st' : store) (res : response),
    StudentRoutes.register env sv docs smtp req st = (Val res, st') ->
    status res = 201 ->
    exists student,
      In student (students st')
      /\ Student.status student = "Pending"
      /\ Student.email student = normalised sv (StudentRoutes.email req)
      /\ forall env' sv' spelling candidate,
           normalised sv' spelling = normalised sv (StudentRoutes.email req) ->
           exists answer,
             StudentRoutes.login env' sv'
               (StudentRoutes.LoginRequest spelling candidate) st'
             = (Val answer, st')
             /\ tokens_of answer = []
             /\ (status answer = 401 \/ status answer = 403 \/ status answer = 500)
             /\ forall p h,
                  candidate = Some p ->
                  Student.password student = Some h ->
                  bcrypt_compare sv' p h = true ->
                  answer
                  = Response 403
                      [("message", Data (VStr
                         "Your account is not active. Please contact the administration for more information."));
                       ("status", Data (VStr "Pending"))].
Proof.
  intros env sv docs smtp req st st' res Hrun Hstatus.
  destruct (student_register_created _ _ _ _ _ _ _ _ Hrun Hstatus)
    as (student & s & Hreg & (_ & Hst' & _) & _).
  destruct (register_student_inv _ _ _ _ _ Hreg)
    as (fresh & s0 & p0 & salt & Hnone & (_ & Hs0 & _) & Hsave & _ & _ & _ & _
        & Hemail & _ & _ & _ & _ & _ & _ & _ & Hpending & _).
  destruct (student_save_inv _ _ _ _ _ Hsave) as (_ & _ & _ & Hw & _ & Hsaved).
  rewrite Hs0 in Hw.
  assert (Hfields : Student.status student = "Pending"
                    /\ Student.email student
                       = normalised sv (StudentRoutes.email req)).
  { destruct Hsaved as [(_ & -> & _) | (_ & i & _ & _ & -> & _)];
      cbn [StudentModel.with_rollId Student.status Student.email]; now split. }
  destruct Hfields as [Hp He].
  assert (Hfind : find (fun d => option_eqb (Student.email d)
                                          (normalised sv (StudentRoutes.email req)))
                       (students st') = Some student).
  { rewrite Hst', Hw. apply student_write_new.
    - destruct (find (fun d => option_eqb (Student.email d)
                                        (normalised sv (StudentRoutes.email req)))
                     (students st)) as [d|] eqn:Hd; [| reflexivity].
      destruct (find_some _ _ Hd) as [Hin Hd'].
      assert (Hor : (fun d => option_eqb (Student.email d)
                                       (normalised sv (StudentRoutes.email req))
                              || option_eqb (Student.cnic d) (StudentRoutes.cnic req)) d
                    = true) by (cbv beta; now rewrite Hd').
      destruct (find_first _ _ d Hin Hor) as (d' & Hd'' & _). congruence.
    - rewrite He. apply option_eqb_refl. }
  exists student. split; [rewrite Hst', Hw; apply write_In |].
  split; [exact Hp |]. split; [exact He |].
  intros env' sv' spelling candidate Hspelling.
  unfold StudentRoutes.login, try_catch.
  rewrite (bind_Val _ _ _ _ _ (student_findOne_email_run _ st')).
  cbn [StudentRoutes.login_email StudentRoutes.login_password].
  rewrite Hspelling, Hfind.
  unfold bind at 1. unfold StudentRoutes.compare.
  destruct candidate as [p|].
  2:{ eexists. split; [reflexivity |]. split; [reflexivity |].
      split; [now right; right | intros ? ? H; discriminate H]. }
  destruct (Student.password student) as [h|].
  2:{ eexists. split; [reflexivity |]. split; [reflexivity |].
      split; [now right; right | intros ? ? _ H; discriminate H]. }
  cbn [ret]. destruct (bcrypt_compare sv' p h) eqn:Hmatch; cbn [negb].
  2:{ eexists. split; [reflexivity |]. split; [reflexivity |].
      split; [now left |]. intros p' h' [= <-] [= <-]. congruence. }
  unfold Student.canAccessAccount. rewrite Hp. cbn [includes existsb String.eqb negb].
  eexists. split; [reflexivity |]. split; [reflexivity |].
  split; [now right; left |]. reflexivity.
Qed.

Lemma registered_student_waits_for_approval_witness :
  let req := Sample.form " New@X.com" "9999999999999" None None None in
  let answer := StudentRoutes.register Sample.production Sample.world Sample.printer
                  Sample.smtp req Sample.db in
  status_of (fst answer) = Some 201
  /\ (exists student,
        In student (students (snd answer))
        /\ Student.status student = "Pending"
        /\ Student.email student = Some "new@x.com")
  /\ status_of (fst (StudentRoutes.login Sample.production Sample.world
                       (StudentRoutes.LoginRequest (Some "NEW@x.com") (Some "secret3"))
                       (snd answer))) = Some 403.
Proof.
  intros req answer. split; [reflexivity |]. split; [| reflexivity].
  destruct (registered_student_waits_for_approval
              Sample.production Sample.world Sample.printer Sample.smtp req Sample.db
              (snd answer)
              (match fst answer with Val r => r | _ => message_only 500 "" end)
              eq_refl eq_refl)
    as (student & Hin & Hp & He & _).
  now exists student.
Defined.

Lemma student_write_cases (this : Student.t) (stored : list Student.t)
      (d : Student.t) :
  In d (StudentModel.write this stored) ->
  d = this \/ (In d stored /\ Student._id d <> Student._id this).
Proof.
  unfold StudentModel.write. destruct (existsb _ stored) eqn:E; intros Hin.
  - apply in_map_iff in Hin as (x & Hx & Hin).
    destruct (String.eqb (Student._id x) (Student._id this)) eqn:Hid.
    + now left.
    + right. subst x. split; [exact Hin |]. now apply String.eqb_neq.
  - apply in_app_or in Hin as [Hin | [<- | []]]; [| now left].
    right. split; [exact Hin |]. intros Hid.
    assert (existsb (fun x => String.eqb (Student._id x) (Student._id this)) stored
            = true)
      by (apply existsb_exists; exists d; split;
          [exact Hin | now apply String.eqb_eq]).
    congruence.
Qed.

(** X15.  The [pre('save')] hook of the student model gives a student
    without roll id the first drawn number that no stored student has.
    Whenever [save] returns: a student that has a roll id keeps it, and
    no number is drawn; a student without one gets the number of some
    draw [i], every earlier draw having given a number that a stored
    student has, and no other student of the collection has that
    number, before or after the write. *)
Theorem roll_id_is_first_free_draw :
  forall (sv : services) (this saved : Student.t) (st st' : store),
    StudentModel.save sv this st = (Val saved, st') ->
    (truthy_string (Student.rollId this) = true ->
       Student.rollId saved = Student.rollId this /\ entropy st' = entropy st)
    /\ (truthy_string (Student.rollId this) = false ->
        exists i,
          (entropy st <= i)%nat
          /\ entropy st' = S i
          /\ Student.rollId saved = Some (random_roll sv i)
          /\ (forall j, (entropy st <= j < i)%nat ->
                exists d, In d (students st)
                          /\ Student.rollId d = Some (random_roll sv j))
          /\ (forall d, In d (students st) ->
                Student.rollId d <> Some (random_roll sv i))
          /\ forall d, In d (students st') ->
               Student.rollId d = Some (random_roll sv i) -> d = saved).
Proof.
  intros sv this saved st st' Hsave.
  destruct (student_save_inv _ _ _ _ _ Hsave)
    as (_ & _ & _ & Hw & _ & [(Ht & -> & He) | (Ht & i & Hle & He & -> & Hfree & Htaken)]);
    split; intros Ht'; try congruence.
  - now split.
  - exists i. repeat split; try assumption.
    intros d Hin Hd. rewrite Hw in Hin.
    apply student_write_cases in Hin as [-> | [Hin _]]; [reflexivity |].
    now destruct (Hfree d Hin).
Qed.

Lemma roll_id_is_first_free_draw_witness :
  let this := Sample.student "s9" "n@x.com" "5555555555555" "Pending" "" in
  let answer := StudentModel.save Sample.world this Sample.db in
  truthy_string (Student.rollId this) = false
  /\ exists saved,
      fst answer = Val saved
      /\ Student.rollId saved = Some "100002"
      /\ entropy (snd answer) = 3%nat
      /\ forall d, In d (students (snd answer)) ->
           Student.rollId d = Some "100002" -> d = saved.
Proof.
  intros this answer. split; [reflexivity |].
  eexists. split; [reflexivity |]. split; [reflexivity |]. split; [reflexivity |].
  destruct (proj2 (roll_id_is_first_free_draw Sample.world this _ Sample.db
                     (snd answer) eq_refl) eq_refl)
    as (i & _ & He & _ & _ & _ & Hunique).
  injection He as <-. exact Hunique.
Defined.

Lemma cast_dateOfBirth_some (sv : services) (v : option string) (d : Z) :
  fst (StudentModel.cast_dateOfBirth sv v) = Some d ->
  exists s, v = Some s /\ cast_date sv s = Some d.
Proof.
  unfold StudentModel.cast_dateOfBirth. destruct v as [s|]; [| discriminate].
  destruct (cast_date sv s) as [x|] eqn:Hx; [| discriminate].
  intros [= <-]. now exists s.
Qed.

(** A value that is truthy after a setter was truthy before it. *)
Lemma trimmed_truthy (sv : services) (s : option string) :
  truthy_string (trimmed sv s) = true -> truthy_string s = true.
Proof.
  destruct s as [v|]; [| discriminate]. cbn [trimmed truthy_string].
  destruct (nonempty v) eqn:E; cbn [truthy_string]; intros H; congruence.
Qed.

Lemma lowercased_truthy (sv : services) (s : option string) :
  truthy_string (lowercased sv s) = true -> truthy_string s = true.
Proof.
  destruct s as [v|]; [| discriminate]. cbn [lowercased truthy_string].
  destruct (nonempty v) eqn:E; cbn [truthy_string]; intros H; congruence.
Qed.

Lemma normalised_truthy (sv : services) (s : option string) :
  truthy_string (normalised sv s) = true -> truthy_string s = true.
Proof.
  intros H. now apply (lowercased_truthy sv), (trimmed_truthy sv).
Qed.

(** X16.  A 201 of the student registration means that the form passed
    the schema and that nobody held its email or CNIC.  Whenever [POST
    /register] of [routes/student.mjs] answers 201: the first and last
    name, the email, the phone number and the three guardian fields are
    non-empty strings; the CNIC is a string of exactly 13 decimal
    digits; the gender is one of the six spellings of the schema; the
    date of birth is a string that casts to a date; a password was
    given (its length is not checked: the schema sees the hash); and no
    student stored before has the email of the form, as the schema
    writes it, or its CNIC. *)
Theorem accepted_student_registration_is_valid :
  forall (env : config) (sv : services) (docs : documents) (smtp : mailer)
         (req : StudentRoutes.register_request) (st st' : store) (res : response),
    StudentRoutes.register env sv docs smtp req st = (Val res, st') ->
    status res = 201 ->
    truthy_string (StudentRoutes.firstName req) = true
    /\ truthy_string (StudentRoutes.lastName req) = true
    /\ truthy_string (StudentRoutes.email req) = true
    /\ truthy_string (StudentRoutes.phoneNumber req) = true
    /\ truthy_string (StudentRoutes.guardianName req) = true
    /\ truthy_string (StudentRoutes.guardianPhone req) = true
    /\ truthy_string (StudentRoutes.guardianRelation req) = true
    /\ (exists c, StudentRoutes.cnic req = Some c
                  /\ String.length c = 13%nat /\ all_digits c = true)
    /\ (exists g, StudentRoutes.gender req = Some g /\ In g Student.genders)
    /\ (exists s d, StudentRoutes.dateOfBirth req = Some s /\ cast_date sv s = Some d)
    /\ (exists p, StudentRoutes.password req = Some p)
    /\ forall d, In d (students st) ->
         Student.email d <> normalised sv (StudentRoutes.email req)
         /\ Student.cnic d <> StudentRoutes.cnic req.
Proof.
  intros env sv docs smtp req st st' res Hrun Hstatus.
  destruct (student_register_created _ _ _ _ _ _ _ _ Hrun Hstatus)
    as (student & s & Hreg & _ & _).
  destruct (register_student_inv _ _ _ _ _ Hreg)
    as (fresh & s0 & p0 & salt & Hnone & _ & Hsave & Hpw & _ & Hfn & Hln
        & Hemail & Hcnic & Hphone & Hgender & Hgn & Hgp & Hgr & Hdob & _).
  destruct (student_save_inv _ _ _ _ _ Hsave) as (Hvalid & _).
  unfold StudentModel.validate in Hvalid.
  repeat (apply andb_true_iff in Hvalid as [Hvalid ?]).
  unfold required in *.
  rewrite Hfn, Hln, Hemail, Hcnic, Hphone, Hgender, Hgn, Hgp, Hgr, Hdob in *.
  repeat match goal with
         | H : truthy_string (trimmed sv _) = true |- _ =>
             apply trimmed_truthy in H
         | H : truthy_string (normalised sv _) = true |- _ =>
             apply normalised_truthy in H
         end.
  repeat split; try assumption.
  - destruct (StudentRoutes.cnic req) as [c|]; [| discriminate].
    exists c. split; [reflexivity |].
    match goal with
    | H : StudentModel.valid_cnic (Some c) = true |- _ =>
        unfold StudentModel.valid_cnic, thirteen_digits in H;
        apply andb_true_iff in H as [Hlen Hdig]
    end.
    apply Nat.eqb_eq in Hlen. now split.
  - destruct (StudentRoutes.gender req) as [g|]; [| discriminate].
    exists g. split; [reflexivity |].
    match goal with
    | H : StudentModel.in_enum Student.genders (Some g) = true |- _ =>
        unfold StudentModel.in_enum, includes in H;
        apply existsb_exists in H as (x & Hx & Hg)
    end.
    apply String.eqb_eq in Hg. now subst x.
  - destruct (fst (StudentModel.cast_dateOfBirth sv (StudentRoutes.dateOfBirth req)))
      as [d|] eqn:Hd; [| discriminate].
    destruct (cast_dateOfBirth_some _ _ _ Hd) as (x & Hx & Hc). now exists x, d.
  - now exists p0.
  - intros He.
    assert (Hor : (fun d => option_eqb (Student.email d)
                                     (normalised sv (StudentRoutes.email req))
                            || option_eqb (Student.cnic d) (StudentRoutes.cnic req)) d
                  = true).
    { cbv beta. apply orb_true_iff. left. now apply option_eqb_eq. }
    match goal with
    | Hin : In d (students st) |- _ =>
        destruct (find_first _ _ d Hin Hor) as (d' & Hd' & _)
    end. congruence.
  - intros Hc.
    assert (Hor : (fun d => option_eqb (Student.email d)
                                     (normalised sv (StudentRoutes.email req))
                            || option_eqb (Student.cnic d) (StudentRoutes.cnic req)) d
                  = true).
    { cbv beta. apply orb_true_iff. right. now apply option_eqb_eq. }
    match goal with
    | Hin : In d (students st) |- _ =>
        destruct (find_first _ _ d Hin Hor) as (d' & Hd' & _)
    end. congruence.
Qed.

Lemma accepted_student_registration_is_valid_witness :
  let short := {| StudentRoutes.firstName := Some "Sana";
                  StudentRoutes.lastName := Some "Ali";
                  StudentRoutes.email := Some "new@x.com";
                  StudentRoutes.password := Some "x";
                  StudentRoutes.cnic := Some "9999999999999";
                  StudentRoutes.phoneNumber := Some "0302";
                  StudentRoutes.dateOfBirth := Some "2001-02-03";
                  StudentRoutes.gender := Some "female";
                  StudentRoutes.address := None;
                  StudentRoutes.guardianName := Some "G";
                  StudentRoutes.guardianPhone := Some "0303";
                  StudentRoutes.guardianRelation := Some "mother";
                  StudentRoutes.enrolledCourses := None;
                  StudentRoutes.file := None |} in
  let answer := StudentRoutes.register Sample.production Sample.world Sample.printer
                  Sample.smtp short Sample.db in
  status_of (fst answer) = Some 201
  /\ (exists c, StudentRoutes.cnic short = Some c
                /\ String.length c = 13%nat /\ all_digits c = true)
  /\ status_of (fst (StudentRoutes.register Sample.production Sample.world
                       Sample.printer Sample.smtp
                       (Sample.form "new@x.com" "12345" None None None) Sample.db))
     = Some 500.
Proof.
  intros short answer. split; [reflexivity |]. split; [| reflexivity].
  exact (proj1 (proj2 (proj2 (proj2 (proj2 (proj2 (proj2 (proj2
           (accepted_student_registration_is_valid
              Sample.production Sample.world Sample.printer Sample.smtp short
              Sample.db (snd answer)
              (match fst answer with Val r => r | _ => message_only 500 "" end)
              eq_refl eq_refl))))))))).
Defined.

(** ** The routes of the office *)

Lemma checkRole_next (roles : list string) (env : config) (sv : services)
      (h : headers) (user : identity) :
  Middleware.checkRole roles env (now sv) h = Next user ->
  let_through roles env sv h.
Proof.
  unfold Middleware.checkRole, let_through.
  destruct (authorization h) as [token|]; [| discriminate].
  destruct (negb (truthy_jsstr (Some token))); [discriminate |].
  destruct (verify token (secret_or_default env) (now sv)) as [e|decoded] eqn:Hv.
  - destruct (String.eqb (name e) "JsonWebTokenError"); [discriminate |].
    destruct (String.eqb (name e) "TokenExpiredError"); discriminate.
  - destruct (roles_include roles (lookup "role" decoded)) eqn:Hr; cbn [negb];
      [| discriminate].
    intros _. now exists token, decoded.
Qed.

Lemma student_validate_password (this : Student.t) :
  StudentModel.validate this = true -> truthy_string (Student.password this) = true.
Proof.
  unfold StudentModel.validate. intros H.
  repeat (apply andb_true_iff in H as [H ?]). assumption.
Qed.

Lemma student_validate_status (this : Student.t) :
  StudentModel.validate this = true ->
  includes Student.statuses (Student.status this) = true.
Proof.
  unfold StudentModel.validate. intros H.
  repeat (apply andb_true_iff in H as [H ?]). assumption.
Qed.

(** X17.  [POST /] of [routes/student.mjs] never creates a student.
    The gate [adminOrMaintenance] answers the request, or the handler
    answers 400 'Student with this email already exists' when the email
    is held, and otherwise 500 'Error creating student' with the
    validation error of the model: the route gives [new Student] no
    password (nor CNIC, gender or guardian), which the schema requires.
    In every case the students and the users are as they were, and the
    answer is never 201. *)
Theorem office_route_never_creates_a_student :
  forall (env : config) (sv : services) (h : headers)
         (req : StudentAdmin.create_request) (st : store),
    exists res st',
      StudentAdmin.create env sv h req st = (Val res, st')
      /\ students st' = students st
      /\ users st' = users st
      /\ StudentAdmin.code_of res <> 201
      /\ ((exists r, Middleware.adminOrMaintenance env (now sv) h = Respond r
                     /\ res = StudentAdmin.Plain r)
          \/ (let_through ["admin"; "maintenance_office"] env sv h
              /\ (res = StudentAdmin.Plain
                          (message_only 400 "Student with this email already exists")
                  \/ exists e,
                       name e = "ValidationError"
                       /\ res = StudentAdmin.failure "Error creating student" e))).
Proof.
  intros env sv h req st.
  unfold StudentAdmin.create, StudentAdmin.gated.
  destruct (Middleware.adminOrMaintenance env (now sv) h) as [r|user] eqn:Hgate.
  - exists (StudentAdmin.Plain r), st. repeat split; [| left; now exists r].
    cbn [StudentAdmin.code_of]. revert Hgate.
    unfold Middleware.adminOrMaintenance, Middleware.checkRole.
    destruct (authorization h) as [token|]; [| intros [= <-]; discriminate].
    destruct (negb (truthy_jsstr (Some token))); [intros [= <-]; discriminate |].
    destruct (verify token (secret_or_default env) (now sv)) as [e|decoded].
    + destruct (String.eqb (name e) "JsonWebTokenError");
        [intros [= <-]; discriminate |].
      destruct (String.eqb (name e) "TokenExpiredError"); intros [= <-]; discriminate.
    + destruct (negb _); [intros [= <-]; discriminate | discriminate].
  - apply checkRole_next in Hgate.
    unfold try_catch.
    rewrite (bind_Val _ _ _ _ _ (student_findOne_email_run _ st)).
    destruct (find _ (students st)) as [d|].
    + eexists; eexists. split; [reflexivity |].
      repeat split; [discriminate | right; split; [exact Hgate | now left]].
    + unfold bind at 1. unfold StudentAdmin.new at 1. unfold bind at 1. cbn [draw ret].
      unfold bind at 1.
      match goal with
      | |- context [StudentModel.save sv ?this ?s] =>
          assert (Hsave : StudentModel.save sv this s
                          = (Throw (ValidationError "Student"), s))
      end.
      { unfold StudentModel.save.
        match goal with
        | |- context [StudentModel.validate ?this] =>
            destruct (StudentModel.validate this) eqn:Hv
        end; [| reflexivity].
        apply student_validate_password in Hv. discriminate Hv. }
      rewrite Hsave. cbn [ret].
      eexists; eexists. split; [reflexivity |].
      repeat split; [discriminate |].
      right; split; [exact Hgate |]. right. now exists (ValidationError "Student").
Qed.

Lemma filter_length_split {A : Type} (p q : A -> bool) (l : list A) :
  (forall x, In x l -> p x = true -> q x = false) ->
  List.length (filter (fun x => p x || q x) l)
  = (List.length (filter p l) + List.length (filter q l))%nat.
Proof.
  induction l as [|x l IH]; intros Hpq; [reflexivity |].
  cbn [filter].
  assert (Hl : forall y, In y l -> p y = true -> q y = false)
    by (intros y Hy; apply Hpq; now right).
  specialize (IH Hl).
  destruct (p x) eqn:Hp.
  - rewrite (Hpq x (or_introl eq_refl) Hp). cbn [orb length]. lia.
  - destruct (q x); cbn [orb length]; lia.
Qed.

Lemma filter_length_complement {A : Type} (p : A -> bool) (l : list A) :
  List.length l
  = (List.length (filter p l) + List.length (filter (fun x => negb (p x)) l))%nat.
Proof.
  induction l as [|x l IH]; [reflexivity |].
  cbn [filter length]. destruct (p x); cbn [negb length]; lia.
Qed.

(** X18.  [GET /count] reports a total that its parts need not add up
    to.  The route answers 200 with the number of all students and the
    numbers of those with status ['Pending'], ['Enrolled'] and
    ['Suspended'], and leaves the store as it was.  The total is the sum
    of the three and of the number of students with any other status;
    when every stored status is one of the schema, that remainder is
    the number of ['Eliminated'] students, which the answer does not
    show. *)
Theorem student_counts_leave_out_the_rest :
  forall (st : store),
    let total := List.length (students st) in
    let pending := with_status "Pending" (students st) in
    let enrolled := with_status "Enrolled" (students st) in
    let suspended := with_status "Suspended" (students st) in
    let shown d := includes ["Pending"; "Enrolled"; "Suspended"] (Student.status d) in
    StudentAdmin.count st
    = (Val (Response 200 [("total", Data (VNum (Z.of_nat total)));
                          ("pending", Data (VNum (Z.of_nat pending)));
                          ("enrolled", Data (VNum (Z.of_nat enrolled)));
                          ("suspended", Data (VNum (Z.of_nat suspended)))]), st)
    /\ total
       = (pending + enrolled + suspended
          + List.length (filter (fun d => negb (shown d)) (students st)))%nat
    /\ ((forall d, In d (students st) ->
           includes Student.statuses (Student.status d) = true) ->
        total = (pending + enrolled + suspended
                 + with_status "Eliminated" (students st))%nat).
Proof.
  intros st total pending enrolled suspended shown.
  split; [reflexivity |].
  assert (Hshown : List.length (filter shown (students st))
                   = (pending + enrolled + suspended)%nat).
  { unfold pending, enrolled, suspended, with_status, shown.
    rewrite <- filter_length_split.
    2:{ intros d _ Hp. apply String.eqb_eq in Hp. now rewrite Hp. }
    rewrite <- filter_length_split.
    2:{ intros d _ Hp. apply orb_true_iff in Hp as [Hp | Hp];
        apply String.eqb_eq in Hp; now rewrite Hp. }
    f_equal. apply filter_ext. intros d.
    unfold includes. cbn [existsb].
    rewrite orb_false_r, (String.eqb_sym (Student.status d) "Pending"),
      (String.eqb_sym (Student.status d) "Enrolled"),
      (String.eqb_sym (Student.status d) "Suspended").
    now rewrite orb_assoc. }
  split.
  - unfold total. rewrite (filter_length_complement shown). now rewrite Hshown.
  - intros Henum. unfold total.
    rewrite (filter_length_complement shown), Hshown. f_equal.
    unfold with_status. f_equal. apply filter_ext_in. intros d Hin.
    specialize (Henum d Hin). unfold shown, includes, Student.statuses in *.
    cbn [existsb] in *.
    rewrite !(String.eqb_sym (Student.status d)) in Henum.
    rewrite !(String.eqb_sym (Student.status d)).
    destruct (String.eqb "Pending" (Student.status d)) eqn:E1.
    { apply String.eqb_eq in E1. now rewrite <- E1. }
    destruct (String.eqb "Enrolled" (Student.status d)) eqn:E2.
    { apply String.eqb_eq in E2. now rewrite <- E2. }
    destruct (String.eqb "Suspended" (Student.status d)) eqn:E3.
    { apply String.eqb_eq in E3. now rewrite <- E3. }
    cbn [orb negb] in *. rewrite orb_false_r in Henum.
    rewrite Henum. reflexivity.
Qed.

Lemma student_findById_found (sv : services) (id : string) (st st' : store)
      (student : Student.t) :
  StudentAdmin.findById sv (Some (VStr id)) st = (Val (Some student), st') ->
  st' = st
  /\ In student (students st)
  /\ find (fun d => String.eqb (Student._id d) (Student._id student)) (students st)
     = Some student
  /\ cast_ObjectId sv (VStr id) = Some (Student._id student).
Proof.
  unfold StudentAdmin.findById.
  destruct (cast_ObjectId sv (VStr id)) as [i|]; [| discriminate].
  intros [= Hfind <-].
  destruct (find_some _ _ Hfind) as [Hin Heq]. apply String.eqb_eq in Heq.
  subst i. now repeat split.
Qed.

Lemma student_findById_cases (sv : services) (id : option value) (st : store) :
  (exists s, StudentAdmin.findById sv id st = (Val s, st))
  \/ (exists e, StudentAdmin.findById sv id st = (Throw e, st)).
Proof.
  unfold StudentAdmin.findById.
  destruct id as [[| | | | | |]|]; try (left; now eexists);
    destruct (cast_ObjectId sv _); (left; now eexists) || (right; now eexists).
Qed.

Lemma student_find_write (p : Student.t -> bool) (this old : Student.t)
      (stored : list Student.t) :
  find p stored = Some old ->
  Student._id this = Student._id old ->
  p this = true ->
  find p (StudentModel.write this stored) = Some this.
Proof.
  intros Hfind Hid Hp.
  destruct (find_some _ _ Hfind) as [Hin _].
  unfold StudentModel.write.
  assert (E : existsb (fun d => String.eqb (Student._id d) (Student._id this)) stored
              = true).
  { apply existsb_exists. exists old. split; [exact Hin |].
    apply String.eqb_eq. now symmetry. }
  rewrite E. clear E Hin.
  induction stored as [|d rest IH]; [discriminate |].
  cbn [find map] in *.
  destruct (String.eqb (Student._id d) (Student._id this)) eqn:Ed.
  - now rewrite Hp.
  - destruct (p d) eqn:Epd.
    + injection Hfind as ->. apply String.eqb_neq in Ed. now symmetry in Hid.
    + now apply IH.
Qed.

(** Saving a valid student that has a roll id and whose email, CNIC and
    roll id no other student has. *)
Lemma student_save_run (sv : services) (this : Student.t) (st : store) :
  StudentModel.validate this = true ->
  truthy_string (Student.rollId this) = true ->
  StudentModel.duplicate_key this (students st) = None ->
  let saved := StudentModel.with_rollId this (Student.rollId this) (now sv) in
  StudentModel.save sv this st
  = (Val saved,
     Store (users st) (StudentModel.write saved (students st)) (courses st)
           (console st) (outbox st) (entropy st)).
Proof.
  intros Hv Hr Hd saved. unfold StudentModel.save.
  rewrite Hv, Hr. cbn [negb]. unfold bind at 1. cbn [ret].
  unfold bind at 1. cbn [get].
  change (StudentModel.duplicate_key
            (StudentModel.with_rollId this (Student.rollId this) (now sv))
            (students st))
    with (StudentModel.duplicate_key this (students st)).
  now rewrite Hd.
Qed.

(** The loaded student with the status of a [status_change]. *)
Lemma assign_status (sv : services) (s : string) (student : Student.t) :
  s <> "" ->
  Student.invalid student = [] ->
  let changed := StudentAdmin.assign sv (status_change s) None []
                   (Student.profilePicture student) student in
  Student.status changed = s
  /\ Student.invalid changed = []
  /\ Student._id changed = Student._id student
  /\ Student.email changed = Student.email student
  /\ Student.cnic changed = Student.cnic student
  /\ Student.password changed = Student.password student
  /\ Student.rollId changed = Student.rollId student
  /\ StudentModel.duplicate_key changed = StudentModel.duplicate_key student
  /\ (StudentModel.validate student = true ->
      StudentModel.validate changed = includes Student.statuses s).
Proof.
  intros Hs Hinv changed.
  assert (Hst : Student.status changed = s).
  { cbn [changed StudentAdmin.assign status_change StudentAdmin.u_status
         Student.status].
    destruct s; [now exfalso | reflexivity]. }
  assert (Hi : Student.invalid changed = []).
  { cbn [changed StudentAdmin.assign status_change StudentAdmin.u_dateOfBirth
         truthy_string truthy snd Student.invalid]. now rewrite Hinv. }
  repeat split; try assumption; try reflexivity.
  intros Hv. unfold StudentModel.validate in *.
  rewrite Hi, Hst. rewrite Hinv in Hv.
  cbn [changed StudentAdmin.assign status_change StudentAdmin.assigned
       StudentAdmin.assigned_through
       StudentAdmin.u_firstName StudentAdmin.u_lastName StudentAdmin.u_email
       StudentAdmin.u_phoneNumber StudentAdmin.u_guardianName
       StudentAdmin.u_guardianPhone StudentAdmin.u_guardianRelation
       StudentAdmin.u_dateOfBirth truthy_string truthy fst
       Student.firstName Student.lastName Student.email Student.password
       Student.cnic Student.phoneNumber Student.dateOfBirth Student.gender
       Student.guardianName Student.guardianPhone Student.guardianRelation
       Student.enrolledCourses].
  repeat (apply andb_true_iff in Hv as [Hv ?]).
  repeat match goal with H : _ = true |- _ => rewrite H; clear H end.
  reflexivity.
Qed.

(** X19.  The office approves a student by [PUT /:id], and the status
    written decides the student login.  For a credential that passes
    [adminOrMaintenance] and a stored, valid student with a roll id,
    whose email, CNIC and roll id no other student has, a body that
    gives only a non-empty [status]: a status outside the schema is
    answered 500 'Error updating student' and the students are as they
    were; a status of the schema is answered 200 with the saved
    document, and the student is written back with that status and the
    same identifier and password.  After that the student login with the
    right password is answered 200 with the 24-hour token of the student
    when the status is ['Enrolled'], and 403 without a token for any
    other status. *)
Theorem status_update_decides_the_student_login :
  forall (env : config) (sv : services) (h : headers) (id s : string)
         (st : store) (student : Student.t) (user : identity),
    Middleware.adminOrMaintenance env (now sv) h = Next user ->
    StudentAdmin.findById sv (Some (VStr id)) st = (Val (Some student), st) ->
    StudentModel.validate student = true ->
    StudentModel.duplicate_key student (students st) = None ->
    truthy_string (Student.rollId student) = true ->
    s <> "" ->
    (includes Student.statuses s = false ->
       exists e st',
         name e = "ValidationError"
         /\ StudentAdmin.update env sv h id (status_change s) st
            = (Val (StudentAdmin.failure "Error updating student" e), st')
         /\ students st' = students st)
    /\ (includes Student.statuses s = true ->
        exists saved st',
          StudentAdmin.update env sv h id (status_change s) st
          = (Val (StudentAdmin.WithStudent 200 "Student updated successfully" saved),
             st')
          /\ students st' = StudentModel.write saved (students st)
          /\ Student.status saved = s
          /\ Student._id saved = Student._id student
          /\ Student.password saved = Student.password student
          /\ forall env' sv' lreq p stored,
               find (fun d => option_eqb (Student.email d)
                                         (normalised sv'
                                            (StudentRoutes.login_email lreq)))
                    (students st) = Some student ->
               StudentRoutes.login_password lreq = Some p ->
               Student.password student = Some stored ->
               bcrypt_compare sv' p stored = true ->
               exists answer,
                 StudentRoutes.login env' sv' lreq st' = (Val answer, st')
                 /\ (s = "Enrolled" ->
                     status answer = 200
                     /\ tokens_of answer
                        = [sign [("studentId", CStr (Student._id student));
                                 ("role", CStr "student")]
                                (secret_or_default env') hours24 (now sv')])
                 /\ (s <> "Enrolled" ->
                     status answer = 403 /\ tokens_of answer = [])).
Proof.
  intros env sv h id s st student user Hgate Hfound Hvalid Hdup Hroll Hs.
  destruct (student_findById_found _ _ _ _ _ Hfound) as (_ & Hin & Hbyid & _).
  assert (Hinv : Student.invalid student = []).
  { unfold StudentModel.validate in Hvalid.
    repeat (apply andb_true_iff in Hvalid as [Hvalid ?]).
    now destruct (Student.invalid student). }
  destruct (assign_status sv s student Hs Hinv)
    as (Hst & _ & Hid & Hemail & _ & Hpw & Hr & Hd & Hv).
  specialize (Hv Hvalid).
  set (changed := StudentAdmin.assign sv (status_change s) None []
                    (Student.profilePicture student) student) in *.
  unfold StudentAdmin.update, StudentAdmin.gated. rewrite Hgate.
  unfold try_catch. rewrite (bind_Val _ _ _ _ _ Hfound).
  cbn [status_change StudentAdmin.u_address StudentAdmin.u_enrolledCourses
       StudentAdmin.u_file StudentRoutes.parse_address StudentRoutes.parse_courses
       truthy].
  rewrite (bind_Val (ret None) _ st st None eq_refl).
  rewrite (bind_Val (ret (inr [])) _ st st (inr []) eq_refl).
  rewrite (bind_Val (ret (Student.profilePicture student)) _ st st _ eq_refl).
  fold (status_change s). fold changed.
  split; intros Henum; rewrite Henum in Hv.
  - unfold bind at 1. unfold StudentModel.save. rewrite Hv. cbn [negb throw].
    cbn [bind log modify ret]. exists (ValidationError "Student"). eexists.
    split; [reflexivity |]. split; reflexivity.
  - rewrite (bind_Val _ _ _ _ _
               (student_save_run sv changed st Hv
                  (eq_trans (f_equal truthy_string Hr) Hroll)
                  (eq_trans (f_equal (fun f => f (students st)) Hd) Hdup))).
    cbn [ret].
    set (saved := StudentModel.with_rollId changed (Student.rollId changed) (now sv)).
    exists saved. eexists. split; [reflexivity |]. cbn [students].
    split; [reflexivity |]. split; [exact Hst |]. split; [exact Hid |].
    split; [exact Hpw |].
    intros env' sv' lreq p stored Hfind Hp Hstored Hmatch.
    unfold StudentRoutes.login, try_catch.
    match goal with
    | |- context [bind (StudentModel.findOne_email _ ?e) ?k ?s0] =>
        rewrite (bind_Val _ k _ _ _ (student_findOne_email_run e s0))
    end.
    cbn [students].
    rewrite (student_find_write _ saved student (students st) Hfind).
    2:{ exact Hid. }
    2:{ cbn [saved StudentModel.with_rollId Student.email]. rewrite Hemail.
        now destruct (find_some _ _ Hfind). }
    unfold bind at 1. unfold StudentRoutes.compare. rewrite Hp.
    change (Student.password saved) with (Student.password changed).
    rewrite Hpw, Hstored. cbn [ret]. rewrite Hmatch. cbn [negb].
    unfold Student.canAccessAccount.
    change (Student.status saved) with (Student.status changed). rewrite Hst.
    unfold includes. cbn [existsb]. rewrite orb_false_r.
    destruct (String.eqb s "Enrolled") eqn:He; cbn [negb];
      eexists; (split; [reflexivity |]); split; intros Hcase.
    + split; [reflexivity |]. cbn [tokens_of body flat_map snd app].
      change (Student._id saved) with (Student._id changed). now rewrite Hid.
    + apply String.eqb_eq in He. now exfalso.
    + apply String.eqb_neq in He. now exfalso.
    + split; reflexivity.
Qed.

Lemma status_update_decides_the_student_login_witness :
  let h := Scenario.session Sample.production Sample.officer in
  let answer := StudentAdmin.update Sample.production Sample.world h "s1"
                  (status_change "Enrolled") Sample.db in
  let login st := StudentRoutes.login Sample.production Sample.world
                    (StudentRoutes.LoginRequest (Some "a@x.com") (Some "secret3")) st in
  status_of (fst (login Sample.db)) = Some 403
  /\ (exists saved,
        fst answer
        = Val (StudentAdmin.WithStudent 200 "Student updated successfully" saved)
        /\ Student.status saved = "Enrolled")
  /\ status_of (fst (login (snd answer))) = Some 200.
Proof.
  intros h answer login. split; [reflexivity |]. split; [| reflexivity].
  destruct (proj2 (status_update_decides_the_student_login
                     Sample.production Sample.world h "s1" "Enrolled" Sample.db
                     Sample.pending_student
                     {| _id := Some (CStr "u2");
                        role := Some (CStr "maintenance_office");
                        email := Some (CStr "bilal@x.com") |}
                     eq_refl eq_refl eq_refl eq_refl eq_refl
                     ltac:(discriminate))
                  eq_refl)
    as (saved & st' & Hrun & _ & Hst & _).
  exists saved. split; [| exact Hst].
  unfold answer. now rewrite Hrun.
Defined.

Lemma checkRole_refusal (roles : list string) (env : config) (now : Z)
      (h : headers) (r : response) :
  Middleware.checkRole roles env now h = Respond r ->
  status r = 401 \/ status r = 403 \/ status r = 500.
Proof.
  unfold Middleware.checkRole.
  destruct (authorization h) as [token|]; [| intros [= <-]; now left].
  destruct (negb (truthy_jsstr (Some token))); [intros [= <-]; now left |].
  destruct (verify token (secret_or_default env) now) as [e|decoded].
  - destruct (String.eqb (name e) "JsonWebTokenError"); [intros [= <-]; now left |].
    destruct (String.eqb (name e) "TokenExpiredError"); intros [= <-]; auto.
  - destruct (negb _); [intros [= <-]; auto | discriminate].
Qed.

(** X20.  [DELETE /:id] of [routes/student.mjs] removes the student
    with that identifier and nothing else, and only past the gate.
    Whenever the route answers 200, the credential passed
    [adminOrMaintenance], the identifier found a student, and the
    students afterwards are the students before without those of that
    identifier, in the same order.  With any other answer (401, 403, 404,
    500) the students are as they were.  The users are never touched. *)
Theorem office_deletes_one_student :
  forall (env : config) (sv : services) (h : headers) (id : string)
         (st st' : store) (res : StudentAdmin.sent),
    StudentAdmin.remove env sv h id st = (Val res, st') ->
    users st' = users st
    /\ (StudentAdmin.code_of res <> 200 -> students st' = students st)
    /\ (StudentAdmin.code_of res = 200 ->
        let_through ["admin"; "maintenance_office"] env sv h
        /\ exists student,
            StudentAdmin.findById sv (Some (VStr id)) st = (Val (Some student), st)
            /\ students st'
               = filter (fun d => negb (String.eqb (Student._id d)
                                                   (Student._id student)))
                        (students st)).
Proof.
  intros env sv h id st st' res.
  unfold StudentAdmin.remove, StudentAdmin.gated.
  destruct (Middleware.adminOrMaintenance env (now sv) h) as [r|user] eqn:Hgate.
  - intros [= <- <-]. split; [reflexivity |]. split; [reflexivity |].
    intros H200. exfalso. cbn [StudentAdmin.code_of] in H200.
    destruct (checkRole_refusal _ _ _ _ _ Hgate) as [H | [H | H]]; congruence.
  - apply checkRole_next in Hgate. unfold try_catch. unfold bind at 1.
    destruct (student_findById_cases sv (Some (VStr id)) st)
      as [(found & Hfound) | (e & Hfound)]; rewrite Hfound.
    + destruct found as [student|].
      * cbn [bind StudentAdmin.deleteOne get set_students modify ret].
        intros [= <- <-]. cbn [users students].
        split; [reflexivity |]. split; [intros H; now exfalso |].
        intros _. split; [exact Hgate |]. now exists student.
      * intros [= <- <-]. split; [reflexivity |]. split; [reflexivity |].
        intros H; discriminate H.
    + intros [= <- <-]. split; [reflexivity |]. split; [reflexivity |].
      intros H; discriminate H.
Qed.

Lemma office_deletes_one_student_witness :
  let answer role :=
    StudentAdmin.remove Sample.production Sample.world
      (Scenario.session Sample.production role) "s1" Sample.db in
  fst (answer Sample.officer)
  = Val (StudentAdmin.Plain (message_only 200 "Student deleted successfully"))
  /\ students (snd (answer Sample.officer)) = [Sample.enrolled_student]
  /\ users (snd (answer Sample.officer)) = users Sample.db.
Proof.
  intros answer. split; [reflexivity |]. split; [reflexivity |].
  exact (proj1 (office_deletes_one_student
                  Sample.production Sample.world
                  (Scenario.session Sample.production Sample.officer) "s1"
                  Sample.db (snd (answer Sample.officer))
                  (StudentAdmin.Plain (message_only 200 "Student deleted successfully"))
                  eq_refl)).
Defined.

(** An answer other than 200 of the card route: nothing was mailed. *)
Ltac no_mail :=
  split; [now repeat split |];
  split; [intros H; discriminate H |];
  split; [intros _; reflexivity |];
  first [reflexivity | intros H; discriminate H].

(** X21.  [POST /send-id-card] mails the uploaded file to the stored
    address of the student, or mails nothing.  Whenever the route
    answers 200, a file was uploaded, the [studentId] of the body found
    a student, and exactly one mail was added to those sent: from
    [SMTP_FROM] to the email stored for that student, with the uploaded
    buffer attached.  With any other answer no mail is added.  Without a
    file the answer is 500 'Error sending ID card'.  Users, students and
    courses are never touched. *)
Theorem id_card_goes_to_the_stored_address :
  forall (env : config) (sv : services) (smtp : mailer)
         (req : StudentAdmin.card_request) (st st' : store) (res : response),
    StudentAdmin.sendIdCard env sv smtp req st = (Val res, st') ->
    unchanged st st'
    /\ (status res = 200 ->
        exists f student m,
          StudentAdmin.pdf req = Some f
          /\ In student (students st)
          /\ (exists s, StudentAdmin.studentId req = Some s
                        /\ cast_ObjectId sv (VStr s) = Some (Student._id student))
          /\ outbox st' = outbox st ++ [m]
          /\ mail_from m = SMTP_FROM env
          /\ mail_to m = Student.email student
          /\ attachment m = match buffer f with Some b => b | None => "" end
          /\ transporter_sendMail smtp m = inr tt)
    /\ (status res <> 200 -> outbox st' = outbox st)
    /\ (StudentAdmin.pdf req = None ->
        res = message_only 500 "Error sending ID card").
Proof.
  intros env sv smtp req st st' res.
  unfold StudentAdmin.sendIdCard, try_catch. unfold bind at 1.
  destruct (StudentAdmin.pdf req) as [f|].
  2:{ cbn [throw bind log modify ret]. intros [= <- <-]. no_mail. }
  cbn [ret]. unfold bind at 1.
  destruct (StudentAdmin.studentId req) as [s|].
  2:{ cbn [StudentAdmin.findById ret]. intros [= <- <-]. no_mail. }
  destruct (student_findById_cases sv (Some (VStr s)) st)
    as [(found & Hfound) | (e & Hfound)]; rewrite Hfound.
  2:{ cbn [throw bind log modify ret]. intros [= <- <-]. no_mail. }
  destruct found as [student|].
  2:{ intros [= <- <-]. no_mail. }
  destruct (student_findById_found _ _ _ _ _ Hfound) as (_ & Hin & _ & Hcast).
  unfold bind at 1. unfold await.
  destruct (transporter_sendMail smtp (StudentAdmin.card_mail env student (buffer f)))
    as [e|[]] eqn:Hsend.
  { cbn [throw bind log modify ret]. intros [= <- <-]. no_mail. }
  cbn [ret bind deliver modify]. intros [= <- <-].
  split; [now repeat split |].
  split; [| split; [intros H; now exfalso | intros H; discriminate H]].
  intros _. exists f, student, (StudentAdmin.card_mail env student (buffer f)).
  repeat split; try assumption. now exists s.
Qed.

Lemma id_card_goes_to_the_stored_address_witness :
  let req := StudentAdmin.CardRequest (Some "s1") (Some Sample.picture) in
  let answer := StudentAdmin.sendIdCard Sample.production Sample.world Sample.smtp
                  req Sample.db in
  fst answer = Val (message_only 200 "ID card sent successfully")
  /\ map mail_to (outbox (snd answer)) = [Some "a@x.com"]
  /\ unchanged Sample.db (snd answer).
Proof.
  intros req answer. split; [reflexivity |]. split; [reflexivity |].
  exact (proj1 (id_card_goes_to_the_stored_address
                  Sample.production Sample.world Sample.smtp req Sample.db
                  (snd answer) (message_only 200 "ID card sent successfully")
                  eq_refl)).
Defined.

(** ** Course selection and profile picture of a registration *)

(** A selection of stored courses has distinct identifiers when the
    collection has. *)
Lemma selection_ids_distinct (keep : Course.t -> bool) (stored : list Course.t)
      (Hstored : NoDup (map Course._id stored)) :
  NoDup (map Course._id (filter keep stored)).
Proof.
  induction stored as [|c stored IH]; cbn [map filter]; [exact Hstored |].
  inversion Hstored as [|y ys Hnot Hrest]; subst.
  destruct (keep c); cbn [map]; [| now apply IH].
  constructor; [| now apply IH].
  intros Hin. apply Hnot. apply in_map_iff in Hin as (z & Hz & Hin).
  apply filter_In in Hin as [Hin _]. apply in_map_iff. now exists z.
Qed.

(** The courses that [$in] finds are as many as the identifiers exactly
    when the identifiers are distinct and each one is the identifier
    of a course. *)
Lemma found_as_many (ids : list string) (stored : list Course.t) :
  NoDup (map Course._id stored) ->
  List.length (filter (fun c => includes ids (Course._id c)) stored)
  = List.length ids
  <-> NoDup ids /\ incl ids (map Course._id stored).
Proof.
  intros Hstored.
  set (found := filter (fun c => includes ids (Course._id c)) stored).
  assert (Hnodup : NoDup (map Course._id found))
    by (now apply selection_ids_distinct).
  assert (Hincl : incl (map Course._id found) ids).
  { intros i Hi. apply in_map_iff in Hi as (c & <- & Hc).
    apply filter_In in Hc as [_ Hc]. unfold includes in Hc.
    apply existsb_exists in Hc as (x & Hx & Heq).
    apply String.eqb_eq in Heq. now subst x. }
  rewrite <- (length_map Course._id found).
  split.
  - intros Hlen.
    assert (Hle : (List.length ids <= List.length (map Course._id found))%nat) by lia.
    split.
    + exact (NoDup_incl_NoDup Hnodup Hle Hincl).
    + intros i Hi.
      pose proof (NoDup_length_incl Hnodup Hle Hincl i Hi) as Hfound.
      apply in_map_iff in Hfound as (c & <- & Hc).
      apply filter_In in Hc as [Hc _]. apply in_map_iff. now exists c.
  - intros [Hids Hknown].
    assert (Hback : incl ids (map Course._id found)).
    { intros i Hi. destruct (proj1 (in_map_iff _ _ _) (Hknown i Hi)) as (c & <- & Hc).
      apply in_map_iff. exists c. split; [reflexivity |].
      apply filter_In. split; [exact Hc |].
      unfold includes. apply existsb_exists. exists (Course._id c).
      split; [exact Hi | apply String.eqb_refl]. }
    pose proof (NoDup_incl_length Hids Hback).
    pose proof (NoDup_incl_length Hnodup Hincl). lia.
Qed.

Lemma parse_courses_array (sv : services) (selection : option value)
      (l : list value) (ids : list string) (st : store) :
  selects sv selection l ->
  CourseModel.cast_ids sv l = Some ids ->
  StudentRoutes.parse_courses sv selection st
  = (Val (if (List.length (filter (fun c => includes ids (Course._id c)) (courses st))
              =? List.length l)%nat
          then inr (StudentRoutes.enrollments sv ids)
          else inl (message_only 400 "One or more selected courses do not exist")),
     st).
Proof.
  intros Hsel Hcast. unfold StudentRoutes.parse_courses.
  assert (Htruthy : truthy selection = true).
  { destruct Hsel as [-> | (s & Hs & -> & _)]; [reflexivity |].
    destruct s; [now exfalso | reflexivity]. }
  rewrite Htruthy. unfold try_catch.
  assert (Hids : (match selection with
                  | Some (VStr s) => await (JSON_parse sv s)
                  | Some (VArr l0) => ret (VArr l0)
                  | _ => ret (VArr [])
                  end) st = (Val (VArr l), st)).
  { destruct Hsel as [-> | (s & _ & -> & Hparse)]; [reflexivity |].
    now rewrite Hparse. }
  rewrite (bind_Val _ _ _ _ _ Hids).
  unfold CourseModel.find_id_in. rewrite Hcast.
  cbn [bind get ret StudentRoutes.length_of StudentRoutes.same_length].
  destruct (_ =? _)%nat; reflexivity.
Qed.

Lemma cast_ids_length (sv : services) (l : list value) (ids : list string) :
  CourseModel.cast_ids sv l = Some ids -> List.length ids = List.length l.
Proof.
  revert ids. induction l as [|v l IH]; intros ids; cbn [CourseModel.cast_ids].
  - now intros [= <-].
  - destruct (cast_ObjectId sv v) as [i|]; [| discriminate].
    destruct (CourseModel.cast_ids sv l) as [rest|]; [| discriminate].
    intros [= <-]. cbn [length]. now rewrite (IH rest eq_refl).
Qed.

(** X22.  A course selection is accepted exactly when its identifiers
    are distinct and each one is the identifier of a stored course.
    For [enrolledCourses] given as an array, or as the JSON text of
    one, whose elements cast to identifiers, and a course collection in
    which identifiers are unique: when the identifiers are pairwise
    distinct and every one is the identifier of a course, the selection
    becomes one enrollment for each, in their order, with status
    ['Active'] and the current date; when an identifier occurs twice,
    or one is not the identifier of a course, the answer is 400 'One or
    more selected courses do not exist'.  The store is as it was. *)
Theorem course_selection_is_distinct_and_known :
  forall (sv : services) (selection : option value) (l : list value)
         (ids : list string) (st : store),
    selects sv selection l ->
    CourseModel.cast_ids sv l = Some ids ->
    NoDup (map Course._id (courses st)) ->
    let known i := exists c, In c (courses st) /\ Course._id c = i in
    let refused :=
      StudentRoutes.parse_courses sv selection st
      = (Val (inl (message_only 400 "One or more selected courses do not exist")),
         st) in
    (NoDup ids -> (forall i, In i ids -> known i) ->
       StudentRoutes.parse_courses sv selection st
       = (Val (inr (map (fun i => Student.Enrollment.Make i (now sv) "Active") ids)),
          st))
    /\ (~ NoDup ids -> refused)
    /\ (forall i, In i ids -> ~ known i -> refused).
Proof.
  intros sv selection l ids st Hsel Hcast Hstored known refused.
  pose proof (parse_courses_array sv selection l ids st Hsel Hcast) as Hrun.
  rewrite <- (cast_ids_length sv l ids Hcast) in Hrun.
  pose proof (found_as_many ids (courses st) Hstored) as Hcount.
  destruct (_ =? _)%nat eqn:Hlen in Hrun.
  - apply Nat.eqb_eq in Hlen. apply Hcount in Hlen as [Hnodup Hknown].
    split; [intros _ _; exact Hrun |].
    split; [intros H; now exfalso |].
    intros i Hi Hnot. exfalso. apply Hnot.
    apply Hknown in Hi. apply in_map_iff in Hi as (c & Hc & Hin). now exists c.
  - apply Nat.eqb_neq in Hlen.
    split; [| split; intros; exact Hrun].
    intros Hnodup Hknown. exfalso. apply Hlen, Hcount. split; [exact Hnodup |].
    intros i Hi. destruct (Hknown i Hi) as (c & Hc & <-).
    apply in_map_iff. now exists c.
Qed.


Lemma course_selection_is_distinct_and_known_witness :
  let once := Some (VArr [VStr "c1"]) in
  let twice := Some (VArr [VStr "c1"; VStr "c1"]) in
  selects Sample.world twice [VStr "c1"; VStr "c1"]
  /\ CourseModel.cast_ids Sample.world [VStr "c1"; VStr "c1"] = Some ["c1"; "c1"]
  /\ NoDup (map Course._id (courses Sample.db))
  /\ StudentRoutes.parse_courses Sample.world twice Sample.db
     = (Val (inl (message_only 400 "One or more selected courses do not exist")),
        Sample.db)
  /\ StudentRoutes.parse_courses Sample.world once Sample.db
     = (Val (inr [Student.Enrollment.Make "c1" 1000 "Active"]), Sample.db).
Proof.
  intros once twice.
  assert (Hstored : NoDup (map Course._id (courses Sample.db))).
  { repeat constructor. intros []. }
  split; [now left |]. split; [reflexivity |]. split; [exact Hstored |].
  split; [| reflexivity].
  apply (proj1 (proj2 (course_selection_is_distinct_and_known
                         Sample.world twice [VStr "c1"; VStr "c1"] ["c1"; "c1"]
                         Sample.db (or_introl eq_refl) eq_refl Hstored))).
  intros H. inversion H as [|x l Hnot _]; subst. apply Hnot. now left.
Defined.

(** The picture of a registration that reaches [student.save()]. *)
Lemma register_student_picture (sv : services) (req : StudentRoutes.register_request)
      (st st' : store) (student : Student.t) :
  StudentRoutes.register_student sv req st = (Val (inr student), st') ->
  match StudentRoutes.file req with
  | None => Student.profilePicture student = ""
  | Some f =>
      exists url,
        cloudinary_upload sv "student_profiles" f = inr (Some url)
        /\ url <> ""
        /\ Student.profilePicture student
           = match cloudinary_compress sv url with
             | inr (Some compressed) => compressed
             | inr None => ""
             | inl _ => url
             end
  end.
Proof.
  unfold StudentRoutes.register_student. intros H.
  apply bind_Val_inv in H as (a & s1 & _ & H).
  apply bind_Val_inv in H as (parsed & s2 & _ & H).
  destruct parsed as [res|parsedCourses]; [discriminate H |].
  apply bind_Val_inv in H as (existing & s3 & _ & H).
  destruct existing as [d|]; [discriminate H |].
  apply bind_Val_inv in H as (url & s4 & Hu & H).
  apply bind_Val_inv in H as (curl & s5 & Hc & H).
  apply bind_Val_inv in H as (hashed & s6 & _ & H).
  apply bind_Val_inv in H as (fresh & s7 & Hn & H).
  apply bind_Val_inv in H as (saved & s8 & Hs & H).
  injection H as <- <-.
  unfold StudentModel.new in Hn.
  apply bind_Val_inv in Hn as (i & s6' & _ & Hn). injection Hn as <- _.
  assert (Hpic : Student.profilePicture saved
                 = match curl with Some u => u | None => "" end).
  { destruct (student_save_inv _ _ _ _ _ Hs)
      as (_ & _ & _ & _ & _ & [(_ & -> & _) | (_ & j & _ & _ & -> & _)]);
      reflexivity. }
  rewrite Hpic. clear Hpic Hs.
  destruct (StudentRoutes.file req) as [f|].
  - unfold StudentRoutes.uploadToCloudinary, try_catch in Hu.
    destruct (buffer f) as [b|];
      [| cbn [throw bind log modify ret] in Hu;
         repeat match type of Hu with
                | context [if ?c then _ else _] => destruct c
                end; discriminate Hu].
    unfold bind at 1 in Hu. unfold await at 1 in Hu.
    destruct (cloudinary_upload sv "student_profiles" f) as [e|r] eqn:Hup.
    { cbn [throw bind log modify ret] in Hu.
      repeat match type of Hu with
             | context [if ?c then _ else _] => destruct c
             end; discriminate Hu. }
    cbn [ret] in Hu.
    destruct (truthy_string r) eqn:Hr; cbn [negb] in Hu.
    2:{ cbn [throw bind log modify ret] in Hu.
        repeat match type of Hu with
               | context [if ?c then _ else _] => destruct c
               end; discriminate Hu. }
    destruct r as [u|]; [| discriminate Hr].
    injection Hu as <- <-. exists u.
    split; [reflexivity |].
    assert (Hne : nonempty u = true) by exact Hr.
    split; [intros ->; discriminate Hne |].
    rewrite Hne in Hc. unfold StudentRoutes.compressImage, try_catch in Hc.
    unfold await in Hc.
    destruct (cloudinary_compress sv u) as [e|[c|]];
      cbn [throw bind log modify ret] in Hc; now injection Hc as <- _.
  - injection Hu as <- <-. cbn [nonempty] in Hc. now injection Hc as <- _.
Qed.

(** X23.  A failure of the compression does not fail the student
    registration and does not lose the picture.  Whenever [POST
    /register] answers 201 for a form with a file, the upload returned a
    non-empty [secure_url], and the stored [profilePicture] is the URL
    of the compressed copy when [compressImage] succeeded, the URL of
    the upload itself when the compression threw, and empty when the
    compressing upload returned no [secure_url].  Without a file the
    stored picture is empty. *)
Theorem compression_failure_keeps_the_upload :
  forall (env : config) (sv : services) (docs : documents) (smtp : mailer)
         (req : StudentRoutes.register_request) (st st' : store) (res : response),
    StudentRoutes.register env sv docs smtp req st = (Val res, st') ->
    status res = 201 ->
    exists student,
      In student (students st')
      /\ res = Response 201 (StudentRoutes.registered_body student)
      /\ match StudentRoutes.file req with
         | None => Student.profilePicture student = ""
         | Some f =>
             exists url,
               cloudinary_upload sv "student_profiles" f = inr (Some url)
               /\ url <> ""
               /\ Student.profilePicture student
                  = match cloudinary_compress sv url with
                    | inr (Some compressed) => compressed
                    | inr None => ""
                    | inl _ => url
                    end
         end.
Proof.
  intros env sv docs smtp req st st' res Hrun Hstatus.
  destruct (student_register_created _ _ _ _ _ _ _ _ Hrun Hstatus)
    as (student & s & Hreg & (_ & Hst & _) & ->).
  exists student. split.
  - rewrite Hst. now destruct (register_student_saved _ _ _ _ _ Hreg).
  - split; [reflexivity |]. exact (register_student_picture _ _ _ _ _ Hreg).
Qed.

Lemma compression_failure_keeps_the_upload_witness :
  let sv := {| now := now Sample.world; JSON_parse := JSON_parse Sample.world;
               cast_date := cast_date Sample.world;
               cast_ObjectId := cast_ObjectId Sample.world;
               ObjectId := ObjectId Sample.world;
               genSalt := genSalt Sample.world;
               bcrypt_hash := bcrypt_hash Sample.world;
               bcrypt_compare := bcrypt_compare Sample.world;
               random_roll := random_roll Sample.world;
               draws := draws Sample.world;
               totp_verify := totp_verify Sample.world;
               generateSecret := generateSecret Sample.world;
               cloudinary_upload := cloudinary_upload Sample.world;
               cloudinary_compress := fun _ => inl (plain_error "fetch failed");
               toLowerCase := toLowerCase Sample.world;
               trim := trim Sample.world;
               Number_of := Number_of Sample.world |} in
  let req := Sample.form "new@x.com" "9999999999999" None None (Some Sample.picture) in
  let answer := StudentRoutes.register Sample.production sv Sample.printer Sample.smtp
                  req Sample.db in
  status_of (fst answer) = Some 201
  /\ exists student,
      In student (students (snd answer))
      /\ Student.profilePicture student = "https://res.example/student_profiles".
Proof.
  intros sv req answer. split; [reflexivity |].
  destruct (compression_failure_keeps_the_upload
              Sample.production sv Sample.printer Sample.smtp req Sample.db
              (snd answer)
              (match fst answer with Val r => r | _ => message_only 500 "" end)
              eq_refl eq_refl)
    as (student & Hin & _ & url & Hup & _ & Hpic).
  exists student. split; [exact Hin |].
  injection Hup as <-. exact Hpic.
Defined.

(** ** Courses *)

Lemma course_save_inv (sv : services) (this saved : CourseSchema.t)
      (s s' : Campus.t) :
  CourseRoutes.save sv this s = inr (saved, s') ->
  CourseSchema.validate this = true
  /\ saved = CourseSchema.touched this (now sv)
  /\ Campus.courses s' = CourseSchema.write saved (Campus.courses s)
  /\ Campus.minted s' = Campus.minted s.
Proof.
  unfold CourseRoutes.save.
  destruct (CourseSchema.validate this); cbn [negb]; [| discriminate].
  intros [= <- <-]. repeat split; reflexivity.
Qed.

(** What the validation of a course has checked. *)
Lemma course_validate_inv (this : CourseSchema.t) :
  CourseSchema.validate this = true ->
  CourseSchema.invalid this = []
  /\ truthy_string (CourseSchema.name this) = true
  /\ (forall d, In d (CourseSchema.days this) -> In d CourseSchema.weekdays)
  /\ (exists start finish,
         CourseSchema.timing this
         = CourseSchema.Timing.Make (Some start) (Some finish)
         /\ CourseSchema.time_format start = true
         /\ CourseSchema.time_format finish = true)
  /\ (exists weeks, CourseSchema.duration this = Some weeks /\ (1 <= weeks)%Z)
  /\ (exists p, CourseSchema.price this = Some p /\ (0 <= p)%Z)
  /\ (exists m, CourseSchema.modeOfDelivery this = Some m /\ In m CourseSchema.modes)
  /\ (exists d, CourseSchema.startingDate this = Some d).
Proof.
  unfold CourseSchema.validate. intros H.
  repeat (apply andb_true_iff in H as [H ?]).
  split; [now destruct (CourseSchema.invalid this) |].
  split; [assumption |].
  split.
  { intros d Hd.
    match goal with
    | Hall : forallb _ _ = true |- _ =>
        rewrite forallb_forall in Hall; specialize (Hall d Hd);
        apply andb_true_iff in Hall as [_ Hall];
        unfold includes in Hall; apply existsb_exists in Hall as (x & Hx & Heq);
        apply String.eqb_eq in Heq; now subst x
    end. }
  split.
  { destruct (CourseSchema.timing this) as [[start|] [finish|]];
      cbn [CourseSchema.Timing.startTime CourseSchema.Timing.endTime required
           truthy_string CourseSchema.valid_time] in *;
      try discriminate.
    now exists start, finish. }
  split.
  { destruct (CourseSchema.duration this) as [weeks|];
      cbn [CourseSchema.present CourseSchema.at_least] in *; [| discriminate].
    exists weeks. split; [reflexivity |]. now apply Z.leb_le. }
  split.
  { destruct (CourseSchema.price this) as [p|];
      cbn [CourseSchema.present CourseSchema.at_least] in *; [| discriminate].
    exists p. split; [reflexivity |]. now apply Z.leb_le. }
  split.
  { destruct (CourseSchema.modeOfDelivery this) as [m|];
      cbn [required truthy_string StudentModel.in_enum] in *; [| discriminate].
    exists m. split; [reflexivity |].
    match goal with
    | Hm : includes CourseSchema.modes m = true |- _ =>
        unfold includes in Hm; apply existsb_exists in Hm as (x & Hx & Heq);
        apply String.eqb_eq in Heq; now subst x
    end. }
  destruct (CourseSchema.startingDate this) as [d|];
    cbn [CourseSchema.present] in *; [now exists d | discriminate].
Qed.

(** The object that [checkRole] sets as [req.user] has no [userId]. *)
Lemma req_user_has_no_userId (user : identity) :
  lookup "userId" (CourseRoutes.req_user user) = None.
Proof.
  unfold CourseRoutes.req_user.
  repeat (rewrite lookup_literal_miss by reflexivity). reflexivity.
Qed.

Lemma course_write_fresh (this : CourseSchema.t) (stored : list CourseSchema.t) :
  (forall c, In c stored -> CourseSchema._id c <> CourseSchema._id this) ->
  CourseSchema.write this stored = stored ++ [this].
Proof.
  intros Hfresh. unfold CourseSchema.write.
  destruct (existsb _ stored) eqn:E; [| reflexivity].
  apply existsb_exists in E as (c & Hin & Hc). apply String.eqb_eq in Hc.
  now destruct (Hfresh c Hin).
Qed.

(** X24.  A course made by [POST /] of [routes/course.mjs] never
    records who made it, and it has passed the schema.  Whenever the
    route answers 201, the credential passed [maintenanceOfficeOnly]
    and the course is written with a new identifier, after the stored
    ones when no stored course has that identifier.  Its [createdBy] is
    undefined, since the route reads [req.user.userId] and [checkRole]
    sets [_id], [role] and [email]; it is active, has no students, and
    was created and updated now.  Its name is the name of the request
    as the schema writes it, trimmed, and is not empty; its days are
    days of the week, both times match the pattern of the schema, the
    duration is at least 1, the price at least 0, the mode one of the
    four of the schema, and the starting date is a date.  With any other
    answer the courses are as they were. *)
Theorem created_course_records_no_creator :
  forall (env : config) (sv : services) (h : headers)
         (req : CourseRoutes.course_request) (s s' : Campus.t)
         (r : CourseRoutes.sent),
    CourseRoutes.create env sv h req s = (r, s') ->
    (CourseRoutes.code_of r = 201 ->
     exists course,
       r = CourseRoutes.WithCourse 201 "Course created successfully" course
       /\ let_through ["maintenance_office"] env sv h
       /\ CourseSchema._id course = ObjectId sv (Campus.minted s)
       /\ Campus.courses s' = CourseSchema.write course (Campus.courses s)
       /\ ((forall c, In c (Campus.courses s) ->
                      CourseSchema._id c <> CourseSchema._id course) ->
           Campus.courses s' = Campus.courses s ++ [course])
       /\ CourseSchema.createdBy course = None
       /\ CourseSchema.isActive course = true
       /\ CourseSchema.students course = []
       /\ CourseSchema.createdAt course = now sv
       /\ CourseSchema.updatedAt course = now sv
       /\ CourseSchema.name course = trimmed sv (CourseRoutes.r_name req)
       /\ truthy_string (CourseSchema.name course) = true
       /\ (forall d, In d (CourseSchema.days course) -> In d CourseSchema.weekdays)
       /\ (exists start finish,
              CourseSchema.timing course
              = CourseSchema.Timing.Make (Some start) (Some finish)
              /\ CourseSchema.time_format start = true
              /\ CourseSchema.time_format finish = true)
       /\ (exists weeks, CourseSchema.duration course = Some weeks /\ (1 <= weeks)%Z)
       /\ (exists p, CourseSchema.price course = Some p /\ (0 <= p)%Z)
       /\ (exists m, CourseSchema.modeOfDelivery course = Some m
                     /\ In m CourseSchema.modes)
       /\ (exists d, CourseSchema.startingDate course = Some d))
    /\ (CourseRoutes.code_of r <> 201 -> Campus.courses s' = Campus.courses s).
Proof.
  intros env sv h req s s' r. unfold CourseRoutes.create.
  destruct (Middleware.maintenanceOfficeOnly env (now sv) h) as [r0|user] eqn:Hgate.
  { intros [= <- <-]. split; [| reflexivity].
    cbn [CourseRoutes.code_of]. intros H201.
    destruct (checkRole_refusal _ _ _ _ _ Hgate) as [H | [H | H]];
      rewrite H in H201; discriminate H201. }
  apply checkRole_next in Hgate.
  destruct (CourseRoutes.save sv _ _) as [error|[saved s'']] eqn:Hsave.
  { intros [= <- <-]. split; [discriminate | reflexivity]. }
  intros [= <- <-]. split; [| intros H; now destruct H].
  intros _. exists saved.
  destruct (course_save_inv _ _ _ _ _ Hsave) as (Hvalid & -> & Hwrite & _).
  cbn [Campus.courses] in Hwrite.
  destruct (course_validate_inv _ Hvalid)
    as (_ & Hname & Hdays & Htimes & Hweeks & Hprice & Hmode & Hdate).
  split; [reflexivity |]. split; [exact Hgate |]. split; [reflexivity |].
  split; [exact Hwrite |].
  split; [intros Hfresh; rewrite Hwrite; now apply course_write_fresh |].
  split.
  { cbn [CourseSchema.touched CourseSchema.createdBy CourseRoutes.new].
    now rewrite req_user_has_no_userId. }
  repeat (split; [reflexivity |]).
  split; [exact Hname |]. split; [exact Hdays |]. split; [exact Htimes |].
  split; [exact Hweeks |]. split; [exact Hprice |]. split; [exact Hmode |].
  exact Hdate.
Qed.

Lemma created_course_records_no_creator_witness :
  let answer :=
    CourseRoutes.create Sample.production Sample.world
      (Scenario.session Sample.production Sample.officer)
      (Term.evening " Proofs ") Term.campus in
  CourseRoutes.code_of (fst answer) = 201
  /\ exists course,
      Campus.courses (snd answer) = [Term.web; course]
      /\ CourseSchema.createdBy course = None
      /\ CourseSchema.name course = Some "Proofs"
      /\ CourseSchema.price course = Some 0%Z.
Proof.
  intros answer. split; [reflexivity |].
  destruct (created_course_records_no_creator
              Sample.production Sample.world
              (Scenario.session Sample.production Sample.officer)
              (Term.evening " Proofs ") Term.campus (snd answer) (fst answer) eq_refl)
    as [H _].
  destruct (H eq_refl)
    as (course & Hr & _ & Hid & _ & Happ & Hby & _ & _ & _ & _ & Hname & _).
  exists course. split; [| split; [exact Hby | split; [exact Hname |]]].
  - apply Happ. intros c [<- | []]. rewrite Hid. discriminate.
  - injection Hr as <-. reflexivity.
Defined.

Lemma course_findById_inv (sv : services) (id : string) (s : Campus.t)
      (course : CourseSchema.t) :
  CourseRoutes.findById sv id s = inr (Some course) ->
  names_course sv id s course
  /\ In course (Campus.courses s)
  /\ existsb (fun d => String.eqb (CourseSchema._id d) (CourseSchema._id course))
             (Campus.courses s) = true.
Proof.
  unfold CourseRoutes.findById, names_course.
  destruct (cast_ObjectId sv (VStr id)) as [i|]; [| discriminate].
  intros [= Hfind]. split; [now exists i |].
  destruct (find_some _ _ Hfind) as [Hin _]. split; [exact Hin |].
  apply existsb_exists. exists course. split; [exact Hin |]. apply String.eqb_refl.
Qed.




(** A [DELETE] request that the router takes has a path of one segment
    and goes to the first handler registered for it. *)
Lemma delete_dispatch (path : list string) (e : CourseRoutes.endpoint)
      (bound : list (string * string)) :
  CourseRoutes.dispatch CourseRoutes.DELETE path = Some (e, bound) ->
  exists id, path = [id] /\ e = CourseRoutes.DeleteCoursePermanently
             /\ bound = [("id", id)].
Proof.
  unfold CourseRoutes.dispatch, CourseRoutes.routes.
  cbn [CourseRoutes.first_match CourseRoutes.verb_eqb].
  destruct path as [|id [|x rest]]; cbn [CourseRoutes.params];
    try discriminate.
  - destruct (nonempty id); [| discriminate].
    intros [= <- <-]. now exists id.
  - destruct (nonempty id); discriminate.
Qed.

(** X26.  [DELETE /:id] of [routes/course.mjs] always deletes for
    good: of the two handlers that the file registers for it, the
    router runs the first, and the second, which would only set
    [isActive] to false, is never reached.  A [DELETE] request is taken
    by the router exactly when its path is one segment.  It is never
    answered 'Course deleted successfully'.  Whenever it is answered
    200, the credential passed [maintenanceOfficeOnly], the parameter
    named a stored course, the answer is 'Course permanently deleted',
    and the courses afterwards are the courses before without those of
    that identifier.  With any other answer the courses are as they
    were.  No course that stays is changed. *)
Theorem delete_course_is_always_permanent :
  forall (env : config) (sv : services) (h : headers) (path : list string)
         (s : Campus.t),
    match CourseRoutes.delete env sv h path s with
    | None => forall id, path = [id] -> id = ""
    | Some (r, s') =>
        exists id,
          path = [id] /\ id <> ""
          /\ r <> CourseRoutes.Plain (message_only 200 "Course deleted successfully")
          /\ (CourseRoutes.code_of r = 200 ->
              exists course,
                names_course sv id s course
                /\ let_through ["maintenance_office"] env sv h
                /\ r = CourseRoutes.Plain
                         (message_only 200 "Course permanently deleted")
                /\ Campus.courses s'
                   = filter (fun c => negb (String.eqb (CourseSchema._id c)
                                                       (CourseSchema._id course)))
                            (Campus.courses s))
          /\ (CourseRoutes.code_of r <> 200 -> Campus.courses s' = Campus.courses s)
          /\ (forall c, In c (Campus.courses s') -> In c (Campus.courses s))
    end.
Proof.
  intros env sv h path s. unfold CourseRoutes.delete.
  destruct (CourseRoutes.dispatch CourseRoutes.DELETE path) as [[e bound]|] eqn:Hd.
  - destruct (delete_dispatch _ _ _ Hd) as (id & -> & -> & ->).
    change (lookup "id" [("id", id)]) with (Some id).
    assert (Hid : id <> "").
    { intros ->. discriminate Hd. }
    cbv beta iota.
    destruct (CourseRoutes.deletePermanently env sv h id s) as [r s'] eqn:Hrun.
    exists id. split; [reflexivity |]. split; [exact Hid |].
    unfold CourseRoutes.deletePermanently in Hrun.
    destruct (Middleware.maintenanceOfficeOnly env (now sv) h) as [r0|user] eqn:Hgate.
    { injection Hrun as <- <-.
      assert (Hcode : status r0 <> 200).
      { destruct (checkRole_refusal _ _ _ _ _ Hgate) as [H | [H | H]];
          rewrite H; discriminate. }
      split; [intros [= ->]; now apply Hcode |].
      split; [intros H; now destruct Hcode |].
      split; [reflexivity | trivial]. }
    apply checkRole_next in Hgate.
    destruct (CourseRoutes.findById sv id s) as [error|[course|]] eqn:Hfind;
      injection Hrun as <- <-.
    + split; [discriminate |]. split; [discriminate |].
      split; [reflexivity | trivial].
    + destruct (course_findById_inv _ _ _ _ Hfind) as (Hnames & _ & _).
      split; [discriminate |]. split.
      { intros _. exists course. repeat split; assumption. }
      split; [intros H; now destruct H |].
      cbn [CourseRoutes.deleteOne Campus.courses]. intros c Hc.
      now apply filter_In in Hc as [Hc _].
    + split; [discriminate |]. split; [discriminate |].
      split; [reflexivity | trivial].
  - intros id ->. unfold CourseRoutes.dispatch, CourseRoutes.routes in Hd.
    cbn [CourseRoutes.first_match CourseRoutes.verb_eqb CourseRoutes.params] in Hd.
    destruct id as [|c rest]; [reflexivity |]. discriminate Hd.
Qed.

Ltac split_ands :=
  repeat match goal with
         | Hand : (_ && _)%bool = true |- _ => apply andb_true_iff in Hand as [? ?]
         end.

(** A character of the range is the character of one of its codes. *)
Lemma between_inv (lo hi : nat) (c : ascii) :
  CourseSchema.between lo hi c = true ->
  exists n, (lo <= n <= hi)%nat /\ c = ascii_of_nat n.
Proof.
  unfold CourseSchema.between. intros H.
  apply andb_true_iff in H as [Hlo Hhi].
  apply Nat.leb_le in Hlo, Hhi.
  exists (nat_of_ascii c). split; [lia |]. symmetry. apply ascii_nat_embedding.
Qed.

Lemma digit_of (a b : nat) :
  (b < 10)%nat ->
  two_digits (10 * a + b)
  = String (digit a) (String (digit b) EmptyString).
Proof.
  intros Hb. unfold two_digits.
  replace ((10 * a + b) / 10)%nat with a
    by (apply (Nat.div_unique _ 10 a b); lia).
  replace ((10 * a + b) mod 10)%nat with b
    by (apply (Nat.mod_unique _ 10 a b); lia).
  reflexivity.
Qed.

(** Every time of day is accepted, written with two digits for the
    hour or with one. *)
Lemma times_of_day_accepted :
  forallb (fun h =>
             forallb (fun m =>
                        CourseSchema.time_format (clock (two_digits h) m)
                        && (if (h <? 10)%nat
                            then CourseSchema.time_format
                                   (clock (String (digit h) EmptyString) m)
                            else true))
                     (seq 0 60))
          (seq 0 24) = true.
Proof. vm_compute. reflexivity. Qed.

(** X27.  The validator of [timing.startTime] and [timing.endTime]
    accepts exactly the times of day: a text passes
    [/^([0-1]?[0-9]|2[0-3]):[0-5][0-9]$/] if and only if it is an hour
    below 24, written with two digits or, below 10, also with one,
    then a colon, then a minute below 60 written with two digits. *)
Theorem time_format_accepts_times_of_day :
  forall v : string,
    CourseSchema.time_format v = true
    <-> exists h m : nat,
          (h < 24)%nat /\ (m < 60)%nat
          /\ (v = clock (two_digits h) m
              \/ ((h < 10)%nat /\ v = clock (String (digit h) EmptyString) m)).
Proof.
  intros v. split.
  - unfold CourseSchema.time_format.
    destruct v as [|c1 [|c2 [|c3 [|c4 [|c5 [|c6 rest]]]]]];
      cbn [list_ascii_of_string]; try discriminate.
    + intros H. split_ands.
      repeat match goal with
             | Hb : CourseSchema.between _ _ _ = true |- _ =>
                 apply between_inv in Hb as (? & ? & ->)
             end.
      match goal with
      | |- context [String (ascii_of_nat ?a) (String (ascii_of_nat ?c)
                      (String (ascii_of_nat ?x) (String (ascii_of_nat ?y) _)))] =>
          exists (a - 48)%nat, (10 * (x - 48) + (y - 48))%nat;
          assert (c = 58)%nat by lia; subst c
      end.
      split; [lia |]. split; [lia |]. right. split; [lia |].
      unfold clock. rewrite digit_of by lia. unfold digit. cbn [append].
      repeat f_equal; lia.
    + intros H. split_ands.
      match goal with
      | Hor : (_ || _)%bool = true |- _ => apply orb_true_iff in Hor as [Hor | Hor]
      end; split_ands;
        repeat match goal with
               | Hb : CourseSchema.between _ _ _ = true |- _ =>
                   apply between_inv in Hb as (? & ? & ->)
               end;
        match goal with
        | |- context [String (ascii_of_nat ?a) (String (ascii_of_nat ?b)
                        (String (ascii_of_nat ?c)
                           (String (ascii_of_nat ?x) (String (ascii_of_nat ?y) _))))] =>
            exists (10 * (a - 48) + (b - 48))%nat, (10 * (x - 48) + (y - 48))%nat;
            assert (c = 58)%nat by lia; subst c
        end;
        (split; [lia |]; split; [lia |]; left;
         unfold clock; rewrite !digit_of by lia; unfold digit; cbn [append];
         repeat f_equal; lia).
  - intros (h & m & Hh & Hm & Hv).
    pose proof times_of_day_accepted as Hall.
    rewrite forallb_forall in Hall.
    specialize (Hall h). rewrite in_seq in Hall. specialize (Hall ltac:(lia)).
    rewrite forallb_forall in Hall.
    specialize (Hall m). rewrite in_seq in Hall. specialize (Hall ltac:(lia)).
    apply andb_true_iff in Hall as [Htwo Hone].
    destruct Hv as [-> | [Hlt ->]]; [exact Htwo |].
    apply Nat.ltb_lt in Hlt. now rewrite Hlt in Hone.
Qed.

(** ** The students of a course *)

(** X28.  [GET /course/:courseId] and its alias [GET
    /enrolled/course/:courseId] of [routes/student.mjs] match the course
    and the status ['Active'] on any two enrollments, not on one.  For
    a parameter that casts to an identifier, both routes answer with the
    same list and leave the store as it was.  A student is on the list,
    without the password, exactly when the student has the status
    ['Enrolled'], some enrollment in the course, and some enrollment
    with the status ['Active'], be it in another course.  So a student
    who dropped the course and is active in another one is listed.  No
    listed document has a password. *)
Theorem course_list_matches_across_enrollments :
  forall (sv : services) (id i : string) (st : store),
    cast_ObjectId sv (VStr id) = Some i ->
    exists l,
      StudentLists.byCourse sv id st = (Val (StudentLists.Students l), st)
      /\ StudentLists.enrolledByCourse sv id st = (Val (StudentLists.Students l), st)
      /\ (forall d,
             In d l <->
             exists stored,
               In stored (students st)
               /\ d = StudentLists.without_password stored
               /\ Student.status stored = "Enrolled"
               /\ (exists e, In e (Student.enrolledCourses stored)
                             /\ Student.Enrollment.courseId e = i)
               /\ (exists e, In e (Student.enrolledCourses stored)
                             /\ Student.Enrollment.status e = "Active"))
      /\ (forall d, In d l -> Student.password d = None).
Proof.
  intros sv id i st Hcast.
  exists (map StudentLists.without_password
              (filter (StudentLists.selected i) (students st))).
  split.
  { unfold StudentLists.byCourse, try_catch, StudentLists.find_of_course.
    now rewrite Hcast. }
  split.
  { unfold StudentLists.enrolledByCourse, try_catch, StudentLists.find_of_course.
    now rewrite Hcast. }
  split.
  - intros d. rewrite in_map_iff. split.
    + intros (stored & <- & Hin). apply filter_In in Hin as [Hin Hsel].
      unfold StudentLists.selected in Hsel.
      apply andb_true_iff in Hsel as [Hsel Hstatus].
      apply andb_true_iff in Hsel as [Hcourse Hactive].
      apply String.eqb_eq in Hstatus.
      apply existsb_exists in Hcourse as (e & He & Hc). apply String.eqb_eq in Hc.
      apply existsb_exists in Hactive as (e' & He' & Ha). apply String.eqb_eq in Ha.
      exists stored. split; [exact Hin |]. split; [reflexivity |].
      split; [exact Hstatus |]. split; [now exists e | now exists e'].
    + intros (stored & Hin & -> & Hstatus & (e & He & Hc) & (e' & He' & Ha)).
      exists stored. split; [reflexivity |]. apply filter_In. split; [exact Hin |].
      unfold StudentLists.selected. rewrite Hstatus.
      apply andb_true_iff. split; [| reflexivity].
      apply andb_true_iff. split; apply existsb_exists.
      * exists e. split; [exact He |]. now apply String.eqb_eq.
      * exists e'. split; [exact He' |]. now apply String.eqb_eq.
  - intros d Hd. apply in_map_iff in Hd as (stored & <- & _). reflexivity.
Qed.

Lemma course_list_matches_across_enrollments_witness :
  cast_ObjectId Sample.world (VStr "c1") = Some "c1"
  /\ Student.enrolledCourses Roll.moved
     = [Student.Enrollment.Make "c1" 0 "Dropped";
        Student.Enrollment.Make "c2" 0 "Active"]
  /\ exists l,
      StudentLists.byCourse Sample.world "c1" Roll.classroom
      = (Val (StudentLists.Students l), Roll.classroom)
      /\ In (StudentLists.without_password Roll.moved) l.
Proof.
  split; [reflexivity |]. split; [reflexivity |].
  destruct (course_list_matches_across_enrollments
              Sample.world "c1" "c1" Roll.classroom eq_refl)
    as (l & Hrun & _ & Hlist & _).
  exists l. split; [exact Hrun |].
  apply Hlist. exists Roll.moved.
  split; [now left |]. split; [reflexivity |]. split; [reflexivity |].
  split.
  - exists (Student.Enrollment.Make "c1" 0 "Dropped"). split; [now left | reflexivity].
  - exists (Student.Enrollment.Make "c2" 0 "Active").
    split; [right; now left | reflexivity].
Defined.

(** ** Attendance *)

Lemma attendance_save_inv (sv : services) (this saved : AttendanceSchema.t)
      (s s' : Campus.t) :
  AttendanceRoutes.save sv this s = inr (saved, s') ->
  AttendanceSchema.validate this = true
  /\ saved = AttendanceSchema.stamped this (now sv)
  /\ AttendanceSchema.duplicate_key saved (Campus.attendance s) = false
  /\ Campus.attendance s' = AttendanceSchema.write saved (Campus.attendance s)
  /\ Campus.courses s' = Campus.courses s.
Proof.
  unfold AttendanceRoutes.save.
  destruct (AttendanceSchema.validate this); cbn [negb]; [| discriminate].
  destruct (AttendanceSchema.duplicate_key _ _) eqn:Hdup; [discriminate |].
  intros [= <- <-]. repeat split; try reflexivity. exact Hdup.
Qed.

(** A document without [markedBy] does not pass the schema. *)
Lemma attendance_needs_markedBy (this : AttendanceSchema.t) :
  AttendanceSchema.markedBy this = None -> AttendanceSchema.validate this = false.
Proof.
  intros H. unfold AttendanceSchema.validate. rewrite H.
  cbn [CourseSchema.present]. apply andb_false_r.
Qed.

(** The [try] block writes when it answers 201, and only then. *)
Lemma marking_inv (sv : services) (pf : AttendanceRoutes.platform)
      (req : AttendanceRoutes.mark_request) (markedBy : option value)
      (s s' : Campus.t) (r : AttendanceRoutes.sent) :
  AttendanceRoutes.marking sv pf req markedBy s = inr (r, s') ->
  (s' = s
   /\ exists code msg, r = AttendanceRoutes.Plain (message_only code msg)
                       /\ (code = 400 \/ code = 404))
  \/ exists course students saved,
       AttendanceRoutes.ObjectId_isValid pf (AttendanceRoutes.m_courseId req) = true
       /\ AttendanceRoutes.Course_findById sv (AttendanceRoutes.m_courseId req) s
          = inr (Some course)
       /\ AttendanceRoutes.findOne sv (AttendanceRoutes.m_courseId req)
            (AttendanceRoutes.Date_of pf (AttendanceRoutes.m_date req)) s
          = inr None
       /\ AttendanceRoutes.entries (AttendanceRoutes.m_students req) = inr students
       /\ AttendanceRoutes.save sv
            (AttendanceRoutes.new sv (AttendanceRoutes.m_courseId req)
               (AttendanceRoutes.Date_of pf (AttendanceRoutes.m_date req))
               students markedBy (Campus.minted s))
            (Campus.mint s)
          = inr (saved, s')
       /\ r = AttendanceRoutes.WithAttendance 201 "Attendance marked successfully"
                                              saved.
Proof.
  unfold AttendanceRoutes.marking.
  destruct (AttendanceRoutes.ObjectId_isValid pf _) eqn:Hvalid; cbn [negb].
  2:{ intros [= <- <-]. left. split; [reflexivity |].
      exists 400, "Invalid course ID format". split; [reflexivity | now left]. }
  destruct (AttendanceRoutes.Course_findById sv _ s) as [e|[course|]] eqn:Hcourse;
    [discriminate | |].
  2:{ intros [= <- <-]. left. split; [reflexivity |].
      exists 404, "Course not found". split; [reflexivity | now right]. }
  destruct (AttendanceRoutes.findOne sv _ _ s) as [e|[existing|]] eqn:Hone;
    [discriminate | |].
  { intros [= <- <-]. left. split; [reflexivity |].
    exists 400, "Attendance already marked for this date".
    split; [reflexivity | now left]. }
  destruct (AttendanceRoutes.entries _) as [e|students] eqn:Hentries;
    [discriminate |].
  destruct (AttendanceRoutes.save sv _ _) as [e|[saved s'']] eqn:Hsave;
    [discriminate |].
  intros [= <- <-]. right. exists course, students, saved.
  repeat split; assumption.
Qed.

(** X29.  [POST /] of [routes/attendance.mjs] never records
    attendance.  Whatever the credential and the body, the answer is
    not 201, and the attendance records and the courses are as they
    were.  Also a request that passes [maintenanceOfficeOnly], names a
    stored course for which nothing is recorded at that date, and gives
    an array of students is answered 500 'Error marking attendance'
    with a validation error, which is written to the console: the
    route gives [new Attendance] no [markedBy], which the schema
    requires. *)
Theorem office_route_never_records_attendance :
  forall (env : config) (sv : services) (pf : AttendanceRoutes.platform)
         (h : headers) (req : AttendanceRoutes.mark_request) (s : Campus.t),
    let answer := AttendanceRoutes.create env sv pf h req s in
    AttendanceRoutes.code_of (fst answer) <> 201
    /\ Campus.attendance (snd answer) = Campus.attendance s
    /\ Campus.courses (snd answer) = Campus.courses s
    /\ (forall user course students,
          Middleware.maintenanceOfficeOnly env (now sv) h = Next user ->
          AttendanceRoutes.ObjectId_isValid pf (AttendanceRoutes.m_courseId req)
          = true ->
          AttendanceRoutes.Course_findById sv (AttendanceRoutes.m_courseId req) s
          = inr (Some course) ->
          AttendanceRoutes.findOne sv (AttendanceRoutes.m_courseId req)
            (AttendanceRoutes.Date_of pf (AttendanceRoutes.m_date req)) s
          = inr None ->
          AttendanceRoutes.entries (AttendanceRoutes.m_students req)
          = inr students ->
          exists error,
            name error = "ValidationError"
            /\ fst answer = AttendanceRoutes.failure "Error marking attendance" error
            /\ Campus.journal (snd answer)
               = Campus.journal s
                   ++ [console_error "Error marking attendance:" error]).
Proof.
  intros env sv pf h req s answer. subst answer.
  unfold AttendanceRoutes.create.
  destruct (Middleware.maintenanceOfficeOnly env (now sv) h) as [r0|user] eqn:Hgate.
  { cbn [fst snd AttendanceRoutes.code_of].
    split.
    { destruct (checkRole_refusal _ _ _ _ _ Hgate) as [H | [H | H]];
        rewrite H; discriminate. }
    split; [reflexivity |]. split; [reflexivity |]. discriminate. }
  destruct (AttendanceRoutes.marking sv pf req None s) as [error|[r s']] eqn:Hrun.
  { cbn [fst snd AttendanceRoutes.caught AttendanceRoutes.code_of
         AttendanceRoutes.failure status Campus.logged Campus.attendance
         Campus.courses Campus.journal].
    split; [discriminate |]. split; [reflexivity |]. split; [reflexivity |].
    intros user' course students _ Hvalid Hcourse Hone Hentries.
    unfold AttendanceRoutes.marking in Hrun.
    rewrite Hvalid, Hcourse, Hone, Hentries in Hrun. cbn [negb] in Hrun.
    unfold AttendanceRoutes.save in Hrun.
    rewrite attendance_needs_markedBy in Hrun by reflexivity.
    cbn [negb] in Hrun. injection Hrun as <-.
    exists (ValidationError "Attendance"). repeat split; reflexivity. }
  destruct (marking_inv _ _ _ _ _ _ _ Hrun)
    as [(-> & code & msg & -> & Hcode)
       | (course & students & saved & _ & _ & _ & _ & Hsave & _)].
  - cbn [fst snd AttendanceRoutes.code_of message_only status].
    split; [destruct Hcode as [-> | ->]; discriminate |].
    split; [reflexivity |]. split; [reflexivity |].
    intros user' course students _ Hvalid Hcourse Hone Hentries.
    unfold AttendanceRoutes.marking in Hrun.
    rewrite Hvalid, Hcourse, Hone, Hentries in Hrun. cbn [negb] in Hrun.
    unfold AttendanceRoutes.save in Hrun.
    rewrite attendance_needs_markedBy in Hrun by reflexivity.
    discriminate Hrun.
  - unfold AttendanceRoutes.save in Hsave.
    rewrite attendance_needs_markedBy in Hsave by reflexivity.
    discriminate Hsave.
Qed.

Lemma office_route_never_records_attendance_witness :
  let answer :=
    AttendanceRoutes.create Sample.production Sample.world Roll.runtime
      (Scenario.session Sample.production Sample.officer) Roll.sheet Term.campus in
  AttendanceRoutes.code_of (fst answer) = 500
  /\ Campus.attendance (snd answer) = []
  /\ exists error,
      name error = "ValidationError"
      /\ Campus.journal (snd answer)
         = [console_error "Error marking attendance:" error].
Proof.
  intros answer. split; [reflexivity |]. split; [reflexivity |].
  destruct (office_route_never_records_attendance
              Sample.production Sample.world Roll.runtime
              (Scenario.session Sample.production Sample.officer)
              Roll.sheet Term.campus)
    as (_ & _ & _ & H).
  destruct (H _ Term.web _ eq_refl eq_refl eq_refl eq_refl eq_refl)
    as (error & Hname & _ & Hlog).
  exists error. split; [exact Hname | exact Hlog].
Defined.

Lemma isTeacher_next (env : config) (now : Z) (h : headers) (user : identity) :
  Middleware.isTeacher env now h = Next user ->
  exists token decoded,
    authorization h = Some token
    /\ verify token (secret_or_default env) now = inr decoded
    /\ lookup "role" decoded = Some (CStr "teacher")
    /\ user = resolved decoded.
Proof.
  unfold Middleware.isTeacher.
  destruct (authorization h) as [token|]; [| discriminate].
  destruct (negb (truthy_jsstr (Some token))); [discriminate |].
  destruct (verify token (secret_or_default env) now) as [e|decoded] eqn:Hv;
    [discriminate |].
  destruct (claim_is (lookup "role" decoded) "teacher") eqn:Hrole; cbn [negb];
    [| discriminate].
  intros [= <-]. exists token, decoded.
  split; [reflexivity |]. split; [exact Hv |]. split; [| reflexivity].
  unfold claim_is in Hrole.
  destruct (lookup "role" decoded) as [[| b | z | r]|]; try discriminate Hrole.
  apply String.eqb_eq in Hrole. now subst r.
Qed.

Lemma teacher_gates_refusal (env : config) (now : Z) (h : headers) (r : response) :
  Middleware.isAuthenticated env now h = Respond r
  \/ Middleware.isTeacher env now h = Respond r ->
  status r = 401 \/ status r = 403.
Proof.
  unfold Middleware.isAuthenticated, Middleware.isTeacher.
  destruct (authorization h) as [token|];
    [| intros [[= <-] | [= <-]]; now left].
  destruct (negb (truthy_jsstr (Some token)));
    [intros [[= <-] | [= <-]]; now left |].
  destruct (verify token (secret_or_default env) now) as [e|decoded].
  - intros [[= <-] | [= <-]]; now left.
  - intros [H | H]; [discriminate H |].
    destruct (negb _); [injection H as <-; now right | discriminate H].
Qed.

Lemma find_none_all {A : Type} (p : A -> bool) (l : list A) :
  find p l = None -> forall a, In a l -> p a = false.
Proof.
  intros Hfind a Hin. destruct (p a) eqn:Hp; [| reflexivity].
  induction l as [|x l IH]; [destruct Hin |].
  cbn [find] in Hfind. destruct (p x) eqn:Hx; [discriminate |].
  destruct Hin as [-> | Hin]; [congruence | now apply IH].
Qed.

(** What the schema has checked of a record that was saved. *)
Lemma attendance_validate_inv (this : AttendanceSchema.t) :
  AttendanceSchema.validate this = true ->
  AttendanceSchema.invalid this = []
  /\ (exists c, AttendanceSchema.courseId this = Some c)
  /\ (exists d, AttendanceSchema.date this = Some d)
  /\ (forall e, In e (AttendanceSchema.students this) ->
        exists i st,
          AttendanceSchema.Entry.studentId e = Some i
          /\ AttendanceSchema.Entry.status e = Some st
          /\ In st AttendanceSchema.statuses)
  /\ (exists m, AttendanceSchema.markedBy this = Some m).
Proof.
  unfold AttendanceSchema.validate. intros H.
  repeat match goal with
         | Hand : (_ && _)%bool = true |- _ => apply andb_true_iff in Hand as [? ?]
         end.
  split; [now destruct (AttendanceSchema.invalid this) |].
  split; [destruct (AttendanceSchema.courseId this) as [c|];
          [now exists c | discriminate] |].
  split; [destruct (AttendanceSchema.date this) as [d|];
          [now exists d | discriminate] |].
  split.
  { intros e He.
    match goal with
    | Hall : forallb _ _ = true |- _ =>
        rewrite forallb_forall in Hall; specialize (Hall e He);
        unfold AttendanceSchema.valid_entry in Hall;
        apply andb_true_iff in Hall as [Hall Henum];
        apply andb_true_iff in Hall as [Hid Hreq]
    end.
    destruct (AttendanceSchema.Entry.studentId e) as [i|]; [| discriminate].
    destruct (AttendanceSchema.Entry.status e) as [st|]; [| discriminate].
    exists i, st. split; [reflexivity |]. split; [reflexivity |].
    cbn [StudentModel.in_enum] in Henum. unfold includes in Henum.
    apply existsb_exists in Henum as (x & Hx & Heq).
    apply String.eqb_eq in Heq. now subst x. }
  destruct (AttendanceSchema.markedBy this) as [m|]; [now exists m | discriminate].
Qed.

Lemma cast_reference_some (sv : services) (path : string) (v : option value)
      (i : string) :
  fst (AttendanceRoutes.cast_reference sv path v) = Some i ->
  exists x, v = Some x /\ cast_ObjectId sv x = Some i
            /\ AttendanceRoutes.cast_reference sv path v = (Some i, []).
Proof.
  unfold AttendanceRoutes.cast_reference.
  destruct v as [x|]; [| discriminate].
  destruct x; try discriminate;
    (destruct (cast_ObjectId sv _) as [j|] eqn:Hc; [| discriminate];
     intros [= ->]; eexists;
     split; [reflexivity |]; split; [exact Hc | reflexivity]).
Qed.

(** X30.  [POST /mark] of [routes/attendance.mjs] records attendance
    for a teacher only, and under the teacher's identifier.  Whenever
    the route answers 201, the credential verified and its role is
    ['teacher']; the record is written for a stored course and for the
    date of the body, for which no record was stored before; it is
    marked by the [userId] of the credential, or else its [studentId];
    and every student of the record has an identifier and one of the
    statuses ['present'], ['absent'] and ['late'].  With any other
    answer the attendance records are as they were.  The courses are
    never touched. *)
Theorem only_a_teacher_marks_attendance :
  forall (env : config) (sv : services) (pf : AttendanceRoutes.platform)
         (h : headers) (req : AttendanceRoutes.mark_request) (s s' : Campus.t)
         (r : AttendanceRoutes.sent),
    AttendanceRoutes.mark env sv pf h req s = (r, s') ->
    (AttendanceRoutes.code_of r = 201 ->
     exists token decoded course record marker m day,
       authorization h = Some token
       /\ verify token (secret_or_default env) (now sv) = inr decoded
       /\ lookup "role" decoded = Some (CStr "teacher")
       /\ r = AttendanceRoutes.WithAttendance 201 "Attendance marked successfully"
                                              record
       /\ Campus.attendance s'
          = AttendanceSchema.write record (Campus.attendance s)
       /\ In course (Campus.courses s)
       /\ AttendanceSchema.courseId record = Some (CourseSchema._id course)
       /\ AttendanceRoutes.Date_of pf (AttendanceRoutes.m_date req) = Some day
       /\ AttendanceSchema.date record = Some day
       /\ (forall a, In a (Campus.attendance s) ->
                     AttendanceSchema.same_day a record = false)
       /\ or_claim (lookup "userId" decoded) (lookup "studentId" decoded)
          = Some marker
       /\ cast_ObjectId sv (CourseRoutes.value_of marker) = Some m
       /\ AttendanceSchema.markedBy record = Some m
       /\ (forall e, In e (AttendanceSchema.students record) ->
             exists i st,
               AttendanceSchema.Entry.studentId e = Some i
               /\ AttendanceSchema.Entry.status e = Some st
               /\ In st AttendanceSchema.statuses))
    /\ (AttendanceRoutes.code_of r <> 201 ->
        Campus.attendance s' = Campus.attendance s)
    /\ Campus.courses s' = Campus.courses s.
Proof.
  intros env sv pf h req s s' r. unfold AttendanceRoutes.mark.
  assert (Hrefused : forall r0,
             Middleware.isAuthenticated env (now sv) h = Respond r0
             \/ Middleware.isTeacher env (now sv) h = Respond r0 ->
             (AttendanceRoutes.Plain r0, s) = (r, s') ->
             (AttendanceRoutes.code_of r = 201 -> False)
             /\ Campus.attendance s' = Campus.attendance s
             /\ Campus.courses s' = Campus.courses s).
  { intros r0 Hgate [= <- <-]. split; [| split; reflexivity].
    cbn [AttendanceRoutes.code_of]. intros H201.
    destruct (teacher_gates_refusal _ _ _ _ Hgate) as [H | H];
      rewrite H in H201; discriminate H201. }
  destruct (Middleware.isAuthenticated env (now sv) h) as [r0|user0] eqn:Hauth.
  { intros Hrun. destruct (Hrefused r0 (or_introl eq_refl) Hrun) as (Hno & Ha & Hc).
    split; [intros H; now destruct (Hno H) |]. split; [intros _; exact Ha | exact Hc]. }
  destruct (Middleware.isTeacher env (now sv) h) as [r0|user] eqn:Hteacher.
  { intros Hrun. destruct (Hrefused r0 (or_intror eq_refl) Hrun) as (Hno & Ha & Hc).
    split; [intros H; now destruct (Hno H) |]. split; [intros _; exact Ha | exact Hc]. }
  clear Hrefused.
  destruct (isTeacher_next _ _ _ _ Hteacher) as (token & decoded & Htok & Hv & Hrole & ->).
  destruct (AttendanceRoutes.marking sv pf req _ s) as [error|[r1 s1]] eqn:Hrun.
  { intros [= <- <-]. split; [discriminate |]. split; reflexivity. }
  intros [= <- <-].
  destruct (marking_inv _ _ _ _ _ _ _ Hrun)
    as [(-> & code & msg & -> & Hcode)
       | (course & students & saved & _ & Hcourse & Hone & _ & Hsave & ->)].
  { split; [| split; reflexivity].
    cbn [AttendanceRoutes.code_of message_only status].
    destruct Hcode as [-> | ->]; discriminate. }
  destruct (attendance_save_inv _ _ _ _ _ Hsave)
    as (Hvalid & -> & _ & Hwrite & Hcourses).
  cbn [Campus.mint Campus.attendance Campus.courses] in Hwrite, Hcourses.
  split; [| split; [intros H; now destruct H | exact Hcourses]].
  intros _.
  destruct (attendance_validate_inv _ Hvalid)
    as (_ & (c & Hc) & (day & Hday) & Hentries & (m & Hm)).
  cbn [AttendanceRoutes.new AttendanceSchema.courseId AttendanceSchema.date
       AttendanceSchema.markedBy AttendanceSchema.students] in Hc, Hday, Hm, Hentries.
  destruct (cast_reference_some _ _ _ _ Hc) as (x & Hx & Hcx & Hcast).
  destruct (cast_reference_some _ _ _ _ Hm) as (y & Hy & Hcy & _).
  cbn [resolved _id] in Hy.
  destruct (or_claim (lookup "userId" decoded) (lookup "studentId" decoded))
    as [marker|] eqn:Hmarker; [| discriminate Hy].
  cbn [option_map] in Hy. injection Hy as <-.
  (* the course that was found has the identifier of the record *)
  assert (Hfound : In course (Campus.courses s) /\ CourseSchema._id course = c).
  { unfold AttendanceRoutes.Course_findById in Hcourse. rewrite Hx in Hcourse.
    destruct x; try (rewrite Hcx in Hcourse);
      try (injection Hcourse as Hfind;
           destruct (find_some _ _ Hfind) as [Hin Heq];
           apply String.eqb_eq in Heq; now split).
    discriminate Hcourse. }
  destruct Hfound as [Hin Hid].
  exists token, decoded, course, (AttendanceSchema.stamped
                                   (AttendanceRoutes.new sv
                                      (AttendanceRoutes.m_courseId req)
                                      (AttendanceRoutes.Date_of pf
                                         (AttendanceRoutes.m_date req))
                                      students
                                      (option_map CourseRoutes.value_of
                                         (_id (resolved decoded)))
                                      (Campus.minted s))
                                   (now sv)), marker, m, day.
  split; [exact Htok |]. split; [exact Hv |]. split; [exact Hrole |].
  split; [reflexivity |]. split; [exact Hwrite |]. split; [exact Hin |].
  cbn [AttendanceSchema.stamped AttendanceSchema.courseId AttendanceSchema.date
       AttendanceSchema.markedBy AttendanceSchema.students AttendanceRoutes.new].
  split; [now rewrite Hc, Hid |]. split; [exact Hday |]. split; [exact Hday |].
  split.
  { intros a Ha. unfold AttendanceRoutes.findOne in Hone.
    rewrite Hcast, Hday in Hone. injection Hone as Hone.
    pose proof (find_none_all _ _ Hone a Ha) as Hnot. cbn beta in Hnot.
    unfold AttendanceSchema.same_day.
    cbn [AttendanceSchema.stamped AttendanceSchema.courseId AttendanceSchema.date
         AttendanceRoutes.new].
    rewrite Hcast, Hday. cbn [fst].
    unfold AttendanceRoutes.same_date in Hnot. exact Hnot. }
  split; [exact Hmarker |]. split; [exact Hcy |]. split; [exact Hm |].
  exact Hentries.
Qed.

Lemma only_a_teacher_marks_attendance_witness :
  let answer :=
    AttendanceRoutes.mark Sample.production Sample.world Roll.runtime
      (Roll.teacher Sample.production) Roll.sheet Term.campus in
  AttendanceRoutes.code_of (fst answer) = 201
  /\ exists record,
      Campus.attendance (snd answer) = [record]
      /\ AttendanceSchema.markedBy record = Some "t1"
      /\ AttendanceSchema.courseId record = Some "c1".
Proof.
  intros answer. split; [reflexivity |].
  destruct (only_a_teacher_marks_attendance
              Sample.production Sample.world Roll.runtime
              (Roll.teacher Sample.production) Roll.sheet Term.campus
              (snd answer) (fst answer) eq_refl) as [H _].
  destruct (H eq_refl)
    as (token & decoded & course & record & marker & m & day
        & _ & _ & _ & Hr & Hw & _).
  exists record. split; [exact Hw |].
  injection Hr as <-. split; reflexivity.
Defined.
